(** * care-emr: the Firestore service layer (services/firestore.ts)

    A shallow embedding of [residentService] and [medicalRecordService]
    together with the part of the JavaScript runtime and of the Firestore
    client they rely on, and of the handlers of the components that call
    them, followed by the properties of the repository specification that
    concern them and by further properties of the code.

    Layout: Part I holds every definition (strings, values, the runtime
    interface, the store, the two services, example worlds, the components);
    Part II holds the lemmas and the theorems. *)

From Stdlib Require Import ZArith Lia.
From stdpp Require Import gmap strings list fin_maps sorting.

Open Scope Z_scope.

(* ===================================================================== *)
(** * Part I. Definitions *)
(* ===================================================================== *)

(** ** JavaScript strings

    A JavaScript string is a sequence of UTF-16 code units.  [charCodeAt],
    [String.fromCharCode], [split], [trim] and a regular expression without
    the [u] flag all work on code units, so this is the representation the
    code sees. *)

Abbreviation jsstring := (list Z).

(** [js] reads a literal of this file (stored as UTF-8 bytes) as the
    JavaScript string it denotes; code points above U+FFFF become a
    surrogate pair. *)

Definition byteZ (a : Ascii.ascii) : Z := Z.of_nat (Ascii.nat_of_ascii a).

Definition utf16OfCodePoint (cp : Z) : jsstring :=
  if cp <? 0x10000 then [cp]
  else [0xD800 + (cp - 0x10000) / 0x400; 0xDC00 + (cp - 0x10000) mod 0x400].

Fixpoint js (s : string) : jsstring :=
  match s with
  | EmptyString => []
  | String a s1 =>
    let b1 := byteZ a in
    if b1 <? 0xC0 then b1 :: js s1
    else match s1 with
    | EmptyString => [b1]
    | String a2 s2 =>
      let b2 := byteZ a2 mod 0x40 in
      if b1 <? 0xE0 then ((b1 mod 0x20) * 0x40 + b2) :: js s2
      else match s2 with
      | EmptyString => [b1]
      | String a3 s3 =>
        let b3 := byteZ a3 mod 0x40 in
        if b1 <? 0xF0 then ((b1 mod 0x10) * 0x1000 + b2 * 0x40 + b3) :: js s3
        else match s3 with
        | EmptyString => [b1]
        | String a4 s4 =>
          let b4 := byteZ a4 mod 0x40 in
          utf16OfCodePoint ((b1 mod 0x08) * 0x40000 + b2 * 0x1000 + b3 * 0x40 + b4)
            ++ js s4
        end
      end
    end
  end.

(** [String.fromCharCode(n)]: the argument is reduced modulo 2^16. *)
Definition fromCharCode (n : Z) : jsstring := [n mod 65536].

(** [m.charCodeAt(0)]; the callers below only apply it to a one-unit match. *)
Definition charCodeAt0 (m : jsstring) : Z := hd 0 m.

(** Membership of a code unit in the character class [[lo-hi]]. *)
Definition inClass (lo hi c : Z) : bool := (lo <=? c) && (c <=? hi).

(** [str.replace(/[lo-hi]/g, fn)]: every code unit of the class is a match
    and is replaced by what [fn] returns for it. *)
Definition replaceClass (lo hi : Z) (fn : jsstring -> jsstring) (str : jsstring)
  : jsstring :=
  flat_map (fun c => if inClass lo hi c then fn [c] else [c]) str.

(** ECMAScript WhiteSpace and LineTerminator code units, the ones
    [String.prototype.trim] strips. *)
Definition isWhiteSpace (c : Z) : bool :=
  inClass 0x09 0x0D c || (c =? 0x20) || (c =? 0xA0) || (c =? 0x1680)
  || inClass 0x2000 0x200A c || (c =? 0x2028) || (c =? 0x2029)
  || (c =? 0x202F) || (c =? 0x205F) || (c =? 0x3000) || (c =? 0xFEFF).

Fixpoint trimStart (s : jsstring) : jsstring :=
  match s with
  | [] => []
  | c :: s' => if isWhiteSpace c then trimStart s' else s
  end.

Definition trimEnd (s : jsstring) : jsstring := rev (trimStart (rev s)).

Definition trim (s : jsstring) : jsstring := trimEnd (trimStart s).

(** [str.split(sep)] for a separator of one code unit: every occurrence
    separates, so two adjacent separators enclose an empty piece. *)
Fixpoint split (sep : Z) (str : jsstring) : list jsstring :=
  match str with
  | [] => [[]]
  | c :: str' =>
    if c =? sep then [] :: split sep str'
    else match split sep str' with
         | [] => [[c]]
         | p :: ps => (c :: p) :: ps
         end
  end.

Definition SPACE : Z := 0x20.

(** [parts[i] || '']: a missing or empty piece reads as the empty string. *)
Definition partOrEmpty (parts : list jsstring) (i : nat) : jsstring :=
  default [] (parts !! i).

(** [l.join(sep)]. *)
Fixpoint join (sep : jsstring) (l : list jsstring) : jsstring :=
  match l with
  | [] => []
  | [x] => x
  | x :: l' => x ++ sep ++ join sep l'
  end.

(** Decimal digits of an integer, as [String(n)] prints it. *)
Fixpoint digitsAux (fuel : nat) (n : Z) (acc : jsstring) : jsstring :=
  match fuel with
  | O => acc
  | S fuel' =>
    let acc' := (48 + n mod 10) :: acc in
    if n / 10 =? 0 then acc' else digitsAux fuel' (n / 10) acc'
  end.

Definition decimal (n : Z) : jsstring :=
  if n <? 0 then 45 :: digitsAux (S (Z.to_nat (Z.log2 (- n)))) (- n) []
  else digitsAux (S (Z.to_nat (Z.log2 n))) n [].

(** [String(s).padStart(len, '0')] as dayjs pads date components. *)
Definition padStart (len : nat) (s : jsstring) : jsstring :=
  replicate (len - length s)%nat 48 ++ s.

(** Code points of a string: a high surrogate followed by a low one is one
    code point; the store compares strings by code point (the order of
    their UTF-8 encodings). *)
Definition isHighSurrogate (c : Z) : bool := inClass 0xD800 0xDBFF c.
Definition isLowSurrogate (c : Z) : bool := inClass 0xDC00 0xDFFF c.

Fixpoint codePoints (s : jsstring) : list Z :=
  match s with
  | [] => []
  | h :: t =>
    match t with
    | l :: t' =>
      if isHighSurrogate h && isLowSurrogate l
      then (0x10000 + (h - 0xD800) * 0x400 + (l - 0xDC00)) :: codePoints t'
      else h :: codePoints t
    | [] => [h]
    end
  end.

(** Lexicographic comparison of two lists under a comparison of elements. *)
Fixpoint listCompare {A : Type} (cmp : A -> A -> comparison) (a b : list A)
  : comparison :=
  match a, b with
  | [], [] => Eq
  | [], _ :: _ => Lt
  | _ :: _, [] => Gt
  | x :: a', y :: b' =>
    match cmp x y with
    | Eq => listCompare cmp a' b'
    | c => c
    end
  end.

(** Code-point order on strings. *)
Definition strCompare (a b : jsstring) : comparison :=
  listCompare Z.compare (codePoints a) (codePoints b).

Definition notGt (c : comparison) : bool :=
  match c with Gt => false | _ => true end.

Definition notLt (c : comparison) : bool :=
  match c with Lt => false | _ => true end.

(** ** Stable sorting

    [Array.prototype.sort] is stable, and so is the order in which the store
    returns documents; both are modelled by a stable insertion sort. *)

Section Sorting.
Context {A : Type} (leb : A -> A -> bool).

Fixpoint insertSorted (x : A) (l : list A) : list A :=
  match l with
  | [] => [x]
  | y :: l' => if leb x y then x :: l else y :: insertSorted x l'
  end.

Fixpoint sortBy (l : list A) : list A :=
  match l with
  | [] => []
  | x :: l' => insertSorted x (sortBy l')
  end.
End Sorting.

(** [arr.sort(compareFn)]: [a] stays before [b] when [compareFn(a, b) <= 0]. *)
Definition arraySort {A : Type} (compareFn : A -> A -> Z) (arr : list A) : list A :=
  sortBy (fun a b => compareFn a b <=? 0) arr.

(** ** Dates, field values and documents *)

(** A JavaScript [Date]: milliseconds since the epoch, or Invalid Date. *)
Abbreviation Date := (option Z).

Abbreviation DocId := (list Z).

(** The kinds of field value this application writes.  [VTime] is a
    Firestore [Timestamp], kept at the millisecond precision of the [Date]
    it is built from; [VUndefined] only occurs in a payload (an optional
    form field left out), never in a stored document. *)
Inductive Value :=
  | VUndefined
  | VNull
  | VNum (n : Z)
  | VTime (t : option Z)
  | VStr (s : list Z)
  | VArr (l : list (list Z)).

#[global] Instance Value_eq_dec : EqDecision Value.
Proof. solve_decision. Defined.

(** A document is a finite map from field names to values. *)
Abbreviation Doc := (gmap string Value).

(** A JavaScript object passed to the client: its fields in the order
    they were inserted, which is the order the client reads them in. *)
Abbreviation Obj := (list (string * Value)).

(** [obj[k] = v]: an existing field keeps its place. *)
Fixpoint objSet (k : string) (v : Value) (obj : Obj) : Obj :=
  match obj with
  | [] => [(k, v)]
  | (k', v') :: obj' =>
    if bool_decide (k' = k) then (k, v) :: obj' else (k', v') :: objSet k v obj'
  end.

(** The fields of an object as a document. *)
Definition toDoc (obj : Obj) : Doc := list_to_map obj.

(** JavaScript truthiness of a field read ([None] is [undefined]). *)
Definition truthy (v : option Value) : bool :=
  match v with
  | None | Some VUndefined | Some VNull => false
  | Some (VNum n) => negb (n =? 0)
  | Some (VStr s) => negb (bool_decide (s = []))
  | Some (VTime _) | Some (VArr _) => true
  end.

(** [String(v)]. *)
Definition toStr (v : Value) : jsstring :=
  match v with
  | VUndefined => js "undefined"
  | VNull => js "null"
  | VNum n => decimal n
  | VStr s => s
  | VArr l => join (js ",") l
  | VTime (Some t) =>
    js "Timestamp(seconds=" ++ decimal (t / 1000) ++ js ", nanoseconds="
      ++ decimal ((t mod 1000) * 1000000) ++ js ")"
  | VTime None => js "Timestamp(seconds=NaN, nanoseconds=NaN)"
  end.

(** [String(v || '')]. *)
Definition stringOrEmpty (v : option Value) : jsstring :=
  match v with
  | Some x => if truthy v then toStr x else []
  | None => []
  end.

(** ** What the services take from outside

    The JavaScript engine ([localeCompare], [new Date(string)], the local
    time zone), dayjs ([dayjs(string)]) and the Firestore settings made in
    [../firebase]. *)
Class Runtime := {
  (** [a.localeCompare(b)]: negative, zero or positive. *)
  localeCompare : jsstring -> jsstring -> Z;
  (** [new Date(s)] for a string [s]. *)
  dateParse : jsstring -> Date;
  (** [dayjs(s).toDate()] for a string [s]. *)
  dayjsParse : jsstring -> Date;
  (** Local calendar year, month (1 to 12) and day of month of an instant. *)
  localYMD : Z -> Z * Z * Z;
  (** The [ignoreUndefinedProperties] setting of the Firestore instance. *)
  ignoreUndefinedProperties : bool
}.

(** [dayjs(d).format(...)] for the two formats used: year padded to four
    digits, month and day to two, each followed by its separator. *)
Definition dayjsFormat {rt : Runtime} (afterY afterM afterD : jsstring) (d : Date)
  : jsstring :=
  match d with
  | None => js "Invalid Date"
  | Some t =>
    let '(y, m, dd) := localYMD t in
    padStart 4 (decimal y) ++ afterY ++ padStart 2 (decimal m) ++ afterM
      ++ padStart 2 (decimal dd) ++ afterD
  end.

(** [.format('YYYY-MM-DD')] *)
Definition format_YYYY_MM_DD {rt : Runtime} (d : Date) : jsstring :=
  dayjsFormat (js "-") (js "-") [] d.

(** [.format('YYYY年MM月DD日')] *)
Definition format_YYYY_nen_MM_gatsu_DD_nichi {rt : Runtime} (d : Date) : jsstring :=
  dayjsFormat (js "年") (js "月") (js "日") d.

(** ** Errors and results *)

Inductive Err :=
  | FirestoreError (code : string)   (* rejected or failed by the store *)
  | Error (message : list Z)         (* [new Error(message)] *)
  | TypeError
  | RangeError.

Inductive Result (A : Type) :=
  | Ok (a : A)
  | Throw (e : Err).
Arguments Ok {A} a.
Arguments Throw {A} e.

(** Sequencing of computations that may throw and touch nothing else. *)
Definition rbind {A B : Type} (r : Result A) (k : A -> Result B) : Result B :=
  match r with
  | Ok a => k a
  | Throw e => Throw e
  end.

Notation "x <-! r ;; k" := (rbind r (fun x => k))
  (at level 100, r at next level, right associativity).

(** ** Timestamps

    The constructor of [Timestamp] refuses seconds before
    0001-01-01T00:00:00Z or from 10000-01-01T00:00:00Z on with the error
    code [invalid-argument]; the comparisons it makes are all false for
    NaN, so the timestamp of an Invalid Date is built, and is refused only
    when it is written. *)
Definition MIN_SECONDS : Z := -62135596800.
Definition MAX_SECONDS : Z := 253402300800.

(** [Timestamp.fromMillis(milliseconds)]: the seconds are
    [Math.floor(milliseconds / 1000)], the rest gives the nanoseconds. *)
Definition Timestamp_fromMillis (milliseconds : Z) : Result Value :=
  let seconds := milliseconds / 1000 in
  if (seconds <? MIN_SECONDS) || (MAX_SECONDS <=? seconds)
  then Throw (FirestoreError "invalid-argument")
  else Ok (VTime (Some milliseconds)).

(** [Timestamp.fromDate(d)] is [Timestamp.fromMillis(d.getTime())]. *)
Definition Timestamp_fromDate (d : Date) : Result Value :=
  match d with
  | Some t => Timestamp_fromMillis t
  | None => Ok (VTime None)
  end.

(** ** Queries *)

Inductive WhereOp := OpEq | OpGe | OpLe | OpArrayContains.

Inductive QueryConstraint :=
  | where_ (field : string) (op : WhereOp) (v : Value)
  | orderBy (field : string).

Record Query := query {
  q_collection : string;
  q_constraints : list QueryConstraint
}.

Definition collection (name : string) : string := name.

Definition COLLECTIONS_RESIDENTS : string := "residents".
Definition COLLECTIONS_MEDICAL_RECORDS : string := "medicalRecords".

(** ** The world: the store and what surrounds a call *)

Inductive StorageCall :=
  | CGetDocs (q : Query)
  | CGetDoc (coll : string) (id : DocId)
  | CAddDoc (coll : string) (data : Doc)
  | CUpdateDoc (coll : string) (id : DocId) (data : Doc)
  | CDeleteDoc (coll : string) (id : DocId).

Record World := mkWorld {
  (** collection name -> document id -> document *)
  store : gmap string (gmap (list Z) (gmap string Value));
  (** the time [Timestamp.now()] reads *)
  clock : Z;
  (** the identifiers the client generates for [addDoc], and how many it
      has generated *)
  autoId : nat -> DocId;
  issued : nat;
  (** outcome of the coming storage calls: [Some e] makes the call fail
      with [e]; past the end of the list calls succeed *)
  faults : list (option Err);
  (** storage calls issued so far, oldest first *)
  calls : list StorageCall
}.

Definition setStore (s : gmap string (gmap (list Z) (gmap string Value)))
  (w : World) : World :=
  mkWorld s (clock w) (autoId w) (issued w) (faults w) (calls w).

Definition setIssued (n : nat) (w : World) : World :=
  mkWorld (store w) (clock w) (autoId w) n (faults w) (calls w).

Definition setFaults (f : list (option Err)) (w : World) : World :=
  mkWorld (store w) (clock w) (autoId w) (issued w) f (calls w).

Definition logCall (c : StorageCall) (w : World) : World :=
  mkWorld (store w) (clock w) (autoId w) (issued w) (faults w) (calls w ++ [c]).

Definition docsOf (w : World) (coll : string) : gmap (list Z) (gmap string Value) :=
  default ∅ (store w !! coll).

Definition setDocs (coll : string) (c : gmap (list Z) (gmap string Value))
  (w : World) : World :=
  setStore (<[coll := c]> (store w)) w.

(** ** The monad of service code: state and exceptions *)

Definition M (A : Type) : Type := World -> Result A * World.

Definition ret {A : Type} (a : A) : M A := fun w => (Ok a, w).

Definition throw {A : Type} (e : Err) : M A := fun w => (Throw e, w).

Definition bind {A B : Type} (m : M A) (k : A -> M B) : M B :=
  fun w =>
    match m w with
    | (Ok a, w') => k a w'
    | (Throw e, w') => (Throw e, w')
    end.

Notation "x <- m ;; k" := (bind m (fun x => k))
  (at level 100, m at next level, right associativity).

(** [try { m } catch (e) { h e }] *)
Definition tryCatch {A : Type} (m : M A) (h : Err -> M A) : M A :=
  fun w =>
    match m w with
    | (Ok a, w') => (Ok a, w')
    | (Throw e, w') => h e w'
    end.

(** Lifting of a computation that cannot touch the world. *)
Definition liftResult {A : Type} (r : Result A) : M A := fun w => (r, w).

(** [Promise.all(ms)]: the calls are all started, in order; the outcome is
    the list of their results, or the first failure. *)
Fixpoint promiseAll {A : Type} (ms : list (M A)) : M (list A) :=
  fun w =>
    match ms with
    | [] => (Ok [], w)
    | m :: ms' =>
      let '(r, w1) := m w in
      let '(rs, w2) := promiseAll ms' w1 in
      (match r, rs with
       | Ok a, Ok l => Ok (a :: l)
       | Throw e, _ => Throw e
       | Ok _, Throw e => Throw e
       end, w2)
    end.

(** [Timestamp.now()] is [Timestamp.fromMillis(Date.now())]. *)
Definition Timestamp_now : M Value := fun w => (Timestamp_fromMillis (clock w), w).

(** ** The Firestore client, as far as the services use it

    Modelled from the Firestore documentation: value ordering (by type,
    then within the type; strings by code point), the semantics of [where]
    and [orderBy], the order of a result (the order field, then the document
    id), [addDoc], [updateDoc] (merge of the listed fields, failing on a
    missing document), [deleteDoc].  Security rules are outside the model:
    a rejected call is one that fails through [faults]. *)

Definition typeRank (v : Value) : Z :=
  match v with
  | VUndefined => 0
  | VNull => 1
  | VNum _ => 2
  | VTime _ => 3
  | VStr _ => 4
  | VArr _ => 5
  end.

Definition dateCompare (a b : Date) : comparison :=
  match a, b with
  | None, None => Eq
  | None, Some _ => Lt
  | Some _, None => Gt
  | Some x, Some y => x ?= y
  end.

Definition valueCompare (a b : Value) : comparison :=
  match a, b with
  | VNum x, VNum y => x ?= y
  | VTime x, VTime y => dateCompare x y
  | VStr x, VStr y => strCompare x y
  | VArr x, VArr y => listCompare strCompare x y
  | _, _ => typeRank a ?= typeRank b
  end.

Definition sameType (a b : Value) : bool := typeRank a =? typeRank b.

Definition opHolds (op : WhereOp) (x v : Value) : bool :=
  match op with
  | OpEq => bool_decide (x = v)
  | OpGe => sameType x v && notLt (valueCompare x v)
  | OpLe => sameType x v && notGt (valueCompare x v)
  | OpArrayContains =>
    match x, v with
    | VArr l, VStr s => bool_decide (s ∈ l)
    | _, _ => false
    end
  end.

(** A document satisfies a constraint; an [orderBy] only lets through the
    documents that have the field. *)
Definition satisfies (d : Doc) (c : QueryConstraint) : bool :=
  match c with
  | where_ f op v =>
    match d !! f with
    | Some x => opHolds op x v
    | None => false
    end
  | orderBy f => bool_decide (is_Some (d !! f))
  end.

Definition explicitOrder (cs : list QueryConstraint) : option string :=
  head (omap (fun c => match c with orderBy f => Some f | _ => None end) cs).

Definition rangeField (cs : list QueryConstraint) : option string :=
  head (omap (fun c => match c with
                       | where_ f OpGe _ | where_ f OpLe _ => Some f
                       | _ => None
                       end) cs).

(** The field a result is ordered by: the [orderBy] one, else the field of
    a range filter, else none (document id only). *)
Definition orderField (cs : list QueryConstraint) : option string :=
  match explicitOrder cs with
  | Some f => Some f
  | None => rangeField cs
  end.

Definition sortKey (f : option string) (d : Doc) : Value :=
  match f with
  | Some f => default VNull (d !! f)
  | None => VNull
  end.

Definition docLeb (f : option string) (a b : DocId * Doc) : bool :=
  match valueCompare (sortKey f a.2) (sortKey f b.2) with
  | Lt => true
  | Gt => false
  | Eq => notGt (strCompare a.1 b.1)
  end.

(** The documents of a collection that a query returns, in result order. *)
Definition runQuery (q : Query) (c : gmap (list Z) (gmap string Value))
  : list (DocId * Doc) :=
  sortBy (docLeb (orderField (q_constraints q)))
    (List.filter (fun p : DocId * Doc => forallb (satisfies p.2) (q_constraints q))
       (map_to_list c)).

(** The failure, if any, that [faults] holds for the coming storage call,
    and the world once a call [c] has been issued. *)
Definition nextFault (w : World) : option Err :=
  match faults w with
  | Some e :: _ => Some e
  | _ => None
  end.

Definition afterCall (c : StorageCall) (w : World) : World :=
  setFaults (tail (faults w)) (logCall c w).

(** A storage call: logged, then failed or served as [faults] says. *)
Definition storageCall {A : Type} (c : StorageCall) (serve : M A) : M A :=
  fun w =>
    match nextFault w with
    | Some e => (Throw e, afterCall c w)
    | None => serve (afterCall c w)
    end.

(** The client reads a payload field by field, in insertion order, before
    it sends anything, and throws at the first value it cannot encode: an
    [undefined] (unless the instance ignores them) or the timestamp of an
    Invalid Date, whose conversion to an ISO string fails. *)
Definition valueError {rt : Runtime} (v : Value) : option Err :=
  match v with
  | VUndefined =>
    if ignoreUndefinedProperties then None
    else Some (FirestoreError "invalid-argument")
  | VTime None => Some RangeError
  | _ => None
  end.

Fixpoint payloadError {rt : Runtime} (data : Obj) : option Err :=
  match data with
  | [] => None
  | (_, v) :: rest =>
    match valueError v with
    | Some e => Some e
    | None => payloadError rest
    end
  end.

Definition stripUndefined (data : Doc) : Doc :=
  filter (fun kv : string * Value => kv.2 <> VUndefined) data.

Definition checked {rt : Runtime} {A : Type} (data : Obj) (m : M A) : M A :=
  match payloadError data with
  | Some e => throw e
  | None => m
  end.

(** [getDocs(q)]: the snapshot's [docs], each with its id and data. *)
Definition getDocs (q : Query) : M (list (DocId * Doc)) :=
  storageCall (CGetDocs q)
    (fun w => (Ok (runQuery q (docsOf w (q_collection q))), w)).

(** [getDoc(doc(db, coll, id))]: the data when the document exists. *)
Definition getDoc (coll : string) (id : DocId) : M (option Doc) :=
  storageCall (CGetDoc coll id) (fun w => (Ok (docsOf w coll !! id), w)).

(** [addDoc(collection(db, coll), data)]: a new document under a generated
    id; returns the id. *)
Definition addDoc {rt : Runtime} (coll : string) (data : Obj) : M DocId :=
  checked data
    (storageCall (CAddDoc coll (toDoc data))
       (fun w =>
          let id := autoId w (issued w) in
          (Ok id,
           setIssued (S (issued w))
             (setDocs coll (<[id := stripUndefined (toDoc data)]> (docsOf w coll)) w)))).

(** [updateDoc(doc(db, coll, id), data)]: the listed fields replace those of
    the stored document, the others stay. *)
Definition updateDoc {rt : Runtime} (coll : string) (id : DocId) (data : Obj) : M unit :=
  checked data
    (storageCall (CUpdateDoc coll id (toDoc data))
       (fun w =>
          match docsOf w coll !! id with
          | None => (Throw (FirestoreError "not-found"), w)
          | Some old =>
            (Ok tt,
             setDocs coll (<[id := stripUndefined (toDoc data) ∪ old]> (docsOf w coll)) w)
          end)).

(** [deleteDoc(doc(db, coll, id))] *)
Definition deleteDoc (coll : string) (id : DocId) : M unit :=
  storageCall (CDeleteDoc coll id)
    (fun w => (Ok tt, setDocs coll (delete id (docsOf w coll)) w)).

(** ** Domain types (types/index.ts) *)

Module Resident.
Record t := mk {
  id : list Z;
  name : list Z;
  furigana : list Z;
  lastName : list Z;
  firstName : list Z;
  lastNameKana : list Z;
  firstNameKana : list Z;
  gender : option Value;          (* the stored value, uninspected *)
  birthDate : option Z;
  roomNumber : list Z;
  admissionDate : option Z;
  dischargeDate : option (option Z);  (* [None] is [undefined] *)
  medicalHistory : list Z;
  medications : list (list Z);
  careLevel : option Value;       (* the stored value, uninspected *)
  createdAt : option Z;
  updatedAt : option Z
}.
End Resident.

Module MedicalRecord.
Record t := mk {
  id : list Z;
  residentId : list Z;
  date : option Z;
  record : list Z;
  createdAt : option Z;
  updatedAt : option Z
}.
End MedicalRecord.

Module ResidentFormData.
Record t := mk {
  name : list Z;
  furigana : list Z;
  gender : list Z;
  birthDate : list Z;
  roomNumber : list Z;
  admissionDate : list Z;
  dischargeDate : option (list Z);
  medicalHistory : list Z;
  medications : list (list Z);
  careLevel : option Z
}.
End ResidentFormData.

(** [Partial<ResidentFormData>]: [None] is an absent (or [undefined]) field. *)
Module PartialResidentFormData.
Record t := mk {
  name : option (list Z);
  furigana : option (list Z);
  gender : option (list Z);
  birthDate : option (list Z);
  roomNumber : option (list Z);
  admissionDate : option (list Z);
  dischargeDate : option (list Z);
  medicalHistory : option (list Z);
  medications : option (list (list Z));
  careLevel : option Z
}.
Definition empty : t := mk None None None None None None None None None None.
End PartialResidentFormData.

Module MedicalRecordFormData.
Record t := mk {
  date : list Z;
  record : list Z
}.
End MedicalRecordFormData.

(** [Partial<MedicalRecordFormData>] *)
Module PartialMedicalRecordFormData.
Record t := mk {
  date : option (list Z);
  record : option (list Z)
}.
End PartialMedicalRecordFormData.

(** A JavaScript [Map] keyed by document id: insertion order is kept, and
    setting an existing key replaces its value in place. *)
Fixpoint mapSet {V : Type} (k : DocId) (v : V) (m : list (DocId * V))
  : list (DocId * V) :=
  match m with
  | [] => [(k, v)]
  | (k', v') :: m' =>
    if bool_decide (k' = k) then (k, v) :: m' else (k', v') :: mapSet k v m'
  end.

Definition mapValues {V : Type} (m : list (DocId * V)) : list V := m.*2.

(** [if (x !== undefined) { body }] where the body assigns fields of [obj]
    and may throw. *)
Definition whenDefined {A : Type} (x : option A) (body : A -> Obj -> Result Obj)
  (obj : Obj) : Result Obj :=
  match x with
  | Some a => body a obj
  | None => Ok obj
  end.

(** ** Reading documents (convertTimestampToDate, convertResidentData,
       convertMedicalRecordData) *)

Section Converters.
Context {rt : Runtime}.

Definition convertTimestampToDate (timestamp : option Value) : Date :=
  match timestamp with
  | Some (VTime t) => t                       (* [timestamp.toDate()] *)
  | Some (VStr s) => dateParse s              (* [new Date(string)] *)
  | Some (VNum n) => Some n                   (* [new Date(number)] *)
  | Some VNull => Some 0                      (* [new Date(null)] *)
  | Some (VArr l) => dateParse (join (js ",") l)
  | Some VUndefined | None => None            (* [new Date(undefined)] *)
  end.

(** [String(v || alt || '')] for a string [alt]. *)
Definition stringOr (v : option Value) (alt : jsstring) : jsstring :=
  if truthy v then stringOrEmpty v else alt.

Definition convertResidentData (id : DocId) (data : Doc) : Resident.t :=
  let name := stringOrEmpty (data !! "name") in
  let furigana := stringOrEmpty (data !! "furigana") in
  {| Resident.id := id;
     Resident.name := name;
     Resident.furigana := furigana;
     Resident.lastName :=
       stringOr (data !! "lastName") (partOrEmpty (split SPACE name) 0);
     Resident.firstName :=
       stringOr (data !! "firstName") (partOrEmpty (split SPACE name) 1);
     Resident.lastNameKana :=
       stringOr (data !! "lastNameKana") (partOrEmpty (split SPACE furigana) 0);
     Resident.firstNameKana :=
       stringOr (data !! "firstNameKana") (partOrEmpty (split SPACE furigana) 1);
     Resident.gender := data !! "gender";
     Resident.birthDate := convertTimestampToDate (data !! "birthDate");
     Resident.roomNumber := stringOrEmpty (data !! "roomNumber");
     Resident.admissionDate := convertTimestampToDate (data !! "admissionDate");
     Resident.dischargeDate :=
       if truthy (data !! "dischargeDate")
       then Some (convertTimestampToDate (data !! "dischargeDate"))
       else None;
     Resident.medicalHistory := stringOrEmpty (data !! "medicalHistory");
     Resident.medications :=
       match data !! "medications" with
       | Some (VArr l) => l
       | _ => []
       end;
     Resident.careLevel := data !! "careLevel";
     Resident.createdAt := convertTimestampToDate (data !! "createdAt");
     Resident.updatedAt := convertTimestampToDate (data !! "updatedAt") |}.

Definition convertMedicalRecordData (id : DocId) (data : Doc) : MedicalRecord.t :=
  {| MedicalRecord.id := id;
     MedicalRecord.residentId := stringOrEmpty (data !! "residentId");
     MedicalRecord.date := convertTimestampToDate (data !! "date");
     MedicalRecord.record := stringOrEmpty (data !! "record");
     MedicalRecord.createdAt := convertTimestampToDate (data !! "createdAt");
     MedicalRecord.updatedAt := convertTimestampToDate (data !! "updatedAt") |}.

(** [v.toDate()] on a field read: only a timestamp has the method. *)
Definition toDate (v : option Value) : Result Date :=
  match v with
  | Some (VTime t) => Ok t
  | _ => Throw TypeError
  end.

(** [s ? Timestamp.fromDate(new Date(s)) : null] *)
Definition timestampOrNull (s : option jsstring) : Result Value :=
  match s with
  | Some (c :: s') => Timestamp_fromDate (dateParse (c :: s'))
  | Some [] | None => Ok VNull
  end.
End Converters.

(** ** residentService

    The calls to [logger] are left out: they write to the console and to
    analytics only.  A [catch] that logs and rethrows is kept as a
    [tryCatch] that rethrows. *)

Module residentService.
Section WithRuntime.
Context {rt : Runtime}.

Definition getAll : M (list Resident.t) :=
  tryCatch
    (querySnapshot <-
       getDocs (query (collection COLLECTIONS_RESIDENTS) [orderBy "name"]) ;;
     let residents := map (fun doc => convertResidentData doc.1 doc.2) querySnapshot in
     ret residents)
    (fun error => throw error).

Definition getById (id : DocId) : M (option Resident.t) :=
  docSnap <- getDoc COLLECTIONS_RESIDENTS id ;;
  match docSnap with
  | Some data => ret (Some (convertResidentData id data))
  | None => ret None
  end.

(** The object [create] stores.  The literal is evaluated field by field:
    the three timestamps are built in the order of their fields, and the
    first that is refused ends the evaluation. *)
Definition createData (now : Value) (data : ResidentFormData.t) : Result Obj :=
  let nameParts := split SPACE (ResidentFormData.name data) in
  let furiganaParts := split SPACE (ResidentFormData.furigana data) in
  birthDate <-! Timestamp_fromDate (dateParse (ResidentFormData.birthDate data)) ;;
  admissionDate <-!
    Timestamp_fromDate (dateParse (ResidentFormData.admissionDate data)) ;;
  dischargeDate <-! timestampOrNull (ResidentFormData.dischargeDate data) ;;
  Ok [ ("name", VStr (ResidentFormData.name data));
       ("furigana", VStr (ResidentFormData.furigana data));
       ("lastName", VStr (partOrEmpty nameParts 0));
       ("firstName", VStr (partOrEmpty nameParts 1));
       ("lastNameKana", VStr (partOrEmpty furiganaParts 0));
       ("firstNameKana", VStr (partOrEmpty furiganaParts 1));
       ("gender", VStr (ResidentFormData.gender data));
       ("birthDate", birthDate);
       ("roomNumber", VStr (ResidentFormData.roomNumber data));
       ("admissionDate", admissionDate);
       ("dischargeDate", dischargeDate);
       ("medicalHistory", VStr (ResidentFormData.medicalHistory data));
       ("medications", VArr (ResidentFormData.medications data));
       ("careLevel",
        match ResidentFormData.careLevel data with
        | Some n => VNum n
        | None => VUndefined
        end);
       ("createdAt", now);
       ("updatedAt", now) ].

Definition create (data : ResidentFormData.t) : M DocId :=
  tryCatch
    (now <- Timestamp_now ;;
     payload <- liftResult (createData now data) ;;
     docRef <- addDoc (collection COLLECTIONS_RESIDENTS) payload ;;
     ret docRef)
    (fun error => throw error).

(** The object [updateData] that [update] fills field by field. *)
Definition updateData (now : Value) (data : PartialResidentFormData.t) : Result Obj :=
  let updateData : Obj := [("updatedAt", now)] in
  updateData <-!
    whenDefined (PartialResidentFormData.name data)
      (fun name updateData =>
         let updateData := objSet "name" (VStr name) updateData in
         let nameParts := split SPACE name in
         let updateData := objSet "lastName" (VStr (partOrEmpty nameParts 0)) updateData in
         Ok (objSet "firstName" (VStr (partOrEmpty nameParts 1)) updateData))
      updateData ;;
  updateData <-!
    whenDefined (PartialResidentFormData.furigana data)
      (fun furigana updateData =>
         let updateData := objSet "furigana" (VStr furigana) updateData in
         let furiganaParts := split SPACE furigana in
         let updateData :=
           objSet "lastNameKana" (VStr (partOrEmpty furiganaParts 0)) updateData in
         Ok (objSet "firstNameKana" (VStr (partOrEmpty furiganaParts 1)) updateData))
      updateData ;;
  updateData <-!
    whenDefined (PartialResidentFormData.gender data)
      (fun gender updateData => Ok (objSet "gender" (VStr gender) updateData))
      updateData ;;
  updateData <-!
    whenDefined (PartialResidentFormData.birthDate data)
      (fun birthDate updateData =>
         timestamp <-! Timestamp_fromDate (dateParse birthDate) ;;
         Ok (objSet "birthDate" timestamp updateData))
      updateData ;;
  updateData <-!
    whenDefined (PartialResidentFormData.roomNumber data)
      (fun roomNumber updateData => Ok (objSet "roomNumber" (VStr roomNumber) updateData))
      updateData ;;
  updateData <-!
    whenDefined (PartialResidentFormData.admissionDate data)
      (fun admissionDate updateData =>
         timestamp <-! Timestamp_fromDate (dateParse admissionDate) ;;
         Ok (objSet "admissionDate" timestamp updateData))
      updateData ;;
  updateData <-!
    whenDefined (PartialResidentFormData.dischargeDate data)
      (fun dischargeDate updateData =>
         value <-! timestampOrNull (Some dischargeDate) ;;
         Ok (objSet "dischargeDate" value updateData))
      updateData ;;
  updateData <-!
    whenDefined (PartialResidentFormData.medicalHistory data)
      (fun medicalHistory updateData =>
         Ok (objSet "medicalHistory" (VStr medicalHistory) updateData))
      updateData ;;
  updateData <-!
    whenDefined (PartialResidentFormData.medications data)
      (fun medications updateData => Ok (objSet "medications" (VArr medications) updateData))
      updateData ;;
  updateData <-!
    whenDefined (PartialResidentFormData.careLevel data)
      (fun careLevel updateData => Ok (objSet "careLevel" (VNum careLevel) updateData))
      updateData ;;
  Ok updateData.

Definition update (id : DocId) (data : PartialResidentFormData.t) : M unit :=
  now <- Timestamp_now ;;
  updateData <- liftResult (updateData now data) ;;
  updateDoc COLLECTIONS_RESIDENTS id updateData.

Definition delete (id : DocId) : M unit :=
  deleteDoc COLLECTIONS_RESIDENTS id.

(** ひらがな→カタカナ変換 *)
Definition convertHiraganaToKatakana (str : jsstring) : jsstring :=
  replaceClass 0x3041 0x3096
    (fun m => let chr := charCodeAt0 m + 0x60 in fromCharCode chr) str.

(** カタカナ→ひらがな変換 *)
Definition convertKatakanaToHiragana (str : jsstring) : jsstring :=
  replaceClass 0x30a1 0x30f6
    (fun m => let chr := charCodeAt0 m - 0x60 in fromCharCode chr) str.

(** The pair of range filters of one sub-query of [searchByName]: the field
    is at least the term and at most the term followed by U+F8FF. *)
Definition prefixQuery (field : string) (term : jsstring) : Query :=
  query (collection COLLECTIONS_RESIDENTS)
    [where_ field OpGe (VStr term); where_ field OpLe (VStr (term ++ [0xf8ff]))].

Definition searchQueries (searchTerm katakanaSearch : jsstring) : list Query :=
  [ prefixQuery "name" searchTerm;
    prefixQuery "lastName" searchTerm;
    prefixQuery "firstName" searchTerm;
    prefixQuery "furigana" katakanaSearch;
    prefixQuery "lastNameKana" katakanaSearch;
    prefixQuery "firstNameKana" katakanaSearch ].

(** The two nested [forEach] loops filling [allResidents]. *)
Definition collectResidents (results : list (list (DocId * Doc)))
  : list (DocId * Resident.t) :=
  foldl (fun allResidents querySnapshot =>
           foldl (fun allResidents (doc : DocId * Doc) =>
                    let resident := convertResidentData doc.1 doc.2 in
                    mapSet (Resident.id resident) resident allResidents)
                 allResidents querySnapshot)
        [] results.

Definition searchByName (name : jsstring) : M (list Resident.t) :=
  let searchTerm := trim name in
  if bool_decide (searchTerm = []) then ret []
  else
    tryCatch
      (let katakanaSearch := convertHiraganaToKatakana searchTerm in
       let queries := searchQueries searchTerm katakanaSearch in
       results <- promiseAll (map getDocs queries) ;;
       let allResidents := collectResidents results in
       let searchResults :=
         arraySort (fun a b => localeCompare (Resident.name a) (Resident.name b))
           (mapValues allResidents) in
       ret searchResults)
      (fun error => throw error).

Definition getByRoomNumber (roomNumber : jsstring) : M (list Resident.t) :=
  let q := query (collection COLLECTIONS_RESIDENTS)
             [where_ "roomNumber" OpEq (VStr roomNumber)] in
  querySnapshot <- getDocs q ;;
  ret (map (fun doc => convertResidentData doc.1 doc.2) querySnapshot).

Definition getByCareLevel (careLevel : Z) : M (list Resident.t) :=
  let q := query (collection COLLECTIONS_RESIDENTS)
             [where_ "careLevel" OpEq (VNum careLevel); orderBy "name"] in
  querySnapshot <- getDocs q ;;
  ret (map (fun doc => convertResidentData doc.1 doc.2) querySnapshot).

Definition getByMedication (medication : jsstring) : M (list Resident.t) :=
  let searchTerm := trim medication in
  if bool_decide (searchTerm = []) then ret []
  else
    let q := query (collection COLLECTIONS_RESIDENTS)
               [where_ "medications" OpArrayContains (VStr searchTerm);
                orderBy "name"] in
    querySnapshot <- getDocs q ;;
    ret (map (fun doc => convertResidentData doc.1 doc.2) querySnapshot).
End WithRuntime.
End residentService.

(** ** medicalRecordService *)

Module medicalRecordService.
Section WithRuntime.
Context {rt : Runtime}.

(** [dayjs(b.date).valueOf() - dayjs(a.date).valueOf()]; with an invalid
    date the difference is NaN, which [sort] reads as 0. *)
Definition byDateDescending (a b : MedicalRecord.t) : Z :=
  match MedicalRecord.date b, MedicalRecord.date a with
  | Some tb, Some ta => tb - ta
  | _, _ => 0
  end.

Definition getByResidentId (residentId : DocId) : M (list MedicalRecord.t) :=
  tryCatch
    (let q := query (collection COLLECTIONS_MEDICAL_RECORDS)
                [where_ "residentId" OpEq (VStr residentId)] in
     querySnapshot <- getDocs q ;;
     let records :=
       map (fun doc => convertMedicalRecordData doc.1 doc.2) querySnapshot in
     ret (arraySort byDateDescending records))
    (fun _ => ret []).

(** The [for ... of] loop of [checkExistingRecord]. *)
Fixpoint scanForDate (targetDate : jsstring) (docs : list (DocId * Doc))
  : Result (option MedicalRecord.t) :=
  match docs with
  | [] => Ok None
  | doc :: rest =>
    let recordData := doc.2 in
    match toDate (recordData !! "date") with
    | Throw e => Throw e
    | Ok d =>
      let recordDate := format_YYYY_MM_DD d in
      if bool_decide (recordDate = targetDate)
      then Ok (Some (convertMedicalRecordData doc.1 recordData))
      else scanForDate targetDate rest
    end
  end.

Definition checkExistingRecord (residentId : DocId) (date : jsstring)
  : M (option MedicalRecord.t) :=
  tryCatch
    (let targetDate := format_YYYY_MM_DD (dayjsParse date) in
     let q := query (collection COLLECTIONS_MEDICAL_RECORDS)
                [where_ "residentId" OpEq (VStr residentId)] in
     querySnapshot <- getDocs q ;;
     liftResult (scanForDate targetDate querySnapshot))
    (fun _ => ret None).

(** The object [docData] that [create] stores. *)
Definition docData (residentId : DocId) (data : MedicalRecordFormData.t)
  (now : Value) : Result Obj :=
  date <-! Timestamp_fromDate (dateParse (MedicalRecordFormData.date data)) ;;
  Ok [ ("residentId", VStr residentId);
       ("date", date);
       ("record", VStr (MedicalRecordFormData.record data));
       ("createdAt", now);
       ("updatedAt", now) ].

(** The query both read operations send. *)
Definition recordsOf (residentId : DocId) : Query :=
  query (collection COLLECTIONS_MEDICAL_RECORDS)
    [where_ "residentId" OpEq (VStr residentId)].

Definition create (residentId : DocId) (data : MedicalRecordFormData.t)
  : M DocId :=
  (* 同一日付のレコードが既に存在するかチェック *)
  existingRecord <- checkExistingRecord residentId (MedicalRecordFormData.date data) ;;
  match existingRecord with
  | Some _ =>
    throw (Error (format_YYYY_nen_MM_gatsu_DD_nichi
                    (dayjsParse (MedicalRecordFormData.date data))
                  ++ js "の診療録は既に存在します。既存の記録を編集してください。"))
  | None =>
    now <- Timestamp_now ;;
    docData <- liftResult (docData residentId data now) ;;
    docRef <- addDoc (collection COLLECTIONS_MEDICAL_RECORDS) docData ;;
    ret docRef
  end.

(** The object [updateData] that [update] fills field by field. *)
Definition updateData (now : Value) (data : PartialMedicalRecordFormData.t)
  : Result Obj :=
  let updateData : Obj := [("updatedAt", now)] in
  updateData <-!
    whenDefined (PartialMedicalRecordFormData.date data)
      (fun date updateData =>
         timestamp <-! Timestamp_fromDate (dateParse date) ;;
         Ok (objSet "date" timestamp updateData))
      updateData ;;
  updateData <-!
    whenDefined (PartialMedicalRecordFormData.record data)
      (fun record updateData => Ok (objSet "record" (VStr record) updateData))
      updateData ;;
  Ok updateData.

Definition update (id : DocId) (data : PartialMedicalRecordFormData.t) : M unit :=
  now <- Timestamp_now ;;
  updateData <- liftResult (updateData now data) ;;
  updateDoc COLLECTIONS_MEDICAL_RECORDS id updateData.

Definition delete (id : DocId) : M unit :=
  deleteDoc COLLECTIONS_MEDICAL_RECORDS id.
End WithRuntime.
End medicalRecordService.

(** ** The specification's wording, for comparison with the code *)

(** Membership of a string in the closed range from [q] to [q] followed by
    U+F8FF, and in the half-open one, both in code-point order. *)
Definition inClosedRange (q v : jsstring) : bool :=
  notLt (strCompare v q) && notGt (strCompare v (q ++ [0xf8ff])).

Definition inHalfOpenRange (q v : jsstring) : bool :=
  notLt (strCompare v q)
  && match strCompare v (q ++ [0xf8ff]) with Lt => true | _ => false end.

Definition fieldIn (range : jsstring -> jsstring -> bool) (field : string)
  (q : jsstring) (d : Doc) : bool :=
  match d !! field with
  | Some (VStr v) => range q v
  | _ => false
  end.

(** A stored resident is hit by one of the six sub-queries, for a given
    reading of the range. *)
Definition hitBy (range : jsstring -> jsstring -> bool) (searchTerm : jsstring)
  (d : Doc) : bool :=
  let katakanaSearch := residentService.convertHiraganaToKatakana searchTerm in
  fieldIn range "name" searchTerm d
  || fieldIn range "lastName" searchTerm d
  || fieldIn range "firstName" searchTerm d
  || fieldIn range "furigana" katakanaSearch d
  || fieldIn range "lastNameKana" katakanaSearch d
  || fieldIn range "firstNameKana" katakanaSearch d.

(** Splitting "on the first whitespace run into last/first components (if
    no whitespace, the first component is empty)". *)
Fixpoint splitAtFirstWhitespaceRun (s : jsstring) : jsstring * jsstring :=
  match s with
  | [] => ([], [])
  | c :: s' =>
    if isWhiteSpace c then ([], trimStart s')
    else let '(l, f) := splitAtFirstWhitespaceRun s' in (c :: l, f)
  end.

(** The Unicode blocks Hiragana and Katakana. *)
Definition inHiraganaBlock (c : Z) : bool := inClass 0x3040 0x309F c.
Definition inKatakanaBlock (c : Z) : bool := inClass 0x30A0 0x30FF c.

(** A string is blank: empty, or made of white space only. *)
Definition blank (s : jsstring) : Prop := Forall (fun c => isWhiteSpace c = true) s.

(** ** A concrete runtime

    A time zone at a fixed offset from UTC, date strings of the form
    YYYY-MM-DD (what the forms send), and a collator that orders kana by
    syllable whichever the script, as the collation of the engines does.
    The general theorems of Part II hold for every runtime; this one is
    used to evaluate the services on concrete inputs. *)

Definition msPerDay : Z := 86400000.

Definition isLeapYear (y : Z) : bool :=
  ((y mod 4 =? 0) && negb (y mod 100 =? 0)) || (y mod 400 =? 0).

Definition daysInMonth (y m : Z) : Z :=
  if m =? 2 then (if isLeapYear y then 29 else 28)
  else if (m =? 4) || (m =? 6) || (m =? 9) || (m =? 11) then 30 else 31.

(** Days since 1970-01-01 of a date of the proleptic Gregorian calendar. *)
Definition daysFromCivil (y m d : Z) : Z :=
  let y' := if m <=? 2 then y - 1 else y in
  let era := y' / 400 in
  let yoe := y' - era * 400 in
  let doy := (153 * (if 2 <? m then m - 3 else m + 9) + 2) / 5 + d - 1 in
  let doe := yoe * 365 + yoe / 4 - yoe / 100 + doy in
  era * 146097 + doe - 719468.

Definition civilFromDays (z : Z) : Z * Z * Z :=
  let z := z + 719468 in
  let era := z / 146097 in
  let doe := z - era * 146097 in
  let yoe := (doe - doe / 1460 + doe / 36524 - doe / 146096) / 365 in
  let y := yoe + era * 400 in
  let doy := doe - (365 * yoe + yoe / 4 - yoe / 100) in
  let mp := (5 * doy + 2) / 153 in
  let d := doy - (153 * mp + 2) / 5 + 1 in
  let m := if mp <? 10 then mp + 3 else mp - 9 in
  (if m <=? 2 then y + 1 else y, m, d).

Definition digit (c : Z) : option Z :=
  if inClass 48 57 c then Some (c - 48) else None.

(** Year, month and day of a well-formed YYYY-MM-DD string. *)
Definition parseYMD (s : jsstring) : option (Z * Z * Z) :=
  match s with
  | [y1; y2; y3; y4; 45; m1; m2; 45; d1; d2] =>
    match digit y1, digit y2, digit y3, digit y4,
          digit m1, digit m2, digit d1, digit d2 with
    | Some a, Some b, Some c, Some d, Some e, Some f, Some g, Some h =>
      let y := a * 1000 + b * 100 + c * 10 + d in
      let m := e * 10 + f in
      let dd := g * 10 + h in
      if (1 <=? m) && (m <=? 12) && (1 <=? dd) && (dd <=? daysInMonth y m)
      then Some (y, m, dd) else None
    | _, _, _, _, _, _, _, _ => None
    end
  | _ => None
  end.

Definition signOf (c : comparison) : Z :=
  match c with Lt => -1 | Eq => 0 | Gt => 1 end.

Definition foldKana (c : Z) : Z := if inClass 0x30a1 0x30f6 c then c - 0x60 else c.

(** Kana compare by syllable first; the script only breaks ties. *)
Definition kanaCollate (a b : jsstring) : Z :=
  match listCompare Z.compare (map foldKana a) (map foldKana b) with
  | Eq => signOf (listCompare Z.compare a b)
  | c => signOf c
  end.

(** [new Date("YYYY-MM-DD")] is midnight UTC of that day; [dayjs("YYYY-MM-DD")]
    is midnight local time. *)
Definition fixedZone (offsetMinutes : Z) : Runtime :=
  {| localeCompare := kanaCollate;
     dateParse s :=
       match parseYMD s with
       | Some (y, m, d) => Some (daysFromCivil y m d * msPerDay)
       | None => None
       end;
     dayjsParse s :=
       match parseYMD s with
       | Some (y, m, d) => Some (daysFromCivil y m d * msPerDay - offsetMinutes * 60000)
       | None => None
       end;
     localYMD t := civilFromDays ((t + offsetMinutes * 60000) / msPerDay);
     ignoreUndefinedProperties := false |}.

(** Japan Standard Time, UTC+9. *)
Definition japan : Runtime := fixedZone 540.

(** New York in winter, UTC-5. *)
Definition newYork : Runtime := fixedZone (-300).

(** ** Auxiliary definitions used in the proofs *)

(** The normalizers on one code unit. *)
Definition kataUnit (c : Z) : Z :=
  if inClass 0x3041 0x3096 c then (c + 0x60) mod 65536 else c.

Definition hiraUnit (c : Z) : Z :=
  if inClass 0x30a1 0x30f6 c then (c - 0x60) mod 65536 else c.


(** The piece of a string before its first separator, and what follows
    that separator. *)
Fixpoint beforeSep (sep : Z) (s : jsstring) : jsstring :=
  match s with
  | [] => []
  | c :: s' => if c =? sep then [] else c :: beforeSep sep s'
  end.

Fixpoint afterSep (sep : Z) (s : jsstring) : jsstring :=
  match s with
  | [] => []
  | c :: s' => if c =? sep then s' else afterSep sep s'
  end.

(** The fields [residentService.update] writes for a given input. *)
Definition touched (data : PartialResidentFormData.t) : gset string :=
  {["updatedAt"]}
  ∪ (if PartialResidentFormData.name data is Some _ then {["name"; "lastName"; "firstName"]} else ∅)
  ∪ (if PartialResidentFormData.furigana data is Some _ then {["furigana"; "lastNameKana"; "firstNameKana"]} else ∅)
  ∪ (if PartialResidentFormData.gender data is Some _ then {["gender"]} else ∅)
  ∪ (if PartialResidentFormData.birthDate data is Some _ then {["birthDate"]} else ∅)
  ∪ (if PartialResidentFormData.roomNumber data is Some _ then {["roomNumber"]} else ∅)
  ∪ (if PartialResidentFormData.admissionDate data is Some _ then {["admissionDate"]} else ∅)
  ∪ (if PartialResidentFormData.dischargeDate data is Some _ then {["dischargeDate"]} else ∅)
  ∪ (if PartialResidentFormData.medicalHistory data is Some _ then {["medicalHistory"]} else ∅)
  ∪ (if PartialResidentFormData.medications data is Some _ then {["medications"]} else ∅)
  ∪ (if PartialResidentFormData.careLevel data is Some _ then {["careLevel"]} else ∅).

(** An instant a [Timestamp] holds: from 0001-01-01T00:00:00Z up to, and
    not including, 10000-01-01T00:00:00Z. *)
Definition inTimestampRange (t : Z) : Prop :=
  MIN_SECONDS * 1000 <= t < MAX_SECONDS * 1000.

(** A date string the runtime reads as a date that a [Timestamp] holds. *)
Definition storableDate {rt : Runtime} (s : jsstring) : Prop :=
  exists t, dateParse s = Some t /\ inTimestampRange t.

(** An optional date string is absent, empty or storable. *)
Definition storableOptDate {rt : Runtime} (s : option jsstring) : Prop :=
  match s with
  | Some (c :: s') => storableDate (c :: s')
  | _ => True
  end.

(** A date string that is read as an Invalid Date, and one that is read as
    a date no [Timestamp] holds. *)
Definition invalidDate {rt : Runtime} (s : jsstring) : Prop := dateParse s = None.

Definition outOfRangeDate {rt : Runtime} (s : jsstring) : Prop :=
  exists t, dateParse s = Some t /\ ~ inTimestampRange t.

(** [if (x !== undefined) { body }] for a body that assigns fields and
    cannot throw, on objects and on the documents they stand for. *)
Definition whenSome {A : Type} (x : option A) (body : A -> Obj -> Obj) (obj : Obj)
  : Obj :=
  match x with
  | Some a => body a obj
  | None => obj
  end.

Definition assignWhen {A : Type} (x : option A) (body : A -> Doc -> Doc) (obj : Doc)
  : Doc :=
  match x with
  | Some a => body a obj
  | None => obj
  end.

(** The value [create] and [update] write for a discharge date that a
    timestamp holds. *)
Definition dischargeValue {rt : Runtime} (s : option jsstring) : Value :=
  match s with
  | Some (c :: s') => VTime (dateParse (c :: s'))
  | Some [] | None => VNull
  end.

(** The object [residentService.create] sends when no timestamp is
    refused, and the document it stands for. *)
Definition createdObj {rt : Runtime} (now : Value) (data : ResidentFormData.t) : Obj :=
  [ ("name", VStr (ResidentFormData.name data));
    ("furigana", VStr (ResidentFormData.furigana data));
    ("lastName", VStr (partOrEmpty (split SPACE (ResidentFormData.name data)) 0));
    ("firstName", VStr (partOrEmpty (split SPACE (ResidentFormData.name data)) 1));
    ("lastNameKana", VStr (partOrEmpty (split SPACE (ResidentFormData.furigana data)) 0));
    ("firstNameKana", VStr (partOrEmpty (split SPACE (ResidentFormData.furigana data)) 1));
    ("gender", VStr (ResidentFormData.gender data));
    ("birthDate", VTime (dateParse (ResidentFormData.birthDate data)));
    ("roomNumber", VStr (ResidentFormData.roomNumber data));
    ("admissionDate", VTime (dateParse (ResidentFormData.admissionDate data)));
    ("dischargeDate", dischargeValue (ResidentFormData.dischargeDate data));
    ("medicalHistory", VStr (ResidentFormData.medicalHistory data));
    ("medications", VArr (ResidentFormData.medications data));
    ("careLevel",
     match ResidentFormData.careLevel data with
     | Some n => VNum n
     | None => VUndefined
     end);
    ("createdAt", now);
    ("updatedAt", now) ].

Definition createdDoc {rt : Runtime} (now : Value) (data : ResidentFormData.t) : Doc :=
  <["name" := VStr (ResidentFormData.name data)]>
  (<["furigana" := VStr (ResidentFormData.furigana data)]>
  (<["lastName" := VStr (partOrEmpty (split SPACE (ResidentFormData.name data)) 0)]>
  (<["firstName" := VStr (partOrEmpty (split SPACE (ResidentFormData.name data)) 1)]>
  (<["lastNameKana" :=
       VStr (partOrEmpty (split SPACE (ResidentFormData.furigana data)) 0)]>
  (<["firstNameKana" :=
       VStr (partOrEmpty (split SPACE (ResidentFormData.furigana data)) 1)]>
  (<["gender" := VStr (ResidentFormData.gender data)]>
  (<["birthDate" := VTime (dateParse (ResidentFormData.birthDate data))]>
  (<["roomNumber" := VStr (ResidentFormData.roomNumber data)]>
  (<["admissionDate" := VTime (dateParse (ResidentFormData.admissionDate data))]>
  (<["dischargeDate" := dischargeValue (ResidentFormData.dischargeDate data)]>
  (<["medicalHistory" := VStr (ResidentFormData.medicalHistory data)]>
  (<["medications" := VArr (ResidentFormData.medications data)]>
  (<["careLevel" :=
       match ResidentFormData.careLevel data with
       | Some n => VNum n
       | None => VUndefined
       end]>
  (<["createdAt" := now]>
  (<["updatedAt" := now]> ∅))))))))))))))).

(** The form is one the client accepts at the time of the world: the
    clock and the dates are within the range of a timestamp, and the payload
    passes the checks. *)
Definition accepted {rt : Runtime} (w : World) (data : ResidentFormData.t) : Prop :=
  inTimestampRange (clock w)
  /\ residentService.createData (VTime (Some (clock w))) data
     = Ok (createdObj (VTime (Some (clock w))) data)
  /\ payloadError (createdObj (VTime (Some (clock w))) data) = None.

(** The object [residentService.update] sends when no timestamp is
    refused, and the document it stands for. *)
Definition updatedObj {rt : Runtime} (now : Value) (data : PartialResidentFormData.t)
  : Obj :=
  whenSome (PartialResidentFormData.careLevel data)
    (fun careLevel => objSet "careLevel" (VNum careLevel))
  (whenSome (PartialResidentFormData.medications data)
    (fun medications => objSet "medications" (VArr medications))
  (whenSome (PartialResidentFormData.medicalHistory data)
    (fun medicalHistory => objSet "medicalHistory" (VStr medicalHistory))
  (whenSome (PartialResidentFormData.dischargeDate data)
    (fun dischargeDate => objSet "dischargeDate" (dischargeValue (Some dischargeDate)))
  (whenSome (PartialResidentFormData.admissionDate data)
    (fun admissionDate => objSet "admissionDate" (VTime (dateParse admissionDate)))
  (whenSome (PartialResidentFormData.roomNumber data)
    (fun roomNumber => objSet "roomNumber" (VStr roomNumber))
  (whenSome (PartialResidentFormData.birthDate data)
    (fun birthDate => objSet "birthDate" (VTime (dateParse birthDate)))
  (whenSome (PartialResidentFormData.gender data)
    (fun gender => objSet "gender" (VStr gender))
  (whenSome (PartialResidentFormData.furigana data)
    (fun furigana updateData =>
       objSet "firstNameKana" (VStr (partOrEmpty (split SPACE furigana) 1))
         (objSet "lastNameKana" (VStr (partOrEmpty (split SPACE furigana) 0))
            (objSet "furigana" (VStr furigana) updateData)))
  (whenSome (PartialResidentFormData.name data)
    (fun name updateData =>
       objSet "firstName" (VStr (partOrEmpty (split SPACE name) 1))
         (objSet "lastName" (VStr (partOrEmpty (split SPACE name) 0))
            (objSet "name" (VStr name) updateData)))
     [("updatedAt", now)]))))))))).

Definition updatedDoc {rt : Runtime} (now : Value) (data : PartialResidentFormData.t)
  : Doc :=
  assignWhen (PartialResidentFormData.careLevel data)
    (fun careLevel updateData => <["careLevel" := VNum careLevel]> updateData)
  (assignWhen (PartialResidentFormData.medications data)
    (fun medications updateData => <["medications" := VArr medications]> updateData)
  (assignWhen (PartialResidentFormData.medicalHistory data)
    (fun medicalHistory updateData =>
       <["medicalHistory" := VStr medicalHistory]> updateData)
  (assignWhen (PartialResidentFormData.dischargeDate data)
    (fun dischargeDate updateData =>
       <["dischargeDate" := dischargeValue (Some dischargeDate)]> updateData)
  (assignWhen (PartialResidentFormData.admissionDate data)
    (fun admissionDate updateData =>
       <["admissionDate" := VTime (dateParse admissionDate)]> updateData)
  (assignWhen (PartialResidentFormData.roomNumber data)
    (fun roomNumber updateData => <["roomNumber" := VStr roomNumber]> updateData)
  (assignWhen (PartialResidentFormData.birthDate data)
    (fun birthDate updateData =>
       <["birthDate" := VTime (dateParse birthDate)]> updateData)
  (assignWhen (PartialResidentFormData.gender data)
    (fun gender updateData => <["gender" := VStr gender]> updateData)
  (assignWhen (PartialResidentFormData.furigana data)
    (fun furigana updateData =>
       <["firstNameKana" := VStr (partOrEmpty (split SPACE furigana) 1)]>
         (<["lastNameKana" := VStr (partOrEmpty (split SPACE furigana) 0)]>
            (<["furigana" := VStr furigana]> updateData)))
  (assignWhen (PartialResidentFormData.name data)
    (fun name updateData =>
       <["firstName" := VStr (partOrEmpty (split SPACE name) 1)]>
         (<["lastName" := VStr (partOrEmpty (split SPACE name) 0)]>
            (<["name" := VStr name]> updateData)))
     (<["updatedAt" := now]> ∅)))))))))).

(** The object [medicalRecordService.create] sends when the timestamp is
    not refused, and the document it stands for. *)
Definition recordObj {rt : Runtime} (residentId : DocId) (data : MedicalRecordFormData.t)
  (now : Value) : Obj :=
  [ ("residentId", VStr residentId);
    ("date", VTime (dateParse (MedicalRecordFormData.date data)));
    ("record", VStr (MedicalRecordFormData.record data));
    ("createdAt", now);
    ("updatedAt", now) ].

Definition recordDoc {rt : Runtime} (residentId : DocId) (data : MedicalRecordFormData.t)
  (now : Value) : Doc :=
  <["residentId" := VStr residentId]>
  (<["date" := VTime (dateParse (MedicalRecordFormData.date data))]>
  (<["record" := VStr (MedicalRecordFormData.record data)]>
  (<["createdAt" := now]>
  (<["updatedAt" := now]> ∅)))).

(** The same for [medicalRecordService.update]. *)
Definition recordPatchObj {rt : Runtime} (now : Value)
  (data : PartialMedicalRecordFormData.t) : Obj :=
  whenSome (PartialMedicalRecordFormData.record data)
    (fun record => objSet "record" (VStr record))
  (whenSome (PartialMedicalRecordFormData.date data)
    (fun date => objSet "date" (VTime (dateParse date)))
     [("updatedAt", now)]).

Definition recordPatch {rt : Runtime} (now : Value)
  (data : PartialMedicalRecordFormData.t) : Doc :=
  assignWhen (PartialMedicalRecordFormData.record data)
    (fun record updateData => <["record" := VStr record]> updateData)
  (assignWhen (PartialMedicalRecordFormData.date data)
    (fun date updateData => <["date" := VTime (dateParse date)]> updateData)
     (<["updatedAt" := now]> ∅)).

(** A value the client accepts in a payload and stores as it is: neither
    [undefined] nor a timestamp built from an invalid date. *)
Definition cleanValue (v : Value) : Prop := v <> VUndefined /\ v <> VTime None.

(** A record of the resident falls on the local calendar day of [date]:
    its timestamp and [date] print the same under [YYYY-MM-DD]. *)
Definition sameDayRecord {rt : Runtime} (w : World) (residentId : DocId)
  (date : jsstring) : Prop :=
  exists id (d : gmap string Value) t,
    docsOf w COLLECTIONS_MEDICAL_RECORDS !! id = Some d
    /\ d !! "residentId" = Some (VStr residentId)
    /\ d !! "date" = Some (VTime t)
    /\ format_YYYY_MM_DD t = format_YYYY_MM_DD (dayjsParse date).

(** Every record of the resident carries a timestamp in [date], as the
    records written by [create] and [update] do. *)
Definition recordsDated (w : World) (residentId : DocId) : Prop :=
  forall id (d : gmap string Value),
    docsOf w COLLECTIONS_MEDICAL_RECORDS !! id = Some d ->
    d !! "residentId" = Some (VStr residentId) ->
    exists t, d !! "date" = Some (VTime t).

(** The message of the error [create] throws for a day already taken. *)
Definition conflictMessage {rt : Runtime} (date : jsstring) : jsstring :=
  format_YYYY_nen_MM_gatsu_DD_nichi (dayjsParse date)
  ++ js "の診療録は既に存在します。既存の記録を編集してください。".

(** The part of [medicalRecordService.create] that follows a check without
    a finding. *)
Definition insertRecord {rt : Runtime} (residentId : DocId)
  (data : MedicalRecordFormData.t) : M DocId :=
  now <- Timestamp_now ;;
  docData <- liftResult (medicalRecordService.docData residentId data now) ;;
  docRef <- addDoc (collection COLLECTIONS_MEDICAL_RECORDS) docData ;;
  ret docRef.

(** Ascending code-point order, and ascending order under the collation of
    the runtime. *)
Definition codePointLe (a b : jsstring) : Prop := strCompare a b <> Gt.

Definition collationLe {rt : Runtime} (a b : jsstring) : Prop := localeCompare a b <= 0.

(** The collation is a total preorder, as a comparison function passed to
    [sort] has to be. *)
Definition consistentCollation (rt : Runtime) : Prop :=
  (forall a b, localeCompare a b <= 0 \/ localeCompare b a <= 0)
  /\ (forall a b c, localeCompare a b <= 0 -> localeCompare b c <= 0 ->
                    localeCompare a c <= 0).

(** Every stored resident has a string for full name, as the documents
    written by [create] and [update] do. *)
Definition namesAreStrings (w : World) : Prop :=
  forall id (d : gmap string Value) v,
    docsOf w COLLECTIONS_RESIDENTS !! id = Some d ->
    d !! "name" = Some v -> exists s, v = VStr s.

(** The full names of a result, in order. *)
Definition namesOf (r : Result (list Resident.t)) : list jsstring :=
  match r with
  | Ok rs => map Resident.name rs
  | Throw _ => []
  end.

Definition idsOf (r : Result (list Resident.t)) : list DocId :=
  match r with
  | Ok rs => map Resident.id rs
  | Throw _ => []
  end.

(** The body of the inner loop of [searchByName]: one document is put
    into the map of residents under its id. *)
Definition keep {rt : Runtime} (allResidents : list (DocId * Resident.t))
  (doc : DocId * gmap string Value) : list (DocId * Resident.t) :=
  mapSet doc.1 (convertResidentData doc.1 doc.2) allResidents.

(** The value of a field of a stored document. *)
Definition storedField (w : World) (coll : string) (id : DocId) (f : string)
  : option Value :=
  docsOf w coll !! id ≫= (.!! f).

(** The local calendar day, as [YYYY-MM-DD], of a stored medical record. *)
Definition storedDay {rt : Runtime} (w : World) (id : DocId) : option jsstring :=
  match storedField w COLLECTIONS_MEDICAL_RECORDS id "date" with
  | Some (VTime t) => Some (format_YYYY_MM_DD t)
  | _ => None
  end.

(** ** Example worlds *)

Definition sampleAutoId (n : nat) : DocId := js "auto" ++ decimal (Z.of_nat n).

(** Nothing stored, no failure ahead; the clock reads 2024-03-09T16:00:00Z. *)
Definition emptyWorld : World := mkWorld ∅ 1710000000000 sampleAutoId 0 [] [].

Definition yamada : ResidentFormData.t :=
  {| ResidentFormData.name := js "山田 太郎";
     ResidentFormData.furigana := js "ヤマダ タロウ";
     ResidentFormData.gender := js "男性";
     ResidentFormData.birthDate := js "1940-05-01";
     ResidentFormData.roomNumber := js "101";
     ResidentFormData.admissionDate := js "2023-04-01";
     ResidentFormData.dischargeDate := None;
     ResidentFormData.medicalHistory := js "高血圧";
     ResidentFormData.medications := [js "アムロジピン"];
     ResidentFormData.careLevel := Some 3 |}.

(** The same resident entered with two spaces between the names. *)
Definition yamadaTwoSpaces : ResidentFormData.t :=
  {| ResidentFormData.name := js "山田  太郎";
     ResidentFormData.furigana := js "ヤマダ  タロウ";
     ResidentFormData.gender := js "男性";
     ResidentFormData.birthDate := js "1940-05-01";
     ResidentFormData.roomNumber := js "101";
     ResidentFormData.admissionDate := js "2023-04-01";
     ResidentFormData.dischargeDate := None;
     ResidentFormData.medicalHistory := js "高血圧";
     ResidentFormData.medications := [js "アムロジピン"];
     ResidentFormData.careLevel := Some 3 |}.

(** The world after [create(yamada)] in Japan. *)
Definition worldWithYamada : World :=
  (@residentService.create japan yamada emptyWorld).2.

(** The document [create(yamada)] stores. *)
Definition yamadaDoc : gmap string Value :=
  stripUndefined (@createdDoc japan (VTime (Some 1710000000000)) yamada).

Definition roomOnly : PartialResidentFormData.t :=
  {| PartialResidentFormData.name := None;
     PartialResidentFormData.furigana := None;
     PartialResidentFormData.gender := None;
     PartialResidentFormData.birthDate := None;
     PartialResidentFormData.roomNumber := Some (js "305");
     PartialResidentFormData.admissionDate := None;
     PartialResidentFormData.dischargeDate := None;
     PartialResidentFormData.medicalHistory := None;
     PartialResidentFormData.medications := None;
     PartialResidentFormData.careLevel := None |}.

Definition note (date record : string) : MedicalRecordFormData.t :=
  {| MedicalRecordFormData.date := js date;
     MedicalRecordFormData.record := js record |}.

(** The document of a note of resident [r1], as [create] builds it. *)
Definition noteDoc (date record : string) : gmap string Value :=
  @recordDoc japan (js "r1") (note date record) (VTime (Some 1710000000000)).

(** Resident [r1] has one record, dated 2024-03-10. *)
Definition worldWithNote : World :=
  mkWorld
    {[ COLLECTIONS_MEDICAL_RECORDS := {[ js "rec1" := noteDoc "2024-03-10" "著変なし" ]} ]}
    1710100000000 sampleAutoId 0 [] [].

(** The same world, with the store failing at the coming call only. *)
Definition worldWithNoteFailing : World :=
  setFaults [Some (FirestoreError "unavailable")] worldWithNote.

(** Resident [r1] has a record dated 2024-03-10 and one dated 2024-03-11. *)
Definition worldTwoNotes : World :=
  mkWorld
    {[ COLLECTIONS_MEDICAL_RECORDS :=
         <[ js "rec1" := noteDoc "2024-03-10" "著変なし" ]>
           {[ js "rec2" := noteDoc "2024-03-11" "発熱" ]} ]}
    1710100000000 sampleAutoId 0 [] [].

Definition dateOnly (date : string) : PartialMedicalRecordFormData.t :=
  {| PartialMedicalRecordFormData.date := Some (js date);
     PartialMedicalRecordFormData.record := None |}.

Definition abe : ResidentFormData.t :=
  {| ResidentFormData.name := js "アベ タロウ";
     ResidentFormData.furigana := js "アベ タロウ";
     ResidentFormData.gender := js "男性";
     ResidentFormData.birthDate := js "1938-11-20";
     ResidentFormData.roomNumber := js "102";
     ResidentFormData.admissionDate := js "2022-10-01";
     ResidentFormData.dischargeDate := None;
     ResidentFormData.medicalHistory := [];
     ResidentFormData.medications := [];
     ResidentFormData.careLevel := Some 2 |}.

Definition itou : ResidentFormData.t :=
  {| ResidentFormData.name := js "いとう たかし";
     ResidentFormData.furigana := js "イトウ タカシ";
     ResidentFormData.gender := js "男性";
     ResidentFormData.birthDate := js "1941-02-03";
     ResidentFormData.roomNumber := js "103";
     ResidentFormData.admissionDate := js "2021-06-15";
     ResidentFormData.dischargeDate := None;
     ResidentFormData.medicalHistory := [];
     ResidentFormData.medications := [];
     ResidentFormData.careLevel := Some 2 |}.

(** Two residents, one entered in katakana and one in hiragana. *)
Definition worldKana : World :=
  (@residentService.create japan itou (@residentService.create japan abe emptyWorld).2).2.

(** A resident whose name is a query followed by U+F8FF. *)
Definition yamaBoundary : ResidentFormData.t :=
  {| ResidentFormData.name := js "山" ++ [0xf8ff];
     ResidentFormData.furigana := js "ヤマ";
     ResidentFormData.gender := js "女性";
     ResidentFormData.birthDate := js "1945-08-15";
     ResidentFormData.roomNumber := js "104";
     ResidentFormData.admissionDate := js "2020-01-10";
     ResidentFormData.dischargeDate := None;
     ResidentFormData.medicalHistory := [];
     ResidentFormData.medications := [];
     ResidentFormData.careLevel := Some 1 |}.

Definition worldBoundary : World :=
  (@residentService.create japan yamaBoundary emptyWorld).2.

(** Resident A of the end-to-end scenario. *)
Definition tanaka : ResidentFormData.t :=
  {| ResidentFormData.name := js "田中 花子";
     ResidentFormData.furigana := js "タナカ ハナコ";
     ResidentFormData.gender := js "女性";
     ResidentFormData.birthDate := js "1935-01-15";
     ResidentFormData.roomNumber := js "101";
     ResidentFormData.admissionDate := js "2023-09-01";
     ResidentFormData.dischargeDate := None;
     ResidentFormData.medicalHistory := [];
     ResidentFormData.medications := [];
     ResidentFormData.careLevel := Some 3 |}.

Definition worldWithTanaka : World :=
  (@residentService.create japan tanaka emptyWorld).2.

(** ** The components that call the services

    The handlers of the React components, as far as they reach the
    services: what they send, what they do with the outcome, and the state
    they keep.  Rendering, the loading flags, the timers that hide a
    notification, and the calls to [logger] and to the performance monitor
    are left out; [measureAsyncOperation(op, name)] is [op] (it logs and
    rethrows). *)

(** *** Handlers

    A handler runs against the world and changes the state of its component
    through the [set...] calls it makes; a change made before an exception
    is thrown stays.  What a handler reads from the state is the state of
    the render it was created in, which is an argument of the handler. *)

Definition UI (S A : Type) : Type := S -> World -> Result A * S * World.

Definition uret {S A : Type} (a : A) : UI S A := fun s w => (Ok a, s, w).

Definition ubind {S A B : Type} (m : UI S A) (k : A -> UI S B) : UI S B :=
  fun s w =>
    match m s w with
    | (Ok a, s', w') => k a s' w'
    | (Throw e, s', w') => (Throw e, s', w')
    end.

Notation "x <~ m ;; k" := (ubind m (fun x => k))
  (at level 100, m at next level, right associativity).

(** [try { m } catch (e) { h e }] *)
Definition utry {S A : Type} (m : UI S A) (h : Err -> UI S A) : UI S A :=
  fun s w =>
    match m s w with
    | (Ok a, s', w') => (Ok a, s', w')
    | (Throw e, s', w') => h e s' w'
    end.

(** [await] of a call to a service. *)
Definition call {S A : Type} (m : M A) : UI S A :=
  fun s w => let '(r, w') := m w in (r, s, w').

(** A [set...] call of [useState], given as the change it makes. *)
Definition setState {S : Type} (f : S -> S) : UI S unit := fun s w => (Ok tt, f s, w).

(** The state as it is when the next step of a handler runs. *)
Definition getState {S : Type} : UI S S := fun s w => (Ok s, s, w).

(** [dayjs()]: the present instant. *)
Definition dayjsNow {S : Type} : UI S Date := fun s w => (Ok (Some (clock w)), s, w).

(** The state a handler leaves, and the world, when it is run in the state
    [s]. *)
Definition stateAfter {S A : Type} (h : S -> UI S A) (s : S) (w : World) : S :=
  (h s s w).1.2.

Definition worldAfter {S A : Type} (h : S -> UI S A) (s : S) (w : World) : World :=
  (h s s w).2.

Definition outcome {S A : Type} (h : S -> UI S A) (s : S) (w : World) : Result A :=
  (h s s w).1.1.

Inductive Severity := success | error.

(** *** hooks/useErrorHandler.ts *)

(** [error.code]: an error of the store carries one; an [Error] made by the
    services and the errors of the engine carry none. *)
Definition errorCode (e : Err) : option string :=
  match e with
  | FirestoreError code => Some code
  | _ => None
  end.

Definition handleFirestoreError (e : Err) (operation : string) : jsstring :=
  let code := errorCode e in
  if bool_decide (code = Some "permission-denied") then js "アクセス権限がありません"
  else if bool_decide (code = Some "not-found") then js "データが見つかりません"
  else if bool_decide (code = Some "already-exists") then js "データが既に存在します"
  else if bool_decide (code = Some "resource-exhausted")
  then js "システムが混雑しています。しばらく待ってから再試行してください"
  else if bool_decide (code = Some "deadline-exceeded")
  then js "タイムアウトしました。ネットワーク接続を確認してください"
  else if bool_decide (code = Some "unavailable") then js "サービスが一時的に利用できません"
  else if bool_decide (operation = "create") then js "登録に失敗しました"
  else if bool_decide (operation = "update") then js "更新に失敗しました"
  else if bool_decide (operation = "delete") then js "削除に失敗しました"
  else if bool_decide (operation = "read") then js "データの取得に失敗しました"
  else js "操作に失敗しました".

(** *** The two helpers of ResidentForm.tsx and SearchPanel.tsx *)

(** 半角スペースを全角スペースに変換: [text.replace(/ /g, '　')] *)
Definition convertSpacesToFullWidth (text : jsstring) : jsstring :=
  replaceClass 0x20 0x20 (fun _ => js "　") text.

(** [/^[0-9]+$/.test(s)] *)
Definition isDigits (s : jsstring) : bool :=
  negb (bool_decide (s = [])) && forallb (inClass 48 57) s.

(** 部屋番号の半角数字バリデーション *)
Definition validateRoomNumber (roomNumber : jsstring) : jsstring :=
  if bool_decide (roomNumber = []) then []
  else if negb (isDigits roomNumber)
  then js "部屋番号は半角数字のみで入力してください"
  else [].

(** *** components/MedicationInput.tsx

    The component keeps the text being typed; the list of drugs is a prop,
    changed through [onChange].  A handler is given by the list and the text
    it leaves. *)

Module MedicationInput.
Definition handleAddMedication (medications : list jsstring)
  (currentMedication : jsstring) : list jsstring * jsstring :=
  let trimmed := trim currentMedication in
  if negb (bool_decide (trimmed = [])) && negb (bool_decide (trimmed ∈ medications))
  then (medications ++ [trimmed], [])
  else (medications, currentMedication).

Definition handleRemoveMedication (medications : list jsstring)
  (medicationToRemove : jsstring) : list jsstring :=
  List.filter (fun med => negb (bool_decide (med = medicationToRemove))) medications.
End MedicationInput.

(** *** components/ResidentForm.tsx *)

Module ResidentForm.
Record Alert := mkAlert { show : bool; message : jsstring; type : Severity }.

Record State := mkState {
  formData : ResidentFormData.t;
  alert : Alert;
  roomNumberError : jsstring
}.

Definition setFormData (f : ResidentFormData.t -> ResidentFormData.t) (st : State)
  : State :=
  mkState (f (formData st)) (alert st) (roomNumberError st).

Definition setAlert (a : Alert) (st : State) : State :=
  mkState (formData st) a (roomNumberError st).

Definition setRoomNumberError (e : jsstring) (st : State) : State :=
  mkState (formData st) (alert st) e.

(** The form as [useState] and [resetForm] set it. *)
Definition emptyForm : ResidentFormData.t :=
  {| ResidentFormData.name := [];
     ResidentFormData.furigana := [];
     ResidentFormData.gender := js "男性";
     ResidentFormData.birthDate := [];
     ResidentFormData.roomNumber := [];
     ResidentFormData.admissionDate := [];
     ResidentFormData.dischargeDate := Some [];
     ResidentFormData.medicalHistory := [];
     ResidentFormData.medications := [];
     ResidentFormData.careLevel := Some 1 |}.

Definition initialState : State :=
  mkState emptyForm (mkAlert false [] success) [].

(** What the user does to the form.  [CareLevel] carries [Number(value)]
    for the option chosen.  [AddMedication] is a click on the button of the
    drug input, with the text typed there; [RemoveMedication] is a click on
    the button of a listed drug; [EnterMedication] is the Enter key in the
    drug input, which [handleKeyPress] keeps from submitting the form and
    answers with [handleAddMedication]; [Submit] is a click on the button of
    the form.  The two buttons of [MedicationInput] have no [type]: inside
    the form they are submit buttons, so a click on one of them runs its
    [onClick] handler and then submits the form.  [rendered] tells whether
    React has rendered the change of the [onClick] handler by the time the
    browser dispatches the submission, that is, whether [handleSubmit] reads
    the form with the change or without it; both are covered. *)
Inductive Event :=
  | Name (value : jsstring)
  | Furigana (value : jsstring)
  | Gender (value : jsstring)
  | BirthDate (value : jsstring)
  | RoomNumber (value : jsstring)
  | CareLevel (value : Z)
  | AdmissionDate (value : jsstring)
  | DischargeDate (value : jsstring)
  | MedicalHistory (value : jsstring)
  | AddMedication (currentMedication : jsstring) (rendered : bool)
  | RemoveMedication (medication : jsstring) (rendered : bool)
  | EnterMedication (currentMedication : jsstring)
  | ResetForm
  | Submit.

Definition withName (v : jsstring) (d : ResidentFormData.t) : ResidentFormData.t :=
  ResidentFormData.mk v (ResidentFormData.furigana d) (ResidentFormData.gender d)
    (ResidentFormData.birthDate d) (ResidentFormData.roomNumber d)
    (ResidentFormData.admissionDate d) (ResidentFormData.dischargeDate d)
    (ResidentFormData.medicalHistory d) (ResidentFormData.medications d)
    (ResidentFormData.careLevel d).

Definition withFurigana (v : jsstring) (d : ResidentFormData.t) : ResidentFormData.t :=
  ResidentFormData.mk (ResidentFormData.name d) v (ResidentFormData.gender d)
    (ResidentFormData.birthDate d) (ResidentFormData.roomNumber d)
    (ResidentFormData.admissionDate d) (ResidentFormData.dischargeDate d)
    (ResidentFormData.medicalHistory d) (ResidentFormData.medications d)
    (ResidentFormData.careLevel d).

Definition withGender (v : jsstring) (d : ResidentFormData.t) : ResidentFormData.t :=
  ResidentFormData.mk (ResidentFormData.name d) (ResidentFormData.furigana d) v
    (ResidentFormData.birthDate d) (ResidentFormData.roomNumber d)
    (ResidentFormData.admissionDate d) (ResidentFormData.dischargeDate d)
    (ResidentFormData.medicalHistory d) (ResidentFormData.medications d)
    (ResidentFormData.careLevel d).

Definition withBirthDate (v : jsstring) (d : ResidentFormData.t) : ResidentFormData.t :=
  ResidentFormData.mk (ResidentFormData.name d) (ResidentFormData.furigana d)
    (ResidentFormData.gender d) v (ResidentFormData.roomNumber d)
    (ResidentFormData.admissionDate d) (ResidentFormData.dischargeDate d)
    (ResidentFormData.medicalHistory d) (ResidentFormData.medications d)
    (ResidentFormData.careLevel d).

Definition withRoomNumber (v : jsstring) (d : ResidentFormData.t) : ResidentFormData.t :=
  ResidentFormData.mk (ResidentFormData.name d) (ResidentFormData.furigana d)
    (ResidentFormData.gender d) (ResidentFormData.birthDate d) v
    (ResidentFormData.admissionDate d) (ResidentFormData.dischargeDate d)
    (ResidentFormData.medicalHistory d) (ResidentFormData.medications d)
    (ResidentFormData.careLevel d).

Definition withAdmissionDate (v : jsstring) (d : ResidentFormData.t)
  : ResidentFormData.t :=
  ResidentFormData.mk (ResidentFormData.name d) (ResidentFormData.furigana d)
    (ResidentFormData.gender d) (ResidentFormData.birthDate d)
    (ResidentFormData.roomNumber d) v (ResidentFormData.dischargeDate d)
    (ResidentFormData.medicalHistory d) (ResidentFormData.medications d)
    (ResidentFormData.careLevel d).

Definition withDischargeDate (v : option jsstring) (d : ResidentFormData.t)
  : ResidentFormData.t :=
  ResidentFormData.mk (ResidentFormData.name d) (ResidentFormData.furigana d)
    (ResidentFormData.gender d) (ResidentFormData.birthDate d)
    (ResidentFormData.roomNumber d) (ResidentFormData.admissionDate d) v
    (ResidentFormData.medicalHistory d) (ResidentFormData.medications d)
    (ResidentFormData.careLevel d).

Definition withMedicalHistory (v : jsstring) (d : ResidentFormData.t)
  : ResidentFormData.t :=
  ResidentFormData.mk (ResidentFormData.name d) (ResidentFormData.furigana d)
    (ResidentFormData.gender d) (ResidentFormData.birthDate d)
    (ResidentFormData.roomNumber d) (ResidentFormData.admissionDate d)
    (ResidentFormData.dischargeDate d) v (ResidentFormData.medications d)
    (ResidentFormData.careLevel d).

Definition withMedications (v : list jsstring) (d : ResidentFormData.t)
  : ResidentFormData.t :=
  ResidentFormData.mk (ResidentFormData.name d) (ResidentFormData.furigana d)
    (ResidentFormData.gender d) (ResidentFormData.birthDate d)
    (ResidentFormData.roomNumber d) (ResidentFormData.admissionDate d)
    (ResidentFormData.dischargeDate d) (ResidentFormData.medicalHistory d) v
    (ResidentFormData.careLevel d).

Definition withCareLevel (v : option Z) (d : ResidentFormData.t) : ResidentFormData.t :=
  ResidentFormData.mk (ResidentFormData.name d) (ResidentFormData.furigana d)
    (ResidentFormData.gender d) (ResidentFormData.birthDate d)
    (ResidentFormData.roomNumber d) (ResidentFormData.admissionDate d)
    (ResidentFormData.dischargeDate d) (ResidentFormData.medicalHistory d)
    (ResidentFormData.medications d) v.

Definition resetForm (st : State) : State :=
  setRoomNumberError [] (setFormData (fun _ => emptyForm) st).

Definition isFormValid (st : State) : bool :=
  negb (bool_decide (trim (ResidentFormData.name (formData st)) = []))
  && negb (bool_decide (trim (ResidentFormData.furigana (formData st)) = []))
  && negb (bool_decide (ResidentFormData.birthDate (formData st) = []))
  && negb (bool_decide (trim (ResidentFormData.roomNumber (formData st)) = []))
  && negb (bool_decide (ResidentFormData.admissionDate (formData st) = []))
  && bool_decide (roomNumberError st = []).

Section WithRuntime.
Context {rt : Runtime}.

Definition handleSubmit (st : State) : UI State unit :=
  utry
    (_ <~ call (residentService.create (formData st)) ;;
     _ <~ setState (setAlert (mkAlert true (js "入所者情報を正常に登録しました") success)) ;;
     setState resetForm)
    (fun e =>
       let errorMessage := handleFirestoreError e "create" in
       setState (setAlert (mkAlert true errorMessage error))).

(** The [onClick] handlers of the two buttons of [MedicationInput], with
    the [onChange] the form passes to the component: the new list is made
    from the list of the render the handler belongs to. *)
Definition handleAddMedication (currentMedication : jsstring) (st : State)
  : UI State unit :=
  let medications :=
    (MedicationInput.handleAddMedication (ResidentFormData.medications (formData st))
       currentMedication).1 in
  setState (setFormData (fun prev => withMedications medications prev)).

Definition handleRemoveMedication (medicationToRemove : jsstring) (st : State)
  : UI State unit :=
  let medications :=
    MedicationInput.handleRemoveMedication (ResidentFormData.medications (formData st))
      medicationToRemove in
  setState (setFormData (fun prev => withMedications medications prev)).

(** The browser submits the form only when every [required] control has a
    value: the five inputs and the select of the gender (the select of the
    care level always has one). *)
Definition requiredFilled (st : State) : bool :=
  negb (bool_decide (ResidentFormData.name (formData st) = []))
  && negb (bool_decide (ResidentFormData.furigana (formData st) = []))
  && negb (bool_decide (ResidentFormData.gender (formData st) = []))
  && negb (bool_decide (ResidentFormData.birthDate (formData st) = []))
  && negb (bool_decide (ResidentFormData.roomNumber (formData st) = []))
  && negb (bool_decide (ResidentFormData.admissionDate (formData st) = [])).

(** The submission of the form as the render [view] shows it. *)
Definition submitForm (view : State) : UI State unit :=
  if requiredFilled view then handleSubmit view else uret tt.

(** A click on a submit button of the form that has the handler [onClick]:
    the handler runs, then the form is submitted, as the render it is in
    shows it. *)
Definition clickSubmitButton (onClick : State -> UI State unit) (rendered : bool)
  (st : State) : UI State unit :=
  _ <~ onClick st ;;
  changed <~ getState ;;
  submitForm (if rendered then changed else st).

(** The [onChange] handlers of the inputs and the clicks on the buttons.
    A disabled button takes no click: the button of the drug input while the
    text is blank, the button of the form while the form is not valid; a
    drug that is not listed has no button. *)
Definition onEvent (ev : Event) (st : State) : UI State unit :=
  match ev with
  | Name value => setState (setFormData (withName (convertSpacesToFullWidth value)))
  | Furigana value =>
    setState (setFormData (withFurigana (convertSpacesToFullWidth value)))
  | Gender value => setState (setFormData (withGender value))
  | BirthDate value => setState (setFormData (withBirthDate value))
  | RoomNumber value =>
    _ <~ setState (setFormData (withRoomNumber value)) ;;
    setState (setRoomNumberError (validateRoomNumber value))
  | CareLevel value => setState (setFormData (withCareLevel (Some value)))
  | AdmissionDate value => setState (setFormData (withAdmissionDate value))
  | DischargeDate value => setState (setFormData (withDischargeDate (Some value)))
  | MedicalHistory value => setState (setFormData (withMedicalHistory value))
  | AddMedication currentMedication rendered =>
    if bool_decide (trim currentMedication = []) then uret tt
    else clickSubmitButton (handleAddMedication currentMedication) rendered st
  | RemoveMedication medication rendered =>
    if bool_decide (medication ∈ ResidentFormData.medications (formData st))
    then clickSubmitButton (handleRemoveMedication medication) rendered st
    else uret tt
  | EnterMedication currentMedication => handleAddMedication currentMedication st
  | ResetForm => setState resetForm
  | Submit => if isFormValid st then submitForm st else uret tt
  end.
End WithRuntime.
End ResidentForm.

(** *** components/SearchPanel.tsx *)

Module SearchPanel.
Inductive SearchType := name | room | medication | careLevel.

#[global] Instance SearchType_eq_dec : EqDecision SearchType.
Proof. solve_decision. Defined.

Record Snackbar := mkSnackbar { open : bool; message : jsstring; severity : Severity }.

(** [deleteConfirmDialog] is given by the resident of the dialog: [None]
    when the dialog is closed. *)
Record State := mkState {
  searchType : SearchType;
  nameSearch : jsstring;
  roomSearch : jsstring;
  medicationSearch : jsstring;
  careLevelSearch : Z;
  roomNumberError : jsstring;
  searchResults : list Resident.t;
  hasSearched : bool;
  lastSearchValue : jsstring;
  deleteConfirmDialog : option Resident.t;
  snackbar : Snackbar
}.

Definition initialState : State :=
  mkState name [] [] [] 0 [] [] false [] None (mkSnackbar false [] success).

Definition setSearchType (v : SearchType) (st : State) : State :=
  mkState v (nameSearch st) (roomSearch st) (medicationSearch st) (careLevelSearch st)
    (roomNumberError st) (searchResults st) (hasSearched st) (lastSearchValue st)
    (deleteConfirmDialog st) (snackbar st).

Definition setNameSearch (v : jsstring) (st : State) : State :=
  mkState (searchType st) v (roomSearch st) (medicationSearch st) (careLevelSearch st)
    (roomNumberError st) (searchResults st) (hasSearched st) (lastSearchValue st)
    (deleteConfirmDialog st) (snackbar st).

Definition setRoomSearch (v : jsstring) (st : State) : State :=
  mkState (searchType st) (nameSearch st) v (medicationSearch st) (careLevelSearch st)
    (roomNumberError st) (searchResults st) (hasSearched st) (lastSearchValue st)
    (deleteConfirmDialog st) (snackbar st).

Definition setMedicationSearch (v : jsstring) (st : State) : State :=
  mkState (searchType st) (nameSearch st) (roomSearch st) v (careLevelSearch st)
    (roomNumberError st) (searchResults st) (hasSearched st) (lastSearchValue st)
    (deleteConfirmDialog st) (snackbar st).

Definition setCareLevelSearch (v : Z) (st : State) : State :=
  mkState (searchType st) (nameSearch st) (roomSearch st) (medicationSearch st) v
    (roomNumberError st) (searchResults st) (hasSearched st) (lastSearchValue st)
    (deleteConfirmDialog st) (snackbar st).

Definition setRoomNumberError (v : jsstring) (st : State) : State :=
  mkState (searchType st) (nameSearch st) (roomSearch st) (medicationSearch st)
    (careLevelSearch st) v (searchResults st) (hasSearched st) (lastSearchValue st)
    (deleteConfirmDialog st) (snackbar st).

Definition setSearchResults (v : list Resident.t) (st : State) : State :=
  mkState (searchType st) (nameSearch st) (roomSearch st) (medicationSearch st)
    (careLevelSearch st) (roomNumberError st) v (hasSearched st) (lastSearchValue st)
    (deleteConfirmDialog st) (snackbar st).

Definition setHasSearched (v : bool) (st : State) : State :=
  mkState (searchType st) (nameSearch st) (roomSearch st) (medicationSearch st)
    (careLevelSearch st) (roomNumberError st) (searchResults st) v (lastSearchValue st)
    (deleteConfirmDialog st) (snackbar st).

Definition setLastSearchValue (v : jsstring) (st : State) : State :=
  mkState (searchType st) (nameSearch st) (roomSearch st) (medicationSearch st)
    (careLevelSearch st) (roomNumberError st) (searchResults st) (hasSearched st) v
    (deleteConfirmDialog st) (snackbar st).

Definition setDeleteConfirmDialog (v : option Resident.t) (st : State) : State :=
  mkState (searchType st) (nameSearch st) (roomSearch st) (medicationSearch st)
    (careLevelSearch st) (roomNumberError st) (searchResults st) (hasSearched st)
    (lastSearchValue st) v (snackbar st).

Definition setSnackbar (v : Snackbar) (st : State) : State :=
  mkState (searchType st) (nameSearch st) (roomSearch st) (medicationSearch st)
    (careLevelSearch st) (roomNumberError st) (searchResults st) (hasSearched st)
    (lastSearchValue st) (deleteConfirmDialog st) v.

Definition showSnackbar (message : jsstring) (severity : Severity) : UI State unit :=
  setState (setSnackbar (mkSnackbar true message severity)).

Definition getCurrentSearchValue (st : State) : jsstring :=
  match searchType st with
  | name => nameSearch st
  | room => roomSearch st
  | medication => medicationSearch st
  | careLevel =>
    if careLevelSearch st =? 0 then []
    else js "要介護" ++ decimal (careLevelSearch st)
  end.

Definition handleSearchTypeChange (newType : SearchType) (st : State) : State :=
  setHasSearched false (setSearchResults [] (setSearchType newType st)).

Definition handleClear (st : State) : State :=
  setHasSearched false
    (setSearchResults []
       (setCareLevelSearch 0
          (setMedicationSearch []
             (setRoomSearch [] (setNameSearch [] (setSearchType name st)))))).

(** The [onChange] handlers of the four inputs. *)
Definition onNameSearchChange (value : jsstring) (st : State) : State :=
  setNameSearch (convertSpacesToFullWidth value) st.

Definition onRoomSearchChange (value : jsstring) (st : State) : State :=
  setRoomNumberError (validateRoomNumber value) (setRoomSearch value st).

Definition onMedicationSearchChange (value : jsstring) (st : State) : State :=
  setMedicationSearch value st.

Definition onCareLevelSearchChange (value : Z) (st : State) : State :=
  setCareLevelSearch value st.

Definition handleDeleteResident (resident : Resident.t) (st : State) : State :=
  setDeleteConfirmDialog (Some resident) st.

(** The search button is [disabled] for a room search while the room number
    shows an error. *)
Definition searchDisabled (st : State) : bool :=
  match searchType st with
  | room => negb (bool_decide (roomNumberError st = []))
  | _ => false
  end.

Section WithRuntime.
Context {rt : Runtime}.

Definition handleSearch (st : State) : UI State unit :=
  let searchValue := getCurrentSearchValue st in
  if bool_decide (trim searchValue = [])
     && negb (bool_decide (searchType st = careLevel))
  then uret tt
  else if bool_decide (searchType st = careLevel) && (careLevelSearch st =? 0)
  then uret tt
  else
    _ <~ setState (setHasSearched true) ;;
    _ <~ setState (setLastSearchValue searchValue) ;;
    utry
      (results <~
         match searchType st with
         | name => call (residentService.searchByName (nameSearch st))
         | room => call (residentService.getByRoomNumber (roomSearch st))
         | medication => call (residentService.getByMedication (medicationSearch st))
         | careLevel => call (residentService.getByCareLevel (careLevelSearch st))
         end ;;
       setState (setSearchResults results))
      (fun e =>
         let errorMessage := handleFirestoreError e "read" in
         _ <~ setState (setSearchResults []) ;;
         showSnackbar errorMessage error).

Definition confirmDeleteResident (st : State) : UI State unit :=
  match deleteConfirmDialog st with
  | None => uret tt
  | Some resident =>
    utry
      (_ <~ call (residentService.delete (Resident.id resident)) ;;
       _ <~ setState
              (fun prev =>
                 setSearchResults
                   (List.filter
                      (fun r => negb (bool_decide (Resident.id r = Resident.id resident)))
                      (searchResults prev)) prev) ;;
       _ <~ showSnackbar (Resident.name resident ++ js "さんの情報を削除しました") success ;;
       setState (setDeleteConfirmDialog None))
      (fun e =>
         let errorMessage := handleFirestoreError e "delete" in
         showSnackbar errorMessage error)
  end.
End WithRuntime.

(** What the user does to the panel. *)
Inductive Event :=
  | SearchTypeChange (newType : SearchType)
  | NameSearch (value : jsstring)
  | RoomSearch (value : jsstring)
  | MedicationSearch (value : jsstring)
  | CareLevelSearch (value : Z)
  | Clear.

Definition onEvent (ev : Event) (st : State) : State :=
  match ev with
  | SearchTypeChange newType => handleSearchTypeChange newType st
  | NameSearch value => onNameSearchChange value st
  | RoomSearch value => onRoomSearchChange value st
  | MedicationSearch value => onMedicationSearchChange value st
  | CareLevelSearch value => onCareLevelSearchChange value st
  | Clear => handleClear st
  end.
End SearchPanel.

(** *** components/MedicalRecordsManager.tsx *)

(** [arr.slice(start, end)] *)
Definition slice {A : Type} (start end_ : Z) (arr : list A) : list A :=
  let len := Z.of_nat (length arr) in
  let k := if start <? 0 then Z.max (len + start) 0 else Z.min start len in
  let final := if end_ <? 0 then Z.max (len + end_) 0 else Z.min end_ len in
  take (Z.to_nat (final - k)) (drop (Z.to_nat k) arr).

(** [Math.ceil(a / b)] for integers [a] and [b > 0]. *)
Definition ceilDiv (a b : Z) : Z := - ((- a) / b).

(** A form sent whole to [update]: both fields are present. *)
Definition asPartial (f : MedicalRecordFormData.t) : PartialMedicalRecordFormData.t :=
  {| PartialMedicalRecordFormData.date := Some (MedicalRecordFormData.date f);
     PartialMedicalRecordFormData.record := Some (MedicalRecordFormData.record f) |}.

Module MedicalRecordsManager.
Definition RECORDS_PER_PAGE : Z := 10.

Record Snackbar := mkSnackbar { open : bool; message : jsstring; severity : Severity }.

(** [dialogOpen] is the field [open] of the dialog's state. *)
Record DeleteConfirmDialog := mkDeleteConfirmDialog {
  dialogOpen : bool;
  recordId : jsstring;
  recordDate : jsstring
}.

Record State := mkState {
  medicalRecords : list MedicalRecord.t;
  currentPage : Z;
  recordDialogOpen : bool;
  editingRecord : option MedicalRecord.t;
  recordForm : MedicalRecordFormData.t;
  snackbar : Snackbar;
  deleteConfirmDialog : DeleteConfirmDialog
}.

Definition setMedicalRecords (v : list MedicalRecord.t) (st : State) : State :=
  mkState v (currentPage st) (recordDialogOpen st) (editingRecord st) (recordForm st)
    (snackbar st) (deleteConfirmDialog st).

Definition setCurrentPage (v : Z) (st : State) : State :=
  mkState (medicalRecords st) v (recordDialogOpen st) (editingRecord st) (recordForm st)
    (snackbar st) (deleteConfirmDialog st).

Definition setRecordDialogOpen (v : bool) (st : State) : State :=
  mkState (medicalRecords st) (currentPage st) v (editingRecord st) (recordForm st)
    (snackbar st) (deleteConfirmDialog st).

Definition setEditingRecord (v : option MedicalRecord.t) (st : State) : State :=
  mkState (medicalRecords st) (currentPage st) (recordDialogOpen st) v (recordForm st)
    (snackbar st) (deleteConfirmDialog st).

Definition setRecordForm (f : MedicalRecordFormData.t -> MedicalRecordFormData.t)
  (st : State) : State :=
  mkState (medicalRecords st) (currentPage st) (recordDialogOpen st) (editingRecord st)
    (f (recordForm st)) (snackbar st) (deleteConfirmDialog st).

Definition setSnackbar (v : Snackbar) (st : State) : State :=
  mkState (medicalRecords st) (currentPage st) (recordDialogOpen st) (editingRecord st)
    (recordForm st) v (deleteConfirmDialog st).

Definition setDeleteConfirmDialog (v : DeleteConfirmDialog) (st : State) : State :=
  mkState (medicalRecords st) (currentPage st) (recordDialogOpen st) (editingRecord st)
    (recordForm st) (snackbar st) v.

Definition showSnackbar (message : jsstring) (severity : Severity) : UI State unit :=
  setState (setSnackbar (mkSnackbar true message severity)).

(** ペジネーション計算 *)
Definition totalPages (st : State) : Z :=
  ceilDiv (Z.of_nat (length (medicalRecords st))) RECORDS_PER_PAGE.

Definition startIndex (st : State) : Z := (currentPage st - 1) * RECORDS_PER_PAGE.

Definition endIndex (st : State) : Z := startIndex st + RECORDS_PER_PAGE.

Definition currentRecords (st : State) : list MedicalRecord.t :=
  slice (startIndex st) (endIndex st) (medicalRecords st).

Definition handlePageChange (page : Z) (st : State) : State := setCurrentPage page st.

(** The four buttons of the pager.  They are rendered when there is more
    than one page; 最初 and 前へ are [disabled] on the first page, 次へ and 最後
    on the last. *)
Inductive PagerButton := first | previous | next | last.

Definition clickPager (b : PagerButton) (st : State) : State :=
  if totalPages st >? 1 then
    match b with
    | first => if currentPage st =? 1 then st else handlePageChange 1 st
    | previous =>
      if currentPage st =? 1 then st else handlePageChange (currentPage st - 1) st
    | next =>
      if currentPage st =? totalPages st then st
      else handlePageChange (currentPage st + 1) st
    | last =>
      if currentPage st =? totalPages st then st
      else handlePageChange (totalPages st) st
    end
  else st.

Section WithRuntime.
Context {rt : Runtime}.

(** [error.message] for what the services throw: the text given to
    [new Error], or the text the store's client or the engine gives its
    own errors. *)
Context (clientMessage : Err -> jsstring).

Definition messageOf (e : Err) : jsstring :=
  match e with
  | Error message => message
  | _ => clientMessage e
  end.

Definition loadMedicalRecords (resident : Resident.t) : UI State unit :=
  utry
    (records <~ call (medicalRecordService.getByResidentId (Resident.id resident)) ;;
     _ <~ setState (setMedicalRecords records) ;;
     setState (setCurrentPage 1))
    (fun _ => showSnackbar (js "診療録の読み込みに失敗しました") error).

Definition handleAddRecord (st : State) : UI State unit :=
  _ <~ setState (setEditingRecord None) ;;
  today <~ dayjsNow ;;
  _ <~ setState (setRecordForm
                   (fun _ => MedicalRecordFormData.mk (format_YYYY_MM_DD today) [])) ;;
  setState (setRecordDialogOpen true).

Definition handleEditRecord (record : MedicalRecord.t) (st : State) : UI State unit :=
  _ <~ setState (setEditingRecord (Some record)) ;;
  _ <~ setState (setRecordForm
                   (fun _ =>
                      MedicalRecordFormData.mk
                        (format_YYYY_MM_DD (MedicalRecord.date record))
                        (MedicalRecord.record record))) ;;
  setState (setRecordDialogOpen true).

Definition handleDeleteRecord (record : MedicalRecord.t) (st : State) : UI State unit :=
  setState (setDeleteConfirmDialog
              (mkDeleteConfirmDialog true (MedicalRecord.id record)
                 (format_YYYY_nen_MM_gatsu_DD_nichi (MedicalRecord.date record)))).

Definition handleRecordDateChange (dateString : jsstring) (st : State) : UI State unit :=
  setState (setRecordForm
              (fun prev => MedicalRecordFormData.mk dateString
                             (MedicalRecordFormData.record prev))).

(** The [onChange] of the text area. *)
Definition onRecordChange (value : jsstring) (st : State) : UI State unit :=
  setState (setRecordForm
              (fun prev => MedicalRecordFormData.mk (MedicalRecordFormData.date prev)
                             value)).

Definition confirmDeleteRecord (resident : Resident.t) (st : State) : UI State unit :=
  utry
    (_ <~ call (medicalRecordService.delete (recordId (deleteConfirmDialog st))) ;;
     _ <~ loadMedicalRecords resident ;;
     _ <~ showSnackbar (js "診療録を削除しました") success ;;
     setState (setDeleteConfirmDialog (mkDeleteConfirmDialog false [] [])))
    (fun _ => showSnackbar (js "削除に失敗しました") error).

Definition handleRecordSubmit (resident : Resident.t) (st : State) : UI State unit :=
  if bool_decide (trim (MedicalRecordFormData.record (recordForm st)) = [])
  then uret tt
  else
    utry
      (_ <~ match editingRecord st with
            | Some editing =>
              _ <~ call (medicalRecordService.update (MedicalRecord.id editing)
                           (asPartial (recordForm st))) ;;
              showSnackbar (js "診療録を更新しました") success
            | None =>
              _ <~ call (medicalRecordService.create (Resident.id resident)
                           (recordForm st)) ;;
              showSnackbar (js "診療録を登録しました") success
            end ;;
       _ <~ loadMedicalRecords resident ;;
       setState (setRecordDialogOpen false))
      (fun e =>
         let errorMessage := messageOf e in
         showSnackbar errorMessage error).
End WithRuntime.
End MedicalRecordsManager.

(** *** components/ResidentDetail.tsx *)

Module ResidentDetail.
Record Alert := mkAlert { show : bool; message : jsstring; type : Severity }.

Record State := mkState {
  medicalRecords : list MedicalRecord.t;
  recordDialogOpen : bool;
  editingRecord : option MedicalRecord.t;
  recordForm : MedicalRecordFormData.t;
  alert : Alert
}.

Definition setMedicalRecords (v : list MedicalRecord.t) (st : State) : State :=
  mkState v (recordDialogOpen st) (editingRecord st) (recordForm st) (alert st).

Definition setRecordDialogOpen (v : bool) (st : State) : State :=
  mkState (medicalRecords st) v (editingRecord st) (recordForm st) (alert st).

Definition setEditingRecord (v : option MedicalRecord.t) (st : State) : State :=
  mkState (medicalRecords st) (recordDialogOpen st) v (recordForm st) (alert st).

Definition setRecordForm (f : MedicalRecordFormData.t -> MedicalRecordFormData.t)
  (st : State) : State :=
  mkState (medicalRecords st) (recordDialogOpen st) (editingRecord st)
    (f (recordForm st)) (alert st).

Definition setAlert (v : Alert) (st : State) : State :=
  mkState (medicalRecords st) (recordDialogOpen st) (editingRecord st) (recordForm st) v.

Section WithRuntime.
Context {rt : Runtime}.

Definition loadMedicalRecords (resident : Resident.t) : UI State unit :=
  utry
    (records <~ call (medicalRecordService.getByResidentId (Resident.id resident)) ;;
     setState (setMedicalRecords records))
    (fun e =>
       let errorMessage := handleFirestoreError e "load" in
       setState (setAlert (mkAlert true errorMessage error))).

Definition handleEditRecord (record : MedicalRecord.t) (st : State) : UI State unit :=
  _ <~ setState (setEditingRecord (Some record)) ;;
  _ <~ setState (setRecordForm
                   (fun _ =>
                      MedicalRecordFormData.mk
                        (format_YYYY_MM_DD (MedicalRecord.date record))
                        (MedicalRecord.record record))) ;;
  setState (setRecordDialogOpen true).

Definition handleRecordSubmit (resident : Resident.t) (st : State) : UI State unit :=
  if bool_decide (trim (MedicalRecordFormData.record (recordForm st)) = [])
  then uret tt
  else
    utry
      (_ <~ match editingRecord st with
            | Some editing =>
              call (medicalRecordService.update (MedicalRecord.id editing)
                      (asPartial (recordForm st)))
            | None =>
              _ <~ call (medicalRecordService.create (Resident.id resident)
                           (recordForm st)) ;;
              uret tt
            end ;;
       _ <~ loadMedicalRecords resident ;;
       _ <~ setState (setRecordDialogOpen false) ;;
       setState
         (setAlert
            (mkAlert true
               (if editingRecord st is Some _
                then js "診療録を更新しました" else js "診療録を追加しました")
               success)))
      (fun e =>
         let operation := if editingRecord st is Some _ then "update" else "create" in
         let errorMessage := handleFirestoreError e operation in
         setState (setAlert (mkAlert true errorMessage error))).
End WithRuntime.
End ResidentDetail.

(** ** Auxiliary definitions for the reads and the life cycle of a document *)

(** The residents a query on the collection of residents is read into. *)
Definition residentsOf {rt : Runtime} (q : Query) (w : World) : list Resident.t :=
  map (fun doc : DocId * gmap string Value => convertResidentData doc.1 doc.2)
    (runQuery q (docsOf w COLLECTIONS_RESIDENTS)).

(** The three queries behind the exact-match searches. *)
Definition roomQuery (roomNumber : jsstring) : Query :=
  query (collection COLLECTIONS_RESIDENTS) [where_ "roomNumber" OpEq (VStr roomNumber)].

Definition careLevelQuery (careLevel : Z) : Query :=
  query (collection COLLECTIONS_RESIDENTS)
    [where_ "careLevel" OpEq (VNum careLevel); orderBy "name"].

Definition medicationQuery (searchTerm : jsstring) : Query :=
  query (collection COLLECTIONS_RESIDENTS)
    [where_ "medications" OpArrayContains (VStr searchTerm); orderBy "name"].

Definition allQuery : Query :=
  query (collection COLLECTIONS_RESIDENTS) [orderBy "name"].

(** [a] is dated, and [b] is dated no later than [a]. *)
Definition notOlder (a b : MedicalRecord.t) : Prop :=
  exists ta tb, MedicalRecord.date a = Some ta /\ MedicalRecord.date b = Some tb
                /\ tb <= ta.

(** Every record of the resident carries the timestamp of a valid date. *)
Definition recordsValidlyDated (w : World) (residentId : DocId) : Prop :=
  forall id (d : gmap string Value),
    docsOf w COLLECTIONS_MEDICAL_RECORDS !! id = Some d ->
    d !! "residentId" = Some (VStr residentId) ->
    exists t, d !! "date" = Some (VTime (Some t)).

(** The records of a result, or none when the call threw. *)
Definition recordsIn (r : Result (list MedicalRecord.t)) : list MedicalRecord.t :=
  match r with
  | Ok rs => rs
  | Throw _ => []
  end.

(** The value a string has a given prefix from: [Some rest] when the code
    points of [v] are those of [q] followed by [rest]. *)
Fixpoint stripPrefix (q v : list Z) : option (list Z) :=
  match q, v with
  | [], _ => Some v
  | _ :: _, [] => None
  | x :: q', y :: v' => if x =? y then stripPrefix q' v' else None
  end.

(** What may follow the term in a value a range sub-query of
    [searchByName] returns: nothing, a code point below U+F8FF and then
    anything, or U+F8FF alone. *)
Definition withinRange (rest : list Z) : bool :=
  match rest with
  | [] => true
  | c :: rest' => (c <? 0xf8ff) || ((c =? 0xf8ff) && bool_decide (rest' = []))
  end.

Definition prefixMatch (q v : jsstring) : bool :=
  match stripPrefix (codePoints q) (codePoints v) with
  | Some rest => withinRange rest
  | None => false
  end.

(** The date strings of a form that [create] turns into timestamps, in the
    order of their fields: the birth date, the admission date and, when it
    is given and not empty, the discharge date. *)
Definition datesOf (data : ResidentFormData.t) : list jsstring :=
  ResidentFormData.birthDate data :: ResidentFormData.admissionDate data
  :: match ResidentFormData.dischargeDate data with
     | Some (c :: s) => [c :: s]
     | _ => []
     end.

(** A form sent without a care level. *)
Definition yamadaNoLevel : ResidentFormData.t :=
  {| ResidentFormData.name := js "山田 太郎";
     ResidentFormData.furigana := js "ヤマダ タロウ";
     ResidentFormData.gender := js "男性";
     ResidentFormData.birthDate := js "1940-05-01";
     ResidentFormData.roomNumber := js "101";
     ResidentFormData.admissionDate := js "2023-04-01";
     ResidentFormData.dischargeDate := None;
     ResidentFormData.medicalHistory := js "高血圧";
     ResidentFormData.medications := [js "アムロジピン"];
     ResidentFormData.careLevel := None |}.

(** ** Auxiliary definitions for the components *)

(** A string that does not start with white space. *)
Definition noLead (s : jsstring) : Prop :=
  match s with
  | [] => True
  | c :: _ => isWhiteSpace c = false
  end.

(** A reading entered in hiragana: hiragana letters and spaces only. *)
Definition hiraganaReading (s : jsstring) : Prop :=
  Forall (fun c => inClass 0x3041 0x3096 c = true \/ c = SPACE) s.

(** A drug name as [MedicationInput] adds it: not empty, and without white
    space around it. *)
Definition trimmedName (m : jsstring) : Prop := m <> [] /\ trim m = m.

(** The state of the form after a sequence of events, from the state the
    component is mounted in and a given world, and the state of the panel
    after a sequence of input events. *)
Definition formStep {rt : Runtime} (sw : ResidentForm.State * World)
  (ev : ResidentForm.Event) : ResidentForm.State * World :=
  (stateAfter (ResidentForm.onEvent ev) sw.1 sw.2,
   worldAfter (ResidentForm.onEvent ev) sw.1 sw.2).

Definition formAfter {rt : Runtime} (evs : list ResidentForm.Event) (w : World)
  : ResidentForm.State :=
  (foldl formStep (ResidentForm.initialState, w) evs).1.

Definition panelAfter (evs : list SearchPanel.Event) : SearchPanel.State :=
  foldl (fun st ev => SearchPanel.onEvent ev st) SearchPanel.initialState evs.

(** What holds of every state of the form. *)
Definition formInvariant (st : ResidentForm.State) : Prop :=
  let d := ResidentForm.formData st in
  (SPACE ∉ ResidentFormData.name d)
  /\ (SPACE ∉ ResidentFormData.furigana d)
  /\ NoDup (ResidentFormData.medications d)
  /\ Forall trimmedName (ResidentFormData.medications d)
  /\ is_Some (ResidentFormData.careLevel d)
  /\ is_Some (ResidentFormData.dischargeDate d)
  /\ (ResidentForm.roomNumberError st = [] ->
      ResidentFormData.roomNumber d = []
      \/ isDigits (ResidentFormData.roomNumber d) = true).

(** What holds of every state of the search panel. *)
Definition panelInvariant (st : SearchPanel.State) : Prop :=
  (SPACE ∉ SearchPanel.nameSearch st)
  /\ (SearchPanel.roomNumberError st = [] ->
      SearchPanel.roomSearch st = [] \/ isDigits (SearchPanel.roomSearch st) = true).

(** The call [handleSearch] makes for the search type of the state. *)
Definition searchCall {rt : Runtime} (st : SearchPanel.State) : M (list Resident.t) :=
  match SearchPanel.searchType st with
  | SearchPanel.name => residentService.searchByName (SearchPanel.nameSearch st)
  | SearchPanel.room => residentService.getByRoomNumber (SearchPanel.roomSearch st)
  | SearchPanel.medication =>
    residentService.getByMedication (SearchPanel.medicationSearch st)
  | SearchPanel.careLevel =>
    residentService.getByCareLevel (SearchPanel.careLevelSearch st)
  end.

(** The pages of the pager, first to last. *)
Definition pageNumbers (st : MedicalRecordsManager.State) : list Z :=
  map (fun i => Z.of_nat i + 1)
    (seq 0 (Z.to_nat (MedicalRecordsManager.totalPages st))).

Definition pageOf (st : MedicalRecordsManager.State) (page : Z) : list MedicalRecord.t :=
  MedicalRecordsManager.currentRecords (MedicalRecordsManager.setCurrentPage page st).

(** The current page is one of the pages (the first when there is none). *)
Definition pageInRange (st : MedicalRecordsManager.State) : Prop :=
  1 <= MedicalRecordsManager.currentPage st
  <= Z.max 1 (MedicalRecordsManager.totalPages st).

(** Example states. *)

Definition noSnackbar : MedicalRecordsManager.Snackbar :=
  MedicalRecordsManager.mkSnackbar false [] success.

(** The records dialog of resident [r1], as mounted. *)
Definition managerMounted : MedicalRecordsManager.State :=
  MedicalRecordsManager.mkState [] 1 false None (MedicalRecordFormData.mk [] [])
    noSnackbar (MedicalRecordsManager.mkDeleteConfirmDialog false [] []).

Definition detailMounted : ResidentDetail.State :=
  ResidentDetail.mkState [] false None (MedicalRecordFormData.mk [] [])
    (ResidentDetail.mkAlert false [] success).



(** Resident [r1] as the components receive it. *)
Definition residentR1 : Resident.t :=
  {| Resident.id := js "r1";
     Resident.name := js "山田　太郎";
     Resident.furigana := js "ヤマダ　タロウ";
     Resident.lastName := js "山田　太郎";
     Resident.firstName := [];
     Resident.lastNameKana := js "ヤマダ　タロウ";
     Resident.firstNameKana := [];
     Resident.gender := Some (VStr (js "男性"));
     Resident.birthDate := Some (-936316800000);
     Resident.roomNumber := js "101";
     Resident.admissionDate := Some 1680307200000;
     Resident.dischargeDate := None;
     Resident.medicalHistory := [];
     Resident.medications := [];
     Resident.careLevel := Some (VNum 3);
     Resident.createdAt := Some 1710000000000;
     Resident.updatedAt := Some 1710000000000 |}.

(** The text the client's own errors carry, in the examples. *)
Definition sampleClientMessage (e : Err) : jsstring :=
  match e with
  | FirestoreError code => js "FirebaseError: " ++ js code
  | Error message => message
  | TypeError => js "TypeError"
  | RangeError => js "RangeError"
  end.

(** The record [rec1] of {!worldWithNote}, as [getByResidentId] reads it. *)
Definition rec1 : MedicalRecord.t :=
  {| MedicalRecord.id := js "rec1";
     MedicalRecord.residentId := js "r1";
     MedicalRecord.date := Some 1710028800000;
     MedicalRecord.record := js "著変なし";
     MedicalRecord.createdAt := Some 1710000000000;
     MedicalRecord.updatedAt := Some 1710000000000 |}.

(* ===================================================================== *)
(** * Part II. Lemmas and theorems *)
(* ===================================================================== *)

(** ** The script normalizer *)

Lemma inClass_spec lo hi c : inClass lo hi c = true <-> lo <= c <= hi.
Proof. unfold inClass. rewrite andb_true_iff, !Z.leb_le. tauto. Qed.

Lemma inClass_false lo hi c : inClass lo hi c = false <-> c < lo \/ hi < c.
Proof.
  unfold inClass. rewrite andb_false_iff, !Z.leb_gt. tauto.
Qed.

Lemma flat_map_unit {A B} (g : A -> B) (f : A -> list B) (l : list A) :
  (forall x, f x = [g x]) -> flat_map f l = map g l.
Proof.
  intros Hf. induction l as [|x l IH]; [done|].
  cbn [flat_map map]. by rewrite Hf, IH.
Qed.

Lemma convertHiraganaToKatakana_map s :
  residentService.convertHiraganaToKatakana s = map kataUnit s.
Proof.
  apply flat_map_unit. intros c. unfold kataUnit.
  by destruct (inClass _ _ c).
Qed.

Lemma convertKatakanaToHiragana_map s :
  residentService.convertKatakanaToHiragana s = map hiraUnit s.
Proof.
  apply flat_map_unit. intros c. unfold hiraUnit.
  by destruct (inClass _ _ c).
Qed.

Lemma kataUnit_range c : 0x3041 <= c <= 0x3096 -> kataUnit c = c + 0x60.
Proof.
  intros Hc. unfold kataUnit.
  rewrite (proj2 (inClass_spec _ _ _) Hc). apply Z.mod_small. lia.
Qed.

Lemma hiraUnit_range c : 0x30a1 <= c <= 0x30f6 -> hiraUnit c = c - 0x60.
Proof.
  intros Hc. unfold hiraUnit.
  rewrite (proj2 (inClass_spec _ _ _) Hc). apply Z.mod_small. lia.
Qed.

Lemma kataUnit_other c : ~ 0x3041 <= c <= 0x3096 -> kataUnit c = c.
Proof.
  intros Hc. unfold kataUnit.
  destruct (inClass _ _ c) eqn:E; [|done]. apply inClass_spec in E. tauto.
Qed.

Lemma hiraUnit_other c : ~ 0x30a1 <= c <= 0x30f6 -> hiraUnit c = c.
Proof.
  intros Hc. unfold hiraUnit.
  destruct (inClass _ _ c) eqn:E; [|done]. apply inClass_spec in E. tauto.
Qed.

(** The output of each function has no code unit of its source class. *)
Lemma kataUnit_not_source c : ~ 0x3041 <= kataUnit c <= 0x3096.
Proof.
  destruct (decide (0x3041 <= c <= 0x3096)) as [Hc|Hc].
  - rewrite kataUnit_range by done. lia.
  - by rewrite kataUnit_other.
Qed.

Lemma hiraUnit_not_source c : ~ 0x30a1 <= hiraUnit c <= 0x30f6.
Proof.
  destruct (decide (0x30a1 <= c <= 0x30f6)) as [Hc|Hc].
  - rewrite hiraUnit_range by done. lia.
  - by rewrite hiraUnit_other.
Qed.

Lemma hira_kata_unit c : ~ 0x30a1 <= c <= 0x30f6 -> hiraUnit (kataUnit c) = c.
Proof.
  intros Hc. destruct (decide (0x3041 <= c <= 0x3096)) as [Hh|Hh].
  - rewrite kataUnit_range by done. rewrite hiraUnit_range by lia. lia.
  - rewrite kataUnit_other by done. by apply hiraUnit_other.
Qed.

Lemma kata_hira_unit c : ~ 0x3041 <= c <= 0x3096 -> kataUnit (hiraUnit c) = c.
Proof.
  intros Hc. destruct (decide (0x30a1 <= c <= 0x30f6)) as [Hh|Hh].
  - rewrite hiraUnit_range by done. rewrite kataUnit_range by lia. lia.
  - rewrite hiraUnit_other by done. by apply kataUnit_other.
Qed.

Lemma map_id_on {A} (f : A -> A) (P : A -> Prop) (l : list A) :
  (forall x, P x -> f x = x) -> Forall P l -> map f l = l.
Proof.
  intros Hf. induction 1 as [|x l Hx _ IH]; simpl; [done|].
  by rewrite Hf, IH.
Qed.

(** C4. A string of characters of the Hiragana block is restored by
    converting it to katakana and back, a string of characters of the
    Katakana block by converting it to hiragana and back (more generally,
    any string free of the code units U+30A1 to U+30F6, respectively
    U+3041 to U+3096, is restored); both functions are defined on every
    string, keep its length and leave in place every character that lies
    outside both blocks. *)
Theorem normalizer_round_trip :
  (forall s, Forall (fun c => inHiraganaBlock c = true) s ->
     residentService.convertKatakanaToHiragana
       (residentService.convertHiraganaToKatakana s) = s)
  /\ (forall s, Forall (fun c => inKatakanaBlock c = true) s ->
        residentService.convertHiraganaToKatakana
          (residentService.convertKatakanaToHiragana s) = s)
  /\ (forall s, Forall (fun c => inClass 0x30a1 0x30f6 c = false) s ->
        residentService.convertKatakanaToHiragana
          (residentService.convertHiraganaToKatakana s) = s)
  /\ (forall s, Forall (fun c => inClass 0x3041 0x3096 c = false) s ->
        residentService.convertHiraganaToKatakana
          (residentService.convertKatakanaToHiragana s) = s)
  /\ (forall s, length (residentService.convertHiraganaToKatakana s) = length s
                /\ length (residentService.convertKatakanaToHiragana s) = length s)
  /\ (forall s (i : nat) c, s !! i = Some c ->
        inHiraganaBlock c = false -> inKatakanaBlock c = false ->
        residentService.convertHiraganaToKatakana s !! i = Some c
        /\ residentService.convertKatakanaToHiragana s !! i = Some c).
Proof.
  assert (Hhk : forall s, Forall (fun c => inClass 0x30a1 0x30f6 c = false) s ->
            residentService.convertKatakanaToHiragana
              (residentService.convertHiraganaToKatakana s) = s).
  { intros s Hs.
    rewrite convertHiraganaToKatakana_map, convertKatakanaToHiragana_map, map_map.
    eapply map_id_on; [|exact Hs].
    intros c Hc. simpl in Hc. apply inClass_false in Hc.
    apply hira_kata_unit. lia. }
  assert (Hkh : forall s, Forall (fun c => inClass 0x3041 0x3096 c = false) s ->
            residentService.convertHiraganaToKatakana
              (residentService.convertKatakanaToHiragana s) = s).
  { intros s Hs.
    rewrite convertHiraganaToKatakana_map, convertKatakanaToHiragana_map, map_map.
    eapply map_id_on; [|exact Hs].
    intros c Hc. simpl in Hc. apply inClass_false in Hc.
    apply kata_hira_unit. lia. }
  split; [|split; [|split; [exact Hhk|split; [exact Hkh|split]]]].
  - intros s Hs. apply Hhk. eapply Forall_impl; [exact Hs|].
    intros c Hc. simpl in *. apply inClass_spec in Hc. apply inClass_false. lia.
  - intros s Hs. apply Hkh. eapply Forall_impl; [exact Hs|].
    intros c Hc. simpl in *. apply inClass_spec in Hc. apply inClass_false. lia.
  - intros s. split.
    + rewrite convertHiraganaToKatakana_map. apply length_map.
    + rewrite convertKatakanaToHiragana_map. apply length_map.
  - intros s i c Hi Hh Hk. split.
    + rewrite convertHiraganaToKatakana_map, list_lookup_fmap, Hi. simpl.
      f_equal. apply kataUnit_other. apply inClass_false in Hh. lia.
    + rewrite convertKatakanaToHiragana_map, list_lookup_fmap, Hi. simpl.
      f_equal. apply hiraUnit_other. apply inClass_false in Hk. lia.
Qed.

Lemma normalizer_round_trip_witness :
  residentService.convertKatakanaToHiragana
    (residentService.convertHiraganaToKatakana (js "たなか")) = js "たなか"
  /\ residentService.convertHiraganaToKatakana
       (residentService.convertKatakanaToHiragana (js "タナカ")) = js "タナカ"
  /\ residentService.convertHiraganaToKatakana (js "田中 A") !! 1%nat = Some 0x4e2d.
Proof.
  destruct normalizer_round_trip as (Hh & Hk & _ & _ & _ & Ho).
  split; [|split].
  - apply Hh. repeat constructor.
  - apply Hk. repeat constructor.
  - apply (Ho (js "田中 A") 1%nat 0x4e2d); reflexivity.
Defined.

(** C10. Each normalizer is idempotent on every string: its output holds no
    code unit of its own source class, so a second pass changes nothing. *)
Theorem normalizer_idempotent :
  forall s,
    residentService.convertHiraganaToKatakana (residentService.convertHiraganaToKatakana s) = residentService.convertHiraganaToKatakana s
    /\ residentService.convertKatakanaToHiragana (residentService.convertKatakanaToHiragana s) = residentService.convertKatakanaToHiragana s
    /\ Forall (fun c => inClass 0x3041 0x3096 c = false) (residentService.convertHiraganaToKatakana s)
    /\ Forall (fun c => inClass 0x30a1 0x30f6 c = false) (residentService.convertKatakanaToHiragana s).
Proof.
  intros s.
  assert (Hk : Forall (fun c => inClass 0x3041 0x3096 c = false)
                 (residentService.convertHiraganaToKatakana s)).
  { rewrite convertHiraganaToKatakana_map. apply Forall_map, Forall_forall.
    intros c _. simpl. destruct (inClass _ _ (kataUnit c)) eqn:E; [|done].
    apply inClass_spec in E. by apply kataUnit_not_source in E. }
  assert (Hh : Forall (fun c => inClass 0x30a1 0x30f6 c = false)
                 (residentService.convertKatakanaToHiragana s)).
  { rewrite convertKatakanaToHiragana_map. apply Forall_map, Forall_forall.
    intros c _. simpl. destruct (inClass _ _ (hiraUnit c)) eqn:E; [|done].
    apply inClass_spec in E. by apply hiraUnit_not_source in E. }
  repeat split; try done.
  - rewrite (convertHiraganaToKatakana_map (residentService.convertHiraganaToKatakana s)).
    eapply map_id_on; [|exact Hk].
    intros c Hc. simpl in Hc. unfold kataUnit. by rewrite Hc.
  - rewrite (convertKatakanaToHiragana_map (residentService.convertKatakanaToHiragana s)).
    eapply map_id_on; [|exact Hh].
    intros c Hc. simpl in Hc. unfold hiraUnit. by rewrite Hc.
Qed.

(** ** Strings: [trim] and [split] *)

Lemma trimStart_blank s : blank s -> trimStart s = [].
Proof.
  induction 1 as [|c s Hc _ IH]; simpl; [done|]. by rewrite Hc.
Qed.

Lemma trimStart_nil_blank s : trimStart s = [] -> blank s.
Proof.
  induction s as [|c s IH]; simpl; [constructor|].
  destruct (isWhiteSpace c) eqn:E; [|done].
  intros Hs. apply Forall_cons_2; [exact E|exact (IH Hs)].
Qed.

Lemma trimStart_head s c s' : trimStart s = c :: s' -> isWhiteSpace c = false.
Proof.
  induction s as [|x s IH]; simpl; [done|].
  destruct (isWhiteSpace x) eqn:E; [done|]. by intros [= <- _].
Qed.

Lemma blank_rev s : blank s -> blank (rev s).
Proof. apply List.Forall_rev. Qed.

(** [trim] leaves nothing exactly when the string is blank. *)
Lemma trim_nil_iff s : trim s = [] <-> blank s.
Proof.
  unfold trim, trimEnd. split.
  - intros Ht.
    assert (Hr : trimStart (rev (trimStart s)) = []).
    { apply (f_equal (@rev Z)) in Ht. by rewrite rev_involutive in Ht. }
    apply trimStart_nil_blank, blank_rev in Hr. rewrite rev_involutive in Hr.
    destruct (trimStart s) as [|c s'] eqn:E.
    + by apply trimStart_nil_blank.
    + apply trimStart_head in E. inversion Hr; subst. congruence.
  - intros Hs. by rewrite (trimStart_blank s Hs).
Qed.

Lemma split_not_nil sep s : split sep s <> [].
Proof.
  induction s as [|c s IH]; simpl; [done|].
  destruct (c =? sep); [done|]. by destruct (split sep s).
Qed.

(** The first piece is what precedes the first separator; the second piece
    is what lies between the first separator and the next one. *)
Lemma split_first sep s : partOrEmpty (split sep s) 0 = beforeSep sep s.
Proof.
  unfold partOrEmpty. induction s as [|c s IH]; simpl; [done|].
  destruct (c =? sep); [done|].
  destruct (split sep s) as [|p ps] eqn:E; [by apply split_not_nil in E|].
  simpl in *. by rewrite IH.
Qed.

Lemma split_second sep s :
  partOrEmpty (split sep s) 1 = beforeSep sep (afterSep sep s).
Proof.
  induction s as [|c s IH]; simpl; [done|].
  destruct (c =? sep).
  - apply (split_first sep s).
  - destruct (split sep s) as [|p ps] eqn:E; [by apply split_not_nil in E|].
    exact IH.
Qed.

Lemma beforeSep_no_sep sep s : sep ∉ s -> beforeSep sep s = s.
Proof.
  induction s as [|c s IH]; simpl; [done|].
  rewrite not_elem_of_cons. intros [Hc Hs].
  destruct (Z.eqb_spec c sep); [congruence|]. by rewrite IH.
Qed.

Lemma afterSep_no_sep sep s : sep ∉ s -> afterSep sep s = [].
Proof.
  induction s as [|c s IH]; simpl; [done|].
  rewrite not_elem_of_cons. intros [Hc Hs].
  destruct (Z.eqb_spec c sep); [congruence|]. by apply IH.
Qed.

Lemma beforeSep_app sep a b : sep ∉ a -> beforeSep sep (a ++ sep :: b) = a.
Proof.
  induction a as [|c a IH]; simpl.
  - by rewrite Z.eqb_refl.
  - rewrite not_elem_of_cons. intros [Hc Ha].
    destruct (Z.eqb_spec c sep); [congruence|]. by rewrite IH.
Qed.

Lemma afterSep_app sep a b : sep ∉ a -> afterSep sep (a ++ sep :: b) = b.
Proof.
  induction a as [|c a IH]; simpl.
  - by rewrite Z.eqb_refl.
  - rewrite not_elem_of_cons. intros [Hc Ha].
    destruct (Z.eqb_spec c sep); [congruence|]. by apply IH.
Qed.

(** ** The world and the storage calls *)

Lemma docsOf_afterCall c w coll : docsOf (afterCall c w) coll = docsOf w coll.
Proof. reflexivity. Qed.

Lemma docsOf_setIssued n w coll : docsOf (setIssued n w) coll = docsOf w coll.
Proof. reflexivity. Qed.

Lemma docsOf_setDocs coll c w : docsOf (setDocs coll c w) coll = c.
Proof. unfold docsOf, setDocs. simpl. by rewrite lookup_insert_eq. Qed.

Lemma docsOf_setDocs_ne coll coll' c w :
  coll <> coll' -> docsOf (setDocs coll c w) coll' = docsOf w coll'.
Proof. intros Hne. unfold docsOf, setDocs. simpl. by rewrite lookup_insert_ne. Qed.

Lemma getDocs_served q w :
  nextFault w = None ->
  getDocs q w = (Ok (runQuery q (docsOf w (q_collection q))), afterCall (CGetDocs q) w).
Proof. intros Hf. unfold getDocs, storageCall. by rewrite Hf. Qed.

Lemma getDocs_failed q w e :
  nextFault w = Some e -> getDocs q w = (Throw e, afterCall (CGetDocs q) w).
Proof. intros Hf. unfold getDocs, storageCall. by rewrite Hf. Qed.

(** ** Timestamps *)

Lemma Timestamp_fromMillis_ok t :
  inTimestampRange t -> Timestamp_fromMillis t = Ok (VTime (Some t)).
Proof.
  unfold inTimestampRange, Timestamp_fromMillis, MIN_SECONDS, MAX_SECONDS. intros Ht.
  pose proof (Z.div_mod t 1000 ltac:(lia)) as Hdm.
  pose proof (Z.mod_pos_bound t 1000 ltac:(lia)) as Hm.
  destruct (Z.ltb_spec (t / 1000) (-62135596800)); [lia|].
  destruct (Z.leb_spec 253402300800 (t / 1000)); [lia|]. reflexivity.
Qed.

Lemma Timestamp_fromMillis_refused t :
  ~ inTimestampRange t ->
  Timestamp_fromMillis t = Throw (FirestoreError "invalid-argument").
Proof.
  unfold inTimestampRange, Timestamp_fromMillis, MIN_SECONDS, MAX_SECONDS. intros Ht.
  pose proof (Z.div_mod t 1000 ltac:(lia)) as Hdm.
  pose proof (Z.mod_pos_bound t 1000 ltac:(lia)) as Hm.
  destruct (Z.ltb_spec (t / 1000) (-62135596800)); [reflexivity|].
  destruct (Z.leb_spec 253402300800 (t / 1000)); [reflexivity|]. lia.
Qed.

Lemma inTimestampRange_dec t : {inTimestampRange t} + {~ inTimestampRange t}.
Proof.
  unfold inTimestampRange.
  destruct (Z_le_dec (MIN_SECONDS * 1000) t); [|right; lia].
  destruct (Z_lt_dec t (MAX_SECONDS * 1000)); [left; lia|right; lia].
Qed.

Lemma Timestamp_now_run w :
  inTimestampRange (clock w) -> Timestamp_now w = (Ok (VTime (Some (clock w))), w).
Proof. intros Hc. unfold Timestamp_now. by rewrite Timestamp_fromMillis_ok. Qed.

Lemma Timestamp_now_refused w :
  ~ inTimestampRange (clock w) ->
  Timestamp_now w = (Throw (FirestoreError "invalid-argument"), w).
Proof. intros Hc. unfold Timestamp_now. by rewrite Timestamp_fromMillis_refused. Qed.

Section Dates.
Context {rt : Runtime}.

Lemma Timestamp_fromDate_storable s :
  storableDate s -> Timestamp_fromDate (dateParse s) = Ok (VTime (dateParse s)).
Proof.
  intros (t & -> & Ht). cbn [Timestamp_fromDate]. by apply Timestamp_fromMillis_ok.
Qed.

Lemma Timestamp_fromDate_invalid s :
  invalidDate s -> Timestamp_fromDate (dateParse s) = Ok (VTime None).
Proof. unfold invalidDate. by intros ->. Qed.

Lemma Timestamp_fromDate_outOfRange s :
  outOfRangeDate s ->
  Timestamp_fromDate (dateParse s) = Throw (FirestoreError "invalid-argument").
Proof.
  intros (t & -> & Ht). cbn [Timestamp_fromDate]. by apply Timestamp_fromMillis_refused.
Qed.

(** A date string is read in one of three ways. *)
Lemma date_cases s : storableDate s \/ invalidDate s \/ outOfRangeDate s.
Proof.
  unfold storableDate, invalidDate, outOfRangeDate.
  destruct (dateParse s) as [t|]; [|by right; left].
  destruct (inTimestampRange_dec t); [left|right; right]; by exists t.
Qed.

Lemma storableDate_parsed s : storableDate s -> dateParse s <> None.
Proof. by intros (t & -> & _). Qed.

Lemma timestampOrNull_storable s :
  storableOptDate s -> timestampOrNull s = Ok (dischargeValue s).
Proof.
  destruct s as [[|c s]|]; simpl; try done. apply Timestamp_fromDate_storable.
Qed.

Lemma dischargeValue_clean s :
  storableOptDate s -> cleanValue (dischargeValue s).
Proof.
  destruct s as [[|c s]|]; simpl; try done.
  intros Hs%storableDate_parsed. split; congruence.
Qed.

Lemma timestamp_clean s : storableDate s -> cleanValue (VTime (dateParse s)).
Proof. intros Hs%storableDate_parsed. split; congruence. Qed.
End Dates.

(** ** Objects and the documents they stand for *)

Lemma toDoc_cons k v obj : toDoc ((k, v) :: obj) = <[k := v]> (toDoc obj).
Proof. reflexivity. Qed.

Lemma toDoc_objSet k v obj : toDoc (objSet k v obj) = <[k := v]> (toDoc obj).
Proof.
  induction obj as [|[k' v'] obj IH]; [done|]. cbn [objSet].
  case_bool_decide as Hk.
  - subst k'. by rewrite !toDoc_cons, insert_insert_eq.
  - rewrite !toDoc_cons, IH. by apply insert_insert_ne.
Qed.

Lemma toDoc_whenSome {A} (x : option A) (f : A -> Obj -> Obj) (g : A -> Doc -> Doc) obj :
  (forall a u, toDoc (f a u) = g a (toDoc u)) ->
  toDoc (whenSome x f obj) = assignWhen x g (toDoc obj).
Proof. intros Hfg. destruct x; [apply Hfg|done]. Qed.

Lemma toDoc_whenSome_eq {A} (x : option A) (f : A -> Obj -> Obj) (g : A -> Doc -> Doc)
  obj (d : Doc) :
  (forall a u, toDoc (f a u) = g a (toDoc u)) ->
  toDoc obj = d ->
  toDoc (whenSome x f obj) = assignWhen x g d.
Proof. intros Hfg <-. by apply toDoc_whenSome. Qed.

Lemma Forall_objSet (P : string * Value -> Prop) k v obj :
  P (k, v) -> Forall P obj -> Forall P (objSet k v obj).
Proof.
  intros Hkv. induction 1 as [|[k' v'] obj Hx Hobj IH]; cbn [objSet].
  - by constructor.
  - case_bool_decide; constructor; done.
Qed.

Lemma Forall_whenSome {A} (P : string * Value -> Prop) (x : option A)
  (f : A -> Obj -> Obj) obj :
  (forall a u, x = Some a -> Forall P u -> Forall P (f a u)) ->
  Forall P obj -> Forall P (whenSome x f obj).
Proof. intros Hf Ho. destruct x; [by apply Hf|done]. Qed.

Lemma whenDefined_pure {A} (x : option A) (f : A -> Obj -> Obj) obj :
  whenDefined x (fun a u => Ok (f a u)) obj = Ok (whenSome x f obj).
Proof. by destruct x. Qed.

Lemma whenDefined_timestamp {rt : Runtime} (x : option jsstring) (k : string) obj :
  (forall s, x = Some s -> storableDate s) ->
  whenDefined x
    (fun s u => timestamp <-! Timestamp_fromDate (dateParse s) ;;
                Ok (objSet k timestamp u)) obj
  = Ok (whenSome x (fun s => objSet k (VTime (dateParse s))) obj).
Proof.
  intros Hx. destruct x as [s|]; [|done]. cbn [whenDefined whenSome].
  by rewrite (Timestamp_fromDate_storable s (Hx s eq_refl)).
Qed.

Lemma map_Forall_toDoc (P : Value -> Prop) (obj : Obj) :
  Forall (fun kv => P kv.2) obj -> map_Forall (fun _ v => P v) (toDoc obj).
Proof.
  induction 1 as [|[k v] obj Hv _ IH]; [apply map_Forall_empty|].
  rewrite toDoc_cons. by apply map_Forall_insert_2.
Qed.

(** ** The checks of the client *)

Lemma payloadError_clean {rt : Runtime} (data : Obj) :
  Forall (fun kv => cleanValue kv.2) data -> payloadError data = None.
Proof.
  induction 1 as [|[k v] data [Hu Ht] _ IH]; [done|]. cbn [payloadError snd] in *.
  rewrite IH. by destruct v as [| | |[t|]| |].
Qed.

Lemma stripUndefined_clean (data : gmap string Value) :
  map_Forall (fun _ v => cleanValue v) data -> stripUndefined data = data.
Proof.
  intros Hd. unfold stripUndefined. apply map_filter_id.
  intros k v Hkv. simpl. by destruct (Hd k v Hkv).
Qed.

Lemma stripUndefined_defined (data : gmap string Value) :
  map_Forall (fun _ v => v <> VUndefined) data -> stripUndefined data = data.
Proof.
  intros Hd. unfold stripUndefined. apply map_filter_id.
  intros k v Hkv. exact (Hd k v Hkv).
Qed.

Lemma addDoc_served {rt : Runtime} coll (data : Obj) w :
  Forall (fun kv => cleanValue kv.2) data ->
  nextFault w = None ->
  addDoc coll data w =
    (Ok (autoId w (issued w)),
     setIssued (S (issued w))
       (setDocs coll (<[autoId w (issued w) := toDoc data]> (docsOf w coll))
          (afterCall (CAddDoc coll (toDoc data)) w))).
Proof.
  intros Hd Hf. unfold addDoc, checked, storageCall.
  rewrite (payloadError_clean _ Hd), Hf.
  rewrite (stripUndefined_clean _ (map_Forall_toDoc _ _ Hd)). reflexivity.
Qed.

Lemma updateDoc_served {rt : Runtime} coll id (data : Obj) (old : gmap string Value) w :
  Forall (fun kv => cleanValue kv.2) data ->
  nextFault w = None ->
  docsOf w coll !! id = Some old ->
  updateDoc coll id data w =
    (Ok tt,
     setDocs coll (<[id := toDoc data ∪ old]> (docsOf w coll))
       (afterCall (CUpdateDoc coll id (toDoc data)) w)).
Proof.
  intros Hd Hf Hold. unfold updateDoc, checked, storageCall.
  rewrite (payloadError_clean _ Hd), Hf.
  rewrite (stripUndefined_clean _ (map_Forall_toDoc _ _ Hd)).
  rewrite docsOf_afterCall, Hold. reflexivity.
Qed.

Lemma updateDoc_missing {rt : Runtime} coll id (data : Obj) w :
  Forall (fun kv => cleanValue kv.2) data ->
  nextFault w = None ->
  docsOf w coll !! id = None ->
  updateDoc coll id data w =
    (Throw (FirestoreError "not-found"), afterCall (CUpdateDoc coll id (toDoc data)) w).
Proof.
  intros Hd Hf Hold. unfold updateDoc, checked, storageCall.
  rewrite (payloadError_clean _ Hd), Hf.
  rewrite docsOf_afterCall, Hold. reflexivity.
Qed.

(** What a write may do to the store, whatever its outcome. *)
Lemma addDoc_store {rt : Runtime} coll (data : Obj) w coll' :
  docsOf (addDoc coll data w).2 coll' = docsOf w coll'
  \/ (coll' = coll
      /\ docsOf (addDoc coll data w).2 coll
         = <[autoId w (issued w) := stripUndefined (toDoc data)]> (docsOf w coll)).
Proof.
  unfold addDoc, checked, storageCall, throw.
  destruct (payloadError data); [by left|].
  destruct (nextFault w); [by left|]. cbn [snd].
  destruct (decide (coll' = coll)) as [->|Hne].
  - right. split; [done|]. by rewrite docsOf_setIssued, docsOf_setDocs.
  - left. rewrite docsOf_setIssued, docsOf_setDocs_ne by done. reflexivity.
Qed.

Lemma updateDoc_store {rt : Runtime} coll id (data : Obj) w coll' :
  docsOf (updateDoc coll id data w).2 coll' = docsOf w coll'
  \/ (coll' = coll
      /\ exists old, docsOf w coll !! id = Some old
         /\ docsOf (updateDoc coll id data w).2 coll
            = <[id := stripUndefined (toDoc data) ∪ old]> (docsOf w coll)).
Proof.
  unfold updateDoc, checked, storageCall, throw.
  destruct (payloadError data); [by left|].
  destruct (nextFault w); [by left|].
  rewrite docsOf_afterCall.
  destruct (docsOf w coll !! id) as [old|] eqn:Hold; [|by left]. cbn [snd].
  destruct (decide (coll' = coll)) as [->|Hne].
  - right. split; [done|]. exists old. split; [done|]. by rewrite docsOf_setDocs.
  - left. rewrite docsOf_setDocs_ne by done. reflexivity.
Qed.

(** ** Blank queries *)

Lemma searchByName_blank {rt : Runtime} name w :
  trim name = [] -> residentService.searchByName name w = (Ok [], w).
Proof.
  intros Hq. unfold residentService.searchByName.
  rewrite Hq. by rewrite bool_decide_eq_true_2.
Qed.

Lemma getByMedication_blank {rt : Runtime} medication w :
  trim medication = [] -> residentService.getByMedication medication w = (Ok [], w).
Proof.
  intros Hq. unfold residentService.getByMedication.
  rewrite Hq. by rewrite bool_decide_eq_true_2.
Qed.

(** C9. For a query that is empty or made of white space only,
    [searchByName] returns the empty list and leaves the world as it was, so
    no storage call is issued; [getByMedication] does the same for a blank
    drug name. *)
Theorem blank_query_short_circuit {rt : Runtime} (q : jsstring) (w : World) :
  blank q ->
  residentService.searchByName q w = (Ok [], w)
  /\ residentService.getByMedication q w = (Ok [], w)
  /\ calls (residentService.searchByName q w).2 = calls w
  /\ calls (residentService.getByMedication q w).2 = calls w.
Proof.
  intros Hq. apply trim_nil_iff in Hq.
  by rewrite (searchByName_blank q w Hq), (getByMedication_blank q w Hq).
Qed.

Lemma blank_query_short_circuit_witness :
  blank (js "   ")
  /\ @residentService.searchByName japan (js "   ") worldWithYamada = (Ok [], worldWithYamada)
  /\ @residentService.searchByName japan [] worldWithYamada = (Ok [], worldWithYamada)
  /\ @residentService.getByMedication japan [] worldWithYamada = (Ok [], worldWithYamada).
Proof.
  assert (H3 : blank (js "   ")) by (repeat constructor).
  assert (H0 : blank []) by constructor.
  split; [exact H3|].
  split; [exact (proj1 (@blank_query_short_circuit japan _ worldWithYamada H3))|].
  split; [exact (proj1 (@blank_query_short_circuit japan _ worldWithYamada H0))|].
  exact (proj1 (proj2 (@blank_query_short_circuit japan _ worldWithYamada H0))).
Defined.

(** ** residentService.create *)

Lemma payloadError_none {rt : Runtime} (data : Obj) :
  Forall (fun kv => kv.2 <> VUndefined) data \/ ignoreUndefinedProperties = true ->
  Forall (fun kv => kv.2 <> VTime None) data ->
  payloadError data = None.
Proof.
  intros Hu Ht. induction Ht as [|[k v] data Hv Ht IH]; [done|].
  cbn [payloadError snd] in *.
  assert (Hrest : Forall (fun kv => kv.2 <> VUndefined) data
                  \/ ignoreUndefinedProperties = true).
  { destruct Hu as [Hu|Hu]; [left; by inversion Hu|by right]. }
  rewrite (IH Hrest).
  destruct v as [| | |[t|]| |]; try done.
  cbn [valueError]. destruct Hu as [Hu| ->]; [|done].
  inversion Hu as [|? ? Hk _]; subst. by destruct Hk.
Qed.

(** The first value the client cannot encode decides the error. *)
Lemma payloadError_app {rt : Runtime} (a b : Obj) :
  payloadError (a ++ b)
  = match payloadError a with
    | Some e => Some e
    | None => payloadError b
    end.
Proof.
  induction a as [|[k v] a IH]; [done|]. cbn [payloadError app].
  by destruct (valueError v).
Qed.

Lemma addDoc_accepted {rt : Runtime} coll (data : Obj) w :
  payloadError data = None ->
  nextFault w = None ->
  addDoc coll data w =
    (Ok (autoId w (issued w)),
     setIssued (S (issued w))
       (setDocs coll (<[autoId w (issued w) := stripUndefined (toDoc data)]> (docsOf w coll))
          (afterCall (CAddDoc coll (toDoc data)) w))).
Proof.
  intros Hd Hf. unfold addDoc, checked, storageCall. by rewrite Hd, Hf.
Qed.

Lemma addDoc_refused {rt : Runtime} coll (data : Obj) w e :
  payloadError data = Some e -> addDoc coll data w = (Throw e, w).
Proof. intros Hd. unfold addDoc, checked. by rewrite Hd. Qed.

Lemma stripUndefined_lookup (data : gmap string Value) k v :
  data !! k = Some v -> v <> VUndefined -> stripUndefined data !! k = Some v.
Proof. intros Hk Hv. unfold stripUndefined. by apply map_lookup_filter_Some_2. Qed.

Lemma toDoc_createdObj {rt : Runtime} now data :
  toDoc (createdObj now data) = createdDoc now data.
Proof. reflexivity. Qed.

Lemma createData_storable {rt : Runtime} now (data : ResidentFormData.t) :
  storableDate (ResidentFormData.birthDate data) ->
  storableDate (ResidentFormData.admissionDate data) ->
  storableOptDate (ResidentFormData.dischargeDate data) ->
  residentService.createData now data = Ok (createdObj now data).
Proof.
  intros Hb Ha Hd. unfold residentService.createData.
  rewrite (Timestamp_fromDate_storable _ Hb), (Timestamp_fromDate_storable _ Ha),
    (timestampOrNull_storable _ Hd).
  reflexivity.
Qed.

Lemma createdObj_accepted {rt : Runtime} (now : Z) (data : ResidentFormData.t) :
  storableDate (ResidentFormData.birthDate data) ->
  storableDate (ResidentFormData.admissionDate data) ->
  storableOptDate (ResidentFormData.dischargeDate data) ->
  ResidentFormData.careLevel data <> None \/ ignoreUndefinedProperties = true ->
  payloadError (createdObj (VTime (Some now)) data) = None.
Proof.
  intros Hb%timestamp_clean Ha%timestamp_clean Hd%dischargeValue_clean Hc.
  destruct Hb as [Hb1 Hb2], Ha as [Ha1 Ha2], Hd as [Hd1 Hd2].
  apply payloadError_none.
  - destruct Hc as [Hc|Hc]; [left|by right]. unfold createdObj.
    repeat (apply Forall_cons_2; [try done|]); try apply Forall_nil_2.
    cbn [snd]. by destruct (ResidentFormData.careLevel data).
  - unfold createdObj.
    repeat (apply Forall_cons_2; [try done|]); try apply Forall_nil_2.
    cbn [snd]. by destruct (ResidentFormData.careLevel data).
Qed.

Lemma createData_accepted {rt : Runtime} (w : World) (data : ResidentFormData.t) :
  inTimestampRange (clock w) ->
  storableDate (ResidentFormData.birthDate data) ->
  storableDate (ResidentFormData.admissionDate data) ->
  storableOptDate (ResidentFormData.dischargeDate data) ->
  ResidentFormData.careLevel data <> None \/ ignoreUndefinedProperties = true ->
  accepted w data.
Proof.
  intros Hk Hb Ha Hd Hc. split; [exact Hk|].
  split; [by apply createData_storable|by apply createdObj_accepted].
Qed.

(** What [create] does once its payload is accepted and the call served. *)
Lemma residentService_create_run {rt : Runtime} (data : ResidentFormData.t) (w : World) :
  accepted w data ->
  nextFault w = None ->
  residentService.create data w =
    (Ok (autoId w (issued w)),
     setIssued (S (issued w))
       (setDocs COLLECTIONS_RESIDENTS
          (<[autoId w (issued w) :=
               stripUndefined (createdDoc (VTime (Some (clock w))) data)]>
             (docsOf w COLLECTIONS_RESIDENTS))
          (afterCall (CAddDoc COLLECTIONS_RESIDENTS
                        (createdDoc (VTime (Some (clock w))) data)) w))).
Proof.
  intros (Hk & Hobj & Hp) Hf.
  unfold residentService.create, tryCatch, bind, collection, liftResult.
  rewrite (Timestamp_now_run w Hk), Hobj.
  by rewrite (addDoc_accepted _ _ _ Hp Hf).
Qed.

(** [create] throws what the building of the payload or its check throws,
    and then makes no call. *)
Lemma residentService_create_building {rt : Runtime} (data : ResidentFormData.t)
  (w : World) e :
  inTimestampRange (clock w) ->
  residentService.createData (VTime (Some (clock w))) data = Throw e ->
  residentService.create data w = (Throw e, w).
Proof.
  intros Hk He. unfold residentService.create, tryCatch, bind, liftResult.
  by rewrite (Timestamp_now_run w Hk), He.
Qed.

Lemma residentService_create_checking {rt : Runtime} (data : ResidentFormData.t)
  (w : World) payload e :
  inTimestampRange (clock w) ->
  residentService.createData (VTime (Some (clock w))) data = Ok payload ->
  payloadError payload = Some e ->
  residentService.create data w = (Throw e, w).
Proof.
  intros Hk Hobj He. unfold residentService.create, tryCatch, bind, liftResult, collection.
  by rewrite (Timestamp_now_run w Hk), Hobj, (addDoc_refused _ _ _ _ He).
Qed.

(** Closing goals on concrete dates, clocks and forms. *)
Ltac in_range :=
  unfold inTimestampRange, MIN_SECONDS, MAX_SECONDS; cbn [clock emptyWorld]; lia.

Ltac storable :=
  first [ exact I
        | eexists; split;
          [vm_compute; reflexivity
          |unfold inTimestampRange, MIN_SECONDS, MAX_SECONDS; lia] ].

Ltac accept_form :=
  apply createData_accepted; [in_range|storable|storable|storable|left; discriminate].

Lemma yamada_accepted : @accepted japan emptyWorld yamada.
Proof. accept_form. Qed.

Lemma worldWithYamada_doc :
  docsOf worldWithYamada COLLECTIONS_RESIDENTS !! sampleAutoId 0 = Some yamadaDoc.
Proof.
  unfold worldWithYamada.
  rewrite (@residentService_create_run japan yamada emptyWorld)
    by (first [reflexivity | apply yamada_accepted]).
  cbn [snd]. rewrite docsOf_setIssued, docsOf_setDocs. apply lookup_insert_eq.
Qed.

(** A resident entered with two spaces between the names gets an empty
    first name, where a split at the first run of white space gives the
    second word. *)
Lemma create_split_counterexample :
  (@residentService.create japan yamadaTwoSpaces emptyWorld).1 = Ok (sampleAutoId 0)
  /\ storedField (@residentService.create japan yamadaTwoSpaces emptyWorld).2
       COLLECTIONS_RESIDENTS (sampleAutoId 0) "firstName" = Some (VStr [])
  /\ (splitAtFirstWhitespaceRun (ResidentFormData.name yamadaTwoSpaces)).2 = js "太郎"
  /\ storedField (@residentService.create japan yamadaTwoSpaces emptyWorld).2
       COLLECTIONS_RESIDENTS (sampleAutoId 0) "firstName"
     <> Some (VStr (splitAtFirstWhitespaceRun (ResidentFormData.name yamadaTwoSpaces)).2).
Proof.
  split; [vm_compute; reflexivity|].
  split; [vm_compute; reflexivity|].
  split; [vm_compute; reflexivity|].
  vm_compute. discriminate.
Qed.

(** C8 (as the code has it). [create] cuts the full name and the full
    phonetic reading at every single space U+0020 and stores the first piece
    as the last name and the second piece as the first name: the last name is
    what precedes the first space, the first name what lies between the first
    space and the next one (or the end).  A name without a space gives an
    empty first name, and "山田 太郎" with reading "ヤマダ タロウ" gives 山田,
    太郎, ヤマダ, タロウ. *)
Theorem create_splits_at_single_spaces {rt : Runtime}
  (data : ResidentFormData.t) (w : World) :
  nextFault w = None ->
  inTimestampRange (clock w) ->
  storableDate (ResidentFormData.birthDate data) ->
  storableDate (ResidentFormData.admissionDate data) ->
  storableOptDate (ResidentFormData.dischargeDate data) ->
  ResidentFormData.careLevel data <> None \/ ignoreUndefinedProperties = true ->
  let name := ResidentFormData.name data in
  let furigana := ResidentFormData.furigana data in
  exists w' d,
    residentService.create data w = (Ok (autoId w (issued w)), w')
    /\ docsOf w' COLLECTIONS_RESIDENTS !! autoId w (issued w) = Some d
    /\ d !! "name" = Some (VStr name)
    /\ d !! "furigana" = Some (VStr furigana)
    /\ d !! "lastName" = Some (VStr (beforeSep SPACE name))
    /\ d !! "firstName" = Some (VStr (beforeSep SPACE (afterSep SPACE name)))
    /\ d !! "lastNameKana" = Some (VStr (beforeSep SPACE furigana))
    /\ d !! "firstNameKana" = Some (VStr (beforeSep SPACE (afterSep SPACE furigana)))
    /\ (SPACE ∉ name -> d !! "lastName" = Some (VStr name)
                         /\ d !! "firstName" = Some (VStr []))
    /\ (SPACE ∉ furigana -> d !! "lastNameKana" = Some (VStr furigana)
                             /\ d !! "firstNameKana" = Some (VStr []))
    /\ (name = js "山田 太郎" -> furigana = js "ヤマダ タロウ" ->
        d !! "lastName" = Some (VStr (js "山田"))
        /\ d !! "firstName" = Some (VStr (js "太郎"))
        /\ d !! "lastNameKana" = Some (VStr (js "ヤマダ"))
        /\ d !! "firstNameKana" = Some (VStr (js "タロウ"))).
Proof.
  intros Hf Hclock Hb Ha Hd Hc name furigana.
  pose proof (createData_accepted w data Hclock Hb Ha Hd Hc) as Hp.
  eexists _, (stripUndefined (createdDoc (VTime (Some (clock w))) data)).
  pose proof (residentService_create_run data w Hp Hf) as Hrun.
  split; [exact Hrun|].
  split.
  { rewrite docsOf_setIssued, docsOf_setDocs. apply lookup_insert_eq. }
  assert (Hl : forall k s, createdDoc (VTime (Some (clock w))) data !! k
                           = Some (VStr s) ->
               stripUndefined (createdDoc (VTime (Some (clock w))) data) !! k
                           = Some (VStr s)).
  { intros k s Hk. by apply stripUndefined_lookup. }
  assert (Hln : stripUndefined (createdDoc (VTime (Some (clock w))) data)
                !! "lastName" = Some (VStr (beforeSep SPACE name))).
  { apply Hl. rewrite <- split_first. reflexivity. }
  assert (Hfn : stripUndefined (createdDoc (VTime (Some (clock w))) data)
                !! "firstName" = Some (VStr (beforeSep SPACE (afterSep SPACE name)))).
  { apply Hl. rewrite <- split_second. reflexivity. }
  assert (Hlk : stripUndefined (createdDoc (VTime (Some (clock w))) data)
                !! "lastNameKana" = Some (VStr (beforeSep SPACE furigana))).
  { apply Hl. rewrite <- split_first. reflexivity. }
  assert (Hfk : stripUndefined (createdDoc (VTime (Some (clock w))) data)
                !! "firstNameKana" = Some (VStr (beforeSep SPACE (afterSep SPACE furigana)))).
  { apply Hl. rewrite <- split_second. reflexivity. }
  repeat split; try assumption.
  - apply Hl. reflexivity.
  - apply Hl. reflexivity.
  - rewrite Hln. by rewrite beforeSep_no_sep.
  - rewrite Hfn. by rewrite afterSep_no_sep.
  - rewrite Hlk. by rewrite beforeSep_no_sep.
  - rewrite Hfk. by rewrite afterSep_no_sep.
  - rewrite Hln, H. reflexivity.
  - rewrite Hfn, H. reflexivity.
  - rewrite Hlk, H0. reflexivity.
  - rewrite Hfk, H0. reflexivity.
Qed.

Lemma create_splits_at_single_spaces_witness :
  exists w' d,
    @residentService.create japan yamada emptyWorld = (Ok (sampleAutoId 0), w')
    /\ docsOf w' COLLECTIONS_RESIDENTS !! sampleAutoId 0 = Some d
    /\ d !! "lastName" = Some (VStr (js "山田"))
    /\ d !! "firstName" = Some (VStr (js "太郎"))
    /\ d !! "lastNameKana" = Some (VStr (js "ヤマダ"))
    /\ d !! "firstNameKana" = Some (VStr (js "タロウ")).
Proof.
  destruct (@create_splits_at_single_spaces japan yamada emptyWorld)
    as (w' & d & Hrun & Hd & _ & _ & _ & _ & _ & _ & _ & _ & Hex).
  - reflexivity.
  - in_range.
  - storable.
  - storable.
  - storable.
  - left. discriminate.
  - destruct (Hex eq_refl eq_refl) as (H1 & H2 & H3 & H4).
    exists w', d. repeat split; assumption.
Defined.

(** ** residentService.update *)

Lemma assignWhen_insert_None {A} (x : option A) (k : string) (g : A -> Value)
  (obj : gmap string Value) (f : string) :
  f ∉ (if x is Some _ then ({[k]} : gset string) else ∅) ->
  obj !! f = None ->
  assignWhen x (fun a u => <[k := g a]> u) obj !! f = None.
Proof.
  destruct x; [|done]. rewrite not_elem_of_singleton.
  intros Hk Hu. simpl. by rewrite lookup_insert_ne by congruence.
Qed.

Lemma assignWhen_insert_ne {A} (x : option A) (k : string) (g : A -> Value)
  (obj : gmap string Value) (f : string) :
  k <> f -> assignWhen x (fun a u => <[k := g a]> u) obj !! f = obj !! f.
Proof. intros Hk. destruct x; [|done]. simpl. by rewrite lookup_insert_ne. Qed.

Lemma assignWhen_insert_eq {A} (x : option A) (k : string) (g : A -> Value)
  (obj : gmap string Value) a :
  x = Some a -> assignWhen x (fun a u => <[k := g a]> u) obj !! k = Some (g a).
Proof. intros ->. apply lookup_insert_eq. Qed.

Lemma assignWhen_insert_Forall {A} (P : string -> Value -> Prop) (x : option A)
  (k : string) (g : A -> Value) (obj : gmap string Value) :
  (forall a, x = Some a -> P k (g a)) ->
  map_Forall P obj ->
  map_Forall P (assignWhen x (fun a u => <[k := g a]> u) obj).
Proof.
  intros Hg Hu. destruct x; [|done]. apply map_Forall_insert_2; auto.
Qed.

Lemma updateData_untouched {rt : Runtime} now data f :
  f ∉ touched data -> updatedDoc now data !! f = None.
Proof.
  unfold touched. rewrite !not_elem_of_union.
  intros ((((((((((Hu & Hn) & Hf) & Hg) & Hb) & Hr) & Ha) & Hd) & Hm) & Hme) & Hc).
  unfold updatedDoc.
  repeat (apply assignWhen_insert_None; [assumption|]).
  assert (Hbase : (<["updatedAt" := now]> ∅ : gmap string Value) !! f = None).
  { rewrite not_elem_of_singleton in Hu.
    rewrite lookup_insert_ne by congruence. apply lookup_empty. }
  destruct (PartialResidentFormData.furigana data),
           (PartialResidentFormData.name data); simpl;
    rewrite ?not_elem_of_union, ?not_elem_of_singleton in Hn;
    rewrite ?not_elem_of_union, ?not_elem_of_singleton in Hf;
    rewrite ?lookup_insert_ne by (intros <-; tauto); exact Hbase.
Qed.

Lemma updateData_clean {rt : Runtime} now data :
  (forall s, PartialResidentFormData.birthDate data = Some s -> storableDate s) ->
  (forall s, PartialResidentFormData.admissionDate data = Some s -> storableDate s) ->
  storableOptDate (PartialResidentFormData.dischargeDate data) ->
  Forall (fun kv => cleanValue kv.2) (updatedObj (VTime (Some now)) data).
Proof.
  intros Hb Ha Hd. unfold updatedObj.
  assert (Hstr : forall s, cleanValue (VStr s)) by (by split).
  repeat (apply Forall_whenSome; [intros x u Hx Hu|]);
    repeat (apply Forall_objSet; [cbn [snd]|]); try done; try (by split).
  - rewrite Hx in Hd. exact (dischargeValue_clean (Some x) Hd).
  - exact (timestamp_clean x (Ha x Hx)).
  - exact (timestamp_clean x (Hb x Hx)).
  - apply Forall_singleton. by split.
Qed.

Lemma toDoc_updatedObj {rt : Runtime} now data :
  toDoc (updatedObj now data) = updatedDoc now data.
Proof.
  unfold updatedObj, updatedDoc.
  repeat (apply toDoc_whenSome_eq; [intros; by rewrite ?toDoc_objSet|]).
  reflexivity.
Qed.

Lemma whenDefined_discharge {rt : Runtime} (x : option jsstring) (k : string) obj :
  storableOptDate x ->
  whenDefined x
    (fun s u => value <-! timestampOrNull (Some s) ;; Ok (objSet k value u)) obj
  = Ok (whenSome x (fun s => objSet k (dischargeValue (Some s))) obj).
Proof.
  intros Hx. destruct x as [s|]; [|done]. cbn [whenDefined whenSome].
  by rewrite (timestampOrNull_storable (Some s) Hx).
Qed.

(** With dates a timestamp holds, [update] builds its payload without
    throwing. *)
Lemma updateData_storable {rt : Runtime} now data :
  (forall s, PartialResidentFormData.birthDate data = Some s -> storableDate s) ->
  (forall s, PartialResidentFormData.admissionDate data = Some s -> storableDate s) ->
  storableOptDate (PartialResidentFormData.dischargeDate data) ->
  residentService.updateData now data = Ok (updatedObj now data).
Proof.
  intros Hb Ha Hd. unfold residentService.updateData. cbv zeta.
  rewrite whenDefined_pure. cbn [rbind].
  rewrite whenDefined_pure. cbn [rbind].
  rewrite whenDefined_pure. cbn [rbind].
  rewrite (whenDefined_timestamp _ _ _ Hb). cbn [rbind].
  rewrite whenDefined_pure. cbn [rbind].
  rewrite (whenDefined_timestamp _ _ _ Ha). cbn [rbind].
  rewrite (whenDefined_discharge _ _ _ Hd). cbn [rbind].
  rewrite whenDefined_pure. cbn [rbind].
  rewrite whenDefined_pure. cbn [rbind].
  rewrite whenDefined_pure. cbn [rbind].
  reflexivity.
Qed.

(** What [update] does once its payload is built and the call served. *)
Lemma residentService_update_run {rt : Runtime} id data w (old : gmap string Value) :
  inTimestampRange (clock w) ->
  (forall s, PartialResidentFormData.birthDate data = Some s -> storableDate s) ->
  (forall s, PartialResidentFormData.admissionDate data = Some s -> storableDate s) ->
  storableOptDate (PartialResidentFormData.dischargeDate data) ->
  nextFault w = None ->
  docsOf w COLLECTIONS_RESIDENTS !! id = Some old ->
  residentService.update id data w =
    (Ok tt,
     setDocs COLLECTIONS_RESIDENTS
       (<[id := updatedDoc (VTime (Some (clock w))) data ∪ old]>
          (docsOf w COLLECTIONS_RESIDENTS))
       (afterCall (CUpdateDoc COLLECTIONS_RESIDENTS id
                     (updatedDoc (VTime (Some (clock w))) data)) w)).
Proof.
  intros Hk Hb Ha Hd Hf Hold.
  unfold residentService.update, bind, liftResult.
  rewrite (Timestamp_now_run w Hk), (updateData_storable _ data Hb Ha Hd).
  rewrite (updateDoc_served _ _ _ old _ (updateData_clean (clock w) data Hb Ha Hd) Hf Hold).
  by rewrite toDoc_updatedObj.
Qed.

(** The fields of the payload are the touched ones. *)
Lemma dom_assignWhen {A} (x : option A) (k : string) (g : A -> Value)
  (obj : gmap string Value) :
  dom (assignWhen x (fun a u => <[k := g a]> u) obj)
  = dom obj ∪ (if x is Some _ then ({[k]} : gset string) else ∅).
Proof.
  destruct x; cbn [assignWhen]; [|by rewrite union_empty_r_L].
  rewrite dom_insert_L. apply union_comm_L.
Qed.

Lemma dom_assignWhen3 {A} (x : option A) (k1 k2 k3 : string) (g1 g2 g3 : A -> Value)
  (obj : gmap string Value) :
  dom (assignWhen x (fun a u => <[k3 := g3 a]> (<[k2 := g2 a]> (<[k1 := g1 a]> u))) obj)
  = dom obj ∪ (if x is Some _ then ({[k1; k2; k3]} : gset string) else ∅).
Proof.
  destruct x; cbn [assignWhen]; [|by rewrite union_empty_r_L].
  rewrite !dom_insert_L. apply set_eq. intros f. rewrite !elem_of_union. tauto.
Qed.

Lemma updatedDoc_dom {rt : Runtime} now data :
  dom (updatedDoc now data) = touched data.
Proof.
  unfold updatedDoc, touched.
  rewrite !dom_assignWhen, !dom_assignWhen3, dom_insert_L, dom_empty_L, union_empty_r_L.
  reflexivity.
Qed.

Lemma updateData_updatedAt {rt : Runtime} now data :
  updatedDoc now data !! "updatedAt" = Some now.
Proof.
  unfold updatedDoc.
  rewrite !assignWhen_insert_ne by done.
  destruct (PartialResidentFormData.furigana data),
           (PartialResidentFormData.name data); simpl;
    rewrite ?lookup_insert_ne by done; apply lookup_insert_eq.
Qed.

Lemma updateData_name {rt : Runtime} now data n :
  PartialResidentFormData.name data = Some n ->
  updatedDoc now data !! "name" = Some (VStr n)
  /\ updatedDoc now data !! "lastName"
     = Some (VStr (beforeSep SPACE n))
  /\ updatedDoc now data !! "firstName"
     = Some (VStr (beforeSep SPACE (afterSep SPACE n))).
Proof.
  intros Hn. unfold updatedDoc.
  rewrite !assignWhen_insert_ne by done. rewrite Hn.
  rewrite <- split_first, <- split_second.
  destruct (PartialResidentFormData.furigana data); simpl;
    rewrite ?lookup_insert_ne by done;
    (split; [|split]); rewrite ?lookup_insert_ne by done; apply lookup_insert_eq.
Qed.

Lemma updateData_furigana {rt : Runtime} now data fu :
  PartialResidentFormData.furigana data = Some fu ->
  updatedDoc now data !! "furigana" = Some (VStr fu)
  /\ updatedDoc now data !! "lastNameKana"
     = Some (VStr (beforeSep SPACE fu))
  /\ updatedDoc now data !! "firstNameKana"
     = Some (VStr (beforeSep SPACE (afterSep SPACE fu))).
Proof.
  intros Hn. unfold updatedDoc.
  rewrite !assignWhen_insert_ne by done. rewrite Hn. simpl.
  rewrite <- split_first, <- split_second.
  (split; [|split]); rewrite ?lookup_insert_ne by done; apply lookup_insert_eq.
Qed.

(** The value written for each of the fields that [update] copies. *)
Lemma updateData_copied {rt : Runtime} now data :
  (forall x, PartialResidentFormData.gender data = Some x ->
     updatedDoc now data !! "gender" = Some (VStr x))
  /\ (forall x, PartialResidentFormData.birthDate data = Some x ->
        updatedDoc now data !! "birthDate"
        = Some (VTime (dateParse x)))
  /\ (forall x, PartialResidentFormData.roomNumber data = Some x ->
        updatedDoc now data !! "roomNumber" = Some (VStr x))
  /\ (forall x, PartialResidentFormData.admissionDate data = Some x ->
        updatedDoc now data !! "admissionDate"
        = Some (VTime (dateParse x)))
  /\ (forall x, PartialResidentFormData.dischargeDate data = Some x ->
        updatedDoc now data !! "dischargeDate"
        = Some (dischargeValue (Some x)))
  /\ (forall x, PartialResidentFormData.medicalHistory data = Some x ->
        updatedDoc now data !! "medicalHistory" = Some (VStr x))
  /\ (forall x, PartialResidentFormData.medications data = Some x ->
        updatedDoc now data !! "medications" = Some (VArr x))
  /\ (forall x, PartialResidentFormData.careLevel data = Some x ->
        updatedDoc now data !! "careLevel" = Some (VNum x)).
Proof.
  unfold updatedDoc.
  repeat split; intros x Hx;
    rewrite ?assignWhen_insert_ne by done;
    by rewrite (assignWhen_insert_eq _ _ _ _ x Hx).
Qed.

(** C7. [update] sends one write.  Its payload holds exactly [updatedAt],
    the fields present in the input and, with [name] or [furigana], the two
    fields derived from it.  In the stored document each of these fields has
    the value of the input (a date as the timestamp of the date read, an
    empty discharge date as null, the derived fields as the pieces of
    [split(' ')]), [updatedAt] is the present instant, and every other field
    keeps its value; so do the other documents and the other collection.
    With only [roomNumber] in the input, nothing but [roomNumber] and
    [updatedAt] changes.  This is for dates that a timestamp holds. *)
Theorem update_writes_present_fields_only {rt : Runtime}
  (id : DocId) (data : PartialResidentFormData.t) (w : World)
  (old : gmap string Value) :
  docsOf w COLLECTIONS_RESIDENTS !! id = Some old ->
  nextFault w = None ->
  inTimestampRange (clock w) ->
  (forall s, PartialResidentFormData.birthDate data = Some s -> storableDate s) ->
  (forall s, PartialResidentFormData.admissionDate data = Some s -> storableDate s) ->
  storableOptDate (PartialResidentFormData.dischargeDate data) ->
  exists w' (new payload : gmap string Value),
    residentService.update id data w = (Ok tt, w')
    /\ calls w' = calls w ++ [CUpdateDoc COLLECTIONS_RESIDENTS id payload]
    /\ dom payload = touched data
    /\ docsOf w' COLLECTIONS_RESIDENTS !! id = Some new
    /\ (forall f, f ∈ touched data -> new !! f = payload !! f)
    /\ (forall f, f ∉ touched data -> new !! f = old !! f)
    /\ new !! "updatedAt" = Some (VTime (Some (clock w)))
    /\ (forall n, PartialResidentFormData.name data = Some n ->
          new !! "name" = Some (VStr n)
          /\ new !! "lastName" = Some (VStr (beforeSep SPACE n))
          /\ new !! "firstName" = Some (VStr (beforeSep SPACE (afterSep SPACE n))))
    /\ (forall fu, PartialResidentFormData.furigana data = Some fu ->
          new !! "furigana" = Some (VStr fu)
          /\ new !! "lastNameKana" = Some (VStr (beforeSep SPACE fu))
          /\ new !! "firstNameKana" = Some (VStr (beforeSep SPACE (afterSep SPACE fu))))
    /\ (forall x, PartialResidentFormData.gender data = Some x ->
          new !! "gender" = Some (VStr x))
    /\ (forall x, PartialResidentFormData.birthDate data = Some x ->
          new !! "birthDate" = Some (VTime (dateParse x)))
    /\ (forall x, PartialResidentFormData.roomNumber data = Some x ->
          new !! "roomNumber" = Some (VStr x))
    /\ (forall x, PartialResidentFormData.admissionDate data = Some x ->
          new !! "admissionDate" = Some (VTime (dateParse x)))
    /\ (forall x, PartialResidentFormData.dischargeDate data = Some x ->
          new !! "dischargeDate"
          = Some (if bool_decide (x = []) then VNull else VTime (dateParse x)))
    /\ (forall x, PartialResidentFormData.medicalHistory data = Some x ->
          new !! "medicalHistory" = Some (VStr x))
    /\ (forall x, PartialResidentFormData.medications data = Some x ->
          new !! "medications" = Some (VArr x))
    /\ (forall x, PartialResidentFormData.careLevel data = Some x ->
          new !! "careLevel" = Some (VNum x))
    /\ (forall id', id' <> id ->
          docsOf w' COLLECTIONS_RESIDENTS !! id' = docsOf w COLLECTIONS_RESIDENTS !! id')
    /\ (forall coll, coll <> COLLECTIONS_RESIDENTS -> docsOf w' coll = docsOf w coll)
    /\ (forall r, data = {| PartialResidentFormData.name := None;
                            PartialResidentFormData.furigana := None;
                            PartialResidentFormData.gender := None;
                            PartialResidentFormData.birthDate := None;
                            PartialResidentFormData.roomNumber := Some r;
                            PartialResidentFormData.admissionDate := None;
                            PartialResidentFormData.dischargeDate := None;
                            PartialResidentFormData.medicalHistory := None;
                            PartialResidentFormData.medications := None;
                            PartialResidentFormData.careLevel := None |} ->
          new !! "roomNumber" = Some (VStr r)
          /\ forall f, f <> "roomNumber" -> f <> "updatedAt" -> new !! f = old !! f).
Proof.
  intros Hold Hf Hclock Hb Ha Hd.
  set (payload := updatedDoc (VTime (Some (clock w))) data).
  pose proof (residentService_update_run id data w old Hclock Hb Ha Hd Hf Hold) as Hrun.
  fold payload in Hrun.
  assert (Hnew : forall f v, payload !! f = Some v -> (payload ∪ old) !! f = Some v).
  { intros f v Hv. by apply lookup_union_Some_l. }
  assert (Hkeep : forall f, f ∉ touched data -> (payload ∪ old) !! f = old !! f).
  { intros f Hnot. apply lookup_union_r.
    exact (updateData_untouched (VTime (Some (clock w))) data f Hnot). }
  destruct (updateData_copied (VTime (Some (clock w))) data)
    as (Hg & Hbd & Hr & Had & Hdd & Hmh & Hm & Hc).
  fold payload in Hg, Hbd, Hr, Had, Hdd, Hmh, Hm, Hc.
  eexists _, (payload ∪ old), payload. split; [exact Hrun|].
  split; [reflexivity|].
  split; [apply updatedDoc_dom|].
  split; [rewrite docsOf_setDocs; apply lookup_insert_eq|].
  split.
  { intros f Hin. rewrite <- (updatedDoc_dom (VTime (Some (clock w))) data) in Hin.
    apply elem_of_dom in Hin as [v Hv]. fold payload in Hv.
    by rewrite Hv, (Hnew f v Hv). }
  split; [exact Hkeep|].
  split; [apply Hnew, updateData_updatedAt|].
  split.
  { intros n Hn. destruct (updateData_name (VTime (Some (clock w))) data n Hn) as (H1 & H2 & H3).
    repeat split; by apply Hnew. }
  split.
  { intros n Hn. destruct (updateData_furigana (VTime (Some (clock w))) data n Hn) as (H1 & H2 & H3).
    repeat split; by apply Hnew. }
  split; [intros x Hx; by apply Hnew, Hg|].
  split; [intros x Hx; by apply Hnew, Hbd|].
  split; [intros x Hx; by apply Hnew, Hr|].
  split; [intros x Hx; by apply Hnew, Had|].
  split.
  { intros x Hx. rewrite (Hnew _ _ (Hdd x Hx)). by destruct x. }
  split; [intros x Hx; by apply Hnew, Hmh|].
  split; [intros x Hx; by apply Hnew, Hm|].
  split; [intros x Hx; by apply Hnew, Hc|].
  split.
  { intros id' Hne. rewrite docsOf_setDocs. by rewrite lookup_insert_ne. }
  split.
  { intros coll Hne. by rewrite docsOf_setDocs_ne. }
  intros r ->. split.
  - apply Hnew. reflexivity.
  - intros f Hr' Hu. apply Hkeep. unfold touched. simpl.
    rewrite !not_elem_of_union, !not_elem_of_singleton.
    repeat split; try done; apply not_elem_of_empty.
Qed.

Lemma update_writes_present_fields_only_witness :
  exists w' new,
    @residentService.update japan (sampleAutoId 0) roomOnly worldWithYamada = (Ok tt, w')
    /\ docsOf w' COLLECTIONS_RESIDENTS !! sampleAutoId 0 = Some new
    /\ new !! "roomNumber" = Some (VStr (js "305"))
    /\ forall f, f <> "roomNumber" -> f <> "updatedAt" -> new !! f = yamadaDoc !! f.
Proof.
  pose proof worldWithYamada_doc as Hold.
  assert (Hf : nextFault worldWithYamada = None) by (vm_compute; reflexivity).
  assert (Hclock : inTimestampRange (clock worldWithYamada)).
  { change (clock worldWithYamada) with 1710000000000.
    unfold inTimestampRange, MIN_SECONDS, MAX_SECONDS. lia. }
  destruct (@update_writes_present_fields_only japan (sampleAutoId 0) roomOnly
              worldWithYamada yamadaDoc Hold Hf Hclock)
    as (w' & new & payload & Hrun & _ & _ & Hnew & _ & _ & _ & _ & _ & _ & _ & _ & _ & _
        & _ & _ & _ & _ & _ & Hroom).
  - intros s Hs. discriminate Hs.
  - intros s Hs. discriminate Hs.
  - exact I.
  - destruct (Hroom (js "305") eq_refl) as [Hr Hrest].
    exists w', new. split; [exact Hrun|]. split; [exact Hnew|].
    split; [exact Hr|exact Hrest].
Defined.

(** ** Sorting and query results *)

Section SortingFacts.
Context {A : Type} (leb : A -> A -> bool).

Lemma insertSorted_perm x l : insertSorted leb x l ≡ₚ x :: l.
Proof.
  induction l as [|y l IH]; simpl; [done|].
  destruct (leb x y); [done|].
  rewrite IH. apply Permutation_swap.
Qed.

Lemma sortBy_perm l : sortBy leb l ≡ₚ l.
Proof.
  induction l as [|x l IH]; simpl; [done|].
  by rewrite insertSorted_perm, IH.
Qed.

Lemma elem_of_sortBy x l : x ∈ sortBy leb l <-> x ∈ l.
Proof. by rewrite sortBy_perm. Qed.

Lemma sortBy_length l : length (sortBy leb l) = length l.
Proof. by rewrite sortBy_perm. Qed.

(** With a total comparison the result is sorted. *)
Hypothesis leb_total : forall x y, leb x y = false -> leb y x = true.

Lemma insertSorted_sorted x l :
  Sorted (fun a b => leb a b = true) l ->
  Sorted (fun a b => leb a b = true) (insertSorted leb x l).
Proof.
  induction 1 as [|y l Hl IH Hy]; simpl.
  - by repeat constructor.
  - destruct (leb x y) eqn:E.
    + constructor; [by constructor|]. by constructor.
    + constructor; [exact IH|].
      destruct l as [|z l]; simpl.
      * constructor. by apply leb_total.
      * destruct (leb x z) eqn:Ez.
        -- constructor. by apply leb_total.
        -- constructor. by inversion Hy.
Qed.

Lemma sortBy_sorted l : Sorted (fun a b => leb a b = true) (sortBy leb l).
Proof.
  induction l as [|x l IH]; simpl; [constructor|].
  by apply insertSorted_sorted.
Qed.
End SortingFacts.

Lemma Sorted_map {A B} (f : A -> B) (R : A -> A -> Prop) (S : B -> B -> Prop)
  (l : list A) :
  (forall a b, R a b -> S (f a) (f b)) -> Sorted R l -> Sorted S (map f l).
Proof.
  intros HRS. induction 1 as [|x l Hl IH Hx]; simpl; constructor; [done|].
  destruct Hx; simpl; constructor. by apply HRS.
Qed.

Lemma elem_of_filter_bool {A} (p : A -> bool) (l : list A) x :
  x ∈ List.filter p l <-> x ∈ l /\ p x = true.
Proof. rewrite !list_elem_of_In. apply filter_In. Qed.

(** A query returns exactly the documents of the collection that satisfy
    all its constraints, each once. *)
Lemma elem_of_runQuery (q : Query) (c : gmap (list Z) (gmap string Value))
  (id : DocId) (d : gmap string Value) :
  (id, d) ∈ runQuery q c
  <-> c !! id = Some d /\ forallb (satisfies d) (q_constraints q) = true.
Proof.
  unfold runQuery. rewrite elem_of_sortBy, elem_of_filter_bool.
  by rewrite elem_of_map_to_list.
Qed.

Lemma NoDup_filter_bool {A} (p : A -> bool) (l : list A) :
  NoDup l -> NoDup (List.filter p l).
Proof.
  induction 1 as [|x l Hx Hl IH]; simpl; [constructor|].
  destruct (p x); [|done]. constructor; [|done].
  rewrite elem_of_filter_bool. tauto.
Qed.

Lemma NoDup_runQuery_ids (q : Query) (c : gmap (list Z) (gmap string Value)) :
  NoDup (runQuery q c).*1.
Proof.
  unfold runQuery. rewrite sortBy_perm.
  assert (Hl : NoDup (map_to_list c).*1) by apply NoDup_fst_map_to_list.
  induction (map_to_list c) as [|[k v] l IH]; simpl; [constructor|].
  simpl in Hl. apply NoDup_cons in Hl as [Hk Hl].
  destruct (forallb _ _); simpl; [|by apply IH].
  constructor; [|by apply IH].
  intros Hin. apply Hk. apply list_elem_of_fmap in Hin as [[k' v'] [-> Hin]].
  apply elem_of_filter_bool in Hin as [Hin _].
  apply list_elem_of_fmap. by exists (k', v').
Qed.

(** ** medicalRecordService *)

Lemma satisfies_recordsOf (d : gmap string Value) residentId :
  forallb (satisfies d) (q_constraints (medicalRecordService.recordsOf residentId)) = true
  <-> d !! "residentId" = Some (VStr residentId).
Proof.
  simpl. rewrite andb_true_r.
  destruct (d !! "residentId") as [v|]; simpl; [|done].
  rewrite bool_decide_eq_true. split; congruence.
Qed.

Lemma elem_of_recordsOf (w : World) residentId (id : DocId) (d : gmap string Value) :
  (id, d) ∈ runQuery (medicalRecordService.recordsOf residentId)
              (docsOf w COLLECTIONS_MEDICAL_RECORDS)
  <-> docsOf w COLLECTIONS_MEDICAL_RECORDS !! id = Some d
      /\ d !! "residentId" = Some (VStr residentId).
Proof. by rewrite elem_of_runQuery, satisfies_recordsOf. Qed.

Section Scan.
Context {rt : Runtime}.

(** The scan finds a record when one falls on the day and all carry a
    timestamp. *)
Lemma scanForDate_found target (docs : list (DocId * gmap string Value)) :
  Forall (fun p => exists t, p.2 !! "date" = Some (VTime t)) docs ->
  (exists p t, p ∈ docs /\ p.2 !! "date" = Some (VTime t)
               /\ format_YYYY_MM_DD t = target) ->
  exists m, medicalRecordService.scanForDate target docs = Ok (Some m).
Proof.
  induction 1 as [|p docs [t Ht] _ IH]; intros (p' & t' & Hin & Hd & Hfmt).
  - by apply elem_of_nil in Hin.
  - simpl. rewrite Ht. simpl.
    destruct (bool_decide (format_YYYY_MM_DD t = target)) eqn:E; [by eexists|].
    apply bool_decide_eq_false in E.
    apply elem_of_cons in Hin as [->|Hin]; [congruence|].
    apply IH. by exists p', t'.
Qed.

(** It finds none when no timestamp falls on the day. *)
Lemma scanForDate_absent target (docs : list (DocId * gmap string Value)) m :
  (forall p t, p ∈ docs -> p.2 !! "date" = Some (VTime t) ->
               format_YYYY_MM_DD t <> target) ->
  medicalRecordService.scanForDate target docs <> Ok (Some m).
Proof.
  induction docs as [|p docs IH]; intros Hno; simpl; [done|].
  destruct (p.2 !! "date") as [[| | |t| |]|] eqn:Hd; simpl; try done.
  destruct (bool_decide (format_YYYY_MM_DD t = target)) eqn:E.
  - apply bool_decide_eq_true in E. exfalso.
    apply (Hno p t); [apply elem_of_cons; by left|done|done].
  - apply IH. intros p' t' Hin. apply Hno. apply elem_of_cons. by right.
Qed.

Lemma checkExistingRecord_served residentId date w :
  nextFault w = None ->
  medicalRecordService.checkExistingRecord residentId date w =
    (match medicalRecordService.scanForDate (format_YYYY_MM_DD (dayjsParse date))
             (runQuery (medicalRecordService.recordsOf residentId)
                (docsOf w COLLECTIONS_MEDICAL_RECORDS)) with
     | Ok found => Ok found
     | Throw _ => Ok None
     end,
     afterCall (CGetDocs (medicalRecordService.recordsOf residentId)) w).
Proof.
  intros Hf. unfold medicalRecordService.checkExistingRecord, tryCatch, bind.
  change (query (collection COLLECTIONS_MEDICAL_RECORDS)
            [where_ "residentId" OpEq (VStr residentId)])
    with (medicalRecordService.recordsOf residentId).
  rewrite (getDocs_served _ _ Hf). unfold liftResult, ret.
  by destruct (medicalRecordService.scanForDate _ _).
Qed.

Lemma checkExistingRecord_failed residentId date w e :
  nextFault w = Some e ->
  medicalRecordService.checkExistingRecord residentId date w =
    (Ok None, afterCall (CGetDocs (medicalRecordService.recordsOf residentId)) w).
Proof.
  intros Hf. unfold medicalRecordService.checkExistingRecord, tryCatch, bind.
  change (query (collection COLLECTIONS_MEDICAL_RECORDS)
            [where_ "residentId" OpEq (VStr residentId)])
    with (medicalRecordService.recordsOf residentId).
  by rewrite (getDocs_failed _ _ _ Hf).
Qed.

Lemma docData_storable residentId data now :
  storableDate (MedicalRecordFormData.date data) ->
  medicalRecordService.docData residentId data now = Ok (recordObj residentId data now).
Proof.
  intros Hv. unfold medicalRecordService.docData.
  by rewrite (Timestamp_fromDate_storable _ Hv).
Qed.

Lemma docData_invalid residentId data now :
  invalidDate (MedicalRecordFormData.date data) ->
  medicalRecordService.docData residentId data now = Ok (recordObj residentId data now).
Proof.
  intros Hv. unfold medicalRecordService.docData, recordObj.
  rewrite (Timestamp_fromDate_invalid _ Hv). unfold invalidDate in Hv. by rewrite Hv.
Qed.

Lemma docData_outOfRange residentId data now :
  outOfRangeDate (MedicalRecordFormData.date data) ->
  medicalRecordService.docData residentId data now
  = Throw (FirestoreError "invalid-argument").
Proof.
  intros Hv. unfold medicalRecordService.docData.
  by rewrite (Timestamp_fromDate_outOfRange _ Hv).
Qed.

Lemma toDoc_recordObj residentId data now :
  toDoc (recordObj residentId data now) = recordDoc residentId data now.
Proof. reflexivity. Qed.

Lemma docData_clean residentId data now :
  storableDate (MedicalRecordFormData.date data) ->
  Forall (fun kv => cleanValue kv.2) (recordObj residentId data (VTime (Some now))).
Proof.
  intros [Hv1 Hv2]%timestamp_clean. unfold recordObj.
  repeat (apply Forall_cons_2; [by split|]). apply Forall_nil_2.
Qed.

Lemma insertRecord_run residentId data w :
  inTimestampRange (clock w) ->
  storableDate (MedicalRecordFormData.date data) ->
  nextFault w = None ->
  insertRecord residentId data w =
    (Ok (autoId w (issued w)),
     setIssued (S (issued w))
       (setDocs COLLECTIONS_MEDICAL_RECORDS
          (<[autoId w (issued w) := recordDoc residentId data (VTime (Some (clock w)))]>
             (docsOf w COLLECTIONS_MEDICAL_RECORDS))
          (afterCall (CAddDoc COLLECTIONS_MEDICAL_RECORDS
                        (recordDoc residentId data (VTime (Some (clock w))))) w))).
Proof.
  intros Hk Hv Hf. unfold insertRecord, bind, collection, liftResult.
  rewrite (Timestamp_now_run w Hk), (docData_storable _ _ _ Hv).
  by rewrite (addDoc_served _ _ _ (docData_clean residentId data (clock w) Hv) Hf).
Qed.

(** A date no timestamp holds is refused before anything is sent, and so is
    the timestamp of an Invalid Date. *)
Lemma insertRecord_outOfRange residentId data w :
  inTimestampRange (clock w) ->
  outOfRangeDate (MedicalRecordFormData.date data) ->
  insertRecord residentId data w = (Throw (FirestoreError "invalid-argument"), w).
Proof.
  intros Hk Hv. unfold insertRecord, bind, liftResult.
  by rewrite (Timestamp_now_run w Hk), (docData_outOfRange _ _ _ Hv).
Qed.

Lemma insertRecord_invalid residentId data w :
  inTimestampRange (clock w) ->
  invalidDate (MedicalRecordFormData.date data) ->
  insertRecord residentId data w = (Throw RangeError, w).
Proof.
  intros Hk Hv. unfold insertRecord, bind, liftResult, collection.
  rewrite (Timestamp_now_run w Hk), (docData_invalid _ _ _ Hv).
  erewrite addDoc_refused; [reflexivity|].
  unfold recordObj. unfold invalidDate in Hv. by rewrite Hv.
Qed.

Lemma create_after_check residentId data w :
  medicalRecordService.create residentId data w =
    match medicalRecordService.checkExistingRecord residentId
            (MedicalRecordFormData.date data) w with
    | (Ok (Some _), w1) =>
      (Throw (Error (conflictMessage (MedicalRecordFormData.date data))), w1)
    | (Ok None, w1) => insertRecord residentId data w1
    | (Throw e, w1) => (Throw e, w1)
    end.
Proof.
  unfold medicalRecordService.create, bind.
  destruct (medicalRecordService.checkExistingRecord _ _ w) as [[[m|]|e] w1]; done.
Qed.
End Scan.

(** ** The date check of [create] *)

(** [create] first reads the resident's records (one [getDocs], the call
    of [checkExistingRecord]).  When one of them falls on the local calendar
    day of the new note it throws an [Error] whose message starts with that
    day, and the store is left as it was; otherwise, for a date a timestamp
    holds, it adds one document holding the resident, the date and the text
    with [createdAt = updatedAt = now], and returns its id. *)
Lemma medical_create_by_local_day {rt : Runtime}
  (residentId : DocId) (data : MedicalRecordFormData.t) (w : World) :
  nextFault w = None ->
  recordsDated w residentId ->
  let date := MedicalRecordFormData.date data in
  let w1 := afterCall (CGetDocs (medicalRecordService.recordsOf residentId)) w in
  let id := autoId w (issued w) in
  let now := VTime (Some (clock w)) in
  (sameDayRecord w residentId date ->
     medicalRecordService.create residentId data w
     = (Throw (Error (format_YYYY_nen_MM_gatsu_DD_nichi (dayjsParse date)
                      ++ js "の診療録は既に存在します。既存の記録を編集してください。")), w1)
     /\ store w1 = store w
     /\ calls w1 = calls w ++ [CGetDocs (medicalRecordService.recordsOf residentId)])
  /\ (~ sameDayRecord w residentId date ->
      inTimestampRange (clock w) ->
      storableDate date ->
      nextFault w1 = None ->
      exists w' d,
        medicalRecordService.create residentId data w = (Ok id, w')
        /\ docsOf w' COLLECTIONS_MEDICAL_RECORDS
           = <[id := d]> (docsOf w COLLECTIONS_MEDICAL_RECORDS)
        /\ d !! "residentId" = Some (VStr residentId)
        /\ d !! "date" = Some (VTime (dateParse date))
        /\ d !! "record" = Some (VStr (MedicalRecordFormData.record data))
        /\ d !! "createdAt" = Some now
        /\ d !! "updatedAt" = Some now
        /\ calls w' = calls w ++ [CGetDocs (medicalRecordService.recordsOf residentId);
                                  CAddDoc COLLECTIONS_MEDICAL_RECORDS d]).
Proof.
  intros Hf Hdated date w1 id now.
  rewrite create_after_check, (checkExistingRecord_served _ _ _ Hf).
  fold date w1.
  set (docs := runQuery (medicalRecordService.recordsOf residentId)
                 (docsOf w COLLECTIONS_MEDICAL_RECORDS)).
  split.
  - intros (rid & d & t & Hd & Hr & Ht & Hfmt).
    destruct (scanForDate_found (format_YYYY_MM_DD (dayjsParse date)) docs) as [m Hm].
    + apply Forall_forall. intros [id' d'] Hin.
      apply elem_of_recordsOf in Hin as [Hin Hres]. exact (Hdated id' d' Hin Hres).
    + exists (rid, d), t. split; [by apply elem_of_recordsOf|]. by split.
    + rewrite Hm. done.
  - intros Hno Hk Hv Hf1.
    assert (Hscan : forall m, medicalRecordService.scanForDate
                                (format_YYYY_MM_DD (dayjsParse date)) docs
                              <> Ok (Some m)).
    { intros m. apply scanForDate_absent. intros [id' d'] t Hin Ht Hfmt.
      apply elem_of_recordsOf in Hin as [Hin Hres].
      apply Hno. by exists id', d', t. }
    assert (Hins : insertRecord residentId data w1 =
      (Ok id,
       setIssued (S (issued w1))
         (setDocs COLLECTIONS_MEDICAL_RECORDS
            (<[id := recordDoc residentId data now]>
               (docsOf w1 COLLECTIONS_MEDICAL_RECORDS))
            (afterCall (CAddDoc COLLECTIONS_MEDICAL_RECORDS
                          (recordDoc residentId data now)) w1))))
      by exact (insertRecord_run residentId data w1 Hk Hv Hf1).
    eexists _, (recordDoc residentId data now).
    split.
    { destruct (medicalRecordService.scanForDate _ docs) as [[m|]|e];
        [by destruct (Hscan m)|exact Hins|exact Hins]. }
    split; [by rewrite docsOf_setIssued, docsOf_setDocs|].
    repeat split; try reflexivity.
    simpl. by rewrite <- app_assoc.
Qed.

Lemma worldWithNote_docs :
  docsOf worldWithNote COLLECTIONS_MEDICAL_RECORDS
  = {[ js "rec1" := noteDoc "2024-03-10" "著変なし" ]}.
Proof. unfold docsOf, worldWithNote. cbn [store]. by rewrite lookup_singleton_eq. Qed.

Lemma worldWithNote_dated : recordsDated worldWithNote (js "r1").
Proof.
  intros id d. rewrite worldWithNote_docs.
  intros [_ <-]%lookup_singleton_Some _.
  exists (Some 1710028800000). vm_compute. reflexivity.
Qed.

Lemma worldWithNote_same_day : @sameDayRecord japan worldWithNote (js "r1") (js "2024-03-10").
Proof.
  exists (js "rec1"), (noteDoc "2024-03-10" "著変なし"), (Some 1710028800000).
  rewrite worldWithNote_docs. split; [apply lookup_singleton_eq|].
  split; [vm_compute; reflexivity|]. split; vm_compute; reflexivity.
Qed.

Lemma worldWithNote_next_day :
  ~ @sameDayRecord japan worldWithNote (js "r1") (js "2024-03-11").
Proof.
  intros (id & d & t & Hd & _ & Ht & Hfmt). rewrite worldWithNote_docs in Hd.
  apply lookup_singleton_Some in Hd as [_ <-].
  assert (t = Some 1710028800000) as ->.
  { assert (Hcomp : noteDoc "2024-03-10" "著変なし" !! "date" = Some (VTime (Some 1710028800000)))
      by (vm_compute; reflexivity).
    congruence. }
  vm_compute in Hfmt. discriminate Hfmt.
Qed.

(** In Japan the check does what its comment says: with a record dated
    2024-03-10, a second note for that day is refused and one for the next
    day is stored. *)
Lemma medical_create_in_japan :
  ((@medicalRecordService.create japan (js "r1") (note "2024-03-10" "再診") worldWithNote).1
   = Throw (Error (js "2024年03月10日の診療録は既に存在します。既存の記録を編集してください。"))
   /\ store (@medicalRecordService.create japan (js "r1") (note "2024-03-10" "再診")
               worldWithNote).2
      = store worldWithNote)
  /\ exists w' d,
       @medicalRecordService.create japan (js "r1") (note "2024-03-11" "再診") worldWithNote
       = (Ok (sampleAutoId 0), w')
       /\ docsOf w' COLLECTIONS_MEDICAL_RECORDS
          = <[sampleAutoId 0 := d]> (docsOf worldWithNote COLLECTIONS_MEDICAL_RECORDS)
       /\ d !! "createdAt" = Some (VTime (Some 1710100000000))
       /\ d !! "updatedAt" = Some (VTime (Some 1710100000000)).
Proof.
  split.
  - destruct (@medical_create_by_local_day japan (js "r1")
                (note "2024-03-10" "再診") worldWithNote eq_refl worldWithNote_dated)
      as [Hsame _].
    destruct (Hsame worldWithNote_same_day) as (Hrun & _ & _). rewrite Hrun.
    split; [vm_compute; reflexivity|reflexivity].
  - destruct (@medical_create_by_local_day japan (js "r1")
                (note "2024-03-11" "再診") worldWithNote eq_refl worldWithNote_dated)
      as [_ Hfree].
    destruct (Hfree worldWithNote_next_day) as (w' & d & Hrun & Hdocs & _ & _ & _ & Hc & Hu & _).
    + unfold inTimestampRange, MIN_SECONDS, MAX_SECONDS. cbn [clock worldWithNote]. lia.
    + storable.
    + reflexivity.
    + exists w', d. repeat split; assumption.
Qed.

(** C1. West of Greenwich [create] misses a record of the same day: the
    date it stores for "2024-03-10" is midnight UTC ([new Date] of the
    string), which [checkExistingRecord] reads back as a local day, the 9th
    in New York, and compares with the local day of the new date, the 10th.
    So with a record dated 2024-03-10, written by [create] itself, [create]
    for 2024-03-10 does not throw the error of a day already taken: it
    returns a new id, and the resident then has two records with the same
    date.  A note for 2024-03-11 is stored as well. *)
Theorem create_twice_west_of_utc :
  let first := @medicalRecordService.create newYork (js "r1")
                 (note "2024-03-10" "著変なし") emptyWorld in
  let second := @medicalRecordService.create newYork (js "r1")
                  (note "2024-03-10" "再診") first.2 in
  first.1 = Ok (sampleAutoId 0)
  /\ storedField first.2 COLLECTIONS_MEDICAL_RECORDS (sampleAutoId 0) "date"
     = Some (VTime (@dateParse newYork (js "2024-03-10")))
  /\ @storedDay newYork first.2 (sampleAutoId 0) = Some (js "2024-03-09")
  /\ @format_YYYY_MM_DD newYork (@dayjsParse newYork (js "2024-03-10")) = js "2024-03-10"
  /\ second.1 = Ok (sampleAutoId 1)
  /\ second.1 <> Throw (Error (@conflictMessage newYork (js "2024-03-10")))
  /\ storedField second.2 COLLECTIONS_MEDICAL_RECORDS (sampleAutoId 0) "residentId"
     = Some (VStr (js "r1"))
  /\ storedField second.2 COLLECTIONS_MEDICAL_RECORDS (sampleAutoId 1) "residentId"
     = Some (VStr (js "r1"))
  /\ storedField second.2 COLLECTIONS_MEDICAL_RECORDS (sampleAutoId 0) "date"
     = storedField second.2 COLLECTIONS_MEDICAL_RECORDS (sampleAutoId 1) "date"
  /\ (@medicalRecordService.create newYork (js "r1") (note "2024-03-11" "再診") first.2).1
     = Ok (sampleAutoId 1).
Proof.
  cbv zeta.
  repeat (split; [vm_compute; reflexivity|]).
  split; [vm_compute; discriminate|].
  repeat (split; [vm_compute; reflexivity|]). vm_compute. reflexivity.
Qed.

(** ** C6: failures of the two read operations *)

Lemma getByResidentId_failed {rt : Runtime} residentId w e :
  nextFault w = Some e ->
  medicalRecordService.getByResidentId residentId w
  = (Ok [], afterCall (CGetDocs (medicalRecordService.recordsOf residentId)) w).
Proof.
  intros Hf. unfold medicalRecordService.getByResidentId, tryCatch, bind.
  change (query (collection COLLECTIONS_MEDICAL_RECORDS)
            [where_ "residentId" OpEq (VStr residentId)])
    with (medicalRecordService.recordsOf residentId).
  by rewrite (getDocs_failed _ _ _ Hf).
Qed.

(** C6. When the store fails the read, [getByResidentId] returns the empty
    list and [checkExistingRecord] returns no record; neither propagates the
    error.  [create] then goes on exactly as after a check that found
    nothing: it runs its insertion, whatever the store holds for that day,
    and for a date a timestamp holds it stores the note. *)
Theorem read_failures_are_swallowed {rt : Runtime}
  (residentId : DocId) (data : MedicalRecordFormData.t) (w : World) (e : Err) :
  nextFault w = Some e ->
  let date := MedicalRecordFormData.date data in
  let w1 := afterCall (CGetDocs (medicalRecordService.recordsOf residentId)) w in
  medicalRecordService.getByResidentId residentId w = (Ok [], w1)
  /\ medicalRecordService.checkExistingRecord residentId date w = (Ok None, w1)
  /\ medicalRecordService.create residentId data w = insertRecord residentId data w1
  /\ (inTimestampRange (clock w) ->
      storableDate date ->
      nextFault w1 = None ->
      exists w' d,
        medicalRecordService.create residentId data w = (Ok (autoId w (issued w)), w')
        /\ docsOf w' COLLECTIONS_MEDICAL_RECORDS
           = <[autoId w (issued w) := d]> (docsOf w COLLECTIONS_MEDICAL_RECORDS)
        /\ d !! "residentId" = Some (VStr residentId)
        /\ d !! "date" = Some (VTime (dateParse date))
        /\ d !! "record" = Some (VStr (MedicalRecordFormData.record data))
        /\ d !! "createdAt" = Some (VTime (Some (clock w)))
        /\ d !! "updatedAt" = Some (VTime (Some (clock w)))).
Proof.
  intros Hf date w1.
  assert (Hcreate : medicalRecordService.create residentId data w
                    = insertRecord residentId data w1).
  { by rewrite create_after_check, (checkExistingRecord_failed _ _ _ _ Hf). }
  split; [exact (getByResidentId_failed _ _ _ Hf)|].
  split; [exact (checkExistingRecord_failed _ _ _ _ Hf)|].
  split; [exact Hcreate|].
  intros Hk Hv Hf1. eexists _, (recordDoc residentId data (VTime (Some (clock w)))).
  rewrite Hcreate.
  split; [exact (insertRecord_run residentId data w1 Hk Hv Hf1)|].
  split; [by rewrite docsOf_setIssued, docsOf_setDocs|].
  repeat split; reflexivity.
Qed.

Lemma read_failures_are_swallowed_witness :
  @sameDayRecord japan worldWithNoteFailing (js "r1") (js "2024-03-10")
  /\ (@medicalRecordService.getByResidentId japan (js "r1") worldWithNoteFailing).1 = Ok []
  /\ (@medicalRecordService.checkExistingRecord japan (js "r1") (js "2024-03-10")
        worldWithNoteFailing).1 = Ok None
  /\ exists w' d,
       @medicalRecordService.create japan (js "r1") (note "2024-03-10" "再診")
         worldWithNoteFailing = (Ok (sampleAutoId 0), w')
       /\ docsOf w' COLLECTIONS_MEDICAL_RECORDS
          = <[sampleAutoId 0 := d]>
              (docsOf worldWithNoteFailing COLLECTIONS_MEDICAL_RECORDS)
       /\ d !! "date" = Some (VTime (@dateParse japan (js "2024-03-10"))).
Proof.
  destruct (@read_failures_are_swallowed japan (js "r1") (note "2024-03-10" "再診")
              worldWithNoteFailing (FirestoreError "unavailable") eq_refl)
    as (Hget & Hcheck & _ & Hins).
  split; [exact worldWithNote_same_day|].
  split; [by rewrite Hget|].
  split; [exact (f_equal fst Hcheck)|].
  destruct Hins as (w' & d & Hrun & Hdocs & _ & Hdate & _).
  - unfold inTimestampRange, MIN_SECONDS, MAX_SECONDS.
    cbn [clock worldWithNoteFailing setFaults worldWithNote]. lia.
  - storable.
  - reflexivity.
  - exists w', d. split; [exact Hrun|]. split; [exact Hdocs|exact Hdate].
Defined.

(** ** C5: [update] of a medical record *)

Lemma medical_updateData_clean {rt : Runtime} now data :
  (forall s, PartialMedicalRecordFormData.date data = Some s -> storableDate s) ->
  Forall (fun kv => cleanValue kv.2) (recordPatchObj (VTime (Some now)) data).
Proof.
  intros Hd. unfold recordPatchObj.
  repeat (apply Forall_whenSome; [intros x u Hx Hu|]);
    repeat (apply Forall_objSet; [cbn [snd]|]);
    first [ done | by split | exact (timestamp_clean _ (Hd _ Hx))
          | apply Forall_singleton; by split ].
Qed.

Lemma toDoc_recordPatchObj {rt : Runtime} now data :
  toDoc (recordPatchObj now data) = recordPatch now data.
Proof.
  unfold recordPatchObj, recordPatch.
  repeat (apply toDoc_whenSome_eq; [intros; by rewrite ?toDoc_objSet|]).
  reflexivity.
Qed.

Lemma medical_updateData_storable {rt : Runtime} now data :
  (forall s, PartialMedicalRecordFormData.date data = Some s -> storableDate s) ->
  medicalRecordService.updateData now data = Ok (recordPatchObj now data).
Proof.
  intros Hd. unfold medicalRecordService.updateData. cbv zeta.
  rewrite (whenDefined_timestamp _ _ _ Hd). cbn [rbind].
  rewrite whenDefined_pure. cbn [rbind]. reflexivity.
Qed.

Lemma medical_updateData_lookup {rt : Runtime} now data :
  recordPatch now data !! "updatedAt" = Some now
  /\ recordPatch now data !! "date"
     = (fun s => VTime (dateParse s)) <$> PartialMedicalRecordFormData.date data
  /\ recordPatch now data !! "record"
     = VStr <$> PartialMedicalRecordFormData.record data
  /\ forall f, f <> "updatedAt" -> f <> "date" -> f <> "record" ->
       recordPatch now data !! f = None.
Proof.
  unfold recordPatch.
  destruct (PartialMedicalRecordFormData.date data),
           (PartialMedicalRecordFormData.record data); simpl;
    (split; [by rewrite ?lookup_insert_ne by done; apply lookup_insert_eq|]);
    (split; [by rewrite ?lookup_insert_ne by done;
                first [apply lookup_insert_eq | apply lookup_empty]|]);
    (split; [by rewrite ?lookup_insert_ne by done;
                first [apply lookup_insert_eq | apply lookup_empty]|]);
    intros f ? ? ?; rewrite ?lookup_insert_ne by congruence; apply lookup_empty.
Qed.

(** What [update] does for a date a timestamp holds. *)
Lemma medical_update_served {rt : Runtime} id data w (old : gmap string Value) :
  inTimestampRange (clock w) ->
  (forall s, PartialMedicalRecordFormData.date data = Some s -> storableDate s) ->
  nextFault w = None ->
  docsOf w COLLECTIONS_MEDICAL_RECORDS !! id = Some old ->
  medicalRecordService.update id data w =
    (Ok tt,
     setDocs COLLECTIONS_MEDICAL_RECORDS
       (<[id := recordPatch (VTime (Some (clock w))) data ∪ old]>
          (docsOf w COLLECTIONS_MEDICAL_RECORDS))
       (afterCall (CUpdateDoc COLLECTIONS_MEDICAL_RECORDS id
                     (recordPatch (VTime (Some (clock w))) data)) w)).
Proof.
  intros Hk Hd Hf Hold.
  unfold medicalRecordService.update, bind, liftResult.
  rewrite (Timestamp_now_run w Hk), (medical_updateData_storable _ data Hd).
  rewrite (updateDoc_served _ _ _ old _ (medical_updateData_clean (clock w) data Hd) Hf Hold).
  by rewrite toDoc_recordPatchObj.
Qed.

Lemma worldTwoNotes_rec2 :
  docsOf worldTwoNotes COLLECTIONS_MEDICAL_RECORDS !! js "rec2"
  = Some (noteDoc "2024-03-11" "発熱").
Proof.
  unfold docsOf, worldTwoNotes. cbn [store]. rewrite lookup_singleton_eq.
  unfold default, id. rewrite lookup_insert_ne; [apply lookup_singleton_eq|].
  intros Heq. vm_compute in Heq. discriminate Heq.
Qed.

(** C5. [update] sends one write and no read: the payload holds [updatedAt]
    and whichever of [date] and [record] the input has (the date as the
    timestamp of the date read, for a date a timestamp holds), the other
    fields of the record stay, and no record of the resident is looked at.
    So there is a state in which a record exists on a day, [create] refuses a
    second note for that day, and [update] moves another record of the
    resident onto it. *)
Theorem medical_update_skips_the_date_check :
  (forall (rt : Runtime) (id : DocId) (data : PartialMedicalRecordFormData.t)
          (w : World) (old : gmap string Value),
     docsOf w COLLECTIONS_MEDICAL_RECORDS !! id = Some old ->
     nextFault w = None ->
     inTimestampRange (clock w) ->
     (forall s, PartialMedicalRecordFormData.date data = Some s -> storableDate s) ->
     let now := VTime (Some (clock w)) in
     exists w' (new payload : gmap string Value),
       medicalRecordService.update id data w = (Ok tt, w')
       /\ calls w' = calls w ++ [CUpdateDoc COLLECTIONS_MEDICAL_RECORDS id payload]
       /\ payload !! "updatedAt" = Some now
       /\ payload !! "date"
          = (fun s => VTime (dateParse s)) <$> PartialMedicalRecordFormData.date data
       /\ payload !! "record" = VStr <$> PartialMedicalRecordFormData.record data
       /\ (forall f, f <> "updatedAt" -> f <> "date" -> f <> "record" ->
             payload !! f = None)
       /\ docsOf w' COLLECTIONS_MEDICAL_RECORDS
          = <[id := new]> (docsOf w COLLECTIONS_MEDICAL_RECORDS)
       /\ new !! "updatedAt" = Some now
       /\ new !! "date"
          = match PartialMedicalRecordFormData.date data with
            | Some s => Some (VTime (dateParse s))
            | None => old !! "date"
            end
       /\ new !! "record"
          = match PartialMedicalRecordFormData.record data with
            | Some s => Some (VStr s)
            | None => old !! "record"
            end
       /\ forall f, f <> "updatedAt" -> f <> "date" -> f <> "record" ->
            new !! f = old !! f)
  /\ (exists w : World,
        let w' := (@medicalRecordService.update japan (js "rec2")
                     (dateOnly "2024-03-10") w).2 in
        js "rec1" <> js "rec2"
        /\ storedField w COLLECTIONS_MEDICAL_RECORDS (js "rec1") "residentId"
          = Some (VStr (js "r1"))
        /\ storedField w COLLECTIONS_MEDICAL_RECORDS (js "rec2") "residentId"
          = Some (VStr (js "r1"))
        /\ @storedDay japan w (js "rec1") = Some (js "2024-03-10")
        /\ @storedDay japan w (js "rec2") = Some (js "2024-03-11")
        /\ (@medicalRecordService.create japan (js "r1") (note "2024-03-10" "再診") w).1
           = Throw (Error (@conflictMessage japan (js "2024-03-10")))
        /\ (@medicalRecordService.update japan (js "rec2") (dateOnly "2024-03-10") w).1
           = Ok tt
        /\ storedField w' COLLECTIONS_MEDICAL_RECORDS (js "rec1") "residentId"
           = Some (VStr (js "r1"))
        /\ storedField w' COLLECTIONS_MEDICAL_RECORDS (js "rec2") "residentId"
           = Some (VStr (js "r1"))
        /\ @storedDay japan w' (js "rec1") = Some (js "2024-03-10")
        /\ @storedDay japan w' (js "rec2") = Some (js "2024-03-10")).
Proof.
  split.
  - intros rt id data w old Hold Hf Hk Hd now.
    destruct (medical_updateData_lookup now data) as (Hu & Hdate & Hrec & Hother).
    eexists _, (recordPatch now data ∪ old), (recordPatch now data).
    split; [exact (medical_update_served id data w old Hk Hd Hf Hold)|].
    split; [reflexivity|].
    split; [exact Hu|]. split; [exact Hdate|]. split; [exact Hrec|].
    split; [exact Hother|].
    split; [by rewrite docsOf_setDocs|].
    split; [by apply lookup_union_Some_l|].
    split.
    { rewrite lookup_union, Hdate.
      by destruct (PartialMedicalRecordFormData.date data), (old !! "date"). }
    split.
    { rewrite lookup_union, Hrec.
      by destruct (PartialMedicalRecordFormData.record data), (old !! "record"). }
    intros f H1 H2 H3. rewrite lookup_union, (Hother f H1 H2 H3).
    by destruct (old !! f).
  - exists worldTwoNotes. cbv zeta.
    split; [intros Heq; vm_compute in Heq; discriminate Heq|].
    repeat (split; [vm_compute; reflexivity|]). vm_compute; reflexivity.
Qed.

Lemma medical_update_skips_the_date_check_witness :
  exists w' new,
    @medicalRecordService.update japan (js "rec2") (dateOnly "2024-03-10") worldTwoNotes
    = (Ok tt, w')
    /\ docsOf w' COLLECTIONS_MEDICAL_RECORDS
       = <[js "rec2" := new]> (docsOf worldTwoNotes COLLECTIONS_MEDICAL_RECORDS)
    /\ new !! "date" = Some (VTime (@dateParse japan (js "2024-03-10")))
    /\ new !! "residentId" = noteDoc "2024-03-11" "発熱" !! "residentId".
Proof.
  destruct (proj1 medical_update_skips_the_date_check japan (js "rec2")
              (dateOnly "2024-03-10") worldTwoNotes (noteDoc "2024-03-11" "発熱")
              worldTwoNotes_rec2 eq_refl)
    as (w' & new & payload & Hrun & _ & _ & _ & _ & _ & Hdocs & _ & Hdate & _ & Hother).
  - unfold inTimestampRange, MIN_SECONDS, MAX_SECONDS. cbn [clock worldTwoNotes]. lia.
  - intros s [= <-]. storable.
  - exists w', new. split; [exact Hrun|]. split; [exact Hdocs|].
    split; [exact Hdate|]. by apply Hother.
Defined.

(** ** The order of the store *)

Lemma listCompare_antisym {A} (cmp : A -> A -> comparison) :
  (forall x y, cmp x y = CompOpp (cmp y x)) ->
  forall a b, listCompare cmp a b = CompOpp (listCompare cmp b a).
Proof.
  intros Hc. induction a as [|x a IH]; intros [|y b]; simpl; try done.
  rewrite (Hc x y). destruct (cmp y x); simpl; auto.
Qed.

Lemma strCompare_antisym a b : strCompare a b = CompOpp (strCompare b a).
Proof. apply listCompare_antisym. intros x y. apply Z.compare_antisym. Qed.

Lemma dateCompare_antisym a b : dateCompare a b = CompOpp (dateCompare b a).
Proof. destruct a, b; simpl; try done. apply Z.compare_antisym. Qed.

Lemma valueCompare_antisym a b : valueCompare a b = CompOpp (valueCompare b a).
Proof.
  destruct a, b; simpl; try done;
    first [ apply Z.compare_antisym | apply dateCompare_antisym
          | apply strCompare_antisym
          | apply listCompare_antisym, strCompare_antisym ].
Qed.

Lemma docLeb_total f a b : docLeb f a b = false -> docLeb f b a = true.
Proof.
  unfold docLeb.
  rewrite (valueCompare_antisym (sortKey f b.2)), (strCompare_antisym b.1).
  destruct (valueCompare _ _); simpl; try done.
  by destruct (strCompare _ _).
Qed.

(** Code-point order is transitive. *)
Lemma listCompare_Z_trans a b c :
  listCompare Z.compare a b <> Gt -> listCompare Z.compare b c <> Gt ->
  listCompare Z.compare a c <> Gt.
Proof.
  revert b c. induction a as [|x a IH]; intros [|y b] [|z c]; simpl; try done.
  destruct (Z.compare_spec x y), (Z.compare_spec y z), (Z.compare_spec x z);
    try done; try lia.
  apply IH.
Qed.

#[global] Instance codePointLe_trans : Transitive codePointLe.
Proof. intros a b c. apply listCompare_Z_trans. Qed.

Lemma codePointLe_total a b : codePointLe a b \/ codePointLe b a.
Proof.
  unfold codePointLe. rewrite (strCompare_antisym b a).
  destruct (strCompare a b); simpl; auto.
Qed.

Lemma Sorted_weaken {A} (R S : A -> A -> Prop) (l : list A) :
  (forall a b, R a b -> S a b) -> Sorted R l -> Sorted S l.
Proof.
  intros HRS. induction 1 as [|x l Hl IH Hx]; constructor; [done|].
  destruct Hx; constructor. by apply HRS.
Qed.

(** The result of a query ordered by a field: along the result the field
    never decreases. *)
Lemma runQuery_sorted (q : Query) (c : gmap (list Z) (gmap string Value)) :
  Sorted (fun a b => valueCompare (sortKey (orderField (q_constraints q)) a.2)
                                  (sortKey (orderField (q_constraints q)) b.2) <> Gt)
    (runQuery q c).
Proof.
  unfold runQuery.
  eapply Sorted_weaken; [|apply sortBy_sorted, docLeb_total].
  intros a b. unfold docLeb. simpl. by destruct (valueCompare _ _).
Qed.

Lemma stringOrEmpty_VStr s : stringOrEmpty (Some (VStr s)) = s.
Proof.
  unfold stringOrEmpty, truthy, toStr.
  destruct (bool_decide (s = [])) eqn:E; [|done].
  by apply bool_decide_eq_true in E.
Qed.

Section OrderedByName.
Context {rt : Runtime}.

(** Residents read from a query ordered by [name] come in ascending
    code-point order of their names. *)
Lemma ordered_by_name (q : Query) (w : World) :
  namesAreStrings w ->
  q_collection q = COLLECTIONS_RESIDENTS ->
  orderField (q_constraints q) = Some "name" ->
  In (orderBy "name") (q_constraints q) ->
  StronglySorted codePointLe
    (map Resident.name
       (map (fun doc : DocId * gmap string Value => convertResidentData doc.1 doc.2)
          (runQuery q (docsOf w COLLECTIONS_RESIDENTS)))).
Proof.
  intros Hnames Hcoll Hord Hin.
  apply Sorted_StronglySorted; [apply codePointLe_trans|].
  rewrite map_map.
  assert (Hstr : forall p, p ∈ runQuery q (docsOf w COLLECTIONS_RESIDENTS) ->
                 exists s, p.2 !! "name" = Some (VStr s)).
  { intros [id d] Hp. apply elem_of_runQuery in Hp as [Hd Hsat].
    rewrite forallb_forall in Hsat. specialize (Hsat _ Hin). simpl in Hsat.
    apply bool_decide_eq_true in Hsat as [v Hv].
    destruct (Hnames id d v Hd Hv) as [s ->]. by exists s. }
  pose proof (runQuery_sorted q (docsOf w COLLECTIONS_RESIDENTS)) as Hs.
  rewrite Hord in Hs.
  induction Hs as [|p l Hl IH Hp]; simpl; [constructor|].
  constructor.
  - apply IH. intros p' Hp'. apply Hstr. apply elem_of_cons. by right.
  - destruct Hp as [|p' l' Hpp']; simpl; constructor.
    destruct (Hstr p) as [s Hs']; [apply elem_of_cons; by left|].
    destruct (Hstr p') as [s' Hs''];
      [apply elem_of_cons; right; apply elem_of_cons; by left|].
    simpl in Hpp'. rewrite Hs', Hs'' in Hpp'. simpl in Hpp'.
    rewrite Hs', Hs'', !stringOrEmpty_VStr. exact Hpp'.
Qed.
End OrderedByName.

(** ** The fan-out of [searchByName] *)

Lemma getDocs_world q w : (getDocs q w).2 = afterCall (CGetDocs q) w.
Proof. unfold getDocs, storageCall. by destruct (nextFault w). Qed.

Lemma promiseAll_getDocs_world qs w :
  (promiseAll (map getDocs qs) w).2 = foldl (fun w q => afterCall (CGetDocs q) w) w qs.
Proof.
  revert w. induction qs as [|q qs IH]; intros w; simpl; [done|].
  pose proof (getDocs_world q w) as Hq.
  destruct (getDocs q w) as [r w1]. simpl in Hq. subst w1.
  specialize (IH (afterCall (CGetDocs q) w)).
  destruct (promiseAll (map getDocs qs) (afterCall (CGetDocs q) w)) as [rs w2].
  simpl in *. by subst.
Qed.

Lemma calls_after_queries qs w :
  calls (foldl (fun w q => afterCall (CGetDocs q) w) w qs) = calls w ++ map CGetDocs qs.
Proof.
  revert w. induction qs as [|q qs IH]; intros w; simpl; [by rewrite app_nil_r|].
  rewrite IH. simpl. by rewrite <- app_assoc.
Qed.

Lemma promiseAll_getDocs_served qs w :
  faults w = [] ->
  (promiseAll (map getDocs qs) w).1
  = Ok (map (fun q => runQuery q (docsOf w (q_collection q))) qs).
Proof.
  revert w. induction qs as [|q qs IH]; intros w Hf; simpl; [done|].
  assert (Hn : nextFault w = None) by (unfold nextFault; by rewrite Hf).
  rewrite (getDocs_served q w Hn).
  specialize (IH (afterCall (CGetDocs q) w)).
  destruct (promiseAll (map getDocs qs) (afterCall (CGetDocs q) w)) as [rs w2].
  simpl in *. rewrite IH; [done|]. by rewrite Hf.
Qed.

(** *** The map of residents *)

Lemma mapSet_keys {V} (k : DocId) (v : V) (m : list (DocId * V)) k' :
  k' ∈ (mapSet k v m).*1 <-> k' = k \/ k' ∈ m.*1.
Proof.
  induction m as [|[k0 v0] m IH]; simpl.
  - rewrite list_elem_of_singleton, elem_of_nil. tauto.
  - case_bool_decide as Hk; simpl; rewrite !elem_of_cons; [subst; tauto|].
    rewrite IH. tauto.
Qed.

Lemma mapSet_NoDup {V} (k : DocId) (v : V) (m : list (DocId * V)) :
  NoDup m.*1 -> NoDup (mapSet k v m).*1.
Proof.
  induction m as [|[k0 v0] m IH]; simpl; intros Hm.
  - apply NoDup_singleton.
  - apply NoDup_cons in Hm as [Hk0 Hm].
    case_bool_decide as Hk; simpl.
    + subst. by apply NoDup_cons.
    + apply NoDup_cons. split; [|by apply IH].
      rewrite mapSet_keys. intros [->|Hin]; done.
Qed.

Lemma mapSet_elem {V} (k : DocId) (v : V) (m : list (DocId * V)) k' v' :
  (k', v') ∈ mapSet k v m -> (k' = k /\ v' = v) \/ (k', v') ∈ m.
Proof.
  induction m as [|[k0 v0] m IH]; simpl.
  - rewrite list_elem_of_singleton. intros [= -> ->]. by left.
  - case_bool_decide as Hk; rewrite !elem_of_cons.
    + intros [[= -> ->]|Hin]; [by left|right; by right].
    + intros [Heq|Hin]; [right; by left|].
      destruct (IH Hin) as [?|?]; [by left|right; by right].
Qed.

Section Collect.
Context {rt : Runtime}.

Lemma collectResidents_concat results :
  residentService.collectResidents results = foldl keep [] (concat results).
Proof.
  unfold residentService.collectResidents. generalize (@nil (DocId * Resident.t)).
  induction results as [|r results IH]; intros m; simpl; [done|].
  rewrite foldl_app. apply IH.
Qed.

Lemma keep_all_keys docs m k :
  k ∈ (foldl keep m docs).*1 <-> k ∈ m.*1 \/ k ∈ docs.*1.
Proof.
  revert m. induction docs as [|[id d] docs IH]; intros m; simpl.
  - rewrite elem_of_nil. tauto.
  - rewrite IH. unfold keep. simpl. rewrite mapSet_keys, elem_of_cons. tauto.
Qed.

Lemma keep_all_NoDup docs m : NoDup m.*1 -> NoDup (foldl keep m docs).*1.
Proof.
  revert m. induction docs as [|[id d] docs IH]; intros m Hm; simpl; [done|].
  apply IH. by apply mapSet_NoDup.
Qed.

Lemma keep_all_values (P : DocId -> Resident.t -> Prop) docs m :
  (forall k v, (k, v) ∈ m -> P k v) ->
  (forall id d, (id, d) ∈ docs -> P id (convertResidentData id d)) ->
  forall k v, (k, v) ∈ foldl keep m docs -> P k v.
Proof.
  revert m. induction docs as [|[id d] docs IH]; intros m Hm Hdocs; simpl; [done|].
  apply IH.
  - intros k v Hin. apply mapSet_elem in Hin as [[-> ->]|Hin]; [|by apply Hm].
    apply Hdocs. apply elem_of_cons. by left.
  - intros id' d' Hin. apply Hdocs. apply elem_of_cons. by right.
Qed.

Lemma ids_of_values (m : list (DocId * Resident.t)) :
  (forall k v, (k, v) ∈ m -> Resident.id v = k) ->
  map Resident.id (mapValues m) = m.*1.
Proof.
  induction m as [|[k v] m IH]; intros Hm; simpl; [done|].
  rewrite (Hm k v) by (apply elem_of_cons; by left). f_equal.
  apply IH. intros k' v' Hin. apply Hm. apply elem_of_cons. by right.
Qed.
End Collect.

Lemma codePointLe_flip a b : notLt (strCompare b a) = true <-> codePointLe a b.
Proof.
  unfold codePointLe. rewrite (strCompare_antisym a b).
  by destruct (strCompare b a).
Qed.

Lemma notGt_codePointLe a b : notGt (strCompare a b) = true <-> codePointLe a b.
Proof. unfold codePointLe. by destruct (strCompare a b). Qed.

Lemma inClosedRange_spec q v :
  inClosedRange q v = true <-> codePointLe q v /\ codePointLe v (q ++ [0xf8ff]).
Proof.
  unfold inClosedRange. by rewrite andb_true_iff, codePointLe_flip, notGt_codePointLe.
Qed.

(** A sub-query returns the documents whose field is a string in the closed
    range. *)
Lemma satisfies_prefixQuery (d : gmap string Value) f t :
  forallb (satisfies d) (q_constraints (residentService.prefixQuery f t))
  = fieldIn inClosedRange f t d.
Proof.
  unfold fieldIn. simpl. destruct (d !! f) as [[| | | |v|]|]; try done.
  unfold inClosedRange. simpl. by rewrite andb_true_r.
Qed.

Lemma hitBy_searchQueries (d : gmap string Value) term :
  (exists q, q ∈ residentService.searchQueries term
                   (residentService.convertHiraganaToKatakana term)
             /\ forallb (satisfies d) (q_constraints q) = true)
  <-> hitBy inClosedRange term d = true.
Proof.
  unfold hitBy, residentService.searchQueries.
  rewrite !orb_true_iff, <- !satisfies_prefixQuery. split.
  - intros (q & Hq & Hsat). rewrite !elem_of_cons, elem_of_nil in Hq.
    destruct Hq as [->|[->|[->|[->|[->|[->|[]]]]]]]; tauto.
  - intros [[[[[H|H]|H]|H]|H]|H]; eexists; (split; [|exact H]);
      rewrite !elem_of_cons; tauto.
Qed.

Lemma elem_of_concat {A} (ls : list (list A)) x :
  x ∈ concat ls <-> exists l, x ∈ l /\ l ∈ ls.
Proof.
  rewrite list_elem_of_In, in_concat. split.
  - intros (l & Hl & Hx). exists l. by rewrite !list_elem_of_In.
  - intros (l & Hx & Hl). exists l. by rewrite <- !list_elem_of_In.
Qed.

Section Search.
Context {rt : Runtime}.

Lemma searchByName_run name w :
  trim name <> [] ->
  let queries := residentService.searchQueries (trim name)
                   (residentService.convertHiraganaToKatakana (trim name)) in
  residentService.searchByName name w =
    (match (promiseAll (map getDocs queries) w).1 with
     | Ok results =>
       Ok (arraySort (fun a b => localeCompare (Resident.name a) (Resident.name b))
             (mapValues (residentService.collectResidents results)))
     | Throw e => Throw e
     end,
     (promiseAll (map getDocs queries) w).2).
Proof.
  intros Hne queries. unfold residentService.searchByName.
  rewrite bool_decide_eq_false_2 by done.
  unfold tryCatch, bind, ret, throw. fold queries.
  by destruct (promiseAll (map getDocs queries) w) as [[results|e] w'].
Qed.

(** The residents collected from the six results: one per id, under the
    ids the results hold, each read from its stored document. *)
Lemma collected_residents (qs : list Query) (w : World) :
  Forall (fun q => q_collection q = COLLECTIONS_RESIDENTS) qs ->
  let m := residentService.collectResidents
             (map (fun q => runQuery q (docsOf w (q_collection q))) qs) in
  NoDup m.*1
  /\ (forall id, id ∈ m.*1 <->
        exists d, docsOf w COLLECTIONS_RESIDENTS !! id = Some d
                  /\ exists q, q ∈ qs /\ forallb (satisfies d) (q_constraints q) = true)
  /\ (forall k r, (k, r) ∈ m ->
        Resident.id r = k
        /\ exists d, docsOf w COLLECTIONS_RESIDENTS !! k = Some d
                     /\ r = convertResidentData k d).
Proof.
  intros Hqs m. subst m. rewrite collectResidents_concat.
  split; [apply keep_all_NoDup; constructor|].
  split.
  - intros id. rewrite keep_all_keys. simpl. rewrite elem_of_nil.
    rewrite list_elem_of_fmap. split.
    + intros [[]|([id' d] & -> & Hin)].
      apply elem_of_concat in Hin as (l & Hin & Hl).
      apply list_elem_of_fmap in Hl as (q & -> & Hq).
      rewrite Forall_forall in Hqs. rewrite (Hqs q Hq) in Hin.
      apply elem_of_runQuery in Hin as [Hd Hsat].
      exists d. split; [done|]. by exists q.
    + intros (d & Hd & q & Hq & Hsat). right. exists (id, d). split; [done|].
      apply elem_of_concat.
      exists (runQuery q (docsOf w (q_collection q))). split.
      * rewrite Forall_forall in Hqs. rewrite (Hqs q Hq).
        by apply elem_of_runQuery.
      * apply list_elem_of_fmap. by exists q.
  - apply keep_all_values.
    + intros k v Hin. by apply elem_of_nil in Hin.
    + intros id d Hin. split; [done|].
      apply elem_of_concat in Hin as (l & Hin & Hl).
      apply list_elem_of_fmap in Hl as (q & -> & Hq).
      rewrite Forall_forall in Hqs. rewrite (Hqs q Hq) in Hin.
      apply elem_of_runQuery in Hin as [Hd _]. by exists d.
Qed.
End Search.

(** ** C2: the six sub-queries and their union *)

(** A resident whose name is the query followed by U+F8FF is returned,
    though none of its six fields lies in the half-open range that ends
    before the query followed by U+F8FF.  With a space before the query the
    six calls are the same, made with the trimmed term, and the resident is
    returned again, though no field lies in a range that starts at the
    query as typed. *)
Lemma search_range_counterexample :
  (namesOf (@residentService.searchByName japan (js "山") worldBoundary).1
     = [js "山" ++ [0xf8ff]]
   /\ idsOf (@residentService.searchByName japan (js "山") worldBoundary).1
     = [sampleAutoId 0]
   /\ (hitBy inHalfOpenRange (js "山")
         <$> docsOf worldBoundary COLLECTIONS_RESIDENTS !! sampleAutoId 0) = Some false
   /\ storedField worldBoundary COLLECTIONS_RESIDENTS (sampleAutoId 0) "name"
      = Some (VStr (js "山" ++ [0xf8ff]))
   /\ inHalfOpenRange (js "山") (js "山" ++ [0xf8ff]) = false
   /\ inClosedRange (js "山") (js "山" ++ [0xf8ff]) = true)
  /\ (drop (length (calls worldBoundary))
        (calls (@residentService.searchByName japan (js " 山") worldBoundary).2)
      = map CGetDocs (residentService.searchQueries (js "山") (js "山"))
      /\ idsOf (@residentService.searchByName japan (js " 山") worldBoundary).1
        = [sampleAutoId 0]
      /\ (hitBy inClosedRange (js " 山")
            <$> docsOf worldBoundary COLLECTIONS_RESIDENTS !! sampleAutoId 0)
         = Some false).
Proof.
  split.
  - repeat (split; [vm_compute; reflexivity|]). vm_compute; reflexivity.
  - repeat (split; [vm_compute; reflexivity|]). vm_compute; reflexivity.
Qed.

(** C2 (as the code has it). For a query that is not blank [searchByName]
    issues exactly six [getDocs] calls: on [name], [lastName] and [firstName]
    with the trimmed query, on [furigana], [lastNameKana] and [firstNameKana]
    with its katakana form.  Each returns the residents whose field is a
    string in the closed range from the term to the term followed by U+F8FF,
    in code-point order.  When the calls are served, the result holds
    exactly the residents returned by at least one of the six, each once. *)
Theorem search_issues_six_range_queries_and_merges {rt : Runtime}
  (name : jsstring) (w : World) :
  ~ blank name ->
  let searchTerm := trim name in
  let katakanaSearch := residentService.convertHiraganaToKatakana searchTerm in
  let range f t :=
    query COLLECTIONS_RESIDENTS
      [where_ f OpGe (VStr t); where_ f OpLe (VStr (t ++ [0xf8ff]))] in
  calls (residentService.searchByName name w).2
  = calls w ++ [CGetDocs (range "name" searchTerm);
                CGetDocs (range "lastName" searchTerm);
                CGetDocs (range "firstName" searchTerm);
                CGetDocs (range "furigana" katakanaSearch);
                CGetDocs (range "lastNameKana" katakanaSearch);
                CGetDocs (range "firstNameKana" katakanaSearch)]
  /\ (forall f t id (d : gmap string Value),
        (id, d) ∈ runQuery (range f t) (docsOf w COLLECTIONS_RESIDENTS)
        <-> docsOf w COLLECTIONS_RESIDENTS !! id = Some d
            /\ exists v, d !! f = Some (VStr v)
                         /\ codePointLe t v /\ codePointLe v (t ++ [0xf8ff]))
  /\ (faults w = [] ->
      exists rs,
        (residentService.searchByName name w).1 = Ok rs
        /\ NoDup (map Resident.id rs)
        /\ (forall id, id ∈ map Resident.id rs <->
              exists d, docsOf w COLLECTIONS_RESIDENTS !! id = Some d
                        /\ hitBy inClosedRange searchTerm d = true)
        /\ (forall r, r ∈ rs ->
              exists d, docsOf w COLLECTIONS_RESIDENTS !! Resident.id r = Some d
                        /\ r = convertResidentData (Resident.id r) d)).
Proof.
  intros Hnb searchTerm katakanaSearch range.
  assert (Hne : trim name <> []) by (by rewrite trim_nil_iff).
  rewrite (searchByName_run name w Hne). cbv zeta. fold searchTerm katakanaSearch.
  set (queries := residentService.searchQueries searchTerm katakanaSearch).
  split; [|split].
  - cbn [snd]. rewrite promiseAll_getDocs_world, calls_after_queries. reflexivity.
  - intros f t id d.
    change (range f t) with (residentService.prefixQuery f t).
    rewrite elem_of_runQuery, satisfies_prefixQuery. unfold fieldIn.
    split.
    + intros [Hd Hin]. split; [done|].
      destruct (d !! f) as [[| | | |v|]|]; try done.
      exists v. split; [done|]. by apply inClosedRange_spec.
    + intros [Hd (v & -> & Hv)]. split; [done|]. by apply inClosedRange_spec.
  - intros Hf. cbn [fst]. rewrite (promiseAll_getDocs_served queries w Hf).
    eexists. split; [reflexivity|].
    assert (Hqs : Forall (fun q => q_collection q = COLLECTIONS_RESIDENTS) queries)
      by (repeat constructor).
    destruct (collected_residents queries w Hqs) as (Hnd & Hkeys & Hvals).
    set (m := residentService.collectResidents
                (map (fun q => runQuery q (docsOf w (q_collection q))) queries)) in *.
    assert (Hids : map Resident.id (mapValues m) = m.*1).
    { apply ids_of_values. intros k v Hin. by destruct (Hvals k v Hin). }
    unfold arraySort.
    split; [|split].
    + rewrite sortBy_perm, Hids. exact Hnd.
    + intros id. rewrite sortBy_perm, Hids, Hkeys.
      split; intros (d & Hd & Hhit); exists d; (split; [done|]);
        by apply hitBy_searchQueries.
    + intros r Hr. apply elem_of_sortBy in Hr.
      apply list_elem_of_fmap in Hr as ([k r'] & -> & Hin). simpl.
      destruct (Hvals k r' Hin) as (-> & d & Hd & Hr'). by exists d.
Qed.

Lemma search_issues_six_range_queries_and_merges_witness :
  length (calls (@residentService.searchByName japan (js "山田") worldWithYamada).2)
  = (length (calls worldWithYamada) + 6)%nat
  /\ exists rs,
       (@residentService.searchByName japan (js "山田") worldWithYamada).1 = Ok rs
       /\ NoDup (map Resident.id rs)
       /\ sampleAutoId 0 ∈ map Resident.id rs.
Proof.
  assert (Hnb : ~ blank (js "山田")).
  { intros Hb. apply Forall_cons in Hb as [Hc _]. vm_compute in Hc. discriminate Hc. }
  destruct (@search_issues_six_range_queries_and_merges japan (js "山田")
              worldWithYamada Hnb) as (Hcalls & _ & Hres).
  split.
  - rewrite Hcalls, length_app. reflexivity.
  - destruct Hres as (rs & Hrun & Hnd & Hids & _); [vm_compute; reflexivity|].
    exists rs. split; [exact Hrun|]. split; [exact Hnd|].
    apply Hids. exists yamadaDoc. split; [exact worldWithYamada_doc|].
    vm_compute. reflexivity.
Defined.

(** ** C3: the order of the results *)

(** [searchByName] returns two residents in the order of the collation,
    katakana アベ before hiragana いとう, which is not their code-point
    order; [getAll] returns the same two in code-point order. *)
Lemma search_order_counterexample :
  namesOf (@residentService.searchByName japan (js "た") worldKana).1
    = [js "アベ タロウ"; js "いとう たかし"]
  /\ strCompare (js "アベ タロウ") (js "いとう たかし") = Gt
  /\ namesOf (@residentService.getAll japan worldKana).1
    = [js "いとう たかし"; js "アベ タロウ"]
  /\ ~ StronglySorted codePointLe
        (namesOf (@residentService.searchByName japan (js "た") worldKana).1).
Proof.
  assert (Hnames : namesOf (@residentService.searchByName japan (js "た") worldKana).1
                   = [js "アベ タロウ"; js "いとう たかし"]) by (vm_compute; reflexivity).
  assert (Hgt : strCompare (js "アベ タロウ") (js "いとう たかし") = Gt)
    by (vm_compute; reflexivity).
  split; [exact Hnames|]. split; [exact Hgt|].
  split; [vm_compute; reflexivity|].
  rewrite Hnames. intros Hs. apply StronglySorted_inv in Hs as [_ Hall].
  apply Forall_cons in Hall as [Hle _]. by apply Hle.
Qed.

Section Ordered.
Context {rt : Runtime}.

Lemma collation_sorted (rs : list Resident.t) :
  consistentCollation rt ->
  StronglySorted collationLe
    (map Resident.name
       (arraySort (fun a b => localeCompare (Resident.name a) (Resident.name b)) rs)).
Proof.
  intros [Htot Htrans].
  apply Sorted_StronglySorted.
  { intros a b c. apply Htrans. }
  unfold arraySort. eapply Sorted_map; [|apply sortBy_sorted].
  - intros a b Hab. apply Z.leb_le in Hab. exact Hab.
  - intros a b Hab. apply Z.leb_gt in Hab. apply Z.leb_le.
    destruct (Htot (Resident.name a) (Resident.name b)); [lia|done].
Qed.
End Ordered.

(** C3 (as the code has it). The results of [getAll], [getByCareLevel] and
    [getByMedication] come from the store ordered by [name]: their full
    names ascend in code-point order.  The result of [searchByName] is
    sorted by the service itself with [localeCompare]: its full names ascend
    in the collation of the runtime, which need not be code-point order. *)
Theorem results_ascend_by_full_name {rt : Runtime} (w : World) :
  faults w = [] ->
  namesAreStrings w ->
  ((exists rs, (residentService.getAll w).1 = Ok rs)
   /\ StronglySorted codePointLe (namesOf (residentService.getAll w).1))
  /\ (forall careLevel,
        (exists rs, (residentService.getByCareLevel careLevel w).1 = Ok rs)
        /\ StronglySorted codePointLe
             (namesOf (residentService.getByCareLevel careLevel w).1))
  /\ (forall medication,
        (exists rs, (residentService.getByMedication medication w).1 = Ok rs)
        /\ StronglySorted codePointLe
             (namesOf (residentService.getByMedication medication w).1))
  /\ (consistentCollation rt ->
      forall name,
        (exists rs, (residentService.searchByName name w).1 = Ok rs)
        /\ StronglySorted collationLe
             (namesOf (residentService.searchByName name w).1)).
Proof.
  intros Hf Hnames.
  assert (Hn : nextFault w = None) by (unfold nextFault; by rewrite Hf).
  split; [|split; [|split]].
  - unfold residentService.getAll, tryCatch, bind, ret.
    rewrite (getDocs_served _ _ Hn). cbn [fst namesOf]. split; [by eexists|].
    apply (ordered_by_name (query COLLECTIONS_RESIDENTS [orderBy "name"]) w Hnames);
      [done|done|by left].
  - intros careLevel. unfold residentService.getByCareLevel, bind, ret.
    rewrite (getDocs_served _ _ Hn). cbn [fst namesOf]. split; [by eexists|].
    apply (ordered_by_name
             (query COLLECTIONS_RESIDENTS
                [where_ "careLevel" OpEq (VNum careLevel); orderBy "name"]) w Hnames);
      [done|done|right; by left].
  - intros medication.
    destruct (decide (trim medication = [])) as [Hb|Hb].
    { rewrite (getByMedication_blank medication w Hb). cbn.
      split; [by eexists|constructor]. }
    unfold residentService.getByMedication.
    rewrite bool_decide_eq_false_2 by done. unfold bind, ret. rewrite (getDocs_served _ _ Hn). cbn [fst namesOf].
    split; [by eexists|].
    apply (ordered_by_name
             (query COLLECTIONS_RESIDENTS
                [where_ "medications" OpArrayContains (VStr (trim medication));
                 orderBy "name"]) w Hnames);
      [done|done|right; by left].
  - intros Hcoll name.
    destruct (decide (trim name = [])) as [Hb|Hb].
    { rewrite (searchByName_blank name w Hb). cbn. split; [by eexists|constructor]. }
    rewrite (searchByName_run name w Hb). cbn [fst].
    rewrite (promiseAll_getDocs_served _ w Hf). cbn [namesOf].
    split; [by eexists|]. by apply collation_sorted.
Qed.

(** *** The example collation is a total preorder *)

Lemma listCompare_Z_eq a b : listCompare Z.compare a b = Eq -> a = b.
Proof.
  revert b. induction a as [|x a IH]; intros [|y b]; simpl; try done.
  destruct (Z.compare_spec x y); try done. intros Hab. subst. f_equal. by apply IH.
Qed.

Lemma listCompare_Z_lt_trans a b c :
  listCompare Z.compare a b = Lt -> listCompare Z.compare b c = Lt ->
  listCompare Z.compare a c = Lt.
Proof.
  revert b c. induction a as [|x a IH]; intros [|y b] [|z c]; simpl; try done.
  destruct (Z.compare_spec x y), (Z.compare_spec y z), (Z.compare_spec x z);
    try done; try lia.
  apply IH.
Qed.

Lemma listCompare_Z_antisym a b :
  listCompare Z.compare a b = CompOpp (listCompare Z.compare b a).
Proof. apply listCompare_antisym. intros x y. apply Z.compare_antisym. Qed.

Lemma listCompare_Z_refl a : listCompare Z.compare a a = Eq.
Proof. induction a as [|x a IH]; simpl; [done|]. by rewrite Z.compare_refl. Qed.

Lemma kanaCollate_le a b :
  kanaCollate a b <= 0 <->
  listCompare Z.compare (map foldKana a) (map foldKana b) = Lt
  \/ (map foldKana a = map foldKana b /\ listCompare Z.compare a b <> Gt).
Proof.
  unfold kanaCollate.
  destruct (listCompare Z.compare (map foldKana a) (map foldKana b)) eqn:E.
  - apply listCompare_Z_eq in E.
    destruct (listCompare Z.compare a b); simpl.
    + split; [intros _; right; by split|lia].
    + split; [intros _; right; by split|lia].
    + split; [lia|]. intros [H|[_ H]]; done.
  - simpl. split; [by left|lia].
  - simpl. split; [lia|]. intros [H|[Heq _]]; [done|].
    rewrite Heq, listCompare_Z_refl in E. done.
Qed.

Lemma kanaCollate_consistent : consistentCollation japan.
Proof.
  split; simpl.
  - intros a b. rewrite !kanaCollate_le.
    rewrite (listCompare_Z_antisym (map foldKana b)), (listCompare_Z_antisym b a).
    destruct (listCompare Z.compare (map foldKana a) (map foldKana b)) eqn:E; simpl.
    + apply listCompare_Z_eq in E.
      destruct (listCompare Z.compare a b); simpl; [left|left|right]; right; done.
    + by left; left.
    + by right; left.
  - intros a b c. rewrite !kanaCollate_le.
    intros [Hab|[Hab Hab']] [Hbc|[Hbc Hbc']].
    + left. by eapply listCompare_Z_lt_trans.
    + left. by rewrite <- Hbc.
    + left. by rewrite Hab.
    + right. split; [congruence|]. by eapply listCompare_Z_trans.
Qed.

(** *** Stored names are strings *)

Lemma docsOf_emptyWorld coll : docsOf emptyWorld coll = ∅.
Proof. unfold docsOf, emptyWorld. cbn [store]. by rewrite lookup_empty. Qed.

Lemma namesAreStrings_empty : namesAreStrings emptyWorld.
Proof. intros id d v Hd. by rewrite docsOf_emptyWorld, lookup_empty in Hd. Qed.

(** The full name in every payload [create] builds. *)
Lemma createData_name {rt : Runtime} now data obj :
  residentService.createData now data = Ok obj ->
  toDoc obj !! "name" = Some (VStr (ResidentFormData.name data)).
Proof.
  unfold residentService.createData.
  destruct (Timestamp_fromDate (dateParse (ResidentFormData.birthDate data)))
    as [b|e]; [|done].
  destruct (Timestamp_fromDate (dateParse (ResidentFormData.admissionDate data)))
    as [a|e]; [|done].
  destruct (timestampOrNull (ResidentFormData.dischargeDate data)) as [d|e]; [|done].
  cbn [rbind]. intros [= <-]. rewrite toDoc_cons. apply lookup_insert_eq.
Qed.

(** [create] keeps the property, whether it succeeds or not. *)
Lemma create_keeps_names {rt : Runtime} data w :
  namesAreStrings w -> namesAreStrings (residentService.create data w).2.
Proof.
  intros Hw.
  unfold residentService.create, tryCatch, bind, liftResult, Timestamp_now, collection.
  destruct (Timestamp_fromMillis (clock w)) as [now|e]; [|exact Hw].
  destruct (residentService.createData now data) as [obj|e] eqn:Hobj; [|exact Hw].
  destruct (addDoc_store COLLECTIONS_RESIDENTS obj w COLLECTIONS_RESIDENTS)
    as [Hsame|[_ Hins]].
  - assert (Hnew : namesAreStrings (addDoc COLLECTIONS_RESIDENTS obj w).2).
    { intros id d v. rewrite Hsame. apply Hw. }
    destruct (addDoc _ obj w) as [[id'|e] w2]; exact Hnew.
  - assert (Hnew : namesAreStrings (addDoc COLLECTIONS_RESIDENTS obj w).2).
    { intros id d v. rewrite Hins.
      destruct (decide (autoId w (issued w) = id)) as [->|Hne].
      - rewrite lookup_insert_eq. intros Hd Hv.
        apply (inj Some) in Hd. rewrite <- Hd in Hv. unfold stripUndefined in Hv.
        apply map_lookup_filter_Some in Hv as [Hv _].
        rewrite (createData_name _ _ _ Hobj) in Hv.
        apply (inj Some) in Hv. by eexists.
      - rewrite lookup_insert_ne by done. apply Hw. }
    destruct (addDoc _ obj w) as [[id'|e] w2]; exact Hnew.
Qed.

Lemma worldKana_names : namesAreStrings worldKana.
Proof.
  unfold worldKana. apply create_keeps_names, create_keeps_names, namesAreStrings_empty.
Qed.

Lemma results_ascend_by_full_name_witness :
  (exists rs, (@residentService.getAll japan worldKana).1 = Ok rs)
  /\ StronglySorted codePointLe (namesOf (@residentService.getAll japan worldKana).1)
  /\ StronglySorted (@collationLe japan)
       (namesOf (@residentService.searchByName japan (js "た") worldKana).1).
Proof.
  assert (Hf : faults worldKana = []) by (vm_compute; reflexivity).
  destruct (@results_ascend_by_full_name japan worldKana Hf worldKana_names)
    as ([Hok Hall] & _ & _ & Hsearch).
  split; [exact Hok|]. split; [exact Hall|].
  exact (proj2 (Hsearch kanaCollate_consistent (js "た"))).
Defined.

(** ** The two read operations never throw *)

Lemma getByResidentId_never_throws {rt : Runtime} residentId w :
  exists records, (medicalRecordService.getByResidentId residentId w).1 = Ok records.
Proof.
  unfold medicalRecordService.getByResidentId, tryCatch, bind, ret.
  destruct (getDocs _ w) as [[docs|e] w1]; by eexists.
Qed.

Lemma checkExistingRecord_never_throws {rt : Runtime} residentId date w :
  exists found,
    (medicalRecordService.checkExistingRecord residentId date w).1 = Ok found.
Proof.
  unfold medicalRecordService.checkExistingRecord, tryCatch, bind, ret, liftResult.
  destruct (getDocs _ w) as [[docs|e] w1]; [|by eexists].
  destruct (medicalRecordService.scanForDate _ docs); by eexists.
Qed.

Lemma checkExistingRecord_world {rt : Runtime} residentId date w :
  (medicalRecordService.checkExistingRecord residentId date w).2
  = afterCall (CGetDocs (medicalRecordService.recordsOf residentId)) w.
Proof.
  destruct (nextFault w) as [e|] eqn:Hf.
  - by rewrite (checkExistingRecord_failed _ _ _ _ Hf).
  - by rewrite (checkExistingRecord_served _ _ _ Hf).
Qed.

(** ** The records written by the service carry a timestamp *)

Section Invariants.
Context {rt : Runtime}.

Lemma Timestamp_fromDate_Ok (d : Date) v : Timestamp_fromDate d = Ok v -> v = VTime d.
Proof.
  destruct d as [t|]; cbn [Timestamp_fromDate]; [|by intros [= <-]].
  unfold Timestamp_fromMillis. destruct (_ || _); [done|]. by intros [= <-].
Qed.

Lemma medical_create_store residentId data w :
  let w' := (medicalRecordService.create residentId data w).2 in
  docsOf w' COLLECTIONS_MEDICAL_RECORDS = docsOf w COLLECTIONS_MEDICAL_RECORDS
  \/ exists id t,
       docsOf w' COLLECTIONS_MEDICAL_RECORDS
       = <[id := recordDoc residentId data (VTime (Some t))]>
           (docsOf w COLLECTIONS_MEDICAL_RECORDS).
Proof.
  cbv zeta. rewrite create_after_check.
  pose proof (checkExistingRecord_world residentId (MedicalRecordFormData.date data) w)
    as Hw.
  destruct (medicalRecordService.checkExistingRecord _ _ w) as [[[m|]|e] w1];
    cbn [snd] in Hw; subst w1; try by left.
  unfold insertRecord, bind, Timestamp_now, ret, collection, liftResult.
  set (w1 := afterCall _ w).
  destruct (Timestamp_fromMillis (clock w1)) as [now|e] eqn:Hnow; [|by left].
  assert (now = VTime (Some (clock w1))) as ->.
  { unfold Timestamp_fromMillis in Hnow. destruct (_ || _); [done|]. by injection Hnow as <-. }
  unfold medicalRecordService.docData.
  destruct (Timestamp_fromDate (dateParse (MedicalRecordFormData.date data)))
    as [date|e] eqn:Hdate; [|by left].
  apply Timestamp_fromDate_Ok in Hdate as ->. cbn [rbind].
  set (obj := [("residentId", VStr residentId); _; _; _; _]).
  destruct (addDoc_store COLLECTIONS_MEDICAL_RECORDS obj w1 COLLECTIONS_MEDICAL_RECORDS)
    as [Hsame|[_ Hins]].
  - left. destruct (addDoc _ obj w1) as [[id|e] w2]; exact Hsame.
  - right. exists (autoId w1 (issued w1)), (clock w1).
    assert (Hstrip : stripUndefined (toDoc obj)
                     = recordDoc residentId data (VTime (Some (clock w1)))).
    { transitivity (toDoc obj); [|reflexivity].
      apply stripUndefined_defined.
      apply (map_Forall_toDoc (fun v => v <> VUndefined)).
      unfold obj. repeat (apply Forall_cons_2; [done|]). apply Forall_nil_2. }
    rewrite Hstrip in Hins.
    destruct (addDoc _ obj w1) as [[id|e] w2]; exact Hins.
Qed.

(** [create] keeps the property, whatever its outcome. *)
Lemma medical_create_keeps_dated residentId data w :
  (forall r, recordsDated w r) ->
  forall r, recordsDated (medicalRecordService.create residentId data w).2 r.
Proof.
  intros Hw r id d.
  destruct (medical_create_store residentId data w) as [->|(id' & t & ->)]; [apply Hw|].
  destruct (decide (id' = id)) as [->|Hne].
  - rewrite lookup_insert_eq. intros Hd _. apply (inj Some) in Hd. subst d.
    eexists. unfold recordDoc.
    rewrite lookup_insert_ne by done. apply lookup_insert_eq.
  - rewrite lookup_insert_ne by done. apply Hw.
Qed.

(** The payload of an [update] of a record, when one is built. *)
Lemma medical_updateData_built now data obj :
  medicalRecordService.updateData now data = Ok obj ->
  toDoc obj = recordPatch now data.
Proof.
  unfold medicalRecordService.updateData. cbv zeta.
  destruct (PartialMedicalRecordFormData.date data) as [s|] eqn:Hs;
    cbn [whenDefined rbind].
  - destruct (Timestamp_fromDate (dateParse s)) as [ts|e] eqn:Hts; [|done].
    apply Timestamp_fromDate_Ok in Hts as ->. cbn [rbind].
    rewrite whenDefined_pure. cbn [rbind]. intros [= <-].
    rewrite <- toDoc_recordPatchObj. unfold recordPatchObj. by rewrite Hs.
  - rewrite whenDefined_pure. cbn [rbind]. intros [= <-].
    rewrite <- toDoc_recordPatchObj. unfold recordPatchObj. by rewrite Hs.
Qed.

(** So does [update]. *)
Lemma medical_update_keeps_dated id data w :
  (forall r, recordsDated w r) ->
  forall r, recordsDated (medicalRecordService.update id data w).2 r.
Proof.
  intros Hw r id' d.
  unfold medicalRecordService.update, bind, liftResult, Timestamp_now.
  destruct (Timestamp_fromMillis (clock w)) as [now|e]; [|apply Hw].
  destruct (medicalRecordService.updateData now data) as [obj|e] eqn:Hobj; [|apply Hw].
  destruct (updateDoc_store COLLECTIONS_MEDICAL_RECORDS id obj w
              COLLECTIONS_MEDICAL_RECORDS) as [->|(_ & old & Hold & ->)]; [apply Hw|].
  rewrite (medical_updateData_built _ _ _ Hobj).
  destruct (decide (id = id')) as [<-|Hne]; [|rewrite lookup_insert_ne by done; apply Hw].
  rewrite lookup_insert_eq. intros Hd Hres. apply (inj Some) in Hd. subst d.
  destruct (medical_updateData_lookup now data) as (_ & Hdate & _ & Hother).
  assert (Hres' : old !! "residentId" = Some (VStr r)).
  { rewrite lookup_union_r in Hres; [done|].
    unfold stripUndefined. apply map_lookup_filter_None. left. by apply Hother. }
  destruct (Hw r id old Hold Hres') as [t Ht].
  destruct (PartialMedicalRecordFormData.date data) as [s|] eqn:Hs.
  - exists (dateParse s). apply lookup_union_Some_l.
    apply stripUndefined_lookup; [|done]. by rewrite Hdate.
  - exists t. rewrite lookup_union_r; [done|].
    unfold stripUndefined. apply map_lookup_filter_None. left. by rewrite Hdate.
Qed.

(** The name in the payload of an [update] of a resident, when one is
    built: the name of the input, or none. *)
Lemma rbind_Ok {A B} (m : Result A) (k : A -> Result B) r :
  rbind m k = Ok r -> exists a, m = Ok a /\ k a = Ok r.
Proof. destruct m as [a|e]; [|done]. intros Hk. by exists a. Qed.

Lemma whenDefined_inv {A} (P : Obj -> Prop) (x : option A) body obj r :
  P obj ->
  (forall a u u', P u -> body a u = Ok u' -> P u') ->
  whenDefined x body obj = Ok r -> P r.
Proof.
  intros Hobj Hbody. destruct x as [a|]; cbn [whenDefined].
  - by apply Hbody.
  - by intros [= <-].
Qed.

Lemma updateData_built_name now data obj v :
  residentService.updateData now data = Ok obj ->
  toDoc obj !! "name" = Some v ->
  exists n, v = VStr n.
Proof.
  intros Hobj. revert v.
  set (Q := fun o : Obj => forall v, toDoc o !! "name" = Some v -> exists n, v = VStr n).
  change (Q obj).
  assert (Hq : Q [("updatedAt", now)]).
  { intros v. rewrite toDoc_cons, lookup_insert_ne by done.
    change (toDoc []) with (∅ : gmap string Value). by rewrite lookup_empty. }
  unfold residentService.updateData in Hobj. cbv zeta in Hobj.
  revert Hq Hobj. generalize ([("updatedAt", now)] : Obj).
  do 10 (intros o Hq Hobj;
         apply rbind_Ok in Hobj as (o' & Hstep & Hobj);
         assert (Hq' : Q o');
         [ eapply (whenDefined_inv Q); [exact Hq| |exact Hstep];
           intros a u u' Hu Hb;
           repeat (apply rbind_Ok in Hb as (? & _ & Hb));
           injection Hb as <-; intros v';
           rewrite !toDoc_objSet; rewrite ?lookup_insert_ne by done;
           first [ rewrite lookup_insert_eq; intros [= <-]; by eexists | apply Hu ]
         | clear o Hq Hstep; revert o' Hq' Hobj ]).
  intros o Hq [= <-]. exact Hq.
Qed.

(** [residentService.update] keeps the names strings. *)
Lemma update_keeps_names id data w :
  namesAreStrings w -> namesAreStrings (residentService.update id data w).2.
Proof.
  intros Hw id' d v.
  unfold residentService.update, bind, liftResult, Timestamp_now.
  destruct (Timestamp_fromMillis (clock w)) as [now|e]; [|apply Hw].
  destruct (residentService.updateData now data) as [obj|e] eqn:Hobj; [|apply Hw].
  destruct (updateDoc_store COLLECTIONS_RESIDENTS id obj w
              COLLECTIONS_RESIDENTS) as [->|(_ & old & Hold & ->)]; [apply Hw|].
  destruct (decide (id = id')) as [<-|Hne]; [|rewrite lookup_insert_ne by done; apply Hw].
  rewrite lookup_insert_eq. intros Hd Hv. apply (inj Some) in Hd. subst d.
  apply lookup_union_Some_raw in Hv as [Hv|[_ Hv]]; [|by apply (Hw id old v Hold)].
  unfold stripUndefined in Hv. apply map_lookup_filter_Some in Hv as [Hv _].
  exact (updateData_built_name now data obj v Hobj Hv).
Qed.
End Invariants.

(** ** The end-to-end scenario of the specification *)

Lemma end_to_end_scenario :
  idsOf (@residentService.searchByName japan (js "たなか") worldWithTanaka).1
    = [sampleAutoId 0]
  /\ idsOf (@residentService.searchByName japan (js "花子") worldWithTanaka).1
    = [sampleAutoId 0]
  /\ idsOf (@residentService.getByRoomNumber japan (js "101") worldWithTanaka).1
    = [sampleAutoId 0]
  /\ sampleAutoId 0 ∈ idsOf (@residentService.getByCareLevel japan 3 worldWithTanaka).1.
Proof.
  repeat (split; [vm_compute; reflexivity|]).
  assert (Hids : idsOf (@residentService.getByCareLevel japan 3 worldWithTanaka).1
                 = [sampleAutoId 0]) by (vm_compute; reflexivity).
  rewrite Hids. apply elem_of_cons. by left.
Qed.

(** ** The reads of [residentService] *)

Lemma nextFault_no_faults w : faults w = [] -> nextFault w = None.
Proof. intros Hf. unfold nextFault. by rewrite Hf. Qed.

Lemma faults_afterCall c w : faults (afterCall c w) = tail (faults w).
Proof. reflexivity. Qed.

Lemma store_afterCall c w : store (afterCall c w) = store w.
Proof. reflexivity. Qed.

Lemma store_after_queries qs w :
  store (foldl (fun w q => afterCall (CGetDocs q) w) w qs) = store w.
Proof. revert w. induction qs as [|q qs IH]; intros w; simpl; [done|]. by rewrite IH. Qed.

Lemma getDoc_world coll id w : (getDoc coll id w).2 = afterCall (CGetDoc coll id) w.
Proof. unfold getDoc, storageCall. by destruct (nextFault w). Qed.

(** [Promise.all] rejects with the failure of its first call when that
    call fails. *)
Lemma promiseAll_first_failed {A} (m : M A) (ms : list (M A)) w w1 e :
  m w = (Throw e, w1) -> (promiseAll (m :: ms) w).1 = Throw e.
Proof. simpl. intros ->. by destruct (promiseAll ms w1) as [rs w2]. Qed.

Section ResidentReads.
Context {rt : Runtime}.

Lemma residentsOf_ids (q : Query) (w : World) :
  map Resident.id (residentsOf q w) = (runQuery q (docsOf w COLLECTIONS_RESIDENTS)).*1.
Proof. unfold residentsOf. rewrite map_map. reflexivity. Qed.

(** A query read into residents: one resident per document it returns,
    each read from its stored document. *)
Lemma residentsOf_spec (q : Query) (w : World) :
  NoDup (map Resident.id (residentsOf q w))
  /\ (forall id, id ∈ map Resident.id (residentsOf q w) <->
        exists d, docsOf w COLLECTIONS_RESIDENTS !! id = Some d
                  /\ forallb (satisfies d) (q_constraints q) = true)
  /\ (forall r, r ∈ residentsOf q w ->
        exists d, docsOf w COLLECTIONS_RESIDENTS !! Resident.id r = Some d
                  /\ r = convertResidentData (Resident.id r) d).
Proof.
  split; [|split].
  - rewrite residentsOf_ids. apply NoDup_runQuery_ids.
  - intros id. rewrite residentsOf_ids, list_elem_of_fmap. split.
    + intros ([id' d] & -> & Hin). apply elem_of_runQuery in Hin. by exists d.
    + intros (d & Hd & Hsat). exists (id, d). split; [done|].
      by apply elem_of_runQuery.
  - intros r Hr. unfold residentsOf in Hr.
    apply list_elem_of_fmap in Hr as ([id d] & -> & Hin).
    apply elem_of_runQuery in Hin as [Hd _]. by exists d.
Qed.

Lemma getAll_run w :
  residentService.getAll w
  = (match (getDocs allQuery w).1 with
     | Ok _ => Ok (residentsOf allQuery w)
     | Throw e => Throw e
     end, afterCall (CGetDocs allQuery) w).
Proof.
  unfold residentService.getAll, tryCatch, bind, ret, throw.
  change (query (collection COLLECTIONS_RESIDENTS) [orderBy "name"]) with allQuery.
  unfold getDocs, storageCall. by destruct (nextFault w).
Qed.

Lemma getByRoomNumber_run roomNumber w :
  residentService.getByRoomNumber roomNumber w
  = (match (getDocs (roomQuery roomNumber) w).1 with
     | Ok _ => Ok (residentsOf (roomQuery roomNumber) w)
     | Throw e => Throw e
     end, afterCall (CGetDocs (roomQuery roomNumber)) w).
Proof.
  unfold residentService.getByRoomNumber, bind, ret.
  change (query (collection COLLECTIONS_RESIDENTS)
            [where_ "roomNumber" OpEq (VStr roomNumber)]) with (roomQuery roomNumber).
  unfold getDocs, storageCall. by destruct (nextFault w).
Qed.

Lemma getByCareLevel_run careLevel w :
  residentService.getByCareLevel careLevel w
  = (match (getDocs (careLevelQuery careLevel) w).1 with
     | Ok _ => Ok (residentsOf (careLevelQuery careLevel) w)
     | Throw e => Throw e
     end, afterCall (CGetDocs (careLevelQuery careLevel)) w).
Proof.
  unfold residentService.getByCareLevel, bind, ret.
  change (query (collection COLLECTIONS_RESIDENTS)
            [where_ "careLevel" OpEq (VNum careLevel); orderBy "name"])
    with (careLevelQuery careLevel).
  unfold getDocs, storageCall. by destruct (nextFault w).
Qed.

Lemma getByMedication_run medication w :
  trim medication <> [] ->
  residentService.getByMedication medication w
  = (match (getDocs (medicationQuery (trim medication)) w).1 with
     | Ok _ => Ok (residentsOf (medicationQuery (trim medication)) w)
     | Throw e => Throw e
     end, afterCall (CGetDocs (medicationQuery (trim medication))) w).
Proof.
  intros Hne. unfold residentService.getByMedication.
  rewrite bool_decide_eq_false_2 by done. unfold bind, ret.
  change (query (collection COLLECTIONS_RESIDENTS)
            [where_ "medications" OpArrayContains (VStr (trim medication));
             orderBy "name"])
    with (medicationQuery (trim medication)).
  unfold getDocs, storageCall. by destruct (nextFault w).
Qed.

Lemma getDocs_result_served q w : nextFault w = None -> exists docs, (getDocs q w).1 = Ok docs.
Proof. intros Hf. rewrite (getDocs_served q w Hf). by eexists. Qed.

Lemma getDocs_result_failed q w e : nextFault w = Some e -> (getDocs q w).1 = Throw e.
Proof. intros Hf. by rewrite (getDocs_failed q w e Hf). Qed.

Lemma getById_run id w :
  residentService.getById id w
  = (match nextFault w with
     | Some e => Throw e
     | None => Ok (convertResidentData id <$> docsOf w COLLECTIONS_RESIDENTS !! id)
     end, afterCall (CGetDoc COLLECTIONS_RESIDENTS id) w).
Proof.
  unfold residentService.getById, bind, ret, getDoc, storageCall.
  destruct (nextFault w); [done|]. rewrite docsOf_afterCall.
  by destruct (docsOf w COLLECTIONS_RESIDENTS !! id).
Qed.

Lemma satisfies_allQuery (d : gmap string Value) :
  forallb (satisfies d) (q_constraints allQuery) = true <-> is_Some (d !! "name").
Proof. simpl. by rewrite andb_true_r, bool_decide_eq_true. Qed.

Lemma satisfies_roomQuery (d : gmap string Value) roomNumber :
  forallb (satisfies d) (q_constraints (roomQuery roomNumber)) = true
  <-> d !! "roomNumber" = Some (VStr roomNumber).
Proof.
  simpl. rewrite andb_true_r.
  destruct (d !! "roomNumber") as [v|]; simpl; [|done].
  rewrite bool_decide_eq_true. split; congruence.
Qed.

Lemma satisfies_careLevelQuery (d : gmap string Value) careLevel :
  forallb (satisfies d) (q_constraints (careLevelQuery careLevel)) = true
  <-> d !! "careLevel" = Some (VNum careLevel) /\ is_Some (d !! "name").
Proof.
  simpl. rewrite andb_true_r, andb_true_iff, bool_decide_eq_true.
  destruct (d !! "careLevel") as [v|]; simpl.
  - rewrite bool_decide_eq_true. split; intros [H1 H2]; split; congruence.
  - split; intros [H1 H2]; done.
Qed.

Lemma satisfies_medicationQuery (d : gmap string Value) searchTerm :
  forallb (satisfies d) (q_constraints (medicationQuery searchTerm)) = true
  <-> (exists l, d !! "medications" = Some (VArr l) /\ searchTerm ∈ l)
      /\ is_Some (d !! "name").
Proof.
  simpl. rewrite andb_true_r, andb_true_iff, bool_decide_eq_true.
  destruct (d !! "medications") as [[| | | | |l]|]; simpl;
    try (split; [intros [? _]; done|intros [(l' & Hl & _) _]; done]).
  rewrite bool_decide_eq_true. split.
  - intros [Hin Hn]. split; [by exists l|done].
  - intros [(l' & [= <-] & Hin) Hn]. done.
Qed.

Lemma getByResidentId_served residentId w :
  nextFault w = None ->
  medicalRecordService.getByResidentId residentId w
  = (Ok (arraySort medicalRecordService.byDateDescending
           (map (fun doc : DocId * gmap string Value =>
                   convertMedicalRecordData doc.1 doc.2)
              (runQuery (medicalRecordService.recordsOf residentId)
                 (docsOf w COLLECTIONS_MEDICAL_RECORDS)))),
     afterCall (CGetDocs (medicalRecordService.recordsOf residentId)) w).
Proof.
  intros Hf. unfold medicalRecordService.getByResidentId, tryCatch, bind, ret.
  change (query (collection COLLECTIONS_MEDICAL_RECORDS)
            [where_ "residentId" OpEq (VStr residentId)])
    with (medicalRecordService.recordsOf residentId).
  by rewrite (getDocs_served _ _ Hf).
Qed.

(** Without an [orderBy] or a range filter a result comes in the order of
    the document ids. *)
Lemma runQuery_sorted_by_id (q : Query) (c : gmap (list Z) (gmap string Value)) :
  orderField (q_constraints q) = None ->
  StronglySorted codePointLe (runQuery q c).*1.
Proof.
  intros Hord. apply Sorted_StronglySorted; [apply codePointLe_trans|].
  unfold runQuery. rewrite Hord.
  eapply (Sorted_map fst); [|apply sortBy_sorted, docLeb_total].
  intros a b. unfold docLeb. simpl. unfold codePointLe.
  by destruct (strCompare a.1 b.1).
Qed.
End ResidentReads.

(** ** The exact-match searches *)

(** X1. [getByRoomNumber] sends one query, also for an empty room
    number, and returns exactly the residents whose stored [roomNumber] is
    the given string, unchanged (nothing is trimmed), each once, each read
    from its stored document, in the order of their document ids. *)
Theorem room_search_is_exact {rt : Runtime} (roomNumber : jsstring) (w : World) :
  nextFault w = None ->
  exists rs,
    residentService.getByRoomNumber roomNumber w
    = (Ok rs, afterCall (CGetDocs (roomQuery roomNumber)) w)
    /\ NoDup (map Resident.id rs)
    /\ (forall id, id ∈ map Resident.id rs <->
          exists d, docsOf w COLLECTIONS_RESIDENTS !! id = Some d
                    /\ d !! "roomNumber" = Some (VStr roomNumber))
    /\ (forall r, r ∈ rs ->
          exists d, docsOf w COLLECTIONS_RESIDENTS !! Resident.id r = Some d
                    /\ r = convertResidentData (Resident.id r) d)
    /\ StronglySorted codePointLe (map Resident.id rs).
Proof.
  intros Hf. exists (residentsOf (roomQuery roomNumber) w).
  rewrite getByRoomNumber_run.
  destruct (getDocs_result_served (roomQuery roomNumber) w Hf) as [docs ->].
  destruct (residentsOf_spec (roomQuery roomNumber) w) as (Hnd & Hids & Hrs).
  split; [done|]. split; [done|]. split; [|split; [done|]].
  - intros id. rewrite Hids. by setoid_rewrite satisfies_roomQuery.
  - rewrite residentsOf_ids. by apply runQuery_sorted_by_id.
Qed.

Lemma room_search_is_exact_witness :
  nextFault worldWithTanaka = None
  /\ exists rs,
       @residentService.getByRoomNumber japan (js "101") worldWithTanaka
       = (Ok rs, afterCall (CGetDocs (roomQuery (js "101"))) worldWithTanaka)
       /\ NoDup (map Resident.id rs).
Proof.
  assert (Hf : nextFault worldWithTanaka = None) by (vm_compute; reflexivity).
  split; [exact Hf|].
  destruct (@room_search_is_exact japan (js "101") worldWithTanaka Hf)
    as (rs & Hrun & Hnd & _).
  exists rs. split; [exact Hrun|exact Hnd].
Defined.

(** X2. [getByCareLevel] returns exactly the residents whose stored
    [careLevel] is the given number and who have a [name] field (the
    [orderBy] leaves out a document without one), each once. *)
Theorem care_level_search_is_exact {rt : Runtime} (careLevel : Z) (w : World) :
  nextFault w = None ->
  exists rs,
    residentService.getByCareLevel careLevel w
    = (Ok rs, afterCall (CGetDocs (careLevelQuery careLevel)) w)
    /\ NoDup (map Resident.id rs)
    /\ (forall id, id ∈ map Resident.id rs <->
          exists d, docsOf w COLLECTIONS_RESIDENTS !! id = Some d
                    /\ d !! "careLevel" = Some (VNum careLevel)
                    /\ is_Some (d !! "name"))
    /\ (forall r, r ∈ rs ->
          exists d, docsOf w COLLECTIONS_RESIDENTS !! Resident.id r = Some d
                    /\ r = convertResidentData (Resident.id r) d).
Proof.
  intros Hf. exists (residentsOf (careLevelQuery careLevel) w).
  rewrite getByCareLevel_run.
  destruct (getDocs_result_served (careLevelQuery careLevel) w Hf) as [docs ->].
  destruct (residentsOf_spec (careLevelQuery careLevel) w) as (Hnd & Hids & Hrs).
  split; [done|]. split; [done|]. split; [|done].
  intros id. rewrite Hids. by setoid_rewrite satisfies_careLevelQuery.
Qed.

Lemma care_level_search_is_exact_witness :
  nextFault worldWithTanaka = None
  /\ exists rs,
       @residentService.getByCareLevel japan 3 worldWithTanaka
       = (Ok rs, afterCall (CGetDocs (careLevelQuery 3)) worldWithTanaka)
       /\ NoDup (map Resident.id rs).
Proof.
  assert (Hf : nextFault worldWithTanaka = None) by (vm_compute; reflexivity).
  split; [exact Hf|].
  destruct (@care_level_search_is_exact japan 3 worldWithTanaka Hf)
    as (rs & Hrun & Hnd & _).
  exists rs. split; [exact Hrun|exact Hnd].
Defined.

(** X3. For a drug name that is not blank, [getByMedication] returns
    exactly the residents whose [medications] array holds the trimmed name
    as one of its elements (a whole element, not a prefix of one) and who
    have a [name] field, each once. *)
Theorem medication_search_matches_whole_elements {rt : Runtime}
  (medication : jsstring) (w : World) :
  ~ blank medication ->
  nextFault w = None ->
  exists rs,
    residentService.getByMedication medication w
    = (Ok rs, afterCall (CGetDocs (medicationQuery (trim medication))) w)
    /\ NoDup (map Resident.id rs)
    /\ (forall id, id ∈ map Resident.id rs <->
          exists d l, docsOf w COLLECTIONS_RESIDENTS !! id = Some d
                      /\ d !! "medications" = Some (VArr l)
                      /\ trim medication ∈ l
                      /\ is_Some (d !! "name"))
    /\ (forall r, r ∈ rs ->
          exists d, docsOf w COLLECTIONS_RESIDENTS !! Resident.id r = Some d
                    /\ r = convertResidentData (Resident.id r) d).
Proof.
  intros Hnb Hf. exists (residentsOf (medicationQuery (trim medication)) w).
  assert (Hne : trim medication <> []) by (by rewrite trim_nil_iff).
  rewrite (getByMedication_run medication w Hne).
  destruct (getDocs_result_served (medicationQuery (trim medication)) w Hf) as [docs ->].
  destruct (residentsOf_spec (medicationQuery (trim medication)) w) as (Hnd & Hids & Hrs).
  split; [done|]. split; [done|]. split; [|done].
  intros id. rewrite Hids. setoid_rewrite satisfies_medicationQuery. split.
  - intros (d & Hd & (l & Hl & Hin) & Hn). by exists d, l.
  - intros (d & l & Hd & Hl & Hin & Hn). exists d. split; [done|]. split; [by exists l|done].
Qed.

Lemma medication_search_matches_whole_elements_witness :
  ~ blank (js " アムロジピン ")
  /\ nextFault worldWithYamada = None
  /\ exists rs,
       @residentService.getByMedication japan (js " アムロジピン ") worldWithYamada
       = (Ok rs, afterCall (CGetDocs (medicationQuery (trim (js " アムロジピン "))))
                   worldWithYamada)
       /\ NoDup (map Resident.id rs).
Proof.
  assert (Hnb : ~ blank (js " アムロジピン ")).
  { intros Hb. apply trim_nil_iff in Hb. vm_compute in Hb. discriminate Hb. }
  assert (Hf : nextFault worldWithYamada = None) by (vm_compute; reflexivity).
  split; [exact Hnb|]. split; [exact Hf|].
  destruct (@medication_search_matches_whole_elements japan _ worldWithYamada Hnb Hf)
    as (rs & Hrun & Hnd & _).
  exists rs. split; [exact Hrun|exact Hnd].
Defined.

(** ** Failures and the store *)

(** X4. A failure of the store reaches the caller of every read of
    [residentService]: [getAll], [getById], [getByRoomNumber],
    [getByCareLevel], and [getByMedication] and [searchByName] for an input
    that is not blank, all throw the error the store gave. *)
Theorem resident_reads_propagate_failures {rt : Runtime} (w : World) (e : Err) :
  nextFault w = Some e ->
  (residentService.getAll w).1 = Throw e
  /\ (forall id, (residentService.getById id w).1 = Throw e)
  /\ (forall roomNumber, (residentService.getByRoomNumber roomNumber w).1 = Throw e)
  /\ (forall careLevel, (residentService.getByCareLevel careLevel w).1 = Throw e)
  /\ (forall medication, ~ blank medication ->
        (residentService.getByMedication medication w).1 = Throw e)
  /\ (forall name, ~ blank name ->
        (residentService.searchByName name w).1 = Throw e).
Proof.
  intros Hf. split; [|split; [|split; [|split; [|split]]]].
  - by rewrite getAll_run, (getDocs_result_failed _ w e Hf).
  - intros id. by rewrite getById_run, Hf.
  - intros r. by rewrite getByRoomNumber_run, (getDocs_result_failed _ w e Hf).
  - intros c. by rewrite getByCareLevel_run, (getDocs_result_failed _ w e Hf).
  - intros m Hm. rewrite getByMedication_run by (by rewrite trim_nil_iff).
    by rewrite (getDocs_result_failed _ w e Hf).
  - intros n Hn. rewrite searchByName_run by (by rewrite trim_nil_iff).
    cbn [fst]. unfold residentService.searchQueries. cbn [map].
    erewrite promiseAll_first_failed; [done|].
    exact (getDocs_failed _ w e Hf).
Qed.

Lemma resident_reads_propagate_failures_witness :
  nextFault (setFaults [Some (FirestoreError "unavailable")] worldWithYamada)
  = Some (FirestoreError "unavailable")
  /\ (@residentService.getAll japan
        (setFaults [Some (FirestoreError "unavailable")] worldWithYamada)).1
     = Throw (FirestoreError "unavailable").
Proof.
  assert (Hf : nextFault (setFaults [Some (FirestoreError "unavailable")] worldWithYamada)
               = Some (FirestoreError "unavailable")) by reflexivity.
  split; [exact Hf|].
  exact (proj1 (@resident_reads_propagate_failures japan _ _ Hf)).
Defined.

(** X5. No read writes: whatever the input and whatever the outcome,
    the six reads of [residentService] and the two of
    [medicalRecordService] leave every collection as it was. *)
Theorem reads_leave_the_store_unchanged {rt : Runtime} (w : World) :
  store (residentService.getAll w).2 = store w
  /\ (forall id, store (residentService.getById id w).2 = store w)
  /\ (forall name, store (residentService.searchByName name w).2 = store w)
  /\ (forall roomNumber, store (residentService.getByRoomNumber roomNumber w).2 = store w)
  /\ (forall careLevel, store (residentService.getByCareLevel careLevel w).2 = store w)
  /\ (forall medication, store (residentService.getByMedication medication w).2 = store w)
  /\ (forall residentId,
        store (medicalRecordService.getByResidentId residentId w).2 = store w)
  /\ (forall residentId date,
        store (medicalRecordService.checkExistingRecord residentId date w).2 = store w).
Proof.
  split; [by rewrite getAll_run|].
  split; [intros id; by rewrite getById_run|].
  split.
  { intros name. destruct (decide (trim name = [])) as [Hb|Hb].
    - by rewrite (searchByName_blank name w Hb).
    - rewrite (searchByName_run name w Hb). cbn [snd].
      by rewrite promiseAll_getDocs_world, store_after_queries. }
  split; [intros r; by rewrite getByRoomNumber_run|].
  split; [intros c; by rewrite getByCareLevel_run|].
  split.
  { intros m. destruct (decide (trim m = [])) as [Hb|Hb].
    - by rewrite (getByMedication_blank m w Hb).
    - by rewrite (getByMedication_run m w Hb). }
  split.
  - intros r. unfold medicalRecordService.getByResidentId, tryCatch, bind, ret.
    pose proof (getDocs_world
                  (query (collection COLLECTIONS_MEDICAL_RECORDS)
                     [where_ "residentId" OpEq (VStr r)]) w) as Hw.
    destruct (getDocs _ w) as [[docs|e] w1]; cbn [snd] in *; by subst w1.
  - intros r date. by rewrite checkExistingRecord_world.
Qed.

(** ** The life cycle of a resident *)

Section Lifecycle.
Context {rt : Runtime}.

(** The fields of the document [create] stores. *)
Lemma created_doc_fields (now : Z) (data : ResidentFormData.t) :
  let d := stripUndefined (createdDoc (VTime (Some now)) data) in
  d !! "name" = Some (VStr (ResidentFormData.name data))
  /\ d !! "furigana" = Some (VStr (ResidentFormData.furigana data))
  /\ d !! "lastName"
     = Some (VStr (partOrEmpty (split SPACE (ResidentFormData.name data)) 0))
  /\ d !! "firstName"
     = Some (VStr (partOrEmpty (split SPACE (ResidentFormData.name data)) 1))
  /\ d !! "lastNameKana"
     = Some (VStr (partOrEmpty (split SPACE (ResidentFormData.furigana data)) 0))
  /\ d !! "firstNameKana"
     = Some (VStr (partOrEmpty (split SPACE (ResidentFormData.furigana data)) 1))
  /\ d !! "gender" = Some (VStr (ResidentFormData.gender data))
  /\ d !! "birthDate" = Some (VTime (dateParse (ResidentFormData.birthDate data)))
  /\ d !! "roomNumber" = Some (VStr (ResidentFormData.roomNumber data))
  /\ d !! "admissionDate"
     = Some (VTime (dateParse (ResidentFormData.admissionDate data)))
  /\ d !! "dischargeDate" = Some (dischargeValue (ResidentFormData.dischargeDate data))
  /\ d !! "medicalHistory" = Some (VStr (ResidentFormData.medicalHistory data))
  /\ d !! "medications" = Some (VArr (ResidentFormData.medications data))
  /\ d !! "careLevel" = VNum <$> ResidentFormData.careLevel data
  /\ d !! "createdAt" = Some (VTime (Some now))
  /\ d !! "updatedAt" = Some (VTime (Some now)).
Proof.
  cbv zeta.
  assert (Hd : dischargeValue (ResidentFormData.dischargeDate data) <> VUndefined).
  { by destruct (ResidentFormData.dischargeDate data) as [[|c s]|]. }
  repeat (split; [by apply stripUndefined_lookup|]).
  split; [|split; by apply stripUndefined_lookup].
  destruct (ResidentFormData.careLevel data) as [n|] eqn:Hc.
  - apply stripUndefined_lookup; [|done].
    unfold createdDoc. rewrite Hc. reflexivity.
  - unfold stripUndefined. apply map_lookup_filter_None. right.
    intros v Hv. unfold createdDoc in Hv. rewrite Hc in Hv.
    assert (v = VUndefined) as -> by (apply (inj Some); rewrite <- Hv; reflexivity).
    simpl. tauto.
Qed.

(** What [create] leaves behind once its payload is accepted and the call
    served. *)
Lemma residentService_create_world (data : ResidentFormData.t) (w : World) :
  accepted w data ->
  nextFault w = None ->
  let w' := (residentService.create data w).2 in
  (residentService.create data w).1 = Ok (autoId w (issued w))
  /\ docsOf w' COLLECTIONS_RESIDENTS
     = <[autoId w (issued w) :=
           stripUndefined (createdDoc (VTime (Some (clock w))) data)]>
         (docsOf w COLLECTIONS_RESIDENTS)
  /\ docsOf w' COLLECTIONS_MEDICAL_RECORDS = docsOf w COLLECTIONS_MEDICAL_RECORDS
  /\ faults w' = tail (faults w).
Proof.
  intros Hp Hf. cbv zeta. rewrite (residentService_create_run data w Hp Hf). cbn [fst snd].
  split; [done|]. split; [by rewrite docsOf_setIssued, docsOf_setDocs|].
  split; [|done]. by rewrite docsOf_setIssued, docsOf_setDocs_ne.
Qed.
End Lifecycle.

(** X6. A resident read back with [getById] right after [create]
    carries what was entered: the full name and reading, the pieces
    [create] cut them into, the room, the history and the drugs unchanged,
    the three dates as [new Date] read them, the care level, and the time of
    the call as both [createdAt] and [updatedAt].  This is for dates, and a
    clock, within the range of a timestamp. *)
Theorem created_resident_reads_back {rt : Runtime}
  (data : ResidentFormData.t) (w : World) :
  faults w = [] ->
  inTimestampRange (clock w) ->
  storableDate (ResidentFormData.birthDate data) ->
  storableDate (ResidentFormData.admissionDate data) ->
  storableOptDate (ResidentFormData.dischargeDate data) ->
  ResidentFormData.careLevel data <> None \/ ignoreUndefinedProperties = true ->
  let id := autoId w (issued w) in
  let w' := (residentService.create data w).2 in
  (residentService.create data w).1 = Ok id
  /\ exists r,
       (residentService.getById id w').1 = Ok (Some r)
       /\ Resident.id r = id
       /\ Resident.name r = ResidentFormData.name data
       /\ Resident.furigana r = ResidentFormData.furigana data
       /\ Resident.lastName r = partOrEmpty (split SPACE (ResidentFormData.name data)) 0
       /\ Resident.firstName r = partOrEmpty (split SPACE (ResidentFormData.name data)) 1
       /\ Resident.lastNameKana r
          = partOrEmpty (split SPACE (ResidentFormData.furigana data)) 0
       /\ Resident.firstNameKana r
          = partOrEmpty (split SPACE (ResidentFormData.furigana data)) 1
       /\ Resident.gender r = Some (VStr (ResidentFormData.gender data))
       /\ Resident.birthDate r = dateParse (ResidentFormData.birthDate data)
       /\ Resident.roomNumber r = ResidentFormData.roomNumber data
       /\ Resident.admissionDate r = dateParse (ResidentFormData.admissionDate data)
       /\ Resident.dischargeDate r
          = match ResidentFormData.dischargeDate data with
            | Some (c :: s) => Some (dateParse (c :: s))
            | _ => None
            end
       /\ Resident.medicalHistory r = ResidentFormData.medicalHistory data
       /\ Resident.medications r = ResidentFormData.medications data
       /\ Resident.careLevel r = VNum <$> ResidentFormData.careLevel data
       /\ Resident.createdAt r = Some (clock w)
       /\ Resident.updatedAt r = Some (clock w).
Proof.
  intros Hf Hclock Hb Ha Hd Hc id w'.
  pose proof (createData_accepted w data Hclock Hb Ha Hd Hc) as Hp.
  destruct (residentService_create_world data w Hp (nextFault_no_faults w Hf))
    as (Hid & Hdocs & _ & Hf').
  fold w' in Hdocs, Hf'. fold id in Hid, Hdocs.
  split; [exact Hid|].
  set (d := stripUndefined (createdDoc (VTime (Some (clock w))) data))
    in Hdocs.
  exists (convertResidentData id d).
  split.
  { rewrite getById_run. cbn [fst].
    rewrite nextFault_no_faults by (by rewrite Hf', Hf).
    by rewrite Hdocs, lookup_insert_eq. }
  destruct (created_doc_fields (clock w) data)
    as (Hn & Hfu & Hln & Hfn & Hlk & Hfk & Hg & Hbd & Hr & Had & Hdd & Hmh & Hm & Hcl
        & Hca & Hua).
  fold d in Hn, Hfu, Hln, Hfn, Hlk, Hfk, Hg, Hbd, Hr, Had, Hdd, Hmh, Hm, Hcl, Hca, Hua.
  unfold convertResidentData.
  cbn [Resident.id Resident.name Resident.furigana Resident.lastName Resident.firstName
       Resident.lastNameKana Resident.firstNameKana Resident.gender Resident.birthDate
       Resident.roomNumber Resident.admissionDate Resident.dischargeDate
       Resident.medicalHistory Resident.medications Resident.careLevel
       Resident.createdAt Resident.updatedAt].
  rewrite Hn, Hfu, Hln, Hfn, Hlk, Hfk, Hg, Hbd, Hr, Had, Hdd, Hmh, Hm, Hcl, Hca, Hua.
  rewrite !stringOrEmpty_VStr.
  assert (Hor : forall s alt, s = alt -> stringOr (Some (VStr s)) alt = s).
  { intros s alt <-. unfold stringOr. rewrite stringOrEmpty_VStr. by destruct (truthy _). }
  rewrite !Hor by reflexivity.
  assert (Hdis : (if truthy (Some (dischargeValue (ResidentFormData.dischargeDate data)))
                  then Some (convertTimestampToDate
                               (Some (dischargeValue
                                        (ResidentFormData.dischargeDate data))))
                  else None)
                 = match ResidentFormData.dischargeDate data with
                   | Some (c :: s) => Some (dateParse (c :: s))
                   | _ => None
                   end).
  { by destruct (ResidentFormData.dischargeDate data) as [[|c s]|]. }
  rewrite Hdis.
  split; [reflexivity|]. split; [reflexivity|]. split; [reflexivity|].
  split; [reflexivity|]. split; [reflexivity|]. split; [reflexivity|].
  split; [reflexivity|]. split; [reflexivity|]. split; [reflexivity|].
  split; [reflexivity|]. split; [reflexivity|]. split; [reflexivity|].
  split; [reflexivity|]. split; [reflexivity|].
  split; [by destruct (ResidentFormData.careLevel data)|].
  split; reflexivity.
Qed.

Lemma created_resident_reads_back_witness :
  exists r,
    (@residentService.getById japan (sampleAutoId 0) worldWithYamada).1 = Ok (Some r)
    /\ Resident.name r = js "山田 太郎"
    /\ Resident.lastName r = js "山田"
    /\ Resident.firstName r = js "太郎"
    /\ Resident.createdAt r = Some 1710000000000.
Proof.
  destruct (@created_resident_reads_back japan yamada emptyWorld)
    as (_ & r & Hget & _ & Hn & _ & Hl & Hfn & _ & _ & _ & _ & _ & _ & _ & _ & _ & _
        & Hc & _).
  - reflexivity.
  - in_range.
  - storable.
  - storable.
  - storable.
  - left. discriminate.
  - exists r. split; [exact Hget|]. split; [exact Hn|].
    split; [rewrite Hl; vm_compute; reflexivity|].
    split; [rewrite Hfn; vm_compute; reflexivity|exact Hc].
Defined.

Section Refusal.
Context {rt : Runtime}.

(** The building of the payload of [create] stops at the first date, in
    the order of the fields, that no timestamp holds; an Invalid Date does
    not stop it. *)
Lemma fromDate_cases s :
  (outOfRangeDate s
   /\ Timestamp_fromDate (dateParse s) = Throw (FirestoreError "invalid-argument"))
  \/ (~ outOfRangeDate s
      /\ Timestamp_fromDate (dateParse s) = Ok (VTime (dateParse s))).
Proof.
  destruct (date_cases s) as [H|[H|H]].
  - right. split; [|by apply Timestamp_fromDate_storable].
    destruct H as (t & Ht & Hr). intros (t' & Ht' & Hr'). congruence.
  - right. unfold invalidDate in H. split; [|by rewrite H].
    intros (t' & Ht' & Hr'). congruence.
  - left. split; [done|]. by apply Timestamp_fromDate_outOfRange.
Qed.

Lemma createData_cases now (data : ResidentFormData.t) :
  (Exists outOfRangeDate (datesOf data)
   /\ residentService.createData now data = Throw (FirestoreError "invalid-argument"))
  \/ (Forall (fun s => ~ outOfRangeDate s) (datesOf data)
      /\ residentService.createData now data = Ok (createdObj now data)).
Proof.
  unfold residentService.createData, datesOf, createdObj.
  destruct (fromDate_cases (ResidentFormData.birthDate data)) as [[Hb ->]|[Hb ->]];
    cbn [rbind].
  { left. split; [by apply Exists_cons_hd|done]. }
  destruct (fromDate_cases (ResidentFormData.admissionDate data)) as [[Ha ->]|[Ha ->]];
    cbn [rbind].
  { left. split; [by apply Exists_cons_tl, Exists_cons_hd|done]. }
  destruct (ResidentFormData.dischargeDate data) as [[|c s]|];
    cbn [timestampOrNull rbind].
  - right. split; [|reflexivity].
      repeat (apply Forall_cons_2; [done|]). apply Forall_nil_2.
  - destruct (fromDate_cases (c :: s)) as [[Hd ->]|[Hd ->]]; cbn [rbind].
    + left. split; [by apply Exists_cons_tl, Exists_cons_tl, Exists_cons_hd|done].
    + right. split; [|reflexivity].
      repeat (apply Forall_cons_2; [done|]). apply Forall_nil_2.
  - right. split; [|reflexivity].
      repeat (apply Forall_cons_2; [done|]). apply Forall_nil_2.
Qed.

(** The error of the check of a payload without a care level, when
    undefined properties are not ignored. *)
Lemma createdObj_without_care_level (t : Z) (data : ResidentFormData.t) :
  ignoreUndefinedProperties = false ->
  ResidentFormData.careLevel data = None ->
  payloadError (createdObj (VTime (Some t)) data)
  = Some (if bool_decide (Exists invalidDate (datesOf data))
          then RangeError else FirestoreError "invalid-argument").
Proof.
  intros Hi Hc. unfold createdObj, datesOf, invalidDate. rewrite Hc.
  cbn [payloadError valueError]. rewrite Hi.
  destruct (dateParse (ResidentFormData.birthDate data)) as [b|] eqn:Hb.
  2: { rewrite bool_decide_eq_true_2; [done|]. by apply Exists_cons_hd. }
  destruct (dateParse (ResidentFormData.admissionDate data)) as [a|] eqn:Ha.
  2: { rewrite bool_decide_eq_true_2; [done|].
       by apply Exists_cons_tl, Exists_cons_hd. }
  destruct (ResidentFormData.dischargeDate data) as [[|c s]|]; cbn [dischargeValue].
  - rewrite bool_decide_eq_false_2; [done|].
    intros He. repeat (apply Exists_cons in He as [He|He]; [congruence|]).
    by apply Exists_nil in He.
  - destruct (dateParse (c :: s)) as [d|] eqn:Hd.
    + rewrite bool_decide_eq_false_2; [done|].
      intros He. repeat (apply Exists_cons in He as [He|He]; [congruence|]).
      by apply Exists_nil in He.
    + rewrite bool_decide_eq_true_2; [done|].
      by apply Exists_cons_tl, Exists_cons_tl, Exists_cons_hd.
  - rewrite bool_decide_eq_false_2; [done|].
    intros He. repeat (apply Exists_cons in He as [He|He]; [congruence|]).
    by apply Exists_nil in He.
Qed.
End Refusal.

(** X7. With the settings of [firebase.ts] (undefined properties
    are not ignored), [create] for a form without a care level always
    throws, before anything is sent: no storage call is issued and the world
    is as before.  What it throws is decided by the first field the client
    cannot take: [invalid-argument] when a date is outside the range of a
    timestamp or when all dates are good (the care level is then the first
    bad field), and the engine's [RangeError] when no date is out of range
    and one of them is an Invalid Date, since the dates come before the care
    level in the payload. *)
Theorem create_without_care_level_is_rejected {rt : Runtime}
  (data : ResidentFormData.t) (w : World) :
  ignoreUndefinedProperties = false ->
  ResidentFormData.careLevel data = None ->
  (exists e, residentService.create data w = (Throw e, w))
  /\ (Forall storableDate (datesOf data) ->
      residentService.create data w = (Throw (FirestoreError "invalid-argument"), w))
  /\ (Exists outOfRangeDate (datesOf data) ->
      residentService.create data w = (Throw (FirestoreError "invalid-argument"), w))
  /\ (inTimestampRange (clock w) ->
      Forall (fun s => ~ outOfRangeDate s) (datesOf data) ->
      Exists invalidDate (datesOf data) ->
      residentService.create data w = (Throw RangeError, w)).
Proof.
  intros Hi Hc.
  destruct (inTimestampRange_dec (clock w)) as [Hk|Hk].
  2: { assert (Hrun : residentService.create data w
                      = (Throw (FirestoreError "invalid-argument"), w)).
       { unfold residentService.create, tryCatch, bind.
         by rewrite (Timestamp_now_refused w Hk). }
       split; [by eexists|]. split; [done|]. split; [done|]. intros Hk'. by destruct Hk. }
  destruct (createData_cases (VTime (Some (clock w))) data) as [[Hout Hrun]|[Hin Hrun]].
  - pose proof (residentService_create_building data w _ Hk Hrun) as Hc'.
    split; [by eexists|]. split; [|split; [done|]].
    + intros Hall. exfalso. apply Exists_exists in Hout as (s & Hs & (t & Ht & Hr)).
      apply (proj1 (Forall_forall _ _) Hall) in Hs as (t' & Ht' & Hr'). congruence.
    + intros _ Hall. exfalso. apply Exists_exists in Hout as (s & Hs & Ho).
      by apply (proj1 (Forall_forall _ _) Hall s Hs).
  - pose proof (residentService_create_checking data w _ _ Hk Hrun
                  (createdObj_without_care_level (clock w) data Hi Hc)) as Hc'.
    split; [by eexists|]. split; [|split].
    + intros Hall. rewrite Hc'. rewrite bool_decide_eq_false_2; [done|].
      intros He. apply Exists_exists in He as (s & Hs & Hinv).
      apply (proj1 (Forall_forall _ _) Hall) in Hs as (t' & Ht' & Hr').
      unfold invalidDate in Hinv. congruence.
    + intros Hout. exfalso. apply Exists_exists in Hout as (s & Hs & Ho).
      by apply (proj1 (Forall_forall _ _) Hin s Hs).
    + intros _ _ Hinv. rewrite Hc'. by rewrite bool_decide_eq_true_2.
Qed.

Lemma create_without_care_level_is_rejected_witness :
  @residentService.create japan yamadaNoLevel emptyWorld
  = (Throw (FirestoreError "invalid-argument"), emptyWorld).
Proof.
  apply (proj1 (proj2 (@create_without_care_level_is_rejected japan yamadaNoLevel
                         emptyWorld eq_refl eq_refl))).
  unfold datesOf. cbn [ResidentFormData.birthDate ResidentFormData.admissionDate
                       ResidentFormData.dischargeDate yamadaNoLevel].
  repeat (apply Forall_cons_2; [storable|]). apply Forall_nil_2.
Defined.

Lemma deleteDoc_served coll id w :
  nextFault w = None ->
  deleteDoc coll id w
  = (Ok tt, setDocs coll (delete id (docsOf w coll)) (afterCall (CDeleteDoc coll id) w)).
Proof. intros Hf. unfold deleteDoc, storageCall. by rewrite Hf. Qed.

(** X8. A served [delete] removes the document of that resident and
    nothing else: every other resident is as before, and so is every medical
    record, those of the deleted resident included.  Deleting an id that is
    not stored succeeds as well. *)
Theorem resident_delete_removes_one_document {rt : Runtime} (id : DocId) (w : World) :
  faults w = [] ->
  let w' := (residentService.delete id w).2 in
  (residentService.delete id w).1 = Ok tt
  /\ calls w' = calls w ++ [CDeleteDoc COLLECTIONS_RESIDENTS id]
  /\ docsOf w' COLLECTIONS_RESIDENTS = delete id (docsOf w COLLECTIONS_RESIDENTS)
  /\ (residentService.getById id w').1 = Ok None
  /\ (forall id', id' <> id ->
        (residentService.getById id' w').1 = (residentService.getById id' w).1)
  /\ docsOf w' COLLECTIONS_MEDICAL_RECORDS = docsOf w COLLECTIONS_MEDICAL_RECORDS
  /\ (forall residentId,
        (medicalRecordService.getByResidentId residentId w').1
        = (medicalRecordService.getByResidentId residentId w).1).
Proof.
  intros Hf w'. pose proof (nextFault_no_faults w Hf) as Hn.
  assert (Hrun : residentService.delete id w
                 = (Ok tt, setDocs COLLECTIONS_RESIDENTS
                             (delete id (docsOf w COLLECTIONS_RESIDENTS))
                             (afterCall (CDeleteDoc COLLECTIONS_RESIDENTS id) w)))
    by exact (deleteDoc_served COLLECTIONS_RESIDENTS id w Hn).
  assert (Hdocs : docsOf w' COLLECTIONS_RESIDENTS
                  = delete id (docsOf w COLLECTIONS_RESIDENTS)).
  { unfold w'. rewrite Hrun. cbn [snd]. by rewrite docsOf_setDocs. }
  assert (Hrec : docsOf w' COLLECTIONS_MEDICAL_RECORDS
                 = docsOf w COLLECTIONS_MEDICAL_RECORDS).
  { unfold w'. rewrite Hrun. cbn [snd]. by rewrite docsOf_setDocs_ne. }
  assert (Hn' : nextFault w' = None).
  { unfold w'. rewrite Hrun. cbn [snd]. apply nextFault_no_faults.
    cbn. by rewrite Hf. }
  split; [by rewrite Hrun|]. split; [unfold w'; by rewrite Hrun|].
  split; [exact Hdocs|].
  split; [by rewrite getById_run, Hn', Hdocs, lookup_delete_eq|].
  split.
  { intros id' Hne. rewrite !getById_run, Hn, Hn', Hdocs. cbn [fst].
    by rewrite lookup_delete_ne. }
  split; [exact Hrec|].
  intros r. rewrite !getByResidentId_served by done. cbn [fst]. by rewrite Hrec.
Qed.

Lemma resident_delete_removes_one_document_witness :
  faults worldWithYamada = []
  /\ (residentService.delete (sampleAutoId 0) worldWithYamada).1 = Ok tt
  /\ (@residentService.getById japan (sampleAutoId 0)
        (residentService.delete (sampleAutoId 0) worldWithYamada).2).1 = Ok None.
Proof.
  assert (Hf : faults worldWithYamada = []) by (vm_compute; reflexivity).
  split; [exact Hf|].
  destruct (@resident_delete_removes_one_document japan (sampleAutoId 0) worldWithYamada Hf)
    as (Hrun & _ & _ & Hget & _).
  split; [exact Hrun|exact Hget].
Defined.

(** ** The range sub-queries of [searchByName] are prefix matches *)

(** A code unit that is not a low surrogate, added at the end of a string,
    is a code point of its own. *)
Lemma codePoints_snoc_cons c s :
  isLowSurrogate c = false ->
  codePoints (s ++ [c]) = codePoints s ++ [c]
  /\ forall h, codePoints (h :: s ++ [c]) = codePoints (h :: s) ++ [c].
Proof.
  intros Hc. induction s as [|l t [IH1 IH2]].
  - split; [done|]. intros h. simpl. by rewrite Hc, andb_false_r.
  - split; [apply IH2|]. intros h.
    change (codePoints (h :: (l :: t) ++ [c]))
      with (if isHighSurrogate h && isLowSurrogate l
            then (0x10000 + (h - 0xD800) * 0x400 + (l - 0xDC00)) :: codePoints (t ++ [c])
            else h :: codePoints (l :: t ++ [c])).
    change (codePoints (h :: l :: t))
      with (if isHighSurrogate h && isLowSurrogate l
            then (0x10000 + (h - 0xD800) * 0x400 + (l - 0xDC00)) :: codePoints t
            else h :: codePoints (l :: t)).
    destruct (isHighSurrogate h && isLowSurrogate l).
    + by rewrite IH1.
    + by rewrite IH2.
Qed.

Lemma codePoints_snoc c s :
  isLowSurrogate c = false -> codePoints (s ++ [c]) = codePoints s ++ [c].
Proof. intros Hc. apply (codePoints_snoc_cons c s Hc). Qed.

(** Between a list and that list followed by [m] lie the lists that start
    with it and go on with nothing, with less than [m], or with [m] alone. *)
Lemma listCompare_between (m : Z) (q v : list Z) :
  notLt (listCompare Z.compare v q) && notGt (listCompare Z.compare v (q ++ [m]))
  = match stripPrefix q v with
    | Some [] => true
    | Some (c :: rest') => (c <? m) || ((c =? m) && bool_decide (rest' = []))
    | None => false
    end.
Proof.
  revert v. induction q as [|x q IH]; intros [|y v]; simpl; try done.
  - destruct (Z.compare_spec y m) as [->|Hlt|Hgt].
    + rewrite Z.ltb_irrefl, Z.eqb_refl. simpl. by destruct v.
    + by rewrite (proj2 (Z.ltb_lt y m) Hlt).
    + rewrite (proj2 (Z.ltb_ge y m)) by lia.
      rewrite (proj2 (Z.eqb_neq y m)) by lia. done.
  - destruct (Z.compare_spec y x) as [->|Hlt|Hgt].
    + rewrite Z.eqb_refl. apply IH.
    + rewrite (proj2 (Z.eqb_neq x y)) by lia. done.
    + rewrite (proj2 (Z.eqb_neq x y)) by lia. done.
Qed.

Lemma inClosedRange_prefixMatch q v : inClosedRange q v = prefixMatch q v.
Proof.
  unfold inClosedRange, prefixMatch, strCompare, withinRange.
  rewrite (codePoints_snoc 0xf8ff q) by reflexivity.
  apply listCompare_between.
Qed.

Lemma stripPrefix_app q rest : stripPrefix q (q ++ rest) = Some rest.
Proof. induction q as [|x q IH]; simpl; [done|]. by rewrite Z.eqb_refl. Qed.

Lemma stripPrefix_Some q v rest : stripPrefix q v = Some rest -> v = q ++ rest.
Proof.
  revert v. induction q as [|x q IH]; intros [|y v]; simpl; try congruence.
  destruct (Z.eqb_spec x y) as [->|]; [|done]. intros H. by rewrite (IH v H).
Qed.

Lemma range_query_prefix_self term : prefixMatch term term = true.
Proof.
  unfold prefixMatch.
  rewrite <- (app_nil_r (codePoints term)) at 2. by rewrite stripPrefix_app.
Qed.

(** X9. Each of the six sub-queries of [searchByName] (the range
    from the term to the term followed by U+F8FF) returns a document exactly
    when its field is a string whose code points start with those of the
    term and go on with nothing, with a code point below U+F8FF, or with
    U+F8FF alone.  So the search is a prefix match, except that a value
    going on with a code point above U+F8FF (a compatibility ideograph, a
    half-width or full-width form, a character outside the basic plane) is
    not found. *)
Theorem range_query_is_a_prefix_match (field : string) (term : jsstring)
  (d : gmap string Value) :
  forallb (satisfies d) (q_constraints (residentService.prefixQuery field term))
  = fieldIn prefixMatch field term d
  /\ (forall v, prefixMatch term v = true ->
        exists rest, codePoints v = codePoints term ++ rest)
  /\ (forall v c rest, codePoints v = codePoints term ++ c :: rest ->
        prefixMatch term v = (c <? 0xf8ff) || ((c =? 0xf8ff) && bool_decide (rest = [])))
  /\ prefixMatch term term = true.
Proof.
  split; [|split; [|split]].
  - rewrite satisfies_prefixQuery. unfold fieldIn.
    destruct (d !! field) as [[| | | |v|]|]; try done. apply inClosedRange_prefixMatch.
  - intros v. unfold prefixMatch.
    destruct (stripPrefix _ _) as [rest|] eqn:E; [|done].
    intros _. exists rest. by apply stripPrefix_Some.
  - intros v c rest Hv. unfold prefixMatch. by rewrite Hv, stripPrefix_app.
  - apply range_query_prefix_self.
Qed.

(** ** The reads and the life cycle of a medical record *)

Lemma Sorted_Forall_impl {A} (P : A -> Prop) (R S : A -> A -> Prop) (l : list A) :
  (forall a b, P a -> P b -> R a b -> S a b) ->
  Forall P l -> Sorted R l -> Sorted S l.
Proof.
  intros HRS HP Hs. induction Hs as [|x l Hl IH Hx]; [constructor|].
  apply Forall_cons in HP as [Hx' HP]. constructor; [by apply IH|].
  destruct Hx as [|y l' Hxy]; constructor.
  apply Forall_cons in HP as [Hy _]. by apply HRS.
Qed.

#[global] Instance notOlder_trans : Transitive notOlder.
Proof.
  intros a b c (ta & tb & Ha & Hb & Hab) (tb' & tc & Hb' & Hc & Hbc).
  exists ta, tc. split; [done|]. split; [done|].
  rewrite Hb in Hb'. apply (inj Some) in Hb'. lia.
Qed.

Lemma byDateDescending_total (a b : MedicalRecord.t) :
  (medicalRecordService.byDateDescending a b <=? 0) = false ->
  (medicalRecordService.byDateDescending b a <=? 0) = true.
Proof.
  unfold medicalRecordService.byDateDescending.
  destruct (MedicalRecord.date a) as [ta|], (MedicalRecord.date b) as [tb|];
    try done.
  rewrite Z.leb_gt, Z.leb_le. lia.
Qed.

Section MedicalReads.
Context {rt : Runtime}.

(** What the scan returns is a document of the list that falls on the day. *)
Lemma scanForDate_sound target (docs : list (DocId * gmap string Value)) m :
  medicalRecordService.scanForDate target docs = Ok (Some m) ->
  exists p t, p ∈ docs /\ p.2 !! "date" = Some (VTime t)
              /\ format_YYYY_MM_DD t = target
              /\ m = convertMedicalRecordData p.1 p.2.
Proof.
  induction docs as [|p docs IH]; simpl; [done|].
  destruct (p.2 !! "date") as [[| | |t| |]|] eqn:Hd; simpl; try done.
  case_bool_decide as Ht.
  - intros [= <-]. exists p, t. split; [apply elem_of_cons; by left|done].
  - intros Hm. destruct (IH Hm) as (p' & t' & Hin & H').
    exists p', t'. split; [apply elem_of_cons; by right|done].
Qed.


Lemma medical_create_free residentId data w :
  faults w = [] ->
  ~ sameDayRecord w residentId (MedicalRecordFormData.date data) ->
  inTimestampRange (clock w) ->
  storableDate (MedicalRecordFormData.date data) ->
  let w' := (medicalRecordService.create residentId data w).2 in
  (medicalRecordService.create residentId data w).1 = Ok (autoId w (issued w))
  /\ docsOf w' COLLECTIONS_MEDICAL_RECORDS
     = <[autoId w (issued w) :=
           recordDoc residentId data (VTime (Some (clock w)))]>
         (docsOf w COLLECTIONS_MEDICAL_RECORDS)
  /\ docsOf w' COLLECTIONS_RESIDENTS = docsOf w COLLECTIONS_RESIDENTS
  /\ faults w' = []
  /\ clock w' = clock w.
Proof.
  intros Hf Hno Hk Hv. cbv zeta. pose proof (nextFault_no_faults w Hf) as Hn.
  rewrite create_after_check, (checkExistingRecord_served _ _ _ Hn).
  set (w1 := afterCall (CGetDocs (medicalRecordService.recordsOf residentId)) w).
  assert (Hn1 : nextFault w1 = None).
  { apply nextFault_no_faults. unfold w1. by rewrite faults_afterCall, Hf. }
  assert (Hscan : forall m,
            medicalRecordService.scanForDate
              (format_YYYY_MM_DD (dayjsParse (MedicalRecordFormData.date data)))
              (runQuery (medicalRecordService.recordsOf residentId)
                 (docsOf w COLLECTIONS_MEDICAL_RECORDS))
            <> Ok (Some m)).
  { intros m. apply scanForDate_absent. intros [id' d'] t Hin Ht Hfmt.
    apply elem_of_recordsOf in Hin as [Hin Hres].
    apply Hno. by exists id', d', t. }
  pose proof (insertRecord_run residentId data w1 Hk Hv Hn1) as Hins.
  assert (Hfin : (let r := insertRecord residentId data w1 in
                  r.1 = Ok (autoId w (issued w))
                  /\ docsOf r.2 COLLECTIONS_MEDICAL_RECORDS
                     = <[autoId w (issued w) :=
                           recordDoc residentId data
                             (VTime (Some (clock w)))]>
                         (docsOf w COLLECTIONS_MEDICAL_RECORDS)
                  /\ docsOf r.2 COLLECTIONS_RESIDENTS = docsOf w COLLECTIONS_RESIDENTS
                  /\ faults r.2 = []
                  /\ clock r.2 = clock w)).
  { cbv zeta. rewrite Hins. cbn [fst snd].
    split; [done|]. split; [by rewrite docsOf_setIssued, docsOf_setDocs|].
    split; [by rewrite docsOf_setIssued, docsOf_setDocs_ne|].
    split; [cbn; by rewrite Hf|done]. }
  destruct (medicalRecordService.scanForDate _ _) as [[m|]|e];
    [by destruct (Hscan m)|exact Hfin|exact Hfin].
Qed.

Lemma docData_fields residentId data now :
  let d := recordDoc residentId data now in
  d !! "residentId" = Some (VStr residentId)
  /\ d !! "date" = Some (VTime (dateParse (MedicalRecordFormData.date data)))
  /\ d !! "record" = Some (VStr (MedicalRecordFormData.record data))
  /\ d !! "createdAt" = Some now
  /\ d !! "updatedAt" = Some now.
Proof. cbv zeta. repeat split; reflexivity. Qed.
End MedicalReads.

(** X10. A served [getByResidentId] returns exactly the records whose
    [residentId] is the given one, each once, each read from its stored
    document; when all of them carry a valid date they come newest first. *)
Theorem records_are_listed_newest_first {rt : Runtime} (residentId : DocId) (w : World) :
  nextFault w = None ->
  exists rs,
    medicalRecordService.getByResidentId residentId w
    = (Ok rs, afterCall (CGetDocs (medicalRecordService.recordsOf residentId)) w)
    /\ NoDup (map MedicalRecord.id rs)
    /\ (forall id, id ∈ map MedicalRecord.id rs <->
          exists d, docsOf w COLLECTIONS_MEDICAL_RECORDS !! id = Some d
                    /\ d !! "residentId" = Some (VStr residentId))
    /\ (forall r, r ∈ rs ->
          exists d, docsOf w COLLECTIONS_MEDICAL_RECORDS !! MedicalRecord.id r = Some d
                    /\ r = convertMedicalRecordData (MedicalRecord.id r) d)
    /\ (recordsValidlyDated w residentId -> StronglySorted notOlder rs).
Proof.
  intros Hf. rewrite (getByResidentId_served residentId w Hf).
  set (docs := runQuery (medicalRecordService.recordsOf residentId)
                 (docsOf w COLLECTIONS_MEDICAL_RECORDS)).
  set (l := map (fun doc : DocId * gmap string Value =>
                   convertMedicalRecordData doc.1 doc.2) docs).
  eexists. split; [reflexivity|].
  assert (Hids : map MedicalRecord.id l = docs.*1).
  { unfold l. rewrite map_map. reflexivity. }
  unfold arraySort.
  split; [|split; [|split]].
  - rewrite sortBy_perm, Hids. apply NoDup_runQuery_ids.
  - intros id. rewrite sortBy_perm, Hids, list_elem_of_fmap. split.
    + intros ([id' d] & -> & Hin). apply elem_of_recordsOf in Hin. by exists d.
    + intros (d & Hd & Hr). exists (id, d). split; [done|]. by apply elem_of_recordsOf.
  - intros r Hr. apply elem_of_sortBy in Hr. unfold l in Hr.
    apply list_elem_of_fmap in Hr as ([id d] & -> & Hin).
    apply elem_of_recordsOf in Hin as [Hd _]. by exists d.
  - intros Hdated. apply Sorted_StronglySorted; [apply notOlder_trans|].
    eapply (Sorted_Forall_impl (fun r => exists t, MedicalRecord.date r = Some t));
      [| |apply sortBy_sorted, byDateDescending_total].
    + intros a b [ta Ha] [tb Hb]. unfold medicalRecordService.byDateDescending.
      rewrite Ha, Hb, Z.leb_le. intros Hle. exists ta, tb. repeat split; [done..|lia].
    + rewrite sortBy_perm. apply Forall_forall. intros r Hr. unfold l in Hr.
      apply list_elem_of_fmap in Hr as ([id d] & -> & Hin).
      apply elem_of_recordsOf in Hin as [Hd Hres].
      destruct (Hdated id d Hd Hres) as [t Ht]. exists t. simpl. by rewrite Ht.
Qed.

Lemma records_are_listed_newest_first_witness :
  nextFault worldTwoNotes = None
  /\ exists rs,
       @medicalRecordService.getByResidentId japan (js "r1") worldTwoNotes
       = (Ok rs, afterCall (CGetDocs (medicalRecordService.recordsOf (js "r1")))
                   worldTwoNotes)
       /\ NoDup (map MedicalRecord.id rs).
Proof.
  assert (Hf : nextFault worldTwoNotes = None) by reflexivity.
  split; [exact Hf|].
  destruct (@records_are_listed_newest_first japan (js "r1") worldTwoNotes Hf)
    as (rs & Hrun & Hnd & _).
  exists rs. split; [exact Hrun|exact Hnd].
Defined.

(** X11. A served [checkExistingRecord] returns only a stored record
    of the resident whose timestamp falls on the local day of the date asked
    for, and, the records of the resident carrying timestamps, it returns one
    exactly when such a record exists. *)
Theorem check_finds_a_record_of_the_day {rt : Runtime}
  (residentId : DocId) (date : jsstring) (w : World) :
  nextFault w = None ->
  (forall m,
     (medicalRecordService.checkExistingRecord residentId date w).1 = Ok (Some m) ->
     exists (d : gmap string Value) t,
       docsOf w COLLECTIONS_MEDICAL_RECORDS !! MedicalRecord.id m = Some d
       /\ d !! "residentId" = Some (VStr residentId)
       /\ d !! "date" = Some (VTime t)
       /\ format_YYYY_MM_DD t = format_YYYY_MM_DD (dayjsParse date)
       /\ m = convertMedicalRecordData (MedicalRecord.id m) d)
  /\ (recordsDated w residentId ->
      ((exists m, (medicalRecordService.checkExistingRecord residentId date w).1
                  = Ok (Some m))
       <-> sameDayRecord w residentId date)).
Proof.
  intros Hf. rewrite (checkExistingRecord_served _ _ _ Hf). cbn [fst].
  set (docs := runQuery (medicalRecordService.recordsOf residentId)
                 (docsOf w COLLECTIONS_MEDICAL_RECORDS)).
  assert (Hsound : forall m,
            match medicalRecordService.scanForDate
                    (format_YYYY_MM_DD (dayjsParse date)) docs with
            | Ok found => Ok found
            | Throw _ => Ok None
            end = Ok (Some m) ->
            exists (d : gmap string Value) t,
              docsOf w COLLECTIONS_MEDICAL_RECORDS !! MedicalRecord.id m = Some d
              /\ d !! "residentId" = Some (VStr residentId)
              /\ d !! "date" = Some (VTime t)
              /\ format_YYYY_MM_DD t = format_YYYY_MM_DD (dayjsParse date)
              /\ m = convertMedicalRecordData (MedicalRecord.id m) d).
  { intros m Hm.
    destruct (medicalRecordService.scanForDate _ docs) as [found|e] eqn:E; [|done].
    assert (found = Some m) as -> by congruence.
    apply scanForDate_sound in E as ([id d] & t & Hin & Ht & Hfmt & ->).
    apply elem_of_recordsOf in Hin as [Hd Hres]. by exists d, t. }
  split; [exact Hsound|].
  intros Hdated. split.
  - intros [m Hm]. destruct (Hsound m Hm) as (d & t & Hd & Hres & Ht & Hfmt & _).
    by exists (MedicalRecord.id m), d, t.
  - intros (rid & d & t & Hd & Hr & Ht & Hfmt).
    destruct (scanForDate_found (format_YYYY_MM_DD (dayjsParse date)) docs) as [m Hm].
    + apply Forall_forall. intros [id' d'] Hin.
      apply elem_of_recordsOf in Hin as [Hin Hres]. exact (Hdated id' d' Hin Hres).
    + exists (rid, d), t. split; [by apply elem_of_recordsOf|]. by split.
    + exists m. by rewrite Hm.
Qed.

Lemma check_finds_a_record_of_the_day_witness :
  nextFault worldWithNote = None
  /\ recordsDated worldWithNote (js "r1")
  /\ exists m,
       (@medicalRecordService.checkExistingRecord japan (js "r1") (js "2024-03-10")
          worldWithNote).1 = Ok (Some m).
Proof.
  assert (Hf : nextFault worldWithNote = None) by reflexivity.
  split; [exact Hf|]. split; [exact worldWithNote_dated|].
  destruct (@check_finds_a_record_of_the_day japan (js "r1") (js "2024-03-10")
              worldWithNote Hf) as [_ Hiff].
  exact (proj2 (Hiff worldWithNote_dated) worldWithNote_same_day).
Defined.

Section MedicalLifecycle.
Context {rt : Runtime}.

End MedicalLifecycle.



(** X13. Deleting the only note a resident has on a day frees the
    day: a [create] for that day, a day a timestamp holds, then succeeds. *)
Theorem deleting_the_note_frees_the_day {rt : Runtime}
  (residentId id : DocId) (data : MedicalRecordFormData.t) (w : World) :
  faults w = [] ->
  inTimestampRange (clock w) ->
  storableDate (MedicalRecordFormData.date data) ->
  (forall id' (d : gmap string Value) t,
     id' <> id ->
     docsOf w COLLECTIONS_MEDICAL_RECORDS !! id' = Some d ->
     d !! "residentId" = Some (VStr residentId) ->
     d !! "date" = Some (VTime t) ->
     format_YYYY_MM_DD t
     <> format_YYYY_MM_DD (dayjsParse (MedicalRecordFormData.date data))) ->
  let w1 := (medicalRecordService.delete id w).2 in
  (medicalRecordService.delete id w).1 = Ok tt
  /\ docsOf w1 COLLECTIONS_MEDICAL_RECORDS
     = delete id (docsOf w COLLECTIONS_MEDICAL_RECORDS)
  /\ docsOf w1 COLLECTIONS_RESIDENTS = docsOf w COLLECTIONS_RESIDENTS
  /\ (medicalRecordService.create residentId data w1).1 = Ok (autoId w (issued w)).
Proof.
  intros Hf Hk Hv Hothers w1.
  assert (Hrun : medicalRecordService.delete id w
                 = (Ok tt, setDocs COLLECTIONS_MEDICAL_RECORDS
                             (delete id (docsOf w COLLECTIONS_MEDICAL_RECORDS))
                             (afterCall (CDeleteDoc COLLECTIONS_MEDICAL_RECORDS id) w)))
    by exact (deleteDoc_served COLLECTIONS_MEDICAL_RECORDS id w (nextFault_no_faults w Hf)).
  assert (Hdocs : docsOf w1 COLLECTIONS_MEDICAL_RECORDS
                  = delete id (docsOf w COLLECTIONS_MEDICAL_RECORDS)).
  { unfold w1. rewrite Hrun. cbn [snd]. by rewrite docsOf_setDocs. }
  assert (Hf1 : faults w1 = []).
  { unfold w1. rewrite Hrun. cbn. by rewrite Hf. }
  split; [by rewrite Hrun|]. split; [exact Hdocs|].
  split; [unfold w1; rewrite Hrun; cbn [snd]; by rewrite docsOf_setDocs_ne|].
  assert (Hk1 : inTimestampRange (clock w1)).
  { unfold w1. rewrite Hrun. exact Hk. }
  destruct (medical_create_free residentId data w1 Hf1) as (Hid & _);
    [|exact Hk1|exact Hv|].
  - intros (id' & d & t & Hd & Hr & Ht & Hfmt). rewrite Hdocs in Hd.
    destruct (decide (id' = id)) as [->|Hne].
    + by rewrite lookup_delete_eq in Hd.
    + rewrite lookup_delete_ne in Hd by done. by apply (Hothers id' d t).
  - rewrite Hid. unfold w1. by rewrite Hrun.
Qed.

Lemma deleting_the_note_frees_the_day_witness :
  (@medicalRecordService.create japan (js "r1") (note "2024-03-10" "再診")
     (medicalRecordService.delete (js "rec1") worldWithNote).2).1
  = Ok (sampleAutoId 0).
Proof.
  destruct (@deleting_the_note_frees_the_day japan (js "r1") (js "rec1")
              (note "2024-03-10" "再診") worldWithNote) as (_ & _ & _ & Hcreate).
  - reflexivity.
  - unfold inTimestampRange, MIN_SECONDS, MAX_SECONDS. cbn [clock worldWithNote]. lia.
  - storable.
  - intros id' d t Hne Hd. rewrite worldWithNote_docs in Hd.
    apply lookup_singleton_Some in Hd as [Hid _]. congruence.
  - exact Hcreate.
Defined.

(** X14. A note that [create] has stored is in the list
    [getByResidentId] returns for the resident, under the id [create]
    returned, with the date as [new Date] read it, the text as entered and
    the time of the call as [createdAt] and [updatedAt].  The date is one a
    timestamp holds. *)
Theorem created_note_is_listed {rt : Runtime}
  (residentId : DocId) (data : MedicalRecordFormData.t) (w : World) :
  faults w = [] ->
  inTimestampRange (clock w) ->
  storableDate (MedicalRecordFormData.date data) ->
  ~ sameDayRecord w residentId (MedicalRecordFormData.date data) ->
  let id := autoId w (issued w) in
  let w1 := (medicalRecordService.create residentId data w).2 in
  (medicalRecordService.create residentId data w).1 = Ok id
  /\ exists rs,
       (medicalRecordService.getByResidentId residentId w1).1 = Ok rs
       /\ {| MedicalRecord.id := id;
             MedicalRecord.residentId := residentId;
             MedicalRecord.date := dateParse (MedicalRecordFormData.date data);
             MedicalRecord.record := MedicalRecordFormData.record data;
             MedicalRecord.createdAt := Some (clock w);
             MedicalRecord.updatedAt := Some (clock w) |} ∈ rs.
Proof.
  intros Hf Hk Hv Hno id w1.
  destruct (medical_create_free residentId data w Hf Hno Hk Hv)
    as (Hid & Hdocs & _ & Hf1 & _).
  fold w1 in Hdocs, Hf1. fold id in Hid, Hdocs.
  split; [exact Hid|].
  rewrite (getByResidentId_served residentId w1 (nextFault_no_faults _ Hf1)).
  eexists. split; [reflexivity|].
  unfold arraySort. apply elem_of_sortBy.
  apply list_elem_of_fmap.
  exists (id, recordDoc residentId data (VTime (Some (clock w)))).
  split.
  - unfold convertMedicalRecordData. cbn [fst snd].
    destruct (docData_fields residentId data (VTime (Some (clock w))))
      as (H1 & H2 & H3 & H4 & H5).
    rewrite H1, H2, H3, H4, H5, !stringOrEmpty_VStr. reflexivity.
  - apply elem_of_recordsOf. rewrite Hdocs. split; [apply lookup_insert_eq|reflexivity].
Qed.

Lemma created_note_is_listed_witness :
  exists rs,
    (@medicalRecordService.getByResidentId japan (js "r1")
       (@medicalRecordService.create japan (js "r1") (note "2024-03-11" "再診")
          worldWithNote).2).1 = Ok rs
    /\ {| MedicalRecord.id := sampleAutoId 0;
          MedicalRecord.residentId := js "r1";
          MedicalRecord.date := @dateParse japan (js "2024-03-11");
          MedicalRecord.record := js "再診";
          MedicalRecord.createdAt := Some 1710100000000;
          MedicalRecord.updatedAt := Some 1710100000000 |} ∈ rs.
Proof.
  destruct (@created_note_is_listed japan (js "r1") (note "2024-03-11" "再診")
              worldWithNote) as (_ & rs & Hget & Hin).
  - reflexivity.
  - unfold inTimestampRange, MIN_SECONDS, MAX_SECONDS. cbn [clock worldWithNote]. lia.
  - storable.
  - exact worldWithNote_next_day.
  - exists rs. split; [exact Hget|exact Hin].
Defined.

(** ** A created resident and the searches *)

Lemma range_query_is_a_prefix_match_witness :
  prefixMatch (js "山") (js "山田 太郎") = true
  /\ exists rest, codePoints (js "山田 太郎") = codePoints (js "山") ++ rest.
Proof.
  assert (H : prefixMatch (js "山") (js "山田 太郎") = true) by (vm_compute; reflexivity).
  split; [exact H|].
  exact (proj1 (proj2 (range_query_is_a_prefix_match "name" (js "山") ∅)) _ H).
Defined.

Section Found.
Context {rt : Runtime}.

(** The ids [searchByName] returns when its calls are served. *)
Lemma searchByName_ids (name : jsstring) (w : World) (id : DocId) :
  trim name <> [] ->
  faults w = [] ->
  id ∈ idsOf (residentService.searchByName name w).1
  <-> exists d, docsOf w COLLECTIONS_RESIDENTS !! id = Some d
                /\ hitBy inClosedRange (trim name) d = true.
Proof.
  intros Hne Hf. rewrite (searchByName_run name w Hne). cbv zeta. cbn [fst].
  set (queries := residentService.searchQueries (trim name)
                    (residentService.convertHiraganaToKatakana (trim name))).
  rewrite (promiseAll_getDocs_served queries w Hf). cbn [idsOf].
  assert (Hqs : Forall (fun q => q_collection q = COLLECTIONS_RESIDENTS) queries)
    by (repeat constructor).
  destruct (collected_residents queries w Hqs) as (Hnd & Hkeys & Hvals).
  set (m := residentService.collectResidents
              (map (fun q => runQuery q (docsOf w (q_collection q))) queries)) in *.
  assert (Hids : map Resident.id (mapValues m) = m.*1).
  { apply ids_of_values. intros k v Hin. by destruct (Hvals k v Hin). }
  unfold arraySort. rewrite sortBy_perm, Hids, Hkeys.
  split; intros (d & Hd & Hhit); exists d; (split; [done|]);
    by apply hitBy_searchQueries.
Qed.

Lemma idsOf_residentsOf (q : Query) (w : World) (id : DocId) (d : gmap string Value) :
  docsOf w COLLECTIONS_RESIDENTS !! id = Some d ->
  forallb (satisfies d) (q_constraints q) = true ->
  id ∈ map Resident.id (residentsOf q w).
Proof.
  intros Hd Hsat. apply (proj1 (proj2 (residentsOf_spec q w))). by exists d.
Qed.
End Found.

(** ** Strings: [trim] once more, and the full-width space *)

Lemma trimStart_noLead s : noLead (trimStart s).
Proof.
  destruct (trimStart s) as [|c s'] eqn:E; simpl; [done|].
  by apply trimStart_head in E.
Qed.

Lemma noLead_trimStart s : noLead s -> trimStart s = s.
Proof. destruct s as [|c s]; simpl; [done|]. by intros ->. Qed.

Lemma trimStart_snoc l c :
  isWhiteSpace c = false -> exists x, trimStart (l ++ [c]) = x ++ [c].
Proof.
  intros Hc. induction l as [|y l [x IH]]; simpl.
  - rewrite Hc. by exists [].
  - destruct (isWhiteSpace y); [by exists x|]. by exists (y :: l).
Qed.

Lemma noLead_trimEnd s : noLead s -> noLead (trimEnd s).
Proof.
  destruct s as [|c s]; [done|]. simpl. intros Hc.
  unfold trimEnd. simpl.
  destruct (trimStart_snoc (rev s) c Hc) as [x ->].
  by rewrite rev_app_distr.
Qed.

Lemma noLead_rev_trimEnd s : noLead (rev (trimEnd s)).
Proof. unfold trimEnd. rewrite rev_involutive. apply trimStart_noLead. Qed.

Lemma trimEnd_fix s : noLead (rev s) -> trimEnd s = s.
Proof. intros Hs. unfold trimEnd. by rewrite (noLead_trimStart _ Hs), rev_involutive. Qed.

(** [trim] is idempotent. *)
Lemma trim_idemp s : trim (trim s) = trim s.
Proof.
  unfold trim at 1.
  rewrite (noLead_trimStart (trim s)).
  - apply trimEnd_fix. apply noLead_rev_trimEnd.
  - apply noLead_trimEnd, trimStart_noLead.
Qed.

Lemma convertSpacesToFullWidth_map text :
  convertSpacesToFullWidth text = map (fun c => if c =? 0x20 then 0x3000 else c) text.
Proof.
  unfold convertSpacesToFullWidth, replaceClass.
  induction text as [|c text IH]; simpl; [done|]. rewrite <- IH.
  unfold inClass. destruct (Z.eqb_spec c 32) as [->|Hne]; [done|].
  destruct (Z.leb_spec 32 c), (Z.leb_spec c 32); simpl; try done. lia.
Qed.

Lemma convertSpacesToFullWidth_no_space text :
  SPACE ∉ convertSpacesToFullWidth text.
Proof.
  rewrite convertSpacesToFullWidth_map, list_elem_of_fmap.
  intros (c & Hc & _). unfold SPACE in Hc.
  destruct (Z.eqb_spec c 32); lia.
Qed.

(** A string without a space is one piece. *)
Lemma split_no_sep s :
  SPACE ∉ s ->
  partOrEmpty (split SPACE s) 0 = s /\ partOrEmpty (split SPACE s) 1 = [].
Proof.
  intros Hs. rewrite split_first, split_second.
  by rewrite (beforeSep_no_sep _ _ Hs), (afterSep_no_sep _ _ Hs).
Qed.

Lemma isDigits_spec s :
  isDigits s = true <-> s <> [] /\ Forall (fun c => 48 <= c <= 57) s.
Proof.
  unfold isDigits. rewrite andb_true_iff, negb_true_iff, bool_decide_eq_false.
  rewrite forallb_forall, Forall_forall.
  split; intros [Hne Hall]; (split; [done|]); intros c Hc.
  - apply list_elem_of_In in Hc. specialize (Hall c Hc). unfold inClass in Hall. lia.
  - apply list_elem_of_In in Hc. specialize (Hall c Hc). unfold inClass. lia.
Qed.

(** ** MedicationInput and ResidentForm *)

Lemma Forall_filter_bool {A} (P : A -> Prop) (f : A -> bool) (l : list A) :
  Forall P l -> Forall P (List.filter f l).
Proof.
  intros Hl. apply Forall_forall. intros x Hx.
  apply elem_of_filter_bool in Hx as [Hx _]. by apply (proj1 (Forall_forall P l) Hl).
Qed.

Lemma filter_bool_all {A} (f : A -> bool) (l : list A) :
  Forall (fun x => f x = true) l -> List.filter f l = l.
Proof. induction 1 as [|x l Hx _ IH]; simpl; [done|]. by rewrite Hx, IH. Qed.

Lemma trim_trimmedName text : trim text <> [] -> trimmedName (trim text).
Proof. intros Hne. split; [done|apply trim_idemp]. Qed.

Lemma handleAddMedication_cases medications currentMedication :
  (trim currentMedication <> [] /\ (trim currentMedication ∉ medications)
   /\ MedicationInput.handleAddMedication medications currentMedication
      = (medications ++ [trim currentMedication], []))
  \/ ((trim currentMedication = [] \/ trim currentMedication ∈ medications)
      /\ MedicationInput.handleAddMedication medications currentMedication
         = (medications, currentMedication)).
Proof.
  unfold MedicationInput.handleAddMedication.
  destruct (decide (trim currentMedication = [])) as [He|He].
  - right. split; [by left|]. by rewrite bool_decide_eq_true_2.
  - rewrite (bool_decide_eq_false_2 _ He).
    destruct (decide (trim currentMedication ∈ medications)) as [Hin|Hin].
    + right. split; [by right|]. by rewrite (bool_decide_eq_true_2 _ Hin).
    + left. by rewrite (bool_decide_eq_false_2 _ Hin).
Qed.

Lemma handleAddMedication_clean medications currentMedication :
  NoDup medications -> Forall trimmedName medications ->
  NoDup (MedicationInput.handleAddMedication medications currentMedication).1
  /\ Forall trimmedName
       (MedicationInput.handleAddMedication medications currentMedication).1.
Proof.
  intros Hnd Hall.
  destruct (handleAddMedication_cases medications currentMedication)
    as [(Hne & Hnin & ->)|[_ ->]]; [|done].
  simpl. split.
  - apply NoDup_app. split; [done|]. split; [|apply NoDup_singleton].
    intros x Hx Hx'. apply list_elem_of_singleton in Hx'. by subst.
  - apply Forall_app. split; [done|]. apply Forall_singleton. by apply trim_trimmedName.
Qed.

Lemma handleRemoveMedication_clean medications medicationToRemove :
  NoDup medications -> Forall trimmedName medications ->
  NoDup (MedicationInput.handleRemoveMedication medications medicationToRemove)
  /\ Forall trimmedName
       (MedicationInput.handleRemoveMedication medications medicationToRemove).
Proof.
  intros Hnd Hall. unfold MedicationInput.handleRemoveMedication.
  split; [by apply NoDup_filter_bool|by apply Forall_filter_bool].
Qed.

(** X16. The list [MedicationInput] keeps stays free of duplicates and
    made of non-empty names without surrounding white space: adding a text
    that is blank or whose trimmed form is already listed changes nothing,
    any other text is appended trimmed; removing a name takes out exactly
    that name, and removing a name just added gives the list back. *)
Theorem medication_input_keeps_a_clean_list
  (medications : list jsstring) (currentMedication medicationToRemove : jsstring) :
  NoDup medications ->
  Forall trimmedName medications ->
  let added := (MedicationInput.handleAddMedication medications currentMedication).1 in
  let removed := MedicationInput.handleRemoveMedication medications medicationToRemove in
  NoDup added /\ Forall trimmedName added
  /\ (blank currentMedication -> added = medications)
  /\ (trim currentMedication ∈ medications -> added = medications)
  /\ (~ blank currentMedication -> trim currentMedication ∈ added)
  /\ (~ blank currentMedication -> trim currentMedication ∉ medications ->
      added = medications ++ [trim currentMedication]
      /\ MedicationInput.handleRemoveMedication added (trim currentMedication)
         = medications)
  /\ NoDup removed /\ Forall trimmedName removed
  /\ (medicationToRemove ∉ removed)
  /\ (forall m, m <> medicationToRemove -> (m ∈ removed <-> m ∈ medications)).
Proof.
  intros Hnd Hall added removed.
  destruct (handleAddMedication_clean medications currentMedication Hnd Hall)
    as [Hnd' Hall'].
  destruct (handleRemoveMedication_clean medications medicationToRemove Hnd Hall)
    as [Hnd'' Hall''].
  split; [exact Hnd'|]. split; [exact Hall'|].
  unfold added, removed.
  destruct (handleAddMedication_cases medications currentMedication)
    as [(Hne & Hnin & ->)|[Hno ->]]; cbn [fst].
  - split; [intros Hb; by apply trim_nil_iff in Hb|].
    split; [done|].
    split; [intros _; apply elem_of_app; right; by apply list_elem_of_singleton|].
    split.
    { intros _ _. split; [done|]. unfold MedicationInput.handleRemoveMedication.
      rewrite List.filter_app. simpl.
      rewrite (bool_decide_eq_true_2 _ eq_refl). simpl. rewrite app_nil_r.
      apply filter_bool_all. apply Forall_forall. intros m Hm.
      apply negb_true_iff, bool_decide_eq_false. by intros ->. }
    split; [exact Hnd''|]. split; [exact Hall''|].
    unfold MedicationInput.handleRemoveMedication.
    split.
    + rewrite elem_of_filter_bool, negb_true_iff, bool_decide_eq_false. tauto.
    + intros m Hm. rewrite elem_of_filter_bool, negb_true_iff, bool_decide_eq_false.
      tauto.
  - split; [done|]. split; [done|].
    split.
    { intros Hnb. destruct Hno as [He|Hin]; [|done].
      by apply trim_nil_iff in He. }
    split.
    { intros Hnb Hnin. destruct Hno as [He|Hin]; [|done].
      by apply trim_nil_iff in He. }
    split; [exact Hnd''|]. split; [exact Hall''|].
    unfold MedicationInput.handleRemoveMedication.
    split.
    + rewrite elem_of_filter_bool, negb_true_iff, bool_decide_eq_false. tauto.
    + intros m Hm. rewrite elem_of_filter_bool, negb_true_iff, bool_decide_eq_false.
      tauto.
Qed.

Lemma medication_input_keeps_a_clean_list_witness :
  (MedicationInput.handleAddMedication [js "アムロジピン"] (js " アリセプト ")).1
  = [js "アムロジピン"] ++ [trim (js " アリセプト ")]
  /\ MedicationInput.handleRemoveMedication
       (MedicationInput.handleAddMedication [js "アムロジピン"] (js " アリセプト ")).1
       (trim (js " アリセプト "))
     = [js "アムロジピン"].
Proof.
  assert (Hnd : NoDup [js "アムロジピン"]) by apply NoDup_singleton.
  assert (Hall : Forall trimmedName [js "アムロジピン"]).
  { apply Forall_singleton. split; [vm_compute; discriminate|vm_compute; reflexivity]. }
  destruct (medication_input_keeps_a_clean_list [js "アムロジピン"] (js " アリセプト ") []
              Hnd Hall) as (_ & _ & _ & _ & _ & Hadd & _).
  apply Hadd.
  - intros Hb. apply trim_nil_iff in Hb. vm_compute in Hb. discriminate Hb.
  - intros Hin. apply list_elem_of_singleton in Hin. vm_compute in Hin. discriminate Hin.
Defined.

(** *** The form *)

Lemma foldl_invariant {A B} (I : A -> Prop) (f : A -> B -> A) (l : list B) (a : A) :
  (forall a b, I a -> I (f a b)) -> I a -> I (foldl f a l).
Proof.
  intros Hstep. revert a. induction l as [|b l IH]; intros a Ha; simpl; [done|].
  apply IH. by apply Hstep.
Qed.

Lemma validateRoomNumber_nil value :
  validateRoomNumber value = [] -> value = [] \/ isDigits value = true.
Proof.
  unfold validateRoomNumber. case_bool_decide as He; [by left|].
  destruct (isDigits value); simpl; [by right|]. intros H. vm_compute in H. discriminate H.
Qed.

Lemma formInvariant_initial : formInvariant ResidentForm.initialState.
Proof.
  unfold formInvariant. simpl.
  split; [apply not_elem_of_nil|]. split; [apply not_elem_of_nil|].
  split; [constructor|]. split; [constructor|].
  split; [by eexists|]. split; [by eexists|]. by left.
Qed.

(** The invariant only looks at the data and at the error of the room. *)
Lemma formInvariant_ext (a b : ResidentForm.State) :
  ResidentForm.formData a = ResidentForm.formData b ->
  ResidentForm.roomNumberError a = ResidentForm.roomNumberError b ->
  formInvariant b -> formInvariant a.
Proof. unfold formInvariant. by intros -> ->. Qed.

Section FormSteps.
Context {rt : Runtime}.

(** [handleSubmit] leaves the form emptied or as it is, whichever render
    it reads. *)
Lemma handleSubmit_state view st w :
  let st' := (ResidentForm.handleSubmit view st w).1.2 in
  (ResidentForm.formData st' = ResidentForm.emptyForm
   /\ ResidentForm.roomNumberError st' = [])
  \/ (ResidentForm.formData st' = ResidentForm.formData st
      /\ ResidentForm.roomNumberError st' = ResidentForm.roomNumberError st).
Proof.
  cbv zeta. unfold ResidentForm.handleSubmit, utry, ubind, call, setState.
  destruct (residentService.create _ w) as [[id|e] w1]; cbn [fst snd];
    [by left|by right].
Qed.

Lemma submitForm_invariant view st w :
  formInvariant st -> formInvariant (ResidentForm.submitForm view st w).1.2.
Proof.
  intros Hst. unfold ResidentForm.submitForm.
  destruct (ResidentForm.requiredFilled view); [|exact Hst].
  destruct (handleSubmit_state view st w) as [[Hd He]|[Hd He]].
  - eapply (formInvariant_ext _ ResidentForm.initialState);
      [exact Hd|exact He|apply formInvariant_initial].
  - by eapply formInvariant_ext.
Qed.

Lemma formInvariant_step st ev w :
  formInvariant st -> formInvariant (stateAfter (ResidentForm.onEvent ev) st w).
Proof.
  intros Hst. pose proof Hst as (Hn & Hf & Hnd & Hall & Hc & Hd & Hr).
  unfold stateAfter.
  destruct ev; cbn [ResidentForm.onEvent];
    unfold ubind, setState; cbn [fst snd];
    try (repeat split; assumption).
  - split; [apply convertSpacesToFullWidth_no_space|]. repeat split; assumption.
  - split; [done|]. split; [apply convertSpacesToFullWidth_no_space|].
    repeat split; assumption.
  - repeat (split; [assumption|]). apply validateRoomNumber_nil.
  - repeat (split; [assumption|]). split; [by eexists|]. split; assumption.
  - repeat (split; [assumption|]). split; [by eexists|]. assumption.
  - case_bool_decide; [exact Hst|].
    unfold ResidentForm.clickSubmitButton, ResidentForm.handleAddMedication,
      ubind, setState, getState. cbn [fst snd].
    apply submitForm_invariant.
    destruct (handleAddMedication_clean
                (ResidentFormData.medications (ResidentForm.formData st))
                currentMedication Hnd Hall) as [Hnd' Hall'].
    repeat split; assumption.
  - case_bool_decide; [|exact Hst].
    unfold ResidentForm.clickSubmitButton, ResidentForm.handleRemoveMedication,
      ubind, setState, getState. cbn [fst snd].
    apply submitForm_invariant.
    destruct (handleRemoveMedication_clean
                (ResidentFormData.medications (ResidentForm.formData st))
                medication Hnd Hall) as [Hnd' Hall'].
    repeat split; assumption.
  - unfold ResidentForm.handleAddMedication, setState. cbn [fst snd].
    destruct (handleAddMedication_clean
                (ResidentFormData.medications (ResidentForm.formData st))
                currentMedication Hnd Hall) as [Hnd' Hall'].
    repeat split; assumption.
  - apply formInvariant_initial.
  - destruct (ResidentForm.isFormValid st); [|exact Hst].
    by apply submitForm_invariant.
Qed.

Lemma form_invariant_of (evs : list ResidentForm.Event) (w : World) :
  formInvariant (formAfter evs w).
Proof.
  unfold formAfter.
  apply (foldl_invariant (fun sw : ResidentForm.State * World => formInvariant sw.1));
    [|apply formInvariant_initial].
  intros [st w'] ev Hst. apply formInvariant_step, Hst.
Qed.
End FormSteps.

(** X17. Whatever is done to the registration form, in any order, typing
    into its fields, pressing Enter in the drug input or clicking its
    buttons, the two buttons of the drug input included, which also submit
    the form: the name and the reading
    hold no half-width space (each is replaced by a full-width one as it is
    typed), the drugs are distinct, non-empty and without surrounding white
    space, a care level and a discharge date (possibly the empty string) are
    always present, and a room number without an error message is empty or
    made of the digits 0 to 9.  This holds whatever the store answers to the
    registrations on the way. *)
Theorem form_state_invariant {rt : Runtime} (evs : list ResidentForm.Event) (w : World) :
  formInvariant (formAfter evs w).
Proof.
  unfold formAfter.
  apply (foldl_invariant (fun sw : ResidentForm.State * World => formInvariant sw.1));
    [|apply formInvariant_initial].
  intros [st w'] ev Hst. apply formInvariant_step, Hst.
Qed.

Section FormSubmit.
Context {rt : Runtime}.

Lemma handleSubmit_created st w id w1 :
  residentService.create (ResidentForm.formData st) w = (Ok id, w1) ->
  ResidentForm.handleSubmit st st w
  = (Ok tt,
     ResidentForm.resetForm
       (ResidentForm.setAlert
          (ResidentForm.mkAlert true (js "入所者情報を正常に登録しました") success) st),
     w1).
Proof.
  intros Hrun. unfold ResidentForm.handleSubmit, utry, ubind, call, setState.
  by rewrite Hrun.
Qed.

Lemma handleSubmit_failed st w e w1 :
  residentService.create (ResidentForm.formData st) w = (Throw e, w1) ->
  ResidentForm.handleSubmit st st w
  = (Ok tt,
     ResidentForm.setAlert
       (ResidentForm.mkAlert true (handleFirestoreError e "create") error) st,
     w1).
Proof.
  intros Hrun. unfold ResidentForm.handleSubmit, utry, ubind, call, setState.
  by rewrite Hrun.
Qed.
End FormSubmit.

Lemma codePoints_nil s : codePoints s = [] -> s = [].
Proof.
  destruct s as [|h [|l t]]; simpl; try done.
  by destruct (isHighSurrogate h && isLowSurrogate l).
Qed.

(** No term reaches a field that holds the empty string. *)
Lemma prefixQuery_empty_field (d : gmap string Value) field term :
  term <> [] ->
  d !! field = Some (VStr []) ->
  forallb (satisfies d) (q_constraints (residentService.prefixQuery field term)) = false.
Proof.
  intros Hne Hd. rewrite satisfies_prefixQuery. unfold fieldIn. rewrite Hd.
  rewrite inClosedRange_prefixMatch. unfold prefixMatch. simpl.
  destruct (codePoints term) as [|c cs] eqn:E; [|done].
  by apply codePoints_nil in E.
Qed.

(** X18. A resident sent from the registration form, once the form
    is valid and the store serves the call, is stored with the whole name as
    last name and an empty first name, and likewise for the reading: the
    form has replaced every half-width space, the only character [create]
    cuts at.  A search by name therefore finds it exactly when the term is
    a prefix of the full name, or its katakana form a prefix of the full
    reading (in the sense of the range queries); a first name alone never
    finds it.  Its room number is a non-empty string of digits, its
    care level is a number, its discharge date is null or a timestamp.  The
    form is emptied and shows the notice of success.  This is for dates, and
    a clock, within the range of a timestamp. *)
Theorem form_residents_are_stored_unsplit {rt : Runtime}
  (evs : list ResidentForm.Event) (w0 w : World) :
  let st := formAfter evs w0 in
  let data := ResidentForm.formData st in
  ResidentForm.isFormValid st = true ->
  inTimestampRange (clock w) ->
  storableDate (ResidentFormData.birthDate data) ->
  storableDate (ResidentFormData.admissionDate data) ->
  storableOptDate (ResidentFormData.dischargeDate data) ->
  nextFault w = None ->
  let id := autoId w (issued w) in
  let w' := worldAfter ResidentForm.handleSubmit st w in
  let st' := stateAfter ResidentForm.handleSubmit st w in
  outcome ResidentForm.handleSubmit st w = Ok tt
  /\ ResidentForm.formData st' = ResidentForm.emptyForm
  /\ ResidentForm.alert st'
     = ResidentForm.mkAlert true (js "入所者情報を正常に登録しました") success
  /\ exists d : gmap string Value,
       docsOf w' COLLECTIONS_RESIDENTS !! id = Some d
       /\ d !! "name" = Some (VStr (ResidentFormData.name data))
       /\ d !! "lastName" = Some (VStr (ResidentFormData.name data))
       /\ d !! "firstName" = Some (VStr [])
       /\ d !! "furigana" = Some (VStr (ResidentFormData.furigana data))
       /\ d !! "lastNameKana" = Some (VStr (ResidentFormData.furigana data))
       /\ d !! "firstNameKana" = Some (VStr [])
       /\ (forall term, term <> [] ->
             hitBy inClosedRange term d
             = prefixMatch term (ResidentFormData.name data)
               || prefixMatch (residentService.convertHiraganaToKatakana term)
                    (ResidentFormData.furigana data))
       /\ d !! "roomNumber" = Some (VStr (ResidentFormData.roomNumber data))
       /\ isDigits (ResidentFormData.roomNumber data) = true
       /\ (exists n, d !! "careLevel" = Some (VNum n))
       /\ (d !! "dischargeDate" = Some VNull
           \/ exists t, d !! "dischargeDate" = Some (VTime (Some t))).
Proof.
  intros st data Hvalid Hclock Hb Ha Hd Hf id w' st'.
  destruct (form_invariant_of evs w0) as (Hn & Hfu & _ & _ & [n Hc] & [dd Hdd] & Hr).
  fold st in Hn, Hfu, Hc, Hdd, Hr. fold data in Hn, Hfu, Hc, Hdd, Hr.
  assert (Hcl : ResidentFormData.careLevel data <> None \/ ignoreUndefinedProperties = true).
  { left. by rewrite Hc. }
  pose proof (createData_accepted w data Hclock Hb Ha Hd Hcl) as Hp.
  pose proof (residentService_create_run data w Hp Hf) as Hrun.
  pose proof (handleSubmit_created st w _ _ Hrun) as Hsub.
  unfold outcome, stateAfter, worldAfter in *. subst w' st'. rewrite Hsub. cbn [fst snd].
  split; [done|]. split; [done|]. split; [done|].
  destruct (created_doc_fields (clock w) data)
    as (Hname & Hfuri & Hln & Hfn & Hlk & Hfk & _ & _ & Hroom & _ & Hdis & _ & _ & Hlevel
        & _).
  destruct (split_no_sep _ Hn) as [Hs0 Hs1]. destruct (split_no_sep _ Hfu) as [Hk0 Hk1].
  rewrite Hs0 in Hln. rewrite Hs1 in Hfn. rewrite Hk0 in Hlk. rewrite Hk1 in Hfk.
  eexists. split; [rewrite docsOf_setIssued, docsOf_setDocs; apply lookup_insert_eq|].
  split; [exact Hname|]. split; [exact Hln|]. split; [exact Hfn|].
  split; [exact Hfuri|]. split; [exact Hlk|]. split; [exact Hfk|].
  split.
  { intros term Hne.
    assert (Hk : residentService.convertHiraganaToKatakana term <> []).
    { rewrite convertHiraganaToKatakana_map. by destruct term. }
    unfold hitBy. rewrite <- !satisfies_prefixQuery.
    rewrite (prefixQuery_empty_field _ "firstName" term Hne Hfn).
    rewrite (prefixQuery_empty_field _ "firstNameKana" _ Hk Hfk).
    rewrite !satisfies_prefixQuery. unfold fieldIn.
    rewrite Hname, Hln, Hfuri, Hlk, !inClosedRange_prefixMatch.
    rewrite !orb_false_r.
    by destruct (prefixMatch term _), (prefixMatch _ (ResidentFormData.furigana data)). }
  split; [exact Hroom|].
  split.
  { unfold ResidentForm.isFormValid in Hvalid. fold data in Hvalid.
    rewrite !andb_true_iff, !negb_true_iff, !bool_decide_eq_false, bool_decide_eq_true
      in Hvalid.
    destruct Hvalid as (((((_ & _) & _) & Hroomne) & _) & Herr).
    destruct (Hr Herr) as [He|Hdig]; [|exact Hdig].
    rewrite He in Hroomne. by destruct Hroomne. }
  split; [exists n; by rewrite Hlevel, Hc|].
  rewrite Hdis, Hdd. rewrite Hdd in Hd. clear -Hd.
  destruct dd as [|c s]; [left; reflexivity|]. right.
  destruct Hd as (t & Ht & _). exists t. cbn [dischargeValue]. by rewrite Ht.
Qed.

Lemma form_residents_are_stored_unsplit_witness :
  exists d : gmap string Value,
    docsOf (worldAfter (@ResidentForm.handleSubmit japan)
              (@formAfter japan
                         [ResidentForm.Name (js "山田 太郎");
                          ResidentForm.Furigana (js "ヤマダ タロウ");
                          ResidentForm.BirthDate (js "1940-05-01");
                          ResidentForm.RoomNumber (js "101");
                          ResidentForm.AdmissionDate (js "2023-04-01");
                          ResidentForm.CareLevel 3] emptyWorld) emptyWorld)
      COLLECTIONS_RESIDENTS !! sampleAutoId 0 = Some d
    /\ d !! "lastName" = Some (VStr (js "山田　太郎"))
    /\ d !! "firstName" = Some (VStr []).
Proof.
  destruct (@form_residents_are_stored_unsplit japan
              [ResidentForm.Name (js "山田 太郎");
               ResidentForm.Furigana (js "ヤマダ タロウ");
               ResidentForm.BirthDate (js "1940-05-01");
               ResidentForm.RoomNumber (js "101");
               ResidentForm.AdmissionDate (js "2023-04-01");
               ResidentForm.CareLevel 3] emptyWorld emptyWorld)
    as (_ & _ & _ & d & Hd & _ & Hln & Hfn & _).
  - vm_compute. reflexivity.
  - in_range.
  - storable.
  - storable.
  - storable.
  - reflexivity.
  - exists d. split; [exact Hd|]. split; [|exact Hfn].
    rewrite Hln. vm_compute. reflexivity.
Defined.

Lemma handleAddMedication_elem medications currentMedication :
  trim currentMedication <> [] ->
  trim currentMedication
  ∈ (MedicationInput.handleAddMedication medications currentMedication).1.
Proof.
  intros Hne.
  destruct (handleAddMedication_cases medications currentMedication)
    as [(_ & _ & ->)|[[He|Hin] ->]]; cbn [fst]; [|done..].
  apply elem_of_app. right. by apply list_elem_of_singleton.
Qed.

(** X19. A drug added through [MedicationInput] is found by the
    drug search for the same text, whatever white space surrounds the text
    on either side: the input stores the trimmed text and the search looks
    for the trimmed text.  The resident is one [create] stores, with the
    list of drugs the input has returned: its dates, and the clock, are
    within the range of a timestamp. *)
Theorem added_drug_is_found_by_the_same_text {rt : Runtime}
  (data : ResidentFormData.t) (medications : list jsstring)
  (currentMedication : jsstring) (w : World) :
  ~ blank currentMedication ->
  ResidentFormData.medications data
  = (MedicationInput.handleAddMedication medications currentMedication).1 ->
  faults w = [] ->
  inTimestampRange (clock w) ->
  storableDate (ResidentFormData.birthDate data) ->
  storableDate (ResidentFormData.admissionDate data) ->
  storableOptDate (ResidentFormData.dischargeDate data) ->
  ResidentFormData.careLevel data <> None \/ ignoreUndefinedProperties = true ->
  autoId w (issued w)
  ∈ idsOf (residentService.getByMedication currentMedication
             (residentService.create data w).2).1.
Proof.
  intros Hnb Hmeds Hf Hclock Hb Ha Hd Hc.
  assert (Hne : trim currentMedication <> []) by (by rewrite trim_nil_iff).
  pose proof (createData_accepted w data Hclock Hb Ha Hd Hc) as Hp.
  destruct (residentService_create_world data w Hp (nextFault_no_faults w Hf))
    as (_ & Hdocs & _ & Hf').
  rewrite Hf in Hf'. cbn [tail] in Hf'.
  set (w' := (residentService.create data w).2) in *.
  rewrite (getByMedication_run currentMedication w' Hne).
  destruct (getDocs_result_served (medicationQuery (trim currentMedication)) w'
              (nextFault_no_faults w' Hf')) as [docs ->].
  cbn [fst idsOf].
  destruct (created_doc_fields (clock w) data)
    as (Hname & _ & _ & _ & _ & _ & _ & _ & _ & _ & _ & _ & Hm & _).
  eapply idsOf_residentsOf; [rewrite Hdocs; apply lookup_insert_eq|].
  apply satisfies_medicationQuery. split; [|rewrite Hname; by eexists].
  exists (ResidentFormData.medications data). split; [exact Hm|].
  rewrite Hmeds. by apply handleAddMedication_elem.
Qed.

Lemma added_drug_is_found_by_the_same_text_witness :
  sampleAutoId 0
  ∈ idsOf (@residentService.getByMedication japan (js " アムロジピン")
             (@residentService.create japan yamada emptyWorld).2).1.
Proof.
  apply (@added_drug_is_found_by_the_same_text japan yamada [] (js " アムロジピン")
           emptyWorld).
  - intros Hb. apply trim_nil_iff in Hb. vm_compute in Hb. discriminate Hb.
  - vm_compute. reflexivity.
  - reflexivity.
  - in_range.
  - storable.
  - storable.
  - storable.
  - left. discriminate.
Defined.

(** ** SearchPanel *)

Lemma panelInvariant_initial : panelInvariant SearchPanel.initialState.
Proof. split; [apply not_elem_of_nil|by left]. Qed.

Lemma panelInvariant_step st ev :
  panelInvariant st -> panelInvariant (SearchPanel.onEvent ev st).
Proof.
  intros [Hn Hr]. destruct ev; unfold panelInvariant; simpl; try (split; assumption).
  - split; [apply convertSpacesToFullWidth_no_space|assumption].
  - split; [assumption|apply validateRoomNumber_nil].
  - split; [apply not_elem_of_nil|]. intros _. by left.
Qed.

Lemma panel_invariant_of (evs : list SearchPanel.Event) : panelInvariant (panelAfter evs).
Proof.
  unfold panelAfter. apply foldl_invariant; [|apply panelInvariant_initial].
  intros st ev. apply panelInvariant_step.
Qed.

Lemma trim_not_nil_head c s : isWhiteSpace c = false -> trim (c :: s) <> [].
Proof.
  intros Hc Ht. apply trim_nil_iff in Ht. apply Forall_cons in Ht as [Hc' _]. congruence.
Qed.

Lemma getCurrentSearchValue_careLevel st :
  SearchPanel.searchType st = SearchPanel.careLevel ->
  trim (SearchPanel.getCurrentSearchValue st) = [] ->
  SearchPanel.careLevelSearch st = 0.
Proof.
  unfold SearchPanel.getCurrentSearchValue. intros -> Ht.
  destruct (Z.eqb_spec (SearchPanel.careLevelSearch st) 0) as [H0|H0]; [done|].
  exfalso. revert Ht. apply trim_not_nil_head. reflexivity.
Qed.

Section Panel.
Context {rt : Runtime}.

(** With nothing to search for, [handleSearch] returns at once. *)
Lemma handleSearch_blank st w :
  trim (SearchPanel.getCurrentSearchValue st) = [] ->
  SearchPanel.handleSearch st st w = (Ok tt, st, w).
Proof.
  intros Ht. unfold SearchPanel.handleSearch. rewrite Ht.
  rewrite (bool_decide_eq_true_2 _ eq_refl).
  destruct (decide (SearchPanel.searchType st = SearchPanel.careLevel)) as [Hc|Hc].
  - rewrite (bool_decide_eq_true_2 _ Hc). simpl.
    by rewrite (getCurrentSearchValue_careLevel st Hc Ht).
  - by rewrite (bool_decide_eq_false_2 _ Hc).
Qed.

Lemma handleSearch_run st w :
  trim (SearchPanel.getCurrentSearchValue st) <> [] ->
  let st1 := SearchPanel.setLastSearchValue (SearchPanel.getCurrentSearchValue st)
               (SearchPanel.setHasSearched true st) in
  SearchPanel.handleSearch st st w
  = match searchCall st w with
    | (Ok results, w1) => (Ok tt, SearchPanel.setSearchResults results st1, w1)
    | (Throw e, w1) =>
      (Ok tt,
       SearchPanel.setSnackbar
         (SearchPanel.mkSnackbar true (handleFirestoreError e "read") error)
         (SearchPanel.setSearchResults [] st1), w1)
    end.
Proof.
  intros Ht st1. unfold SearchPanel.handleSearch.
  rewrite (bool_decide_eq_false_2 _ Ht). cbn [andb].
  assert (Hguard : bool_decide (SearchPanel.searchType st = SearchPanel.careLevel)
                   && (SearchPanel.careLevelSearch st =? 0) = false).
  { apply andb_false_iff. destruct (Z.eqb_spec (SearchPanel.careLevelSearch st) 0) as [H0|H0];
      [|by right].
    left. apply bool_decide_eq_false. intros Hc. apply Ht.
    unfold SearchPanel.getCurrentSearchValue. by rewrite Hc, H0. }
  rewrite Hguard.
  unfold ubind, utry, setState, call, SearchPanel.showSnackbar, searchCall.
  fold st1.
  destruct (SearchPanel.searchType st);
    match goal with
    | |- context [let '(r, w') := ?m w in _] => destruct (m w) as [[results|e] w1]
    end; reflexivity.
Qed.
End Panel.

Lemma elem_of_trimStart x s : x ∈ trimStart s -> x ∈ s.
Proof.
  induction s as [|c s IH]; simpl; [done|].
  destruct (isWhiteSpace c); [|done]. intros Hx. apply elem_of_cons. right. by apply IH.
Qed.

Lemma elem_of_trim x s : x ∈ trim s -> x ∈ s.
Proof.
  unfold trim, trimEnd. rewrite list_elem_of_In, <- in_rev, <- list_elem_of_In.
  intros Hx. apply elem_of_trimStart in Hx.
  rewrite list_elem_of_In, <- in_rev, <- list_elem_of_In in Hx.
  by apply elem_of_trimStart.
Qed.

Section PanelSearch.
Context {rt : Runtime}.


Lemma searchCall_calls st w :
  trim (SearchPanel.getCurrentSearchValue st) <> [] ->
  calls (searchCall st w).2
  = calls w
    ++ match SearchPanel.searchType st with
       | SearchPanel.name =>
         map CGetDocs
           (residentService.searchQueries (trim (SearchPanel.nameSearch st))
              (residentService.convertHiraganaToKatakana
                 (trim (SearchPanel.nameSearch st))))
       | SearchPanel.room => [CGetDocs (roomQuery (SearchPanel.roomSearch st))]
       | SearchPanel.medication =>
         [CGetDocs (medicationQuery (trim (SearchPanel.medicationSearch st)))]
       | SearchPanel.careLevel =>
         [CGetDocs (careLevelQuery (SearchPanel.careLevelSearch st))]
       end.
Proof.
  intros Ht. unfold searchCall.
  unfold SearchPanel.getCurrentSearchValue in Ht.
  destruct (SearchPanel.searchType st).
  - rewrite (searchByName_run _ w Ht). cbn [snd].
    by rewrite promiseAll_getDocs_world, calls_after_queries.
  - by rewrite getByRoomNumber_run.
  - by rewrite (getByMedication_run _ w Ht).
  - by rewrite getByCareLevel_run.
Qed.

Lemma handleSearch_world st w :
  trim (SearchPanel.getCurrentSearchValue st) <> [] ->
  worldAfter SearchPanel.handleSearch st w = (searchCall st w).2.
Proof.
  intros Ht. unfold worldAfter. rewrite (handleSearch_run st w Ht). cbv zeta.
  by destruct (searchCall st w) as [[results|e] w1].
Qed.
End PanelSearch.

(** X20. Whatever has been typed into the search panel, a search that
    can be started sends clean criteria: nothing at all (no call, no change
    of state) when the value for the chosen search type is blank or the care
    level is the placeholder 0; for a search by name, the six range queries
    on a term without half-width space; for a search by room, one query on a
    non-empty string of digits; for a search by drug, one query on the
    trimmed text; for a search by care level, one query on the level. *)
Theorem search_panel_sends_clean_criteria {rt : Runtime}
  (evs : list SearchPanel.Event) (w : World) :
  let st := panelAfter evs in
  let w' := worldAfter SearchPanel.handleSearch st w in
  SearchPanel.searchDisabled st = false ->
  (trim (SearchPanel.getCurrentSearchValue st) = [] ->
     SearchPanel.handleSearch st st w = (Ok tt, st, w))
  /\ (trim (SearchPanel.getCurrentSearchValue st) <> [] ->
      (SearchPanel.searchType st = SearchPanel.name ->
         (SPACE ∉ trim (SearchPanel.nameSearch st))
         /\ calls w'
            = calls w
              ++ map CGetDocs
                   (residentService.searchQueries (trim (SearchPanel.nameSearch st))
                      (residentService.convertHiraganaToKatakana
                         (trim (SearchPanel.nameSearch st)))))
      /\ (SearchPanel.searchType st = SearchPanel.room ->
          isDigits (SearchPanel.roomSearch st) = true
          /\ calls w' = calls w ++ [CGetDocs (roomQuery (SearchPanel.roomSearch st))])
      /\ (SearchPanel.searchType st = SearchPanel.medication ->
          calls w'
          = calls w
            ++ [CGetDocs (medicationQuery (trim (SearchPanel.medicationSearch st)))])
      /\ (SearchPanel.searchType st = SearchPanel.careLevel ->
          SearchPanel.careLevelSearch st <> 0
          /\ calls w'
             = calls w ++ [CGetDocs (careLevelQuery (SearchPanel.careLevelSearch st))])).
Proof.
  intros st w' Hen. destruct (panel_invariant_of evs) as [Hn Hr]. fold st in Hn, Hr.
  split; [apply handleSearch_blank|].
  intros Ht. unfold w'. rewrite (handleSearch_world st w Ht), (searchCall_calls st w Ht).
  split; [|split; [|split]]; intros Hty; rewrite Hty.
  - split; [|done]. intros Hin. apply Hn. by apply elem_of_trim.
  - split; [|done]. unfold SearchPanel.searchDisabled in Hen. rewrite Hty in Hen.
    apply negb_false_iff, bool_decide_eq_true in Hen.
    destruct (Hr Hen) as [He|Hd]; [|exact Hd].
    unfold SearchPanel.getCurrentSearchValue in Ht. rewrite Hty, He in Ht. by destruct Ht.
  - done.
  - split; [|done]. intros H0. apply Ht.
    unfold SearchPanel.getCurrentSearchValue. by rewrite Hty, H0.
Qed.

Lemma search_panel_sends_clean_criteria_witness :
  isDigits (SearchPanel.roomSearch
              (panelAfter [SearchPanel.SearchTypeChange SearchPanel.room;
                           SearchPanel.RoomSearch (js "101")])) = true.
Proof.
  destruct (@search_panel_sends_clean_criteria japan
              [SearchPanel.SearchTypeChange SearchPanel.room;
               SearchPanel.RoomSearch (js "101")] worldWithTanaka) as [_ Hsend].
  - vm_compute. reflexivity.
  - destruct Hsend as (_ & Hroom & _).
    + vm_compute. discriminate.
    + exact (proj1 (Hroom eq_refl)).
Defined.



Lemma confirmDeleteResident_run st resident w :
  SearchPanel.deleteConfirmDialog st = Some resident ->
  SearchPanel.confirmDeleteResident st st w
  = match residentService.delete (Resident.id resident) w with
    | (Ok _, w1) =>
      (Ok tt,
       SearchPanel.setDeleteConfirmDialog None
         (SearchPanel.setSnackbar
            (SearchPanel.mkSnackbar true
               (Resident.name resident ++ js "さんの情報を削除しました") success)
            (SearchPanel.setSearchResults
               (List.filter
                  (fun r => negb (bool_decide (Resident.id r = Resident.id resident)))
                  (SearchPanel.searchResults st)) st)), w1)
    | (Throw e, w1) =>
      (Ok tt,
       SearchPanel.setSnackbar
         (SearchPanel.mkSnackbar true (handleFirestoreError e "delete") error) st, w1)
    end.
Proof.
  intros Hd. unfold SearchPanel.confirmDeleteResident. rewrite Hd.
  unfold utry, ubind, call, setState, SearchPanel.showSnackbar.
  by destruct (residentService.delete (Resident.id resident) w) as [[[]|e] w1].
Qed.

(** X22. Confirming the deletion of a resident in the search
    panel never throws.  When the store serves the call, the resident is
    gone from the store and from the result list, the others stay, the
    dialog closes and the notice names the resident; the medical records,
    those of the deleted resident included, stay in the store.  When the
    call fails, nothing changes but the notice, which shows the message for
    a failed deletion, and the dialog stays open. *)
Theorem panel_delete_removes_the_resident_only
  (st : SearchPanel.State) (resident : Resident.t) (w : World) :
  SearchPanel.deleteConfirmDialog st = Some resident ->
  let st' := stateAfter SearchPanel.confirmDeleteResident st w in
  let w' := worldAfter SearchPanel.confirmDeleteResident st w in
  outcome SearchPanel.confirmDeleteResident st w = Ok tt
  /\ (nextFault w = None ->
      docsOf w' COLLECTIONS_RESIDENTS
      = delete (Resident.id resident) (docsOf w COLLECTIONS_RESIDENTS)
      /\ docsOf w' COLLECTIONS_MEDICAL_RECORDS = docsOf w COLLECTIONS_MEDICAL_RECORDS
      /\ (Resident.id resident ∉ map Resident.id (SearchPanel.searchResults st'))
      /\ (forall r, Resident.id r <> Resident.id resident ->
            (r ∈ SearchPanel.searchResults st' <-> r ∈ SearchPanel.searchResults st))
      /\ SearchPanel.deleteConfirmDialog st' = None
      /\ SearchPanel.snackbar st'
         = SearchPanel.mkSnackbar true
             (Resident.name resident ++ js "さんの情報を削除しました") success)
  /\ (forall e, nextFault w = Some e ->
      store w' = store w
      /\ SearchPanel.searchResults st' = SearchPanel.searchResults st
      /\ SearchPanel.deleteConfirmDialog st' = Some resident
      /\ SearchPanel.snackbar st'
         = SearchPanel.mkSnackbar true (handleFirestoreError e "delete") error).
Proof.
  intros Hd st' w'.
  pose proof (confirmDeleteResident_run st resident w Hd) as Hrun.
  unfold st', w', outcome, stateAfter, worldAfter. rewrite Hrun. clear Hrun.
  split; [by destruct (residentService.delete _ w) as [[[]|e] w1]|].
  split.
  - intros Hf.
    assert (Hdel : residentService.delete (Resident.id resident) w
                   = (Ok tt, setDocs COLLECTIONS_RESIDENTS
                               (delete (Resident.id resident)
                                  (docsOf w COLLECTIONS_RESIDENTS))
                               (afterCall (CDeleteDoc COLLECTIONS_RESIDENTS
                                             (Resident.id resident)) w)))
      by exact (deleteDoc_served COLLECTIONS_RESIDENTS _ w Hf).
    rewrite Hdel. cbn [fst snd SearchPanel.searchResults SearchPanel.setDeleteConfirmDialog
                        SearchPanel.setSnackbar SearchPanel.setSearchResults
                        SearchPanel.deleteConfirmDialog SearchPanel.snackbar].
    split; [by rewrite docsOf_setDocs|]. split; [by rewrite docsOf_setDocs_ne|].
    split.
    { rewrite list_elem_of_fmap. intros (r & Hid & Hr).
      apply elem_of_filter_bool in Hr as [_ Hr].
      apply negb_true_iff, bool_decide_eq_false in Hr. congruence. }
    split; [|done].
    intros r Hne. rewrite elem_of_filter_bool, negb_true_iff, bool_decide_eq_false. tauto.
  - intros e Hf.
    assert (Hdel : residentService.delete (Resident.id resident) w
                   = (Throw e, afterCall (CDeleteDoc COLLECTIONS_RESIDENTS
                                            (Resident.id resident)) w)).
    { unfold residentService.delete, deleteDoc, storageCall. by rewrite Hf. }
    rewrite Hdel. cbn [fst snd].
    split; [reflexivity|]. split; [reflexivity|]. split; [exact Hd|reflexivity].
Qed.

Lemma panel_delete_removes_the_resident_only_witness :
  outcome SearchPanel.confirmDeleteResident
    (SearchPanel.handleDeleteResident residentR1 SearchPanel.initialState) worldWithNote
  = Ok tt.
Proof.
  exact (proj1 (panel_delete_removes_the_resident_only
                  (SearchPanel.handleDeleteResident residentR1 SearchPanel.initialState)
                  residentR1 worldWithNote eq_refl)).
Defined.

(** ** The dialogs of the medical records *)

Section RecordsUI.
Context {rt : Runtime}.

Lemma medical_update_run id data w (old : gmap string Value) :
  docsOf w COLLECTIONS_MEDICAL_RECORDS !! id = Some old ->
  nextFault w = None ->
  inTimestampRange (clock w) ->
  (forall s, PartialMedicalRecordFormData.date data = Some s -> storableDate s) ->
  medicalRecordService.update id data w
  = (Ok tt,
     setDocs COLLECTIONS_MEDICAL_RECORDS
       (<[id := recordPatch (VTime (Some (clock w))) data ∪ old]>
          (docsOf w COLLECTIONS_MEDICAL_RECORDS))
       (afterCall (CUpdateDoc COLLECTIONS_MEDICAL_RECORDS id
                     (recordPatch (VTime (Some (clock w))) data)) w)).
Proof. intros Hold Hf Hk Hv. by apply medical_update_served. Qed.

Lemma medical_update_missing id data w :
  docsOf w COLLECTIONS_MEDICAL_RECORDS !! id = None ->
  nextFault w = None ->
  inTimestampRange (clock w) ->
  (forall s, PartialMedicalRecordFormData.date data = Some s -> storableDate s) ->
  medicalRecordService.update id data w
  = (Throw (FirestoreError "not-found"),
     afterCall (CUpdateDoc COLLECTIONS_MEDICAL_RECORDS id
                  (recordPatch (VTime (Some (clock w))) data)) w).
Proof.
  intros Hold Hf Hk Hv.
  unfold medicalRecordService.update, bind, liftResult.
  rewrite (Timestamp_now_run w Hk), (medical_updateData_storable _ data Hv).
  rewrite (updateDoc_missing _ _ _ _ (medical_updateData_clean (clock w) data Hv) Hf Hold).
  by rewrite toDoc_recordPatchObj.
Qed.

Lemma getByResidentId_world residentId w :
  (medicalRecordService.getByResidentId residentId w).2
  = afterCall (CGetDocs (medicalRecordService.recordsOf residentId)) w.
Proof.
  destruct (nextFault w) as [e|] eqn:Hf.
  - by rewrite (getByResidentId_failed _ _ _ Hf).
  - by rewrite (getByResidentId_served _ _ Hf).
Qed.

(** The loader of [MedicalRecordsManager]: the list the service returns,
    the first page, and no notification. *)
Lemma manager_load_run resident st w :
  MedicalRecordsManager.loadMedicalRecords resident st w
  = (Ok tt,
     MedicalRecordsManager.setCurrentPage 1
       (MedicalRecordsManager.setMedicalRecords
          (recordsIn (medicalRecordService.getByResidentId (Resident.id resident) w).1)
          st),
     afterCall (CGetDocs (medicalRecordService.recordsOf (Resident.id resident))) w).
Proof.
  unfold MedicalRecordsManager.loadMedicalRecords, utry, ubind, call, setState.
  pose proof (getByResidentId_world (Resident.id resident) w) as Hw.
  destruct (getByResidentId_never_throws (Resident.id resident) w) as [rs Hrs].
  destruct (medicalRecordService.getByResidentId (Resident.id resident) w) as [r w1].
  cbn [fst snd] in *. by subst.
Qed.

Lemma detail_load_run resident st w :
  ResidentDetail.loadMedicalRecords resident st w
  = (Ok tt,
     ResidentDetail.setMedicalRecords
       (recordsIn (medicalRecordService.getByResidentId (Resident.id resident) w).1) st,
     afterCall (CGetDocs (medicalRecordService.recordsOf (Resident.id resident))) w).
Proof.
  unfold ResidentDetail.loadMedicalRecords, utry, ubind, call, setState.
  pose proof (getByResidentId_world (Resident.id resident) w) as Hw.
  destruct (getByResidentId_never_throws (Resident.id resident) w) as [rs Hrs].
  destruct (medicalRecordService.getByResidentId (Resident.id resident) w) as [r w1].
  cbn [fst snd] in *. by subst.
Qed.
End RecordsUI.

(** X23. Neither dialog ever reports a failed load of the medical
    records: [getByResidentId] catches every error and returns the empty
    list, so the [catch] of either loader is never entered.  Whatever the
    store does, the loader ends normally, the notification is as before, and
    the list shown is what the service returned: the empty list, when the
    read failed. *)
Theorem record_load_failures_are_invisible {rt : Runtime}
  (resident : Resident.t) (w : World) :
  (forall st,
     (MedicalRecordsManager.loadMedicalRecords resident st w).1.1 = Ok tt
     /\ MedicalRecordsManager.snackbar
          (MedicalRecordsManager.loadMedicalRecords resident st w).1.2
        = MedicalRecordsManager.snackbar st
     /\ MedicalRecordsManager.currentPage
          (MedicalRecordsManager.loadMedicalRecords resident st w).1.2 = 1)
  /\ (forall st,
        (ResidentDetail.loadMedicalRecords resident st w).1.1 = Ok tt
        /\ ResidentDetail.alert (ResidentDetail.loadMedicalRecords resident st w).1.2
           = ResidentDetail.alert st)
  /\ (forall e, nextFault w = Some e ->
        (forall st,
           MedicalRecordsManager.medicalRecords
             (MedicalRecordsManager.loadMedicalRecords resident st w).1.2 = [])
        /\ (forall st,
              ResidentDetail.medicalRecords
                (ResidentDetail.loadMedicalRecords resident st w).1.2 = [])).
Proof.
  split; [|split].
  - intros st. by rewrite manager_load_run.
  - intros st. by rewrite detail_load_run.
  - intros e Hf. split; intros st.
    + rewrite manager_load_run. cbn [fst snd].
      by rewrite (getByResidentId_failed _ _ _ Hf).
    + rewrite detail_load_run. cbn [fst snd].
      by rewrite (getByResidentId_failed _ _ _ Hf).
Qed.

Lemma record_load_failures_are_invisible_witness :
  MedicalRecordsManager.medicalRecords
    (@MedicalRecordsManager.loadMedicalRecords japan residentR1 managerMounted
       worldWithNoteFailing).1.2 = [].
Proof.
  destruct (@record_load_failures_are_invisible japan residentR1 worldWithNoteFailing)
    as (_ & _ & Hfail).
  exact (proj1 (Hfail (FirestoreError "unavailable") eq_refl) managerMounted).
Defined.

Section RecordSubmit.
Context {rt : Runtime}.
Context (clientMessage : Err -> jsstring).


Lemma manager_submit_update resident st editing w :
  trim (MedicalRecordFormData.record (MedicalRecordsManager.recordForm st)) <> [] ->
  MedicalRecordsManager.editingRecord st = Some editing ->
  MedicalRecordsManager.handleRecordSubmit clientMessage resident st st w
  = match medicalRecordService.update (MedicalRecord.id editing)
            (asPartial (MedicalRecordsManager.recordForm st)) w with
    | (Ok _, w1) =>
      let st1 := MedicalRecordsManager.setSnackbar
                   (MedicalRecordsManager.mkSnackbar true (js "診療録を更新しました")
                      success) st in
      (Ok tt,
       MedicalRecordsManager.setRecordDialogOpen false
         (MedicalRecordsManager.loadMedicalRecords resident st1 w1).1.2,
       (MedicalRecordsManager.loadMedicalRecords resident st1 w1).2)
    | (Throw e, w1) =>
      (Ok tt,
       MedicalRecordsManager.setSnackbar
         (MedicalRecordsManager.mkSnackbar true
            (MedicalRecordsManager.messageOf clientMessage e) error) st, w1)
    end.
Proof.
  intros Ht He. unfold MedicalRecordsManager.handleRecordSubmit.
  rewrite (bool_decide_eq_false_2 _ Ht), He.
  unfold MedicalRecordsManager.showSnackbar, utry, ubind, call, setState.
  destruct (medicalRecordService.update _ _ w) as [[[]|e] w1]; [|done].
  cbv zeta. rewrite manager_load_run. reflexivity.
Qed.


Lemma detail_submit_update resident st editing w :
  trim (MedicalRecordFormData.record (ResidentDetail.recordForm st)) <> [] ->
  ResidentDetail.editingRecord st = Some editing ->
  ResidentDetail.handleRecordSubmit resident st st w
  = match medicalRecordService.update (MedicalRecord.id editing)
            (asPartial (ResidentDetail.recordForm st)) w with
    | (Ok _, w1) =>
      (Ok tt,
       ResidentDetail.setAlert
         (ResidentDetail.mkAlert true (js "診療録を更新しました") success)
         (ResidentDetail.setRecordDialogOpen false
            (ResidentDetail.loadMedicalRecords resident st w1).1.2),
       (ResidentDetail.loadMedicalRecords resident st w1).2)
    | (Throw e, w1) =>
      (Ok tt,
       ResidentDetail.setAlert
         (ResidentDetail.mkAlert true (handleFirestoreError e "update") error) st, w1)
    end.
Proof.
  intros Ht He. unfold ResidentDetail.handleRecordSubmit.
  rewrite (bool_decide_eq_false_2 _ Ht), He.
  unfold utry, ubind, call, setState, uret.
  destruct (medicalRecordService.update _ _ w) as [[[]|e] w1]; [|done].
  rewrite detail_load_run. reflexivity.
Qed.
End RecordSubmit.


Lemma handleFirestoreError_not_found operation :
  handleFirestoreError (FirestoreError "not-found") operation = js "データが見つかりません".
Proof. reflexivity. Qed.



(** X25. Saving the edit of a note that has been deleted meanwhile
    writes nothing; [ResidentDetail] shows データが見つかりません, the
    message [handleFirestoreError] has for the code [not-found], and the
    dialog stays open.  This is for a date of the form, and a clock, within
    the range of a timestamp: the note is looked for only once the payload
    is built. *)
Theorem saving_a_deleted_note_says_not_found {rt : Runtime}
  (resident : Resident.t) (editing : MedicalRecord.t) (st : ResidentDetail.State)
  (w : World) :
  nextFault w = None ->
  docsOf w COLLECTIONS_MEDICAL_RECORDS !! MedicalRecord.id editing = None ->
  ResidentDetail.editingRecord st = Some editing ->
  ~ blank (MedicalRecordFormData.record (ResidentDetail.recordForm st)) ->
  inTimestampRange (clock w) ->
  storableDate (MedicalRecordFormData.date (ResidentDetail.recordForm st)) ->
  let submit := ResidentDetail.handleRecordSubmit resident in
  outcome submit st w = Ok tt
  /\ ResidentDetail.alert (stateAfter submit st w)
     = ResidentDetail.mkAlert true (js "データが見つかりません") error
  /\ ResidentDetail.recordDialogOpen (stateAfter submit st w)
     = ResidentDetail.recordDialogOpen st
  /\ store (worldAfter submit st w) = store w.
Proof.
  intros Hf Hgone He Hnb Hk Hv submit.
  assert (Hne : trim (MedicalRecordFormData.record (ResidentDetail.recordForm st)) <> [])
    by (by rewrite trim_nil_iff).
  unfold submit, outcome, stateAfter, worldAfter.
  rewrite (detail_submit_update resident st editing w Hne He).
  rewrite (medical_update_missing (MedicalRecord.id editing) _ w Hgone Hf Hk).
  - cbn [fst snd]. rewrite handleFirestoreError_not_found.
    split; [reflexivity|]. split; [reflexivity|]. split; reflexivity.
  - intros s [= <-]. exact Hv.
Qed.

Lemma saving_a_deleted_note_says_not_found_witness :
  ResidentDetail.message
    (ResidentDetail.alert
       (stateAfter (@ResidentDetail.handleRecordSubmit japan residentR1)
          (ResidentDetail.mkState [] true (Some rec1) (note "2024-03-10" "再診")
             (ResidentDetail.mkAlert false [] success)) emptyWorld))
  = js "データが見つかりません".
Proof.
  destruct (@saving_a_deleted_note_says_not_found japan residentR1 rec1
              (ResidentDetail.mkState [] true (Some rec1) (note "2024-03-10" "再診")
                 (ResidentDetail.mkAlert false [] success)) emptyWorld)
    as (_ & Halert & _).
  - reflexivity.
  - by rewrite docsOf_emptyWorld, lookup_empty.
  - reflexivity.
  - intros Hb. apply trim_nil_iff in Hb. vm_compute in Hb. discriminate Hb.
  - in_range.
  - storable.
  - rewrite Halert. reflexivity.
Defined.

(** X26. Opening a note for editing fills the form with the local day
    of the stored instant, and saving sends the whole form: the stored date
    becomes [new Date] of that day string, also when only the text was
    changed.  Where [new Date] of a day string (midnight UTC) is not the
    stored instant, as west of Greenwich, each such edit moves the note to
    another instant.  This is for a day, and a clock, within the range of a
    timestamp. *)
Theorem editing_the_text_rewrites_the_date {rt : Runtime}
  (clientMessage : Err -> jsstring) (resident : Resident.t)
  (record : MedicalRecord.t) (text : jsstring) (st : MedicalRecordsManager.State)
  (w : World) (old : gmap string Value) :
  nextFault w = None ->
  docsOf w COLLECTIONS_MEDICAL_RECORDS !! MedicalRecord.id record = Some old ->
  ~ blank text ->
  inTimestampRange (clock w) ->
  storableDate (format_YYYY_MM_DD (MedicalRecord.date record)) ->
  let opened := stateAfter (MedicalRecordsManager.handleEditRecord record) st w in
  let typed := stateAfter (MedicalRecordsManager.onRecordChange text) opened w in
  let submit := MedicalRecordsManager.handleRecordSubmit clientMessage resident in
  let w' := worldAfter submit typed w in
  MedicalRecordsManager.recordForm opened
  = MedicalRecordFormData.mk (format_YYYY_MM_DD (MedicalRecord.date record))
      (MedicalRecord.record record)
  /\ outcome submit typed w = Ok tt
  /\ storedField w' COLLECTIONS_MEDICAL_RECORDS (MedicalRecord.id record) "date"
     = Some (VTime (dateParse (format_YYYY_MM_DD (MedicalRecord.date record))))
  /\ storedField w' COLLECTIONS_MEDICAL_RECORDS (MedicalRecord.id record) "record"
     = Some (VStr text)
  /\ storedField w' COLLECTIONS_MEDICAL_RECORDS (MedicalRecord.id record) "updatedAt"
     = Some (VTime (Some (clock w)))
  /\ (forall f, f <> "updatedAt" -> f <> "date" -> f <> "record" ->
        storedField w' COLLECTIONS_MEDICAL_RECORDS (MedicalRecord.id record) f
        = old !! f)
  /\ MedicalRecordsManager.recordDialogOpen (stateAfter submit typed w) = false.
Proof.
  intros Hf Hold Hnb Hk Hv opened typed submit w'.
  assert (Hne : trim text <> []) by (by rewrite trim_nil_iff).
  split; [reflexivity|].
  set (form := MedicalRecordFormData.mk (format_YYYY_MM_DD (MedicalRecord.date record))
                 text).
  assert (Hform : MedicalRecordsManager.recordForm typed = form) by reflexivity.
  assert (Hed : MedicalRecordsManager.editingRecord typed = Some record) by reflexivity.
  pose proof (manager_submit_update clientMessage resident typed record w) as Hrun.
  rewrite Hform in Hrun. specialize (Hrun Hne Hed).
  rewrite (medical_update_run (MedicalRecord.id record) (asPartial form) w old Hold Hf Hk)
    in Hrun by (intros s [= <-]; exact Hv).
  cbv zeta in Hrun. rewrite manager_load_run in Hrun.
  unfold w', submit, outcome, stateAfter, worldAfter. rewrite Hrun. cbn [fst snd].
  split; [reflexivity|].
  unfold storedField. rewrite docsOf_afterCall, docsOf_setDocs, lookup_insert_eq.
  cbn [mbind option_bind].
  destruct (medical_updateData_lookup (VTime (Some (clock w))) (asPartial form))
    as (Hup & Hdate & Hrec & Hother).
  split; [by apply lookup_union_Some_l; rewrite Hdate|].
  split; [by apply lookup_union_Some_l; rewrite Hrec|].
  split; [by apply lookup_union_Some_l|].
  split; [|reflexivity].
  intros f H1 H2 H3. apply lookup_union_r. by apply Hother.
Qed.

Lemma editing_the_text_rewrites_the_date_witness :
  storedField worldWithNote COLLECTIONS_MEDICAL_RECORDS (js "rec1") "date"
  = Some (VTime (Some 1710028800000))
  /\ storedField
       (worldAfter
          (@MedicalRecordsManager.handleRecordSubmit newYork sampleClientMessage
             residentR1)
          (stateAfter (@MedicalRecordsManager.onRecordChange (js "著変なし。"))
             (stateAfter (@MedicalRecordsManager.handleEditRecord newYork rec1)
                managerMounted worldWithNote) worldWithNote) worldWithNote)
       COLLECTIONS_MEDICAL_RECORDS (MedicalRecord.id rec1) "date"
     = Some (VTime (Some 1709942400000)).
Proof.
  split.
  - unfold storedField. rewrite worldWithNote_docs, lookup_singleton_eq.
    vm_compute. reflexivity.
  - destruct (@editing_the_text_rewrites_the_date newYork sampleClientMessage residentR1
                rec1 (js "著変なし。") managerMounted worldWithNote
                (noteDoc "2024-03-10" "著変なし"))
      as (_ & _ & Hdate & _).
    + reflexivity.
    + rewrite worldWithNote_docs. apply lookup_singleton_eq.
    + intros Hb. apply trim_nil_iff in Hb. vm_compute in Hb. discriminate Hb.
    + unfold inTimestampRange, MIN_SECONDS, MAX_SECONDS. cbn [clock worldWithNote]. lia.
    + storable.
    + rewrite Hdate. vm_compute. reflexivity.
Defined.

(** ** The pager of MedicalRecordsManager *)

Lemma take_min_length {A} (n : nat) (l : list A) : take (n `min` length l) l = take n l.
Proof.
  destruct (Nat.le_ge_cases n (length l)) as [H|H].
  - by rewrite Nat.min_l.
  - rewrite Nat.min_r by done. by rewrite !take_ge.
Qed.

(** A page of [k] records cut out with [slice]. *)
Lemma slice_page {A} (l : list A) (i k : Z) :
  0 <= i -> 0 < k ->
  slice (i * k) (i * k + k) l = take (Z.to_nat k) (drop (Z.to_nat (i * k)) l).
Proof.
  intros Hi Hk. unfold slice.
  rewrite (proj2 (Z.ltb_ge (i * k) 0)) by nia.
  rewrite (proj2 (Z.ltb_ge (i * k + k) 0)) by nia.
  destruct (Z.le_gt_cases (i * k) (Z.of_nat (length l))) as [Hle|Hgt].
  - rewrite (Z.min_l (i * k)) by done.
    rewrite <- (take_min_length (Z.to_nat k)). f_equal.
    rewrite length_drop. lia.
  - rewrite (Z.min_r (i * k)) by lia. rewrite (Z.min_r (i * k + k)) by lia.
    rewrite Z.sub_diag, Nat2Z.id. simpl.
    rewrite (drop_ge l (Z.to_nat (i * k))) by lia. by rewrite take_nil.
Qed.

Lemma chunks_concat {A} (l : list A) (k T : nat) :
  concat (map (fun i => take k (drop (i * k) l)) (seq 0 T)) = take (T * k) l.
Proof.
  induction T as [|T IH]; [done|].
  rewrite seq_S, map_app, concat_app, IH. simpl. rewrite app_nil_r.
  rewrite take_take_drop. f_equal. lia.
Qed.

Lemma ceilDiv_bounds (n k : Z) :
  0 <= n -> 0 < k -> n <= ceilDiv n k * k < n + k.
Proof.
  intros Hn Hk. unfold ceilDiv.
  pose proof (Z.div_mod (- n) k ltac:(lia)) as Hdm.
  pose proof (Z.mod_pos_bound (- n) k Hk) as Hm. nia.
Qed.

Lemma totalPages_bounds st :
  let n := Z.of_nat (length (MedicalRecordsManager.medicalRecords st)) in
  0 <= MedicalRecordsManager.totalPages st
  /\ n <= MedicalRecordsManager.totalPages st * 10 < n + 10.
Proof.
  cbv zeta. unfold MedicalRecordsManager.totalPages.
  pose proof (ceilDiv_bounds
                (Z.of_nat (length (MedicalRecordsManager.medicalRecords st)))
                MedicalRecordsManager.RECORDS_PER_PAGE ltac:(lia) ltac:(reflexivity)) as H.
  change MedicalRecordsManager.RECORDS_PER_PAGE with 10 in *. lia.
Qed.

Lemma pageOf_take st page :
  1 <= page ->
  pageOf st page
  = take 10 (drop (Z.to_nat ((page - 1) * 10)) (MedicalRecordsManager.medicalRecords st)).
Proof.
  intros Hp. unfold pageOf, MedicalRecordsManager.currentRecords,
    MedicalRecordsManager.endIndex, MedicalRecordsManager.startIndex.
  cbn [MedicalRecordsManager.currentPage MedicalRecordsManager.setCurrentPage
       MedicalRecordsManager.medicalRecords].
  change MedicalRecordsManager.RECORDS_PER_PAGE with 10.
  rewrite (slice_page _ (page - 1) 10) by lia. reflexivity.
Qed.

Lemma pageOf_current st : pageOf st (MedicalRecordsManager.currentPage st)
                          = MedicalRecordsManager.currentRecords st.
Proof. by destruct st. Qed.

Lemma pageOf_nonempty st page :
  1 <= page <= MedicalRecordsManager.totalPages st ->
  pageOf st page <> [] /\ (length (pageOf st page) <= 10)%nat.
Proof.
  intros Hp. rewrite pageOf_take by lia.
  destruct (totalPages_bounds st) as [_ Hb]. cbv zeta in Hb.
  split.
  - intros Hnil. apply (f_equal length) in Hnil.
    rewrite length_take, length_drop in Hnil. change (length []) with 0%nat in Hnil.
    lia.
  - rewrite length_take. lia.
Qed.

(** X27. The pager of the records dialog cuts the list into pages of
    ten: the pages, first to last, put end to end give the list back, each
    holds between one and ten records, a page past the last one is empty,
    and the four buttons (which are disabled at the ends) never leave the
    range of the pages nor change the list; so, the current page being in
    range, the page shown is empty only when there is no record. *)
Theorem pager_shows_every_record_once (st : MedicalRecordsManager.State) :
  concat (map (pageOf st) (pageNumbers st)) = MedicalRecordsManager.medicalRecords st
  /\ (forall page, page ∈ pageNumbers st <->
        1 <= page <= MedicalRecordsManager.totalPages st)
  /\ (forall page, page ∈ pageNumbers st ->
        pageOf st page <> [] /\ (length (pageOf st page) <= 10)%nat)
  /\ (pageInRange st ->
      (forall b, pageInRange (MedicalRecordsManager.clickPager b st)
                 /\ MedicalRecordsManager.medicalRecords
                      (MedicalRecordsManager.clickPager b st)
                    = MedicalRecordsManager.medicalRecords st)
      /\ (MedicalRecordsManager.medicalRecords st <> [] ->
          MedicalRecordsManager.currentRecords st <> []))
  /\ (forall page, MedicalRecordsManager.totalPages st < page -> pageOf st page = []).
Proof.
  destruct (totalPages_bounds st) as [HT Hb]. cbv zeta in Hb.
  assert (Hmem : forall page, page ∈ pageNumbers st <->
                   1 <= page <= MedicalRecordsManager.totalPages st).
  { intros page. unfold pageNumbers. rewrite list_elem_of_fmap. split.
    - intros (i & -> & Hi). apply list_elem_of_In, in_seq in Hi. lia.
    - intros Hp. exists (Z.to_nat (page - 1)). split; [lia|].
      apply list_elem_of_In, in_seq. lia. }
  split; [|split; [exact Hmem|split; [|split]]].
  - unfold pageNumbers. rewrite map_map.
    rewrite (map_ext_in _ (fun i => take 10 (drop (i * 10)
                                      (MedicalRecordsManager.medicalRecords st)))).
    + rewrite chunks_concat. apply take_ge. lia.
    + intros i _. rewrite pageOf_take by lia. do 2 f_equal. lia.
  - intros page Hp. apply pageOf_nonempty. by apply Hmem.
  - intros Hr. unfold pageInRange in Hr. split.
    + intros b. unfold MedicalRecordsManager.clickPager, pageInRange.
      split.
      * destruct (Z.gtb_spec (MedicalRecordsManager.totalPages st) 1) as [Hgt|Hle];
          [|exact Hr].
        destruct b;
          [destruct (Z.eqb_spec (MedicalRecordsManager.currentPage st) 1)
          |destruct (Z.eqb_spec (MedicalRecordsManager.currentPage st) 1)
          |destruct (Z.eqb_spec (MedicalRecordsManager.currentPage st)
                       (MedicalRecordsManager.totalPages st))
          |destruct (Z.eqb_spec (MedicalRecordsManager.currentPage st)
                       (MedicalRecordsManager.totalPages st))];
          try exact Hr;
          unfold MedicalRecordsManager.handlePageChange, MedicalRecordsManager.totalPages;
          cbn [MedicalRecordsManager.currentPage MedicalRecordsManager.setCurrentPage
               MedicalRecordsManager.medicalRecords];
          fold (MedicalRecordsManager.totalPages st); lia.
      * destruct (MedicalRecordsManager.totalPages st >? 1); [|done].
        destruct b;
          repeat match goal with
                 | |- context [if ?c then _ else _] => destruct c
                 end; reflexivity.
    + intros Hne. rewrite <- pageOf_current. apply pageOf_nonempty.
      destruct (MedicalRecordsManager.medicalRecords st) as [|r rs] eqn:E; [done|].
      simpl length in Hb. lia.
  - intros page Hp. rewrite pageOf_take by lia.
    rewrite drop_ge; [by rewrite take_nil|]. lia.
Qed.

Lemma pager_shows_every_record_once_witness :
  pageInRange (MedicalRecordsManager.setMedicalRecords [rec1] managerMounted)
  /\ MedicalRecordsManager.currentRecords
       (MedicalRecordsManager.setMedicalRecords [rec1] managerMounted) <> [].
Proof.
  assert (Hr : pageInRange (MedicalRecordsManager.setMedicalRecords [rec1] managerMounted)).
  { unfold pageInRange. vm_compute. split; discriminate. }
  split; [exact Hr|].
  destruct (pager_shows_every_record_once
              (MedicalRecordsManager.setMedicalRecords [rec1] managerMounted))
    as (_ & _ & _ & Hin & _).
  apply (proj2 (Hin Hr)). discriminate.
Defined.

(** ** Writes that fail, and the dialogs that report them *)

Section FailingWrites.
Context {rt : Runtime}.

Lemma resident_update_missing id data w :
  docsOf w COLLECTIONS_RESIDENTS !! id = None ->
  nextFault w = None ->
  inTimestampRange (clock w) ->
  (forall s, PartialResidentFormData.birthDate data = Some s -> storableDate s) ->
  (forall s, PartialResidentFormData.admissionDate data = Some s -> storableDate s) ->
  storableOptDate (PartialResidentFormData.dischargeDate data) ->
  residentService.update id data w
  = (Throw (FirestoreError "not-found"),
     afterCall (CUpdateDoc COLLECTIONS_RESIDENTS id
                  (updatedDoc (VTime (Some (clock w))) data)) w).
Proof.
  intros Hold Hf Hk Hb Ha Hd.
  unfold residentService.update, bind, liftResult.
  rewrite (Timestamp_now_run w Hk), (updateData_storable _ data Hb Ha Hd).
  rewrite (updateDoc_missing _ _ _ _ (updateData_clean (clock w) data Hb Ha Hd) Hf Hold).
  by rewrite toDoc_updatedObj.
Qed.

Lemma residentService_create_failed data w e :
  accepted w data ->
  nextFault w = Some e ->
  residentService.create data w
  = (Throw e,
     afterCall (CAddDoc COLLECTIONS_RESIDENTS
                  (createdDoc (VTime (Some (clock w))) data)) w).
Proof.
  intros (Hk & Hobj & Hp) Hf.
  unfold residentService.create, tryCatch, bind, liftResult, collection.
  rewrite (Timestamp_now_run w Hk), Hobj.
  unfold addDoc, checked, storageCall, throw.
  by rewrite Hp, Hf.
Qed.

Lemma getByResidentId_ids residentId w id :
  nextFault w = None ->
  id ∈ map MedicalRecord.id
         (recordsIn (medicalRecordService.getByResidentId residentId w).1)
  <-> exists d : gmap string Value,
        docsOf w COLLECTIONS_MEDICAL_RECORDS !! id = Some d
        /\ d !! "residentId" = Some (VStr residentId).
Proof.
  intros Hf. rewrite (getByResidentId_served residentId w Hf). cbn [fst recordsIn].
  unfold arraySort. rewrite sortBy_perm, map_map. cbn [MedicalRecord.id].
  change (map (fun x : DocId * gmap string Value => x.1)) with (fmap (M := list) (@fst DocId (gmap string Value))).
  rewrite list_elem_of_fmap. split.
  - intros ([id' d] & -> & Hin). apply elem_of_recordsOf in Hin. by exists d.
  - intros (d & Hd & Hr). exists (id, d). split; [done|]. by apply elem_of_recordsOf.
Qed.
End FailingWrites.

(** X28. An update of a document that is not stored fails with the
    store's [not-found] and writes nothing, for a resident as for a medical
    record: [update] never creates the document it is asked to change.
    This is for dates, and a clock, within the range of a timestamp, so
    that the payload is built and the store is asked. *)
Theorem update_of_a_missing_document_fails {rt : Runtime} (id : DocId) (w : World) :
  nextFault w = None ->
  inTimestampRange (clock w) ->
  (forall data,
     docsOf w COLLECTIONS_RESIDENTS !! id = None ->
     (forall s, PartialResidentFormData.birthDate data = Some s -> storableDate s) ->
     (forall s, PartialResidentFormData.admissionDate data = Some s -> storableDate s) ->
     storableOptDate (PartialResidentFormData.dischargeDate data) ->
     (residentService.update id data w).1 = Throw (FirestoreError "not-found")
     /\ store (residentService.update id data w).2 = store w)
  /\ (forall data,
        docsOf w COLLECTIONS_MEDICAL_RECORDS !! id = None ->
        (forall s, PartialMedicalRecordFormData.date data = Some s -> storableDate s) ->
        (medicalRecordService.update id data w).1 = Throw (FirestoreError "not-found")
        /\ store (medicalRecordService.update id data w).2 = store w).
Proof.
  intros Hf Hk. split.
  - intros data Hold Hb Ha Hd.
    by rewrite (resident_update_missing id data w Hold Hf Hk Hb Ha Hd).
  - intros data Hold Hv. by rewrite (medical_update_missing id data w Hold Hf Hk Hv).
Qed.

Lemma update_of_a_missing_document_fails_witness :
  (@residentService.update japan (js "nobody") roomOnly emptyWorld).1
  = Throw (FirestoreError "not-found").
Proof.
  destruct (@update_of_a_missing_document_fails japan (js "nobody") emptyWorld eq_refl)
    as [Hres _]; [in_range|].
  destruct (Hres roomOnly) as [Hrun _].
  - by rewrite docsOf_emptyWorld, lookup_empty.
  - intros s Hs. discriminate Hs.
  - intros s Hs. discriminate Hs.
  - exact I.
  - exact Hrun.
Defined.

(** X29. When the store refuses a registration, the form throws
    nothing, stores nothing and keeps every field as typed; only the notice
    changes, to the message [handleFirestoreError] gives for a failed
    creation.  This is for a form the store is asked about: its dates and
    the clock within the range of a timestamp, its care level set. *)
Theorem failed_registration_keeps_the_form {rt : Runtime}
  (st : ResidentForm.State) (w : World) (e : Err) :
  nextFault w = Some e ->
  inTimestampRange (clock w) ->
  storableDate (ResidentFormData.birthDate (ResidentForm.formData st)) ->
  storableDate (ResidentFormData.admissionDate (ResidentForm.formData st)) ->
  storableOptDate (ResidentFormData.dischargeDate (ResidentForm.formData st)) ->
  ResidentFormData.careLevel (ResidentForm.formData st) <> None
  \/ ignoreUndefinedProperties = true ->
  outcome ResidentForm.handleSubmit st w = Ok tt
  /\ ResidentForm.formData (stateAfter ResidentForm.handleSubmit st w)
     = ResidentForm.formData st
  /\ ResidentForm.roomNumberError (stateAfter ResidentForm.handleSubmit st w)
     = ResidentForm.roomNumberError st
  /\ ResidentForm.alert (stateAfter ResidentForm.handleSubmit st w)
     = ResidentForm.mkAlert true (handleFirestoreError e "create") error
  /\ store (worldAfter ResidentForm.handleSubmit st w) = store w.
Proof.
  intros Hf Hk Hb Ha Hd Hc.
  pose proof (createData_accepted w (ResidentForm.formData st) Hk Hb Ha Hd Hc) as Hp.
  pose proof (residentService_create_failed (ResidentForm.formData st) w e Hp Hf) as Hrun.
  unfold outcome, stateAfter, worldAfter.
  rewrite (handleSubmit_failed st w e _ Hrun). cbn [fst snd].
  split; [reflexivity|]. split; [reflexivity|]. split; [reflexivity|].
  split; reflexivity.
Qed.

Lemma failed_registration_keeps_the_form_witness :
  ResidentForm.message
    (ResidentForm.alert
       (stateAfter (@ResidentForm.handleSubmit japan)
          (@formAfter japan [ResidentForm.Name (js "山田 太郎");
                      ResidentForm.Furigana (js "ヤマダ タロウ");
                      ResidentForm.BirthDate (js "1940-05-01");
                      ResidentForm.RoomNumber (js "101");
                      ResidentForm.AdmissionDate (js "2023-04-01")] emptyWorld)
          (setFaults [Some (FirestoreError "permission-denied")] emptyWorld)))
  = js "アクセス権限がありません".
Proof.
  destruct (@failed_registration_keeps_the_form japan
              (@formAfter japan [ResidentForm.Name (js "山田 太郎");
                          ResidentForm.Furigana (js "ヤマダ タロウ");
                          ResidentForm.BirthDate (js "1940-05-01");
                          ResidentForm.RoomNumber (js "101");
                          ResidentForm.AdmissionDate (js "2023-04-01")] emptyWorld)
              (setFaults [Some (FirestoreError "permission-denied")] emptyWorld)
              (FirestoreError "permission-denied"))
    as (_ & _ & _ & Halert & _).
  - reflexivity.
  - unfold inTimestampRange, MIN_SECONDS, MAX_SECONDS. cbn. lia.
  - storable.
  - storable.
  - exact I.
  - left. vm_compute. discriminate.
  - rewrite Halert. vm_compute. reflexivity.
Defined.

Section ManagerDelete.
Context {rt : Runtime}.

Lemma confirmDeleteRecord_run resident st w :
  MedicalRecordsManager.confirmDeleteRecord resident st st w
  = match medicalRecordService.delete
            (MedicalRecordsManager.recordId (MedicalRecordsManager.deleteConfirmDialog st))
            w with
    | (Ok _, w1) =>
      (Ok tt,
       MedicalRecordsManager.setDeleteConfirmDialog
         (MedicalRecordsManager.mkDeleteConfirmDialog false [] [])
         (MedicalRecordsManager.setSnackbar
            (MedicalRecordsManager.mkSnackbar true (js "診療録を削除しました") success)
            (MedicalRecordsManager.loadMedicalRecords resident st w1).1.2),
       (MedicalRecordsManager.loadMedicalRecords resident st w1).2)
    | (Throw e, w1) =>
      (Ok tt,
       MedicalRecordsManager.setSnackbar
         (MedicalRecordsManager.mkSnackbar true (js "削除に失敗しました") error) st, w1)
    end.
Proof.
  unfold MedicalRecordsManager.confirmDeleteRecord,
    MedicalRecordsManager.showSnackbar, utry, ubind, call, setState.
  destruct (medicalRecordService.delete _ w) as [[[]|e] w1]; [|done].
  rewrite manager_load_run. reflexivity.
Qed.
End ManagerDelete.

(** X30. Confirming the deletion of a note in the records dialog
    never throws.  When the store serves the calls, the note is gone from
    the store and from the reloaded list, which shows its first page, the
    dialog closes and the notice tells the deletion; when the deletion
    fails, the store and the list are as before and the notice says
    削除に失敗しました. *)
Theorem dialog_delete_unlists_the_note {rt : Runtime}
  (resident : Resident.t) (st : MedicalRecordsManager.State) (w : World) :
  let id := MedicalRecordsManager.recordId (MedicalRecordsManager.deleteConfirmDialog st) in
  let st' := stateAfter (MedicalRecordsManager.confirmDeleteRecord resident) st w in
  let w' := worldAfter (MedicalRecordsManager.confirmDeleteRecord resident) st w in
  outcome (MedicalRecordsManager.confirmDeleteRecord resident) st w = Ok tt
  /\ (faults w = [] ->
      docsOf w' COLLECTIONS_MEDICAL_RECORDS
      = delete id (docsOf w COLLECTIONS_MEDICAL_RECORDS)
      /\ (id ∉ map MedicalRecord.id (MedicalRecordsManager.medicalRecords st'))
      /\ (forall id', id' <> id ->
            (id' ∈ map MedicalRecord.id (MedicalRecordsManager.medicalRecords st')
             <-> exists d : gmap string Value,
                   docsOf w COLLECTIONS_MEDICAL_RECORDS !! id' = Some d
                   /\ d !! "residentId" = Some (VStr (Resident.id resident))))
      /\ MedicalRecordsManager.currentPage st' = 1
      /\ MedicalRecordsManager.snackbar st'
         = MedicalRecordsManager.mkSnackbar true (js "診療録を削除しました") success
      /\ MedicalRecordsManager.dialogOpen (MedicalRecordsManager.deleteConfirmDialog st')
         = false)
  /\ (forall e, nextFault w = Some e ->
      store w' = store w
      /\ MedicalRecordsManager.medicalRecords st' = MedicalRecordsManager.medicalRecords st
      /\ MedicalRecordsManager.snackbar st'
         = MedicalRecordsManager.mkSnackbar true (js "削除に失敗しました") error).
Proof.
  intros id st' w'.
  pose proof (confirmDeleteRecord_run resident st w) as Hrun. fold id in Hrun.
  unfold st', w', outcome, stateAfter, worldAfter. rewrite Hrun. clear Hrun.
  split; [by destruct (medicalRecordService.delete id w) as [[[]|e] w1]|].
  split.
  - intros Hf.
    assert (Hdel : medicalRecordService.delete id w
                   = (Ok tt, setDocs COLLECTIONS_MEDICAL_RECORDS
                               (delete id (docsOf w COLLECTIONS_MEDICAL_RECORDS))
                               (afterCall (CDeleteDoc COLLECTIONS_MEDICAL_RECORDS id) w)))
      by exact (deleteDoc_served COLLECTIONS_MEDICAL_RECORDS id w
                  (nextFault_no_faults w Hf)).
    rewrite Hdel. set (w1 := setDocs _ _ _).
    assert (Hdocs : docsOf w1 COLLECTIONS_MEDICAL_RECORDS
                    = delete id (docsOf w COLLECTIONS_MEDICAL_RECORDS))
      by (unfold w1; by rewrite docsOf_setDocs).
    assert (Hn1 : nextFault w1 = None).
    { apply nextFault_no_faults. unfold w1. cbn. by rewrite Hf. }
    rewrite manager_load_run. cbn [fst snd].
    split; [by rewrite docsOf_afterCall|].
    cbn [MedicalRecordsManager.medicalRecords MedicalRecordsManager.setDeleteConfirmDialog
         MedicalRecordsManager.setSnackbar MedicalRecordsManager.setCurrentPage
         MedicalRecordsManager.setMedicalRecords].
    split.
    { rewrite (getByResidentId_ids _ w1 id Hn1). intros (d & Hd & _).
      by rewrite Hdocs, lookup_delete_eq in Hd. }
    split; [|done].
    intros id' Hne. rewrite (getByResidentId_ids _ w1 id' Hn1), Hdocs.
    by rewrite lookup_delete_ne.
  - intros e Hf.
    assert (Hdel : medicalRecordService.delete id w
                   = (Throw e, afterCall (CDeleteDoc COLLECTIONS_MEDICAL_RECORDS id) w)).
    { unfold medicalRecordService.delete, deleteDoc, storageCall. by rewrite Hf. }
    rewrite Hdel. cbn [fst snd]. split; [reflexivity|]. split; reflexivity.
Qed.

Lemma dialog_delete_unlists_the_note_witness :
  MedicalRecordsManager.medicalRecords
    (stateAfter (@MedicalRecordsManager.confirmDeleteRecord japan residentR1)
       (MedicalRecordsManager.setDeleteConfirmDialog
          (MedicalRecordsManager.mkDeleteConfirmDialog true (js "rec1") [])
          managerMounted)
       worldWithNoteFailing)
  = [].
Proof.
  destruct (@dialog_delete_unlists_the_note japan residentR1
              (MedicalRecordsManager.setDeleteConfirmDialog
                 (MedicalRecordsManager.mkDeleteConfirmDialog true (js "rec1") [])
                 managerMounted)
              worldWithNoteFailing) as (_ & _ & Hfail).
  destruct (Hfail (FirestoreError "unavailable") eq_refl) as (_ & Hrec & _).
  exact Hrec.
Defined.
(** ** A created resident and the searches, continued *)

Lemma codePoints_cons_unit h t :
  isHighSurrogate h = false -> codePoints (h :: t) = h :: codePoints t.
Proof.
  intros Hh. cbn [codePoints]. rewrite Hh. by destruct t.
Qed.

Lemma codePoints_head h t :
  exists c rest, codePoints (h :: t) = c :: rest /\ (c = h \/ 0x10000 <= c).
Proof.
  cbn [codePoints]. destruct t as [|l t']; [by eexists _, _; split; [|left]|].
  destruct (isHighSurrogate h && isLowSurrogate l) eqn:E.
  - eexists _, _. split; [reflexivity|]. right.
    apply andb_true_iff in E as [Hh Hl].
    apply inClass_spec in Hh. apply inClass_spec in Hl. lia.
  - eexists _, _. split; [reflexivity|]. by left.
Qed.

Lemma split_Forall (P : Z -> Prop) sep s :
  Forall P s -> Forall (Forall P) (split sep s).
Proof.
  induction 1 as [|c s Hc Hs IH]; cbn [split]; [by repeat constructor|].
  destruct (c =? sep); [by constructor|].
  destruct (split sep s) as [|p ps]; [by repeat constructor|].
  apply Forall_cons in IH as [Hp Hps]. constructor; [by constructor|done].
Qed.

Lemma hiraganaReading_part s i :
  hiraganaReading s -> hiraganaReading (partOrEmpty (split SPACE s) i).
Proof.
  intros Hs. unfold partOrEmpty.
  destruct (split SPACE s !! i) as [p|] eqn:E; [|by constructor].
  exact (proj1 (Forall_lookup _ _) (split_Forall _ SPACE s Hs) i p E).
Qed.

(** The katakana form of a query that starts with a letter fits no string
    of hiragana and spaces. *)
Lemma katakana_query_misses_hiragana q v :
  q <> [] -> noLead q -> hiraganaReading v ->
  prefixMatch (residentService.convertHiraganaToKatakana q) v = false.
Proof.
  intros Hne Hlead Hv. destruct q as [|x t]; [done|]. cbn [noLead] in Hlead.
  rewrite convertHiraganaToKatakana_map. cbn [map]. unfold prefixMatch.
  destruct (codePoints_head (kataUnit x) (map kataUnit t)) as (c & rest & -> & Hc).
  destruct v as [|y v']; [done|].
  apply Forall_cons in Hv as [Hy _].
  assert (Hyr : 0x3041 <= y <= 0x3096 \/ y = 0x20).
  { destruct Hy as [Hy| ->]; [left; by apply inClass_spec|by right]. }
  rewrite codePoints_cons_unit
    by (apply inClass_false; lia).
  cbn [stripPrefix].
  destruct (Z.eqb_spec c y) as [->|Hcy]; [|done]. exfalso.
  destruct Hc as [->|Hbig]; [|lia].
  destruct Hyr as [Hyr| Hsp]; [by apply (kataUnit_not_source x)|].
  destruct (decide (0x3041 <= x <= 0x3096)) as [Hx|Hx].
  - rewrite kataUnit_range in Hsp by done. lia.
  - rewrite kataUnit_other in Hsp by done. subst x. done.
Qed.

(** X15. A resident that [create] has stored is found by every search
    on its own data: it is in the list of [getAll], of [getByRoomNumber]
    for its room, of [getByCareLevel] for its level, of [getByMedication]
    for each of its drugs entered without surrounding white space, of
    [searchByName] for its full name entered without surrounding white
    space, and of [searchByName] for every query whose katakana form is its
    reading.  The query is turned into katakana, the stored reading is
    not: when the reading was entered in hiragana, no query reaches the
    resident through the reading, and a search finds it exactly when the
    query fits the name, the family name or the given name.  This is for a
    form that [create] stores: its dates and the clock within the range of
    a timestamp, its care level set. *)
Theorem created_resident_is_found {rt : Runtime}
  (data : ResidentFormData.t) (w : World) :
  faults w = [] ->
  inTimestampRange (clock w) ->
  storableDate (ResidentFormData.birthDate data) ->
  storableDate (ResidentFormData.admissionDate data) ->
  storableOptDate (ResidentFormData.dischargeDate data) ->
  ResidentFormData.careLevel data <> None \/ ignoreUndefinedProperties = true ->
  let id := autoId w (issued w) in
  let w' := (residentService.create data w).2 in
  id ∈ idsOf (residentService.getAll w').1
  /\ id ∈ idsOf (residentService.getByRoomNumber (ResidentFormData.roomNumber data) w').1
  /\ (forall n, ResidentFormData.careLevel data = Some n ->
        id ∈ idsOf (residentService.getByCareLevel n w').1)
  /\ (forall m, m ∈ ResidentFormData.medications data -> m <> [] -> trim m = m ->
        id ∈ idsOf (residentService.getByMedication m w').1)
  /\ (ResidentFormData.name data <> [] ->
      trim (ResidentFormData.name data) = ResidentFormData.name data ->
      id ∈ idsOf (residentService.searchByName (ResidentFormData.name data) w').1)
  /\ (forall q, q <> [] -> trim q = q ->
        residentService.convertHiraganaToKatakana q = ResidentFormData.furigana data ->
        id ∈ idsOf (residentService.searchByName q w').1)
  /\ (hiraganaReading (ResidentFormData.furigana data) ->
      forall q, ~ blank q ->
        id ∈ idsOf (residentService.searchByName q w').1
        <-> prefixMatch (trim q) (ResidentFormData.name data)
            || prefixMatch (trim q)
                 (partOrEmpty (split SPACE (ResidentFormData.name data)) 0)
            || prefixMatch (trim q)
                 (partOrEmpty (split SPACE (ResidentFormData.name data)) 1) = true).
Proof.
  intros Hf Hk Hb Ha Hd Hc id w'.
  pose proof (createData_accepted w data Hk Hb Ha Hd Hc) as Hp.
  destruct (residentService_create_world data w Hp (nextFault_no_faults w Hf))
    as (_ & Hdocs & _ & Hf').
  fold w' in Hdocs, Hf'. fold id in Hdocs. rewrite Hf in Hf'. cbn [tail] in Hf'.
  pose proof (nextFault_no_faults w' Hf') as Hn'.
  set (d := stripUndefined (createdDoc (VTime (Some (clock w))) data))
    in Hdocs.
  assert (Hid : docsOf w' COLLECTIONS_RESIDENTS !! id = Some d)
    by (by rewrite Hdocs, lookup_insert_eq).
  destruct (created_doc_fields (clock w) data)
    as (Hname & Hfu & Hln & Hfn & Hlk & Hfk & _ & _ & Hr & _ & _ & _ & Hm & Hcl & _).
  fold d in Hname, Hfu, Hln, Hfn, Hlk, Hfk, Hr, Hm, Hcl.
  assert (Hself : forall s, inClosedRange s s = true).
  { intros s. rewrite inClosedRange_prefixMatch.
    apply (range_query_prefix_self s). }
  split; [|split; [|split; [|split; [|split; [|split]]]]].
  - rewrite getAll_run. destruct (getDocs_result_served allQuery w' Hn') as [docs ->].
    cbn [fst idsOf]. apply (idsOf_residentsOf allQuery w' id d Hid).
    apply satisfies_allQuery. rewrite Hname. by eexists.
  - rewrite getByRoomNumber_run.
    destruct (getDocs_result_served (roomQuery (ResidentFormData.roomNumber data)) w' Hn')
      as [docs ->].
    cbn [fst idsOf]. apply (idsOf_residentsOf _ w' id d Hid).
    apply satisfies_roomQuery. exact Hr.
  - intros n Hlevel. rewrite getByCareLevel_run.
    destruct (getDocs_result_served (careLevelQuery n) w' Hn') as [docs ->].
    cbn [fst idsOf]. apply (idsOf_residentsOf _ w' id d Hid).
    apply satisfies_careLevelQuery. rewrite Hcl, Hlevel, Hname.
    split; [reflexivity|by eexists].
  - intros m Hin Hne Htrim.
    rewrite getByMedication_run by (by rewrite Htrim).
    destruct (getDocs_result_served (medicationQuery (trim m)) w' Hn') as [docs ->].
    cbn [fst idsOf]. apply (idsOf_residentsOf _ w' id d Hid).
    apply satisfies_medicationQuery. rewrite Htrim, Hname.
    split; [|by eexists].
    exists (ResidentFormData.medications data). split; [exact Hm|exact Hin].
  - intros Hne Htrim.
    apply searchByName_ids; [by rewrite Htrim|exact Hf'|].
    exists d. split; [exact Hid|]. rewrite Htrim.
    unfold hitBy, fieldIn. rewrite Hname, Hself. reflexivity.
  - intros q Hne Htrim Hkana.
    apply searchByName_ids; [by rewrite Htrim|exact Hf'|].
    exists d. split; [exact Hid|]. rewrite Htrim.
    unfold hitBy, fieldIn. rewrite Hfu, Hkana, Hself.
    by rewrite !orb_true_r.
  - intros Hhira q Hq.
    assert (Hne : trim q <> []) by (by rewrite trim_nil_iff).
    assert (Hlead : noLead (trim q)) by apply noLead_trimEnd, trimStart_noLead.
    rewrite (searchByName_ids q w' id Hne Hf').
    assert (Hhit : hitBy inClosedRange (trim q) d
                   = prefixMatch (trim q) (ResidentFormData.name data)
                     || prefixMatch (trim q)
                          (partOrEmpty (split SPACE (ResidentFormData.name data)) 0)
                     || prefixMatch (trim q)
                          (partOrEmpty (split SPACE (ResidentFormData.name data)) 1)).
    { unfold hitBy, fieldIn. rewrite Hname, Hln, Hfn, Hfu, Hlk, Hfk.
      rewrite !inClosedRange_prefixMatch.
      rewrite (katakana_query_misses_hiragana _ _ Hne Hlead Hhira).
      rewrite !(katakana_query_misses_hiragana _ _ Hne Hlead
                  (hiraganaReading_part _ _ Hhira)).
      by rewrite !orb_false_r. }
    rewrite <- Hhit. split.
    + intros (d' & Hd' & Hhit'). rewrite Hid in Hd'.
      assert (d' = d) as -> by congruence. exact Hhit'.
    + intros Hhit'. exists d. split; [exact Hid|exact Hhit'].
Qed.

Lemma created_resident_is_found_witness :
  sampleAutoId 0 ∈ idsOf (@residentService.getAll japan worldWithYamada).1
  /\ sampleAutoId 0
     ∈ idsOf (@residentService.searchByName japan (js "やまだ たろう") worldWithYamada).1.
Proof.
  destruct (@created_resident_is_found japan yamada emptyWorld)
    as (Hall & _ & _ & _ & _ & Hkana & _).
  - reflexivity.
  - in_range.
  - storable.
  - storable.
  - exact I.
  - left. discriminate.
  - split; [exact Hall|].
    apply (Hkana (js "やまだ たろう")); [vm_compute; discriminate|vm_compute; reflexivity..].
Defined.
